(** * hyp3rd/observe: the runtime lifecycle manager

    A shallow embedding of the hot-reloadable telemetry runtime of
    [github.com/hyp3rd/observe]:

    - [pkg/config]   the configuration value ([Config] and its parts);
    - [pkg/runtime]  exporter statistics, the stats-wrapped span exporter,
                     the exporter bundle, the sampler selection, the
                     [Runtime] object with [New], [InitMetrics],
                     [Shutdown] and [Snapshot], and [MetricsState];
    - [pkg/observe]  the [Client] with [Init], [reloadRuntime],
                     [swapRuntime], and the debouncing [watchLoop];
    - further on: the OTLP exporter options and TLS settings of
                     [pkg/runtime], the loaders of [pkg/config], the
                     status server of [internal/diagnostics], the adapter
                     of [pkg/logging] and the helpers of the HTTP
                     middleware.

    Go pointers are addresses into an explicit store ([World]); the SDK
    objects the repository only calls into (OTLP exporters, providers,
    instrumentation helpers, the diagnostics server, the configuration
    loaders, the logger factory) are described by an [Env] record that
    fixes what each external call returns.  Every effect the code has on
    the outside is recorded, in order, in the [events] of the [World]. *)

From Stdlib Require Import ZArith List Bool Ascii String Lia.
From Stdlib Require Import Floats.SpecFloat.
From Stdlib Require Import DecimalString.
From stdpp Require Import base option gmap strings.

Import ListNotations.
Open Scope string_scope.
Open Scope list_scope.
Open Scope Z_scope.

(* ===================================================================== *)
(** * Go basics: errors, time, 64-bit integers, IEEE doubles            *)
(* ===================================================================== *)

(** Go [error] values as the repository builds them: [ewrap.New]/[Newf]
    (and the opaque errors of the SDK), [ewrap.Wrap], and [errors.Join]. *)
#[warnings="-register-all"]
Inductive error : Type :=
| ErrNew  (msg : string)
| ErrWrap (cause : error) (msg : string)
| ErrJoin (errs : list error).

(** [err.Error()]: a wrapped error prints its message before its cause,
    a joined error prints its members one per line. *)
Fixpoint error_Error (e : error) : string :=
  match e with
  | ErrNew m => m
  | ErrWrap c m => (m ++ ": " ++ error_Error c)%string
  | ErrJoin es =>
      (fix join (l : list error) : string :=
         match l with
         | [] => ""
         | [x] => error_Error x
         | x :: r => (error_Error x ++ String "010" (join r))%string
         end) es
  end.

Definition hex_digit (n : nat) : ascii :=
  nth n (list_ascii_of_string "0123456789abcdef") "0"%char.

(** One byte as [strconv.Quote] writes it: the double quote and the
    backslash behind a backslash, the control characters by their
    escapes, every other byte below 128 as it is.  Bytes from 128 on are
    copied, which is what [strconv.Quote] does with the printable
    characters they encode. *)
Definition quote_byte (a : ascii) : string :=
  let n := nat_of_ascii a in
  if Ascii.eqb a "034" then String "092" (String "034" EmptyString)
  else if Ascii.eqb a "092" then String "092" (String "092" EmptyString)
  else if Nat.eqb n 7 then String "092" "a"
  else if Nat.eqb n 8 then String "092" "b"
  else if Nat.eqb n 12 then String "092" "f"
  else if Nat.eqb n 10 then String "092" "n"
  else if Nat.eqb n 13 then String "092" "r"
  else if Nat.eqb n 9 then String "092" "t"
  else if Nat.eqb n 11 then String "092" "v"
  else if (Nat.ltb n 32 || Nat.eqb n 127)%bool then
    String "092" (String "x" (String (hex_digit (Nat.div n 16))
                                (String (hex_digit (Nat.modulo n 16)) EmptyString)))
  else String a EmptyString.

Fixpoint quote_bytes (s : string) : string :=
  match s with
  | EmptyString => EmptyString
  | String a r => (quote_byte a ++ quote_bytes r)%string
  end.

(** The verb [%q] of [fmt] on a string: the quoted string between double
    quotes. *)
Definition fmt_q (s : string) : string :=
  String "034" (quote_bytes s ++ String "034" EmptyString)%string.

(** [errors.Join(errs...)]: nil when there is nothing to join. *)
Definition errors_Join (errs : list error) : option error :=
  match errs with
  | [] => None
  | _ :: _ => Some (ErrJoin errs)
  end.

(** [errs = append(errs, err)] guarded by [err != nil]. *)
Definition append_err (errs : list error) (r : option error) : list error :=
  match r with
  | Some e => errs ++ [e]
  | None => errs
  end.

Inductive result (A : Type) : Type :=
| Ok  (a : A)
| Err (e : error).
Arguments Ok {A} a.
Arguments Err {A} e.

Definition is_Err {A} (r : result A) : Prop :=
  match r with Err _ => True | Ok _ => False end.

(** [time.Time]: an instant and the location it is displayed in. *)
Inductive Location : Type := LocUTC | LocLocal.

Record Time : Type := mkTime { unixNano : Z; loc : Location }.

Definition Time_UTC (t : Time) : Time :=
  {| unixNano := unixNano t; loc := LocUTC |}.

(** [int64] with two's-complement wrap-around, as [atomic.Int64.Add]. *)
Definition int64_min : Z := - 2 ^ 63.
Definition int64_max : Z := 2 ^ 63 - 1.

Definition wrap64 (z : Z) : Z := (z + 2 ^ 63) mod 2 ^ 64 - 2 ^ 63.

Definition atomic_Add (cell n : Z) : Z := wrap64 (cell + n).

(** [float64]: IEEE-754 binary64 ([prec = 53], [emax = 1024]); the
    values a Go program holds are those with [f64_valid]. *)
Definition float64 : Type := spec_float.

Definition f64_zero : float64 := S754_zero false.
Definition f64_one  : float64 := SFone 53 1024.
Definition f64_valid (x : float64) : bool := valid_binary 53 1024 x.

(** Go's [x <= y] and [x > y] on [float64]: false whenever a NaN is
    involved. *)
Definition f64_le (x y : float64) : bool := SFleb x y.
Definition f64_gt (x y : float64) : bool := SFltb y x.
Definition f64_lt (x y : float64) : bool := SFltb x y.

Definition f64_is_nan (x : float64) : bool :=
  match x with S754_nan => true | _ => false end.

(** A natural number in decimal. *)
Definition decimal (n : Z) : string :=
  NilZero.string_of_uint (N.to_uint (Z.to_N n)).

(** [num / den] rounded to the nearest integer, a tie to the even one. *)
Definition round_half_even (num den : Z) : Z :=
  let q := num / den in
  match 2 * (num mod den) ?= den with
  | Lt => q
  | Gt => q + 1
  | Eq => if Z.even q then q else q + 1
  end.

(** The millionths in [m * 2^e], rounded. *)
Definition millionths (m : positive) (e : Z) : Z :=
  if 0 <=? e then Z.pos m * 2 ^ e * 10 ^ 6
  else round_half_even (Z.pos m * 10 ^ 6) (2 ^ (- e)).

Definition string_tail (s : string) : string :=
  match s with String _ r => r | EmptyString => EmptyString end.

(** The verb [%f] of [fmt] on a [float64]: the sign of a negative value,
    the integer part, and six digits after the point, rounded to the
    nearest from the exact value (a tie to the even digit); [NaN], [+Inf]
    and [-Inf] for the values that are no numbers. *)
Definition fmt_f (x : float64) : string :=
  let sign (s : bool) := if s then "-" else "" in
  let digits (u : Z) :=
    (decimal (u / 10 ^ 6) ++ "."
     ++ string_tail (decimal (10 ^ 6 + u mod 10 ^ 6)))%string in
  match x with
  | S754_nan => "NaN"
  | S754_infinity false => "+Inf"
  | S754_infinity true => "-Inf"
  | S754_zero s => (sign s ++ digits 0)%string
  | S754_finite s m e => (sign s ++ digits (millionths m e))%string
  end.

(* ===================================================================== *)
(** * pkg/config                                                         *)
(* ===================================================================== *)

Module config.

Record ServiceConfig : Type := {
  Name        : string;
  Namespace   : string;
  Version     : string;
  Environment : string;
  Attributes  : gmap string string;
}.

Record BatchConfig : Type := {
  BatchEnabled   : bool;
  MaxExportBatch : Z;
  BatchTimeout   : Z;
  MaxQueueSize   : Z;
}.

Record RetryConfig : Type := {
  RetryEnabled    : bool;
  MaxElapsedTime  : Z;
  InitialInterval : Z;
  MaxInterval     : Z;
}.

Record TLSConfig : Type := {
  CAFile      : string;
  CertFile    : string;
  KeyFile     : string;
  TLSInsecure : bool;
}.

Record OTLPConfig : Type := {
  Protocol    : string;
  Endpoint    : string;
  Insecure    : bool;
  Headers     : gmap string string;
  Timeout     : Z;
  Batch       : BatchConfig;
  Retry       : RetryConfig;
  TLS         : TLSConfig;
  Compression : string;
}.

(** [OTLP] is a pointer in the source: [None] is the nil pointer. *)
Record ExporterConfig : Type := {
  OTLP : option OTLPConfig;
}.

Record TenantLimiterConfig : Type := {
  LimiterEnabled : bool;
  Rate           : float64;
}.

Record SamplingConfig : Type := {
  Mode          : string;
  Argument      : float64;
  TenantLimiter : TenantLimiterConfig;
}.

Record HTTPInstrumentationConfig : Type := {
  HTTPEnabled   : bool;
  IgnoredRoutes : list string;
}.

Record GRPCInstrumentationConfig : Type := {
  GRPCEnabled       : bool;
  MetadataAllowlist : list string;
}.

Record SQLInstrumentationConfig : Type := {
  SQLEnabled     : bool;
  CollectQueries : bool;
}.

Record InstrumentationConfig : Type := {
  HTTP                  : HTTPInstrumentationConfig;
  GRPC                  : GRPCInstrumentationConfig;
  SQL                   : SQLInstrumentationConfig;
  MessagingEnabled      : bool;
  WorkerEnabled         : bool;
  RuntimeMetricsEnabled : bool;
}.

Record LoggingConfig : Type := {
  Level       : string;
  Format      : string;
  Adapter     : string;
  SampleRatio : float64;
}.

Record DiagnosticsConfig : Type := {
  DiagEnabled : bool;
  HTTPAddr    : string;
  AuthToken   : string;
}.

Record Config : Type := {
  Service         : ServiceConfig;
  Exporters       : ExporterConfig;
  Sampling        : SamplingConfig;
  Instrumentation : InstrumentationConfig;
  Logging         : LoggingConfig;
  Diagnostics     : DiagnosticsConfig;
}.

(** [Validate]: the sampling modes the configuration layer admits. *)
Definition valid_mode (mode : string) : bool :=
  if String.eqb mode "always_on" then true
  else if String.eqb mode "always_off" then true
  else if String.eqb mode "parentbased_always_on" then true
  else if String.eqb mode "parentbased_always_off" then true
  else if String.eqb mode "trace_id_ratio" then true
  else false.

Definition Validate (cfg : Config) : option error :=
  if String.eqb (Name (Service cfg)) "" then
    Some (ErrNew "invalid configuration: service.name is required")
  else match OTLP (Exporters cfg) with
  | None => Some (ErrNew "invalid configuration: exporters.otlp section is required")
  | Some o =>
      if String.eqb (Endpoint o) "" then
        Some (ErrNew "invalid configuration: exporters.otlp.endpoint is required")
      else if valid_mode (Mode (Sampling cfg)) then None
      else Some (ErrNew ("invalid configuration: unsupported sampling.mode "
                         ++ fmt_q (Mode (Sampling cfg)))%string)
  end.

End config.

(* ===================================================================== *)
(** * The SDK objects the runtime owns                                   *)
(* ===================================================================== *)

(** Addresses of heap objects (of [Runtime], [traceExporterStats]
    and [MetricsState] objects); provider identities are drawn from the same
    counter. *)
Definition addr : Type := nat.

Record ReadOnlySpan : Type := { spanName : string }.

(** An [sdktrace.SpanExporter] as the tests stub it: what [ExportSpans]
    answers for a batch and what [Shutdown] answers. *)
Record SpanExporter : Type := {
  se_ExportSpans : list ReadOnlySpan -> option error;
  se_Shutdown    : option error;
}.

Record MetricExporter : Type := {
  me_Shutdown : option error;
}.

Record PeriodicReader : Type := {
  mr_Shutdown : option error;
}.

Inductive Sampler : Type :=
| AlwaysSample
| NeverSample
| ParentBased (root : Sampler)
| TraceIDRatioBased (fraction : float64).

Inductive SpanProcessor : Type :=
| WithSyncer
| WithBatcher (batchTimeout maxExportBatch maxQueue : option Z).

Record TracerProvider : Type := {
  tp_id        : nat;
  tp_sampler   : Sampler;
  tp_resource  : nat;
  tp_processor : option SpanProcessor;
  tp_Shutdown  : option error;
}.

Record MeterProvider : Type := {
  mp_id       : nat;
  mp_resource : nat;
  mp_reader   : option nat;
  mp_Shutdown : option error;
}.

Record Registration : Type := { reg_Unregister : option error }.

Record DiagServer : Type := {
  ds_Shutdown : option error;
}.

Inductive Logger : Type :=
| NoopAdapter
| ConfigAdapter (cfg : config.LoggingConfig)
| CustomAdapter (id : nat).

Inductive LogLevel : Type := LvlDebug | LvlInfo | LvlError.

(** What a [Shutdown] call was delivered to. *)
Inductive Owned : Type :=
| OwnTracerProvider (id : nat)
| OwnMeterProvider  (id : nat)
| OwnMetricReader
| OwnMetricExporter
| OwnTraceExporter
| OwnRuntimeMetrics
| OwnDiagServer.

(** The observable effects, in program order. *)
Inductive Event : Type :=
| EvRuntimeNew (cfg : config.Config)      (* entry of [runtime.New] *)
| EvNewTraceExporter                      (* an OTLP trace exporter was built *)
| EvNewMetricExporter                     (* an OTLP metric exporter was built *)
| EvNewProvider (id : nat)                (* a tracer/meter provider was built *)
| EvSetTracerProvider (id : nat)          (* [otel.SetTracerProvider] *)
| EvSetMeterProvider (id : nat)           (* [otel.SetMeterProvider] *)
| EvExportSpans (n : nat)                 (* a batch reached the inner exporter *)
| EvShutdown (o : Owned)
| EvSwap (old : option addr) (new : addr) (* [c.runtime = newRuntime] *)
| EvReloadRuntime (at_ns : Z)             (* entry of [Client.reloadRuntime] *)
| EvLog (lg : Logger) (lvl : LogLevel) (msg : string).

(* ===================================================================== *)
(** * pkg/runtime: the data ([rt])                                      *)
(* ===================================================================== *)

Module rt.

Record exporterError : Type := {
  message : string;
  time    : Time;
}.

Record traceExporterStats : Type := {
  queueLimit : Z;
  dropped    : Z;                        (* atomic.Int64 *)
  protocol   : string;
  endpoint   : string;
  lastError  : option exporterError;     (* atomic.Pointer *)
}.

(** [stats] is a pointer shared with the bundle's [traceStats]. *)
Record spanExporterWithStats : Type := {
  inner : option SpanExporter;
  stats : option addr;
}.

Record exporterBundle : Type := {
  traceExporter  : option spanExporterWithStats;
  metricExporter : option MetricExporter;
  metricReader   : option PeriodicReader;
  traceStats     : option addr;
}.

Record MetricsState : Type := { configReloads : Z }.

Record runtimeMetricsController : Type := {
  mc_state        : option addr;
  mc_registration : option Registration;
}.

Record runtimeState : Type := { shutdown : bool }.

Record Runtime : Type := {
  cfg             : config.Config;
  tracerProvider  : option TracerProvider;
  meterProvider   : option MeterProvider;
  exporters       : option exporterBundle;
  httpMiddleware  : option nat;
  grpcServerInt   : option nat;
  grpcClientInt   : option nat;
  messagingHelper : option nat;
  metrics         : option runtimeMetricsController;
  sqlHelper       : option nat;
  workerHelper    : option nat;
  diagServer      : option DiagServer;
  startTime       : Time;
  lastReload      : Time;
  state           : runtimeState;
  once            : bool;                (* sync.Once: already done *)
  metricsState    : option addr;
}.

End rt.

(* ===================================================================== *)
(** * The store and the effect monad                                     *)
(* ===================================================================== *)

Record World : Type := mkWorld {
  runtimes           : gmap addr rt.Runtime;
  statsHeap          : gmap addr rt.traceExporterStats;
  metricsHeap        : gmap addr rt.MetricsState;
  nextAddr           : addr;
  otelTracerProvider : option nat;         (* process-wide default *)
  otelMeterProvider  : option nat;         (* process-wide default *)
  clock              : Time;
  events             : list Event;
}.

Definition set_runtimes (f : gmap addr rt.Runtime -> gmap addr rt.Runtime)
    (w : World) : World :=
  mkWorld (f (runtimes w)) (statsHeap w) (metricsHeap w) (nextAddr w)
          (otelTracerProvider w) (otelMeterProvider w) (clock w) (events w).

Definition set_statsHeap
    (f : gmap addr rt.traceExporterStats -> gmap addr rt.traceExporterStats)
    (w : World) : World :=
  mkWorld (runtimes w) (f (statsHeap w)) (metricsHeap w) (nextAddr w)
          (otelTracerProvider w) (otelMeterProvider w) (clock w) (events w).

Definition set_metricsHeap
    (f : gmap addr rt.MetricsState -> gmap addr rt.MetricsState)
    (w : World) : World :=
  mkWorld (runtimes w) (statsHeap w) (f (metricsHeap w)) (nextAddr w)
          (otelTracerProvider w) (otelMeterProvider w) (clock w) (events w).

Definition set_nextAddr (n : addr) (w : World) : World :=
  mkWorld (runtimes w) (statsHeap w) (metricsHeap w) n
          (otelTracerProvider w) (otelMeterProvider w) (clock w) (events w).

Definition set_otelTracerProvider (p : option nat) (w : World) : World :=
  mkWorld (runtimes w) (statsHeap w) (metricsHeap w) (nextAddr w)
          p (otelMeterProvider w) (clock w) (events w).

Definition set_otelMeterProvider (p : option nat) (w : World) : World :=
  mkWorld (runtimes w) (statsHeap w) (metricsHeap w) (nextAddr w)
          (otelTracerProvider w) p (clock w) (events w).

Definition set_clock (t : Time) (w : World) : World :=
  mkWorld (runtimes w) (statsHeap w) (metricsHeap w) (nextAddr w)
          (otelTracerProvider w) (otelMeterProvider w) t (events w).

Definition set_events (f : list Event -> list Event) (w : World) : World :=
  mkWorld (runtimes w) (statsHeap w) (metricsHeap w) (nextAddr w)
          (otelTracerProvider w) (otelMeterProvider w) (clock w) (f (events w)).

(** State monad over the store. *)
Definition M (A : Type) : Type := World -> A * World.

Definition ret {A} (a : A) : M A := fun w => (a, w).

Definition bind {A B} (m : M A) (k : A -> M B) : M B :=
  fun w => let (a, w') := m w in k a w'.

Declare Scope go_scope.
Delimit Scope go_scope with go.
Notation "x <- c ;; k" := (bind c (fun x => k))
  (at level 100, c at next level, right associativity) : go_scope.
Notation "c ;;; k" := (bind c (fun _ => k))
  (at level 100, right associativity) : go_scope.
Open Scope go_scope.

Definition emit (e : Event) : M unit :=
  fun w => (tt, set_events (fun l => l ++ [e]) w).

Definition fresh : M nat :=
  fun w => (nextAddr w, set_nextAddr (S (nextAddr w)) w).

Definition time_Now : M Time := fun w => (clock w, w).

(** Reads and writes of the three heaps. *)
Definition load_runtime (r : addr) : M (option rt.Runtime) :=
  fun w => (runtimes w !! r, w).

Definition upd_runtimes (f : gmap addr rt.Runtime -> gmap addr rt.Runtime) : M unit :=
  fun w => (tt, set_runtimes f w).

Definition upd_stats
    (f : gmap addr rt.traceExporterStats -> gmap addr rt.traceExporterStats) : M unit :=
  fun w => (tt, set_statsHeap f w).

Definition upd_metrics (f : gmap addr rt.MetricsState -> gmap addr rt.MetricsState)
    : M unit :=
  fun w => (tt, set_metricsHeap f w).

(** Sequencing of fallible steps: [if err != nil { return nil, err }]. *)
Definition bindR {A B} (m : M (result A)) (k : A -> M (result B)) : M (result B) :=
  r <- m ;;
  match r with
  | Ok a => k a
  | Err e => ret (Err e)
  end.

Notation "x <-? c ;; k" := (bindR c (fun x => k))
  (at level 100, c at next level, right associativity) : go_scope.

(** [ewrap.Wrap(err, msg)] on the failure branch. *)
Definition wrapErr {A} (msg : string) (r : result A) : result A :=
  match r with
  | Ok a => Ok a
  | Err e => Err (ErrWrap e msg)
  end.

Definition wrapping {A} (msg : string) (m : M (result A)) : M (result A) :=
  r <- m ;; ret (wrapErr msg r).

(** The events a computation adds to the log. *)
Definition emitted {A} (m : M A) (w : World) : list Event :=
  skipn (length (events w)) (events (snd (m w))).

(** What the calls that leave the repository return: the configuration
    loaders, the logger factory, [encoding/json] with [crypto/sha256],
    the OTLP exporter constructors, the resource detectors, the
    instrumentation helpers, the diagnostics listener, and the [Shutdown]
    of the SDK objects built here. *)
Record Env : Type := {
  config_Load            : result config.Config;
  logging_FromConfig     : config.LoggingConfig -> option Logger;
  json_Marshal           : config.Config -> result string;
  sha256_hex             : string -> string;
  newOTLPTraceExporter   : config.OTLPConfig -> result SpanExporter;
  newOTLPMetricExporter  : config.OTLPConfig -> result MetricExporter;
  reader_Shutdown        : option error;
  buildResource          : config.ServiceConfig -> result nat;
  tracerProvider_Shutdown : option error;
  meterProvider_Shutdown : option error;
  http_NewMiddleware     : config.HTTPInstrumentationConfig -> result nat;
  grpc_NewInterceptors   : config.GRPCInstrumentationConfig -> nat * nat;
  sql_NewHelper          : config.SQLInstrumentationConfig -> nat;
  messaging_NewHelper    : result nat;
  worker_NewHelper       : result nat;
  diagnostics_Start      : config.DiagnosticsConfig -> result DiagServer;
  metricsController_start : result Registration;
}.

(** [strings.ToLower] on a string of ASCII bytes: the bytes [A] to [Z]
    become [a] to [z].  Go maps the letters outside ASCII too, by the
    tables of Unicode, which are not modelled here. *)
Definition ascii_lower (c : ascii) : ascii :=
  let n := nat_of_ascii c in
  if (Nat.leb 65 n && Nat.leb n 90)%bool then ascii_of_nat (n + 32) else c.

Fixpoint strings_ToLower (s : string) : string :=
  match s with
  | EmptyString => EmptyString
  | String c r => String (ascii_lower c) (strings_ToLower r)
  end.

(* ===================================================================== *)
(** * pkg/runtime: the operations                                        *)
(* ===================================================================== *)

Module runtime.
Import rt.

(** ** exporters.go *)

Definition newTraceExporterStats (cfg : config.OTLPConfig) : traceExporterStats :=
  let limit := config.MaxQueueSize (config.Batch cfg) in
  let limit := if limit <=? 0 then 2048 else limit in
  let protocol := config.Protocol cfg in
  let protocol := if String.eqb protocol "" then "grpc" else protocol in
  {| queueLimit := limit;
     dropped    := 0;
     protocol   := strings_ToLower protocol;
     endpoint   := config.Endpoint cfg;
     lastError  := None |}.

Definition stats_add_dropped (n : Z) (s : traceExporterStats) : traceExporterStats :=
  {| queueLimit := queueLimit s;
     dropped    := atomic_Add (dropped s) n;
     protocol   := protocol s;
     endpoint   := endpoint s;
     lastError  := lastError s |}.

Definition stats_store_lastError (e : exporterError) (s : traceExporterStats)
    : traceExporterStats :=
  {| queueLimit := queueLimit s;
     dropped    := dropped s;
     protocol   := protocol s;
     endpoint   := endpoint s;
     lastError  := Some e |}.

(** [traceExporterStats.recordDrop] *)
Definition recordDrop (s : option addr) (n : Z) : M unit :=
  match s with
  | None => ret tt
  | Some a =>
      if n <=? 0 then ret tt
      else upd_stats (alter (stats_add_dropped n) a)
  end.

(** [traceExporterStats.recordError] *)
Definition recordError (s : option addr) (err : option error) : M unit :=
  match s, err with
  | Some a, Some e =>
      now <- time_Now ;;
      let rec := {| message := error_Error e; time := Time_UTC now |} in
      upd_stats (alter (stats_store_lastError rec) a)
  | _, _ => ret tt
  end.

(** [spanExporterWithStats.ExportSpans] *)
Definition ExportSpans (s : option spanExporterWithStats) (spans : list ReadOnlySpan)
    : M (option error) :=
  match s with
  | None => ret None
  | Some s =>
      match inner s with
      | None => ret None
      | Some exp =>
          emit (EvExportSpans (length spans)) ;;;
          match se_ExportSpans exp spans with
          | Some err =>
              match stats s with
              | Some a =>
                  recordDrop (Some a) (Z.of_nat (length spans)) ;;;
                  recordError (Some a) (Some err)
              | None => ret tt
              end ;;;
              ret (Some (ErrWrap err "export spans"))
          | None => ret None
          end
      end
  end.

(** [spanExporterWithStats.Shutdown] *)
Definition spanExporter_Shutdown (s : option spanExporterWithStats) : M (option error) :=
  match s with
  | None => ret None
  | Some s =>
      match inner s with
      | None => ret None
      | Some exp =>
          emit (EvShutdown OwnTraceExporter) ;;;
          match se_Shutdown exp with
          | Some err => ret (Some (ErrWrap err "shutdown span exporter"))
          | None => ret None
          end
      end
  end.

(** [exporterBundle.shutdown] *)
Definition bundle_shutdown (b : exporterBundle) : M (option error) :=
  let errs := [] in
  errs <- match metricReader b with
          | Some r => emit (EvShutdown OwnMetricReader) ;;;
                      ret (append_err errs (mr_Shutdown r))
          | None => ret errs
          end ;;
  errs <- match metricExporter b with
          | Some e => emit (EvShutdown OwnMetricExporter) ;;;
                      ret (append_err errs (me_Shutdown e))
          | None => ret errs
          end ;;
  errs <- match traceExporter b with
          | Some t => err <- spanExporter_Shutdown (Some t) ;;
                      ret (append_err errs err)
          | None => ret errs
          end ;;
  ret (errors_Join errs).

(** [newExporterBundle] *)
Definition newExporterBundle (env : Env) (cfg : config.ExporterConfig)
    : M (result exporterBundle) :=
  match config.OTLP cfg with
  | None => ret (Err (ErrNew "otlp exporter config is required"))
  | Some otlp =>
      if String.eqb (config.Endpoint otlp) "" then
        ret (Err (ErrNew "otlp exporter endpoint is required"))
      else
        match newOTLPTraceExporter env otlp with
        | Err e => ret (Err e)
        | Ok traceExp =>
            emit EvNewTraceExporter ;;;
            a <- fresh ;;
            upd_stats (insert a (newTraceExporterStats otlp)) ;;;
            let wrapped := {| inner := Some traceExp; stats := Some a |} in
            match newOTLPMetricExporter env otlp with
            | Err e => ret (Err e)
            | Ok metricExp =>
                emit EvNewMetricExporter ;;;
                let reader := {| mr_Shutdown := reader_Shutdown env |} in
                ret (Ok {| traceExporter  := Some wrapped;
                           metricExporter := Some metricExp;
                           metricReader   := Some reader;
                           traceStats     := Some a |})
            end
        end
  end.

(** ** runtime.go: sampler and providers *)

(** [samplerFromConfig] *)
Definition samplerFromConfig (cfg : config.SamplingConfig) : result Sampler :=
  let mode := config.Mode cfg in
  if String.eqb mode "always_on" then Ok AlwaysSample
  else if String.eqb mode "always_off" then Ok NeverSample
  else if String.eqb mode "parentbased_always_on" then Ok (ParentBased AlwaysSample)
  else if String.eqb mode "parentbased_always_off" then Ok (ParentBased NeverSample)
  else if String.eqb mode "trace_id_ratio" then
    if (f64_le (config.Argument cfg) f64_zero
        || f64_gt (config.Argument cfg) f64_one)%bool
    then Err (ErrNew ("sampling.argument must be within (0,1], got "
                      ++ fmt_f (config.Argument cfg))%string)
    else Ok (ParentBased (TraceIDRatioBased (config.Argument cfg)))
  else Err (ErrNew ("unsupported sampling mode " ++ fmt_q mode)%string).

Definition positive_opt (z : Z) : option Z := if 0 <? z then Some z else None.

(** [exporterSpanProcessor] *)
Definition exporterSpanProcessor (cfg : config.BatchConfig) : SpanProcessor :=
  if negb (config.BatchEnabled cfg) then WithSyncer
  else WithBatcher (positive_opt (config.BatchTimeout cfg))
                   (positive_opt (config.MaxExportBatch cfg))
                   (positive_opt (config.MaxQueueSize cfg)).

(** [buildTracerProvider] *)
Definition buildTracerProvider (env : Env) (cfg : config.Config) (res : nat)
    (traceExp : option spanExporterWithStats) : M (result TracerProvider) :=
  match samplerFromConfig (config.Sampling cfg) with
  | Err e => ret (Err e)
  | Ok sampler =>
      let processor :=
        match traceExp with
        | None => None
        | Some _ =>
            match config.OTLP (config.Exporters cfg) with
            | Some otlp => Some (exporterSpanProcessor (config.Batch otlp))
            | None => Some (exporterSpanProcessor
                              {| config.BatchEnabled := true;
                                 config.MaxExportBatch := 0;
                                 config.BatchTimeout := 0;
                                 config.MaxQueueSize := 0 |})
            end
        end in
      id <- fresh ;;
      emit (EvNewProvider id) ;;;
      ret (Ok {| tp_id := id; tp_sampler := sampler; tp_resource := res;
                 tp_processor := processor;
                 tp_Shutdown := tracerProvider_Shutdown env |})
  end.

(** [buildMeterProvider] *)
Definition buildMeterProvider (env : Env) (res : nat) (reader : option PeriodicReader)
    : M MeterProvider :=
  id <- fresh ;;
  emit (EvNewProvider id) ;;;
  ret {| mp_id := id; mp_resource := res;
         mp_reader := match reader with Some _ => Some id | None => None end;
         mp_Shutdown := meterProvider_Shutdown env |}.

(** ** metrics_state.go *)

(** [NewMetricsState] *)
Definition NewMetricsState : M addr :=
  a <- fresh ;;
  upd_metrics (insert a {| configReloads := 0 |}) ;;;
  ret a.

Definition metrics_add (n : Z) (m : MetricsState) : MetricsState :=
  {| configReloads := atomic_Add (configReloads m) n |}.

(** [MetricsState.IncrementConfigReloads] *)
Definition IncrementConfigReloads (m : option addr) : M unit :=
  match m with
  | None => ret tt
  | Some a => upd_metrics (alter (metrics_add 1) a)
  end.

(** [MetricsState.ConfigReloads] *)
Definition ConfigReloads (w : World) (m : option addr) : Z :=
  match m with
  | None => 0
  | Some a =>
      match metricsHeap w !! a with
      | Some s => configReloads s
      | None => 0
      end
  end.

(** ** runtime.go: the [Runtime] object *)

Definition set_httpMiddleware (v : option nat) (r : Runtime) : Runtime :=
  {| cfg := cfg r; tracerProvider := tracerProvider r; meterProvider := meterProvider r;
     exporters := exporters r; httpMiddleware := v;
     grpcServerInt := grpcServerInt r; grpcClientInt := grpcClientInt r;
     messagingHelper := messagingHelper r; metrics := metrics r;
     sqlHelper := sqlHelper r; workerHelper := workerHelper r;
     diagServer := diagServer r; startTime := startTime r;
     lastReload := lastReload r; state := state r; once := once r;
     metricsState := metricsState r |}.

Definition set_grpcInterceptors (sv cl : option nat) (r : Runtime) : Runtime :=
  {| cfg := cfg r; tracerProvider := tracerProvider r; meterProvider := meterProvider r;
     exporters := exporters r; httpMiddleware := httpMiddleware r;
     grpcServerInt := sv; grpcClientInt := cl;
     messagingHelper := messagingHelper r; metrics := metrics r;
     sqlHelper := sqlHelper r; workerHelper := workerHelper r;
     diagServer := diagServer r; startTime := startTime r;
     lastReload := lastReload r; state := state r; once := once r;
     metricsState := metricsState r |}.

Definition set_messagingHelper (v : option nat) (r : Runtime) : Runtime :=
  {| cfg := cfg r; tracerProvider := tracerProvider r; meterProvider := meterProvider r;
     exporters := exporters r; httpMiddleware := httpMiddleware r;
     grpcServerInt := grpcServerInt r; grpcClientInt := grpcClientInt r;
     messagingHelper := v; metrics := metrics r;
     sqlHelper := sqlHelper r; workerHelper := workerHelper r;
     diagServer := diagServer r; startTime := startTime r;
     lastReload := lastReload r; state := state r; once := once r;
     metricsState := metricsState r |}.

Definition set_metrics (v : option runtimeMetricsController) (r : Runtime) : Runtime :=
  {| cfg := cfg r; tracerProvider := tracerProvider r; meterProvider := meterProvider r;
     exporters := exporters r; httpMiddleware := httpMiddleware r;
     grpcServerInt := grpcServerInt r; grpcClientInt := grpcClientInt r;
     messagingHelper := messagingHelper r; metrics := v;
     sqlHelper := sqlHelper r; workerHelper := workerHelper r;
     diagServer := diagServer r; startTime := startTime r;
     lastReload := lastReload r; state := state r; once := once r;
     metricsState := metricsState r |}.

Definition set_sqlHelper (v : option nat) (r : Runtime) : Runtime :=
  {| cfg := cfg r; tracerProvider := tracerProvider r; meterProvider := meterProvider r;
     exporters := exporters r; httpMiddleware := httpMiddleware r;
     grpcServerInt := grpcServerInt r; grpcClientInt := grpcClientInt r;
     messagingHelper := messagingHelper r; metrics := metrics r;
     sqlHelper := v; workerHelper := workerHelper r;
     diagServer := diagServer r; startTime := startTime r;
     lastReload := lastReload r; state := state r; once := once r;
     metricsState := metricsState r |}.

Definition set_workerHelper (v : option nat) (r : Runtime) : Runtime :=
  {| cfg := cfg r; tracerProvider := tracerProvider r; meterProvider := meterProvider r;
     exporters := exporters r; httpMiddleware := httpMiddleware r;
     grpcServerInt := grpcServerInt r; grpcClientInt := grpcClientInt r;
     messagingHelper := messagingHelper r; metrics := metrics r;
     sqlHelper := sqlHelper r; workerHelper := v;
     diagServer := diagServer r; startTime := startTime r;
     lastReload := lastReload r; state := state r; once := once r;
     metricsState := metricsState r |}.

Definition set_diagServer (v : option DiagServer) (r : Runtime) : Runtime :=
  {| cfg := cfg r; tracerProvider := tracerProvider r; meterProvider := meterProvider r;
     exporters := exporters r; httpMiddleware := httpMiddleware r;
     grpcServerInt := grpcServerInt r; grpcClientInt := grpcClientInt r;
     messagingHelper := messagingHelper r; metrics := metrics r;
     sqlHelper := sqlHelper r; workerHelper := workerHelper r;
     diagServer := v; startTime := startTime r;
     lastReload := lastReload r; state := state r; once := once r;
     metricsState := metricsState r |}.

Definition set_lastReload (v : Time) (r : Runtime) : Runtime :=
  {| cfg := cfg r; tracerProvider := tracerProvider r; meterProvider := meterProvider r;
     exporters := exporters r; httpMiddleware := httpMiddleware r;
     grpcServerInt := grpcServerInt r; grpcClientInt := grpcClientInt r;
     messagingHelper := messagingHelper r; metrics := metrics r;
     sqlHelper := sqlHelper r; workerHelper := workerHelper r;
     diagServer := diagServer r; startTime := startTime r;
     lastReload := v; state := state r; once := once r;
     metricsState := metricsState r |}.

Definition set_metricsState (v : option addr) (r : Runtime) : Runtime :=
  {| cfg := cfg r; tracerProvider := tracerProvider r; meterProvider := meterProvider r;
     exporters := exporters r; httpMiddleware := httpMiddleware r;
     grpcServerInt := grpcServerInt r; grpcClientInt := grpcClientInt r;
     messagingHelper := messagingHelper r; metrics := metrics r;
     sqlHelper := sqlHelper r; workerHelper := workerHelper r;
     diagServer := diagServer r; startTime := startTime r;
     lastReload := lastReload r; state := state r; once := once r;
     metricsState := v |}.

(** The two writes that end [once.Do]: [state.shutdown = true] and the
    [sync.Once] done flag. *)
Definition mark_shutdown (r : Runtime) : Runtime :=
  {| cfg := cfg r; tracerProvider := tracerProvider r; meterProvider := meterProvider r;
     exporters := exporters r; httpMiddleware := httpMiddleware r;
     grpcServerInt := grpcServerInt r; grpcClientInt := grpcClientInt r;
     messagingHelper := messagingHelper r; metrics := metrics r;
     sqlHelper := sqlHelper r; workerHelper := workerHelper r;
     diagServer := diagServer r; startTime := startTime r;
     lastReload := lastReload r; state := {| shutdown := true |}; once := true;
     metricsState := metricsState r |}.

Definition otel_SetTracerProvider (tp : TracerProvider) : M unit :=
  fun w => (tt, set_otelTracerProvider (Some (tp_id tp))
                  (set_events (fun l => l ++ [EvSetTracerProvider (tp_id tp)]) w)).

Definition otel_SetMeterProvider (mp : MeterProvider) : M unit :=
  fun w => (tt, set_otelMeterProvider (Some (mp_id mp))
                  (set_events (fun l => l ++ [EvSetMeterProvider (mp_id mp)]) w)).

(** [Runtime.startDiagnosticsServer] *)
Definition startDiagnosticsServer (env : Env) (r : Runtime)
    (cfg : config.DiagnosticsConfig) : result Runtime :=
  match diagnostics_Start env cfg with
  | Err e => Err (ErrWrap e "start diagnostics server")
  | Ok server => Ok (set_diagServer (Some server) r)
  end.

(** [New].  The object under construction is written to the store when
    it is returned: no one else holds its address before that. *)
Definition New (env : Env) (cfg : config.Config) : M (result addr) :=
  emit (EvRuntimeNew cfg) ;;;
  exporters <-? wrapping "build exporters"
                  (newExporterBundle env (config.Exporters cfg)) ;;
  res <-? ret (wrapErr "build resource" (buildResource env (config.Service cfg))) ;;
  tp <-? wrapping "build tracer provider"
           (buildTracerProvider env cfg res (traceExporter exporters)) ;;
  mp <- buildMeterProvider env res (metricReader exporters) ;;
  otel_SetTracerProvider tp ;;;
  otel_SetMeterProvider mp ;;;
  now <- time_Now ;;
  let rt := {| cfg := cfg;
               tracerProvider := Some tp;
               meterProvider := Some mp;
               exporters := Some exporters;
               httpMiddleware := None;
               grpcServerInt := None; grpcClientInt := None;
               messagingHelper := None; metrics := None;
               sqlHelper := None; workerHelper := None;
               diagServer := None;
               startTime := Time_UTC now;
               lastReload := mkTime 0 LocUTC;
               state := {| shutdown := false |};
               once := false;
               metricsState := None |} in
  let rt := set_lastReload (startTime rt) rt in
  let instr := config.Instrumentation cfg in
  rt <-? ret (if config.HTTPEnabled (config.HTTP instr) then
                match http_NewMiddleware env (config.HTTP instr) with
                | Err e => Err (ErrWrap e "init http instrumentation")
                | Ok mw => Ok (set_httpMiddleware (Some mw) rt)
                end
              else Ok rt) ;;
  let rt := if config.GRPCEnabled (config.GRPC instr) then
              let interceptors := grpc_NewInterceptors env (config.GRPC instr) in
              set_grpcInterceptors (Some (fst interceptors)) (Some (snd interceptors)) rt
            else rt in
  let rt := if config.SQLEnabled (config.SQL instr) then
              set_sqlHelper (Some (sql_NewHelper env (config.SQL instr))) rt
            else rt in
  rt <-? ret (if config.MessagingEnabled instr then
                match messaging_NewHelper env with
                | Err e => Err (ErrWrap e "init messaging instrumentation")
                | Ok h => Ok (set_messagingHelper (Some h) rt)
                end
              else Ok rt) ;;
  rt <-? ret (if config.WorkerEnabled instr then
                match worker_NewHelper env with
                | Err e => Err (ErrWrap e "init worker instrumentation")
                | Ok h => Ok (set_workerHelper (Some h) rt)
                end
              else Ok rt) ;;
  rt <-? ret (if config.DiagEnabled (config.Diagnostics cfg) then
                wrapErr "start diagnostics server"
                  (startDiagnosticsServer env rt (config.Diagnostics cfg))
              else Ok rt) ;;
  a <- fresh ;;
  upd_runtimes (insert a rt) ;;;
  ret (Ok a).

(** [Runtime.InitMetrics] *)
Definition InitMetrics (env : Env) (r : addr) (st : option addr) : M (option error) :=
  o <- load_runtime r ;;
  match o with
  | None => ret None
  | Some rt =>
      if negb (config.RuntimeMetricsEnabled (config.Instrumentation (cfg rt)))
      then ret None
      else
        let rt := set_metricsState st rt in
        upd_runtimes (insert r rt) ;;;
        match metricsController_start env with
        | Err e => ret (Some e)
        | Ok reg =>
            let controller := {| mc_state := st; mc_registration := Some reg |} in
            upd_runtimes (insert r (set_metrics (Some controller) rt)) ;;;
            ret None
        end
  end.

(** [runtimeMetricsController.shutdown] *)
Definition controller_shutdown (c : option runtimeMetricsController)
    : M (option error) :=
  match c with
  | None => ret None
  | Some c =>
      match mc_registration c with
      | None => ret None
      | Some reg =>
          emit (EvShutdown OwnRuntimeMetrics) ;;;
          match reg_Unregister reg with
          | Some e => ret (Some (ErrWrap e "unregister runtime metrics"))
          | None => ret None
          end
      end
  end.

(** The function handed to [r.once.Do] in [Runtime.Shutdown]. *)
Definition shutdown_once (r : addr) (rt : Runtime) : M (option error) :=
  let errs := [] in
  errs <- match tracerProvider rt with
          | Some tp => emit (EvShutdown (OwnTracerProvider (tp_id tp))) ;;;
                       ret (append_err errs (tp_Shutdown tp))
          | None => ret errs
          end ;;
  errs <- match meterProvider rt with
          | Some mp => emit (EvShutdown (OwnMeterProvider (mp_id mp))) ;;;
                       ret (append_err errs (mp_Shutdown mp))
          | None => ret errs
          end ;;
  errs <- match exporters rt with
          | Some b => err <- bundle_shutdown b ;; ret (append_err errs err)
          | None => ret errs
          end ;;
  errs <- match metrics rt with
          | Some c => err <- controller_shutdown (Some c) ;; ret (append_err errs err)
          | None => ret errs
          end ;;
  errs <- match diagServer rt with
          | Some srv => emit (EvShutdown OwnDiagServer) ;;;
                        ret (append_err errs (ds_Shutdown srv))
          | None => ret errs
          end ;;
  let shutdownErr := errors_Join errs in
  upd_runtimes (alter mark_shutdown r) ;;;
  ret shutdownErr.

(** [Runtime.Shutdown] *)
Definition Shutdown (r : addr) : M (option error) :=
  o <- load_runtime r ;;
  match o with
  | None => ret None
  | Some rt =>
      if once rt then ret None
      else
        shutdownErr <- shutdown_once r rt ;;
        match shutdownErr with
        | Some e => ret (Some (ErrWrap e "shutdown runtime"))
        | None => ret None
        end
  end.

(** [Runtime.IsShutdown] *)
Definition IsShutdown (w : World) (r : addr) : bool :=
  match runtimes w !! r with
  | Some rt => shutdown (state rt)
  | None => false
  end.

(** ** Diagnostics snapshot *)

Record ExporterStatus : Type := {
  StatusProtocol      : string;
  StatusEndpoint      : string;
  StatusLastError     : string;
  StatusLastErrorTime : option Time;     (* the zero [time.Time] is [None] *)
}.

Record Snapshot_t : Type := {
  ServiceName       : string;
  ServiceVersion    : string;
  SnapEnvironment   : string;
  SamplingMode      : string;
  ExporterEndpoint  : string;
  StartTime         : Time;
  LastReloadTime    : Time;
  InstrumentationOn : gmap string bool;
  ConfigReloadCount : Z;
  TraceQueueLimit   : Z;
  TraceDroppedSpans : Z;
  TraceExporter     : ExporterStatus;
}.

(** [traceExporterStats.statusSnapshot] *)
Definition statusSnapshot (s : traceExporterStats) : ExporterStatus :=
  match lastError s with
  | Some last =>
      {| StatusProtocol := strings_ToLower (protocol s);
         StatusEndpoint := endpoint s;
         StatusLastError := message last;
         StatusLastErrorTime := Some (time last) |}
  | None =>
      {| StatusProtocol := strings_ToLower (protocol s);
         StatusEndpoint := endpoint s;
         StatusLastError := "";
         StatusLastErrorTime := None |}
  end.

Definition bundle_stats (w : World) (b : option exporterBundle)
    : option traceExporterStats :=
  match b with
  | Some b => match traceStats b with
              | Some a => statsHeap w !! a
              | None => None
              end
  | None => None
  end.

(** [exporterStatus] *)
Definition exporterStatus (w : World) (b : option exporterBundle) : ExporterStatus :=
  match bundle_stats w b with
  | Some s => statusSnapshot s
  | None => {| StatusProtocol := ""; StatusEndpoint := "";
               StatusLastError := ""; StatusLastErrorTime := None |}
  end.

(** [endpointForSnapshot] *)
Definition endpointForSnapshot (c : config.Config) : string :=
  match config.OTLP (config.Exporters c) with
  | None => ""
  | Some o => config.Endpoint o
  end.

(** [reloadCount] *)
Definition reloadCount (w : World) (st : option addr) : Z := ConfigReloads w st.

Definition isSome {A} (o : option A) : bool :=
  match o with Some _ => true | None => false end.

(** [Runtime.Snapshot], a read of the store.  The [MetricExporter]
    status, read from a bundle field this version of the bundle does not
    have, is left out. *)
Definition Snapshot (w : World) (r : Runtime) : Snapshot_t :=
  let st := bundle_stats w (exporters r) in
  let queueLimit := match st with Some s => queueLimit s | None => 0 end in
  let droppedSpans := match st with Some s => dropped s | None => 0 end in
  {| ServiceName := config.Name (config.Service (cfg r));
     ServiceVersion := config.Version (config.Service (cfg r));
     SnapEnvironment := config.Environment (config.Service (cfg r));
     SamplingMode := config.Mode (config.Sampling (cfg r));
     ExporterEndpoint := endpointForSnapshot (cfg r);
     StartTime := startTime r;
     LastReloadTime := lastReload r;
     InstrumentationOn :=
       <["http" := isSome (httpMiddleware r)]>
       (<["grpc" := isSome (grpcServerInt r)]>
       (<["sql" := isSome (sqlHelper r)]>
       (<["messaging" := isSome (messagingHelper r)]>
       (<["worker" := isSome (workerHelper r)]>
       (<["runtimeMetrics" := isSome (metrics r)]> ∅)))));
     ConfigReloadCount := reloadCount w (metricsState r);
     TraceQueueLimit := queueLimit;
     TraceDroppedSpans := droppedSpans;
     TraceExporter := exporterStatus w (exporters r) |}.

End runtime.

(* ===================================================================== *)
(** * pkg/observe: the lifecycle manager                                 *)
(* ===================================================================== *)

Module observe.

(** [options]; the loader chain is behind [config_Load].
    [reloadDebounce] is the field [watchLoop] reads. *)
Record options : Type := {
  overrideConfig : option config.Config;
  optLogger      : option Logger;
  loggerOverride : bool;
  watchConfig    : bool;
  reloadDebounce : Z;                    (* time.Duration, nanoseconds *)
}.

Record Client : Type := {
  runtime      : option addr;            (* guarded by [mu] *)
  opts         : options;
  logger       : Logger;
  metricsState : option addr;
  configDigest : string;
}.

Definition set_runtime (r : option addr) (c : Client) : Client :=
  {| runtime := r; opts := opts c; logger := logger c;
     metricsState := metricsState c; configDigest := configDigest c |}.

Definition set_configDigest (d : string) (c : Client) : Client :=
  {| runtime := runtime c; opts := opts c; logger := logger c;
     metricsState := metricsState c; configDigest := d |}.

Definition set_optLogger (lg : option Logger) (o : options) : options :=
  {| overrideConfig := overrideConfig o; optLogger := lg;
     loggerOverride := loggerOverride o; watchConfig := watchConfig o;
     reloadDebounce := reloadDebounce o |}.

(** [c.logger = logger; c.opts.logger = logger] *)
Definition set_logger (lg : Logger) (c : Client) : Client :=
  {| runtime := runtime c; opts := set_optLogger (Some lg) (opts c); logger := lg;
     metricsState := metricsState c; configDigest := configDigest c |}.

Definition log (lg : Logger) (lvl : LogLevel) (msg : string) : M unit :=
  emit (EvLog lg lvl msg).

(** [options.loadConfig] *)
Definition loadConfig (env : Env) (o : options) : result config.Config :=
  match overrideConfig o with
  | Some c => Ok c
  | None => config_Load env
  end.

(** [configDigest]: hex of the SHA-256 of the JSON encoding. *)
Definition digestOf (env : Env) (cfg : config.Config) : result string :=
  match json_Marshal env cfg with
  | Err e => Err (ErrWrap e "marshal config for digest")
  | Ok data => Ok (sha256_hex env data)
  end.

(** [Init], up to the start of the watcher goroutine, whose body is
    [watchLoop] below. *)
Definition Init (env : Env) (settings : options) : M (result Client) :=
  cfg <-? ret (wrapErr "load config" (loadConfig env settings)) ;;
  let logger := optLogger settings in
  let logger := if negb (loggerOverride settings)
                then logging_FromConfig env (config.Logging cfg) else logger in
  let logger := match logger with Some l => l | None => NoopAdapter end in
  let settings := set_optLogger (Some logger) settings in
  metricsState <- runtime.NewMetricsState ;;
  rt <-? wrapping "init runtime" (runtime.New env cfg) ;;
  err <- runtime.InitMetrics env rt (Some metricsState) ;;
  match err with
  | Some e => ret (Err (ErrWrap e "init runtime metrics"))
  | None =>
      digest <-? ret (wrapErr "hash config" (digestOf env cfg)) ;;
      ret (Ok {| runtime := Some rt;
                 opts := settings;
                 logger := logger;
                 metricsState := Some metricsState;
                 configDigest := digest |})
  end.

(** [Client.Runtime] *)
Definition Runtime (c : Client) : option addr := runtime c.

(** [Client.swapRuntime] *)
Definition swapRuntime (c : Client) (newRuntime : addr) : M Client :=
  let old := runtime c in
  let c := set_runtime (Some newRuntime) c in
  emit (EvSwap old newRuntime) ;;;
  match old with
  | Some o =>
      err <- runtime.Shutdown o ;;
      match err with
      | Some _ => log (logger c) LvlError "shutdown previous runtime" ;;; ret c
      | None => ret c
      end
  | None => ret c
  end.

(** [Client.reloadRuntime] *)
Definition reloadRuntime (env : Env) (c : Client) : M Client :=
  now <- time_Now ;;
  emit (EvReloadRuntime (unixNano now)) ;;;
  match loadConfig env (opts c) with
  | Err _ => log (logger c) LvlError "reload config failed" ;;; ret c
  | Ok cfg =>
      match digestOf env cfg with
      | Err _ => log (logger c) LvlError "hash config failed" ;;; ret c
      | Ok digest =>
          if String.eqb digest (configDigest c) then
            log (logger c) LvlDebug "configuration unchanged, skipping reload" ;;;
            ret c
          else
            let c := if negb (loggerOverride (opts c)) then
                       match logging_FromConfig env (config.Logging cfg) with
                       | Some lg => set_logger lg c
                       | None => c
                       end
                     else c in
            r <- runtime.New env cfg ;;
            match r with
            | Err _ => log (logger c) LvlError "runtime rebuild failed" ;;; ret c
            | Ok rt =>
                err <- runtime.InitMetrics env rt (metricsState c) ;;
                match err with
                | Some _ =>
                    log (logger c) LvlError "runtime metrics init failed" ;;; ret c
                | None =>
                    c <- swapRuntime c rt ;;
                    runtime.IncrementConfigReloads (metricsState c) ;;;
                    let c := set_configDigest digest c in
                    log (logger c) LvlInfo "runtime reloaded" ;;;
                    ret c
                end
            end
      end
  end.

(** ** The debounce timer ([time.Timer]) *)

(** [deadline]: when the armed timer fires; [C]: a value waits in the
    one-slot channel [timer.C]. *)
Record Timer : Type := { deadline : option Z; C : bool }.

Definition hour : Z := 3600 * 1000000000.

Definition time_NewTimer (now d : Z) : Timer :=
  {| deadline := Some (now + d); C := false |}.

(** What the Go runtime does when the time reaches [now]: an armed
    timer that is due sends on [C]. *)
Definition timer_deliver (now : Z) (t : Timer) : Timer :=
  match deadline t with
  | Some dl => if dl <=? now then {| deadline := None; C := true |} else t
  | None => t
  end.

(** [timer.Stop]: reports whether the call stopped an armed timer. *)
Definition timer_Stop (t : Timer) : bool * Timer :=
  (runtime.isSome (deadline t), {| deadline := None; C := C t |}).

(** [select { case <-timer.C: default: }] *)
Definition timer_drain (t : Timer) : Timer :=
  {| deadline := deadline t; C := false |}.

Definition timer_Reset (now d : Z) (t : Timer) : Timer :=
  {| deadline := Some (now + d); C := C t |}.

(** [resetTimer] *)
Definition resetTimer (now : Z) (t : Timer) (duration : Z) : Timer :=
  let (stopped, t) := timer_Stop t in
  let t := if negb stopped then timer_drain t else t in
  timer_Reset now duration t.

(** ** The watch loop *)

(** [fsnotify.Op] bits. *)
Definition fsnotify_Create : Z := 1.
Definition fsnotify_Write  : Z := 2.
Definition fsnotify_Remove : Z := 4.
Definition fsnotify_Rename : Z := 8.
Definition fsnotify_Chmod  : Z := 16.

Record FileEvent : Type := { ev_Name : string; ev_Op : Z }.

(** What one iteration of the [select] receives, with the time at
    which it receives it. *)
Inductive Input : Type :=
| InDone                                   (* [<-ctx.Done()] *)
| InEvent (now : Z) (e : FileEvent)        (* [<-watcher.Events], ok *)
| InEventsClosed                           (* [<-watcher.Events], closed *)
| InTimer (now : Z)                        (* [<-timer.C] *)
| InError (now : Z) (err : error)          (* [<-watcher.Errors], ok *)
| InErrorsClosed.                          (* [<-watcher.Errors], closed *)

Record LoopState : Type := {
  pending : bool;
  timer   : Timer;
  client  : Client;
}.

Inductive Step : Type :=
| Continue (s : LoopState)   (* back to the [select] *)
| Returned                   (* the loop returned *)
| Impossible.                (* the [select] cannot take this input now *)

(** The loop variables before the first iteration: a one-hour timer,
    stopped and drained at once. *)
Definition watchLoop_init (now : Z) (c : Client) : LoopState :=
  let t := time_NewTimer now hour in
  let (stopped, t) := timer_Stop t in
  let t := if negb stopped then timer_drain t else t in
  {| pending := false; timer := t; client := c |}.

Definition at_time (now : Z) : M unit :=
  fun w => (tt, set_clock (mkTime now LocLocal) w).

(** One iteration of the [for { select { ... } }] of [watchLoop].
    [envs now] is what the outside answers to a reload started at
    [now]. *)
Definition watchLoop_step (envs : Z -> Env) (target : string)
    (s : LoopState) (i : Input) : M Step :=
  match i with
  | InDone => ret Returned
  | InEventsClosed => ret Returned
  | InErrorsClosed => ret Returned
  | InEvent now e =>
      at_time now ;;;
      let tm := timer_deliver now (timer s) in
      if negb (String.eqb (ev_Name e) target) then
        ret (Continue {| pending := pending s; timer := tm; client := client s |})
      else if Z.land (ev_Op e)
                (Z.lor fsnotify_Write (Z.lor fsnotify_Create fsnotify_Rename)) =? 0 then
        ret (Continue {| pending := pending s; timer := tm; client := client s |})
      else if reloadDebounce (opts (client s)) <=? 0 then
        log (logger (client s)) LvlInfo "configuration change detected" ;;;
        c <- reloadRuntime (envs now) (client s) ;;
        ret (Continue {| pending := pending s; timer := tm; client := c |})
      else
        ret (Continue {| pending := true;
                         timer := resetTimer now tm (reloadDebounce (opts (client s)));
                         client := client s |})
  | InTimer now =>
      at_time now ;;;
      let tm := timer_deliver now (timer s) in
      if negb (C tm) then ret Impossible
      else
        let tm := timer_drain tm in
        if negb (pending s) then
          ret (Continue {| pending := pending s; timer := tm; client := client s |})
        else
          log (logger (client s)) LvlInfo "configuration change detected" ;;;
          c <- reloadRuntime (envs now) (client s) ;;
          ret (Continue {| pending := false; timer := tm; client := c |})
  | InError now _ =>
      at_time now ;;;
      log (logger (client s)) LvlError "config watcher error" ;;;
      ret (Continue {| pending := pending s;
                       timer := timer_deliver now (timer s);
                       client := client s |})
  end.

(** [watchLoop] on a finite schedule of inputs. *)
Fixpoint watchLoop (envs : Z -> Env) (target : string)
    (s : LoopState) (inputs : list Input) : M Step :=
  match inputs with
  | [] => ret (Continue s)
  | i :: rest =>
      r <- watchLoop_step envs target s i ;;
      match r with
      | Continue s' => watchLoop envs target s' rest
      | Returned => ret Returned
      | Impossible => ret Impossible
      end
  end.

(** The reload attempts in a log, by start time. *)
Definition reload_times (evs : list Event) : list Z :=
  flat_map (fun e => match e with EvReloadRuntime t => [t] | _ => [] end) evs.

End observe.

(* ===================================================================== *)
(** * Concrete configurations, environments and stores                   *)
(* ===================================================================== *)

Module Samples.

Definition f64_quarter : float64 := S754_finite false 4503599627370496 (-54).
Definition f64_1_5     : float64 := S754_finite false 6755399441055744 (-52).

Definition otlp : config.OTLPConfig :=
  {| config.Protocol := "grpc";
     config.Endpoint := "localhost:4317";
     config.Insecure := false;
     config.Headers := ∅;
     config.Timeout := 10000000000;
     config.Batch := {| config.BatchEnabled := true; config.MaxExportBatch := 512;
                        config.BatchTimeout := 5000000000;
                        config.MaxQueueSize := 2048 |};
     config.Retry := {| config.RetryEnabled := true;
                        config.MaxElapsedTime := 1920000000000;
                        config.InitialInterval := 500000000;
                        config.MaxInterval := 5000000000 |};
     config.TLS := {| config.CAFile := ""; config.CertFile := "";
                      config.KeyFile := ""; config.TLSInsecure := true |};
     config.Compression := "gzip" |}.

(** [DefaultConfig] with the sampling section and the toggles left
    open. *)
Definition cfg_with (mode : string) (arg : float64)
    (http runtimeMetrics diag : bool) : config.Config :=
  {| config.Service := {| config.Name := "observe-service";
                          config.Namespace := "default";
                          config.Version := "0.0.1";
                          config.Environment := "development";
                          config.Attributes := ∅ |};
     config.Exporters := {| config.OTLP := Some otlp |};
     config.Sampling := {| config.Mode := mode; config.Argument := arg;
                           config.TenantLimiter :=
                             {| config.LimiterEnabled := false;
                                config.Rate := f64_one |} |};
     config.Instrumentation :=
       {| config.HTTP := {| config.HTTPEnabled := http; config.IgnoredRoutes := [] |};
          config.GRPC := {| config.GRPCEnabled := true;
                            config.MetadataAllowlist := [] |};
          config.SQL := {| config.SQLEnabled := false;
                           config.CollectQueries := false |};
          config.MessagingEnabled := false;
          config.WorkerEnabled := false;
          config.RuntimeMetricsEnabled := runtimeMetrics |};
     config.Logging := {| config.Level := "info"; config.Format := "json";
                          config.Adapter := "slog"; config.SampleRatio := f64_one |};
     config.Diagnostics := {| config.DiagEnabled := diag;
                              config.HTTPAddr := "127.0.0.1:14271";
                              config.AuthToken := "" |} |}.

Definition cfgA : config.Config := cfg_with "always_on" f64_one true true true.
Definition cfgB : config.Config := cfg_with "trace_id_ratio" f64_quarter true true true.

(** An exporter whose collector is unreachable. *)
Definition failingExporter : SpanExporter :=
  {| se_ExportSpans := fun _ => Some (ErrNew "connection refused");
     se_Shutdown := None |}.

Definition healthyExporter : SpanExporter :=
  {| se_ExportSpans := fun _ => None; se_Shutdown := None |}.

(** A stand-in digest: the sampling mode followed by the service name
    (enough to tell [cfgA] from [cfgB]). *)
Definition toy_json (c : config.Config) : result string :=
  Ok (config.Mode (config.Sampling c) ++ "/" ++ config.Name (config.Service c))%string.

(** Everything outside succeeds; the file on disk holds [onDisk]. *)
Definition env_ok (onDisk : config.Config) : Env :=
  {| config_Load := Ok onDisk;
     logging_FromConfig := fun l => Some (ConfigAdapter l);
     json_Marshal := toy_json;
     sha256_hex := fun s => s;
     newOTLPTraceExporter := fun _ => Ok healthyExporter;
     newOTLPMetricExporter := fun _ => Ok {| me_Shutdown := None |};
     reader_Shutdown := None;
     buildResource := fun _ => Ok 0%nat;
     tracerProvider_Shutdown := None;
     meterProvider_Shutdown := None;
     http_NewMiddleware := fun _ => Ok 1%nat;
     grpc_NewInterceptors := fun _ => (2%nat, 3%nat);
     sql_NewHelper := fun _ => 4%nat;
     messaging_NewHelper := Ok 5%nat;
     worker_NewHelper := Ok 6%nat;
     diagnostics_Start := fun _ => Ok {| ds_Shutdown := None |};
     metricsController_start := Ok {| reg_Unregister := None |} |}.

(** The configuration file cannot be read. *)
Definition env_load_fails : Env :=
  {| config_Load := Err (ErrNew "open observe.yaml: no such file or directory");
     logging_FromConfig := fun l => Some (ConfigAdapter l);
     json_Marshal := toy_json;
     sha256_hex := fun s => s;
     newOTLPTraceExporter := fun _ => Ok healthyExporter;
     newOTLPMetricExporter := fun _ => Ok {| me_Shutdown := None |};
     reader_Shutdown := None;
     buildResource := fun _ => Ok 0%nat;
     tracerProvider_Shutdown := None;
     meterProvider_Shutdown := None;
     http_NewMiddleware := fun _ => Ok 1%nat;
     grpc_NewInterceptors := fun _ => (2%nat, 3%nat);
     sql_NewHelper := fun _ => 4%nat;
     messaging_NewHelper := Ok 5%nat;
     worker_NewHelper := Ok 6%nat;
     diagnostics_Start := fun _ => Ok {| ds_Shutdown := None |};
     metricsController_start := Ok {| reg_Unregister := None |} |}.

(** The diagnostics listener cannot bind; everything before it works. *)
Definition env_diag_fails (onDisk : config.Config) : Env :=
  {| config_Load := Ok onDisk;
     logging_FromConfig := fun l => Some (ConfigAdapter l);
     json_Marshal := toy_json;
     sha256_hex := fun s => s;
     newOTLPTraceExporter := fun _ => Ok healthyExporter;
     newOTLPMetricExporter := fun _ => Ok {| me_Shutdown := None |};
     reader_Shutdown := None;
     buildResource := fun _ => Ok 0%nat;
     tracerProvider_Shutdown := None;
     meterProvider_Shutdown := None;
     http_NewMiddleware := fun _ => Ok 1%nat;
     grpc_NewInterceptors := fun _ => (2%nat, 3%nat);
     sql_NewHelper := fun _ => 4%nat;
     messaging_NewHelper := Ok 5%nat;
     worker_NewHelper := Ok 6%nat;
     diagnostics_Start := fun _ => Err (ErrNew "listen tcp: address already in use");
     metricsController_start := Ok {| reg_Unregister := None |} |}.

Definition world0 : World :=
  {| runtimes := ∅; statsHeap := ∅; metricsHeap := ∅; nextAddr := 0%nat;
     otelTracerProvider := None; otelMeterProvider := None;
     clock := mkTime 1700000000000000000 LocLocal;
     events := [] |}.

Definition settings0 : observe.options :=
  {| observe.overrideConfig := None;
     observe.optLogger := None;
     observe.loggerOverride := false;
     observe.watchConfig := true;
     observe.reloadDebounce := 250000000 |}.

Definition noClient : observe.Client :=
  {| observe.runtime := None; observe.opts := settings0;
     observe.logger := NoopAdapter; observe.metricsState := None;
     observe.configDigest := "" |}.

(** The client and the store after a boot on [cfgA]. *)
Definition bootedWorld : World :=
  snd (observe.Init (env_ok cfgA) settings0 world0).

Definition bootedClient : observe.Client :=
  match fst (observe.Init (env_ok cfgA) settings0 world0) with
  | Ok c => c
  | Err _ => noClient
  end.

(** A store whose stats cell 0 already saw failures. *)
Definition statsWorld : World :=
  set_statsHeap
    (insert 0%nat
       {| rt.queueLimit := 2048; rt.dropped := 7; rt.protocol := "grpc";
          rt.endpoint := "localhost:4317";
          rt.lastError := Some {| rt.message := "an earlier failure";
                                  rt.time := mkTime 5 LocUTC |} |})
    world0.

(** A runtime as [New] builds it from [cfgA], at address 0. *)
Definition fullRuntime : rt.Runtime :=
  {| rt.cfg := cfgA;
     rt.tracerProvider :=
       Some {| tp_id := 1%nat; tp_sampler := AlwaysSample; tp_resource := 0%nat;
               tp_processor := Some (WithBatcher (Some 5000000000) (Some 512)
                                                 (Some 2048));
               tp_Shutdown := None |};
     rt.meterProvider :=
       Some {| mp_id := 2%nat; mp_resource := 0%nat; mp_reader := Some 2%nat;
               mp_Shutdown := Some (ErrNew "context deadline exceeded") |};
     rt.exporters :=
       Some {| rt.traceExporter :=
                 Some {| rt.inner := Some failingExporter; rt.stats := Some 0%nat |};
               rt.metricExporter := Some {| me_Shutdown := None |};
               rt.metricReader := Some {| mr_Shutdown := None |};
               rt.traceStats := Some 0%nat |};
     rt.httpMiddleware := Some 1%nat;
     rt.grpcServerInt := Some 2%nat; rt.grpcClientInt := Some 3%nat;
     rt.messagingHelper := None;
     rt.metrics := Some {| rt.mc_state := None;
                           rt.mc_registration := Some {| reg_Unregister := None |} |};
     rt.sqlHelper := None; rt.workerHelper := None;
     rt.diagServer := Some {| ds_Shutdown := None |};
     rt.startTime := mkTime 1700000000000000000 LocUTC;
     rt.lastReload := mkTime 1700000000000000000 LocUTC;
     rt.state := {| rt.shutdown := false |};
     rt.once := false;
     rt.metricsState := None |}.

Definition fullWorld : World :=
  set_nextAddr 3%nat (set_runtimes (insert 0%nat fullRuntime) statsWorld).

(** A client whose current runtime is [fullRuntime]. *)
Definition fullClient : observe.Client :=
  {| observe.runtime := Some 0%nat; observe.opts := settings0;
     observe.logger := NoopAdapter; observe.metricsState := None;
     observe.configDigest := "always_on/observe-service" |}.

(** [cfgB] with a ratio of zero: the sampler cannot be built. *)
Definition cfgZero : config.Config := cfg_with "trace_id_ratio" f64_zero true true true.

(** An editor saving the watched file three times within 200ms. *)
Definition target : string := "/etc/observe/observe.yaml".

Definition saves : list (Z * Z) :=
  [ (0, observe.fsnotify_Write);
    (100000000, Z.lor observe.fsnotify_Write observe.fsnotify_Chmod);
    (200000000, observe.fsnotify_Create) ].

(** The scenario of the specification: booted on [cfgA], the file is
    rewritten to [cfgB] three times within the debounce window; the
    snapshot of the runtime that is current afterwards. *)
Definition scenario : option (string * Z * list Z) :=
  let m := observe.watchLoop (fun _ => env_ok cfgB) target
             (observe.watchLoop_init 0 bootedClient)
             (map (fun p => observe.InEvent (fst p)
                              {| observe.ev_Name := target; observe.ev_Op := snd p |})
                  saves ++ [observe.InTimer 450000000]) in
  match m bootedWorld with
  | (observe.Continue s, w') =>
      match observe.runtime (observe.client s) with
      | Some a =>
          match runtimes w' !! a with
          | Some x =>
              Some (runtime.SamplingMode (runtime.Snapshot w' x),
                    runtime.ConfigReloadCount (runtime.Snapshot w' x),
                    observe.reload_times (emitted m bootedWorld))
          | None => None
          end
      | None => None
      end
  | _ => None
  end.

(** Three failed exports of 3, 1 and 2 spans through the wrapper of
    [fullRuntime], one second apart; the snapshot afterwards. *)
Definition threeFailures : Z * runtime.ExporterStatus :=
  let wrapper := Some {| rt.inner := Some failingExporter; rt.stats := Some 0%nat |} in
  let span := {| spanName := "op" |} in
  let w1 := snd (runtime.ExportSpans wrapper [span; span; span] fullWorld) in
  let w2 := snd (runtime.ExportSpans wrapper [span]
                   (set_clock (mkTime 1700000001000000000 LocLocal) w1)) in
  let w3 := snd (runtime.ExportSpans wrapper [span; span]
                   (set_clock (mkTime 1700000002000000000 LocLocal) w2)) in
  (runtime.TraceDroppedSpans (runtime.Snapshot w3 fullRuntime),
   runtime.TraceExporter (runtime.Snapshot w3 fullRuntime)).

End Samples.

(* ===================================================================== *)
(** * Vocabulary of the statements                                       *)
(* ===================================================================== *)

(** Events that only the lifecycle manager produces. *)
Definition no_reload (e : Event) : Prop :=
  match e with EvReloadRuntime _ => False | _ => True end.

Definition lifecycle_free (e : Event) : Prop :=
  match e with EvReloadRuntime _ | EvSwap _ _ => False | _ => True end.

Definition is_swap (e : Event) : bool :=
  match e with EvSwap _ _ => true | _ => false end.

Definition is_shutdown (e : Event) : bool :=
  match e with EvShutdown _ => true | _ => false end.

Definition is_runtime_new (e : Event) : bool :=
  match e with EvRuntimeNew _ => true | _ => false end.

(** Every runtime in the store still has the reload time it was built
    with. *)
Definition reload_time_inv (w : World) : Prop :=
  forall r x, runtimes w !! r = Some x -> rt.lastReload x = rt.startTime x.

(** [w'] comes after [w]: the log grew by events satisfying [P], the
    clock did not move, no runtime lost [reload_time_inv], no address was
    given back, and (when [km]) the reload counters were not written. *)
Definition step_ok (P : Event -> Prop) (km : bool) (w w' : World) : Prop :=
  (exists evs, events w' = events w ++ evs /\ Forall P evs)
  /\ (km = true -> metricsHeap w' = metricsHeap w)
  /\ clock w' = clock w
  /\ (reload_time_inv w -> reload_time_inv w')
  /\ (nextAddr w <= nextAddr w')%nat.

Definition frame (P : Event -> Prop) (km : bool) {A} (m : M A) : Prop :=
  forall w, step_ok P km w (snd (m w)).

(** The sub-resources a runtime owns, in the order [Shutdown] visits
    them. *)
Definition bundle_owned (b : rt.exporterBundle) : list Owned :=
  match rt.metricReader b with Some _ => [OwnMetricReader] | None => [] end
  ++ match rt.metricExporter b with Some _ => [OwnMetricExporter] | None => [] end
  ++ match rt.traceExporter b with
     | Some t => match rt.inner t with Some _ => [OwnTraceExporter] | None => [] end
     | None => []
     end.

Definition controller_owned (c : rt.runtimeMetricsController) : list Owned :=
  match rt.mc_registration c with Some _ => [OwnRuntimeMetrics] | None => [] end.

Definition runtime_owned (x : rt.Runtime) : list Owned :=
  match rt.tracerProvider x with Some tp => [OwnTracerProvider (tp_id tp)] | None => [] end
  ++ match rt.meterProvider x with Some mp => [OwnMeterProvider (mp_id mp)] | None => [] end
  ++ match rt.exporters x with Some b => bundle_owned b | None => [] end
  ++ match rt.metrics x with Some c => controller_owned c | None => [] end
  ++ match rt.diagServer x with Some _ => [OwnDiagServer] | None => [] end.

(** The errors the members of a bundle answer to [Shutdown], in order. *)
Definition bundle_errors (b : rt.exporterBundle) : list error :=
  match rt.metricReader b with
  | Some r => option_list (mr_Shutdown r) | None => [] end
  ++ match rt.metricExporter b with
     | Some e => option_list (me_Shutdown e) | None => [] end
  ++ match rt.traceExporter b with
     | Some t =>
         match rt.inner t with
         | Some exp =>
             option_list (option_map (fun e => ErrWrap e "shutdown span exporter")
                                     (se_Shutdown exp))
         | None => []
         end
     | None => []
     end.

(** The errors the sub-resources of a runtime answer to [Shutdown]. *)
Definition controller_error (c : rt.runtimeMetricsController) : option error :=
  match rt.mc_registration c with
  | Some reg =>
      option_map (fun e => ErrWrap e "unregister runtime metrics") (reg_Unregister reg)
  | None => None
  end.

Definition runtime_errors (x : rt.Runtime) : list error :=
  match rt.tracerProvider x with Some tp => option_list (tp_Shutdown tp) | None => [] end
  ++ match rt.meterProvider x with Some mp => option_list (mp_Shutdown mp) | None => [] end
  ++ match rt.exporters x with
     | Some b => option_list (errors_Join (bundle_errors b)) | None => [] end
  ++ match rt.metrics x with
     | Some c => option_list (controller_error c) | None => [] end
  ++ match rt.diagServer x with Some d => option_list (ds_Shutdown d) | None => [] end.

(** The world in which [reloadRuntime] starts its work proper: the entry
    marker is in the log. *)
Definition reload_entry (w : World) : World :=
  set_events (fun l => l ++ [EvReloadRuntime (unixNano (clock w))]) w.

(** The store after one log line. *)
Definition logged (lg : Logger) (lvl : LogLevel) (msg : string) (w : World) : World :=
  set_events (fun l => l ++ [EvLog lg lvl msg]) w.

(** A reload attempt that fails: the load fails, the digest fails, the
    build of the new runtime fails, or its metrics initialisation fails. *)
Inductive reload_fails (env : Env) (c : observe.Client) (w : World) : Prop :=
| fails_load e :
    observe.loadConfig env (observe.opts c) = Err e ->
    reload_fails env c w
| fails_digest cfg e :
    observe.loadConfig env (observe.opts c) = Ok cfg ->
    observe.digestOf env cfg = Err e ->
    reload_fails env c w
| fails_build cfg e w1 :
    observe.loadConfig env (observe.opts c) = Ok cfg ->
    runtime.New env cfg (reload_entry w) = (Err e, w1) ->
    reload_fails env c w
| fails_metrics cfg r w1 e w2 :
    observe.loadConfig env (observe.opts c) = Ok cfg ->
    runtime.New env cfg (reload_entry w) = (Ok r, w1) ->
    runtime.InitMetrics env r (observe.metricsState c) w1 = (Some e, w2) ->
    reload_fails env c w.

(** The logger [reloadRuntime] switches to before it builds. *)
Definition reload_logger (env : Env) (c : observe.Client) (cfg : config.Config)
    : observe.Client :=
  if negb (observe.loggerOverride (observe.opts c)) then
    match logging_FromConfig env (config.Logging cfg) with
    | Some lg => observe.set_logger lg c
    | None => c
    end
  else c.

(** A later step of [runtime.New], after the providers are registered,
    fails. *)
Definition later_step_fails (env : Env) (cfg : config.Config) : Prop :=
  let instr := config.Instrumentation cfg in
  (config.HTTPEnabled (config.HTTP instr) = true
     /\ is_Err (http_NewMiddleware env (config.HTTP instr)))
  \/ (config.MessagingEnabled instr = true /\ is_Err (messaging_NewHelper env))
  \/ (config.WorkerEnabled instr = true /\ is_Err (worker_NewHelper env))
  \/ (config.DiagEnabled (config.Diagnostics cfg) = true
       /\ is_Err (diagnostics_Start env (config.Diagnostics cfg))).

(** The stores the package can produce, starting from an empty one. *)
Inductive reachable : World -> Prop :=
| reach_empty (t : Time) :
    reachable (mkWorld ∅ ∅ ∅ 0%nat None None t [])
| reach_clock w t :
    reachable w -> reachable (set_clock t w)
| reach_Init w env settings :
    reachable w -> reachable (snd (observe.Init env settings w))
| reach_New w env cfg :
    reachable w -> reachable (snd (runtime.New env cfg w))
| reach_InitMetrics w env r st :
    reachable w -> reachable (snd (runtime.InitMetrics env r st w))
| reach_reload w env c :
    reachable w -> reachable (snd (observe.reloadRuntime env c w))
| reach_Shutdown w r :
    reachable w -> reachable (snd (runtime.Shutdown r w))
| reach_ExportSpans w s spans :
    reachable w -> reachable (snd (runtime.ExportSpans s spans w))
| reach_watchLoop w envs target s inputs :
    reachable w -> reachable (snd (observe.watchLoop envs target s inputs w)).

(** A file event the loop acts on, as an input at time [t]. *)
Definition burst (target : string) (ts : list (Z * Z)) : list observe.Input :=
  map (fun p => observe.InEvent (fst p)
                  {| observe.ev_Name := target; observe.ev_Op := snd p |}) ts.

Definition relevant_op (op : Z) : Prop :=
  Z.land op (Z.lor observe.fsnotify_Write
               (Z.lor observe.fsnotify_Create observe.fsnotify_Rename)) <> 0.

(* ===================================================================== *)
(** * More of the repository                                             *)
(* ===================================================================== *)

(** The vocabulary and the packages the later sections are about: the
    liveness of a client, the schedules of the watch loop, the OTLP
    exporter options of [pkg/runtime], the loaders of [pkg/config], the
    status server of [internal/diagnostics], the adapter of
    [pkg/logging] and the helpers of the HTTP middleware. *)

(** A step of [runtime.New] that comes before the providers are
    registered fails: the exporter bundle, the resource or the sampler. *)
Definition early_step_fails (env : Env) (cfg : config.Config) : Prop :=
  match config.OTLP (config.Exporters cfg) with
  | None => True
  | Some otlp =>
      config.Endpoint otlp = ""
      \/ is_Err (newOTLPTraceExporter env otlp)
      \/ is_Err (newOTLPMetricExporter env otlp)
  end
  \/ is_Err (buildResource env (config.Service cfg))
  \/ is_Err (runtime.samplerFromConfig (config.Sampling cfg)).

Definition is_set_provider (e : Event) : bool :=
  match e with EvSetTracerProvider _ | EvSetMeterProvider _ => true | _ => false end.

(** The client holds a runtime that is in the store, was allocated
    before now, and has not been shut down. *)
Definition client_live (c : observe.Client) (w : World) : Prop :=
  exists r x,
    observe.runtime c = Some r
    /\ (r < nextAddr w)%nat
    /\ runtimes w !! r = Some x
    /\ rt.once x = false
    /\ rt.shutdown (rt.state x) = false.

(** More concrete configurations. *)
Module Cases.

(** A configuration that turns runtime metrics (and HTTP and the
    diagnostics server) off. *)
Definition cfgQuiet : config.Config :=
  Samples.cfg_with "always_off" f64_one false false false.

End Cases.

(** The file events [watchLoop] acts on: the watched file, with one of
    the bits Write, Create, Rename. *)
Definition is_relevant (target : string) (e : observe.FileEvent) : bool :=
  String.eqb (observe.ev_Name e) target
  && negb (Z.land (observe.ev_Op e)
             (Z.lor observe.fsnotify_Write
                (Z.lor observe.fsnotify_Create observe.fsnotify_Rename)) =? 0).

(** The times at which a schedule delivers such events. *)
Definition relevant_times (target : string) (inputs : list observe.Input) : list Z :=
  flat_map (fun i => match i with
                     | observe.InEvent t e => if is_relevant target e then [t] else []
                     | _ => []
                     end) inputs.

Definition input_time (i : observe.Input) : option Z :=
  match i with
  | observe.InEvent t _ | observe.InTimer t | observe.InError t _ => Some t
  | _ => None
  end.

(** A schedule whose inputs arrive in the order of their times, none
    before [lo]. *)
Fixpoint schedule_from (lo : Z) (inputs : list observe.Input) : Prop :=
  match inputs with
  | [] => True
  | i :: rest =>
      match input_time i with
      | Some t => lo <= t /\ schedule_from t rest
      | None => schedule_from lo rest
      end
  end.

(** The loop variables between two iterations, [lo] being the time of
    the last input and [seen] the relevant events so far: either nothing
    is pending and the timer is idle, or a reload is pending for a
    relevant event at [t0] and the timer is armed for [t0 + d], or has
    fired since. *)
Definition loop_inv (d : Z) (seen : list Z) (lo : Z) (s : observe.LoopState) : Prop :=
  observe.reloadDebounce (observe.opts (observe.client s)) = d
  /\ if observe.pending s then
       exists t0,
         In t0 seen /\ t0 <= lo
         /\ (observe.timer s = {| observe.deadline := Some (t0 + d); observe.C := false |}
             \/ (observe.timer s = {| observe.deadline := None; observe.C := true |}
                 /\ t0 + d <= lo))
     else observe.timer s = {| observe.deadline := None; observe.C := false |}.

Definition b2n (b : bool) : nat := if b then 1%nat else 0%nat.

(* ===================================================================== *)
(** * pkg/runtime (exporters.go): TLS and the exporter options           *)
(* ===================================================================== *)

Module exporters.

(** [ErrTLSNotEnabled], and its [Is]: ewrap compares the message of the
    receiver with the message of the ewrap error it is given. *)
Definition ErrTLSNotEnabled : error := ErrNew "tls is not enabled".

Definition ErrTLSNotEnabled_Is (err : error) : bool :=
  match err with
  | ErrNew m | ErrWrap _ m => String.eqb m "tls is not enabled"
  | ErrJoin _ => false
  end.

(** A [tls.Certificate], by what identifies it here. *)
Record Certificate : Type := { cert_id : nat }.

(** [tls.Config] as far as [tlsConfigFrom] fills it; [RootCAs] is the
    pool, given by the PEM data it was built from. *)
Record tls_Config : Type := {
  InsecureSkipVerify : bool;
  RootCAs            : option string;
  Certificates       : list Certificate;
}.

(** What the files and the parsers answer: [os.ReadFile],
    [CertPool.AppendCertsFromPEM] on a fresh pool, [tls.LoadX509KeyPair]. *)
Record Files : Type := {
  os_ReadFile         : string -> result string;
  AppendCertsFromPEM  : string -> bool;
  tls_LoadX509KeyPair : string -> string -> result Certificate;
}.

(** [tlsConfigFrom] *)
Definition tlsConfigFrom (fs : Files) (cfg : config.TLSConfig) : result tls_Config :=
  if (String.eqb (config.CAFile cfg) "" && String.eqb (config.CertFile cfg) ""
      && String.eqb (config.KeyFile cfg) "" && negb (config.TLSInsecure cfg))%bool
  then Err ErrTLSNotEnabled
  else
    let roots :=
      if negb (String.eqb (config.CAFile cfg) "") then
        match os_ReadFile fs (config.CAFile cfg) with
        | Err e => Err (ErrWrap e ("read ca file " ++ config.CAFile cfg)%string)
        | Ok data =>
            if negb (AppendCertsFromPEM fs data) then
              Err (ErrNew ("failed to parse ca file " ++ config.CAFile cfg)%string)
            else Ok (Some data)
        end
      else Ok None in
    match roots with
    | Err e => Err e
    | Ok roots =>
        if (negb (String.eqb (config.CertFile cfg) "")
            || negb (String.eqb (config.KeyFile cfg) ""))%bool then
          if (String.eqb (config.CertFile cfg) ""
              || String.eqb (config.KeyFile cfg) "")%bool then
            Err (ErrNew "tls cert_file and key_file must both be set")
          else
            match tls_LoadX509KeyPair fs (config.CertFile cfg) (config.KeyFile cfg) with
            | Err e => Err (ErrWrap e "load tls client certificate")
            | Ok cert =>
                Ok {| InsecureSkipVerify := config.TLSInsecure cfg;
                      RootCAs := roots;
                      Certificates := [cert] |}
            end
        else
          Ok {| InsecureSkipVerify := config.TLSInsecure cfg;
                RootCAs := roots;
                Certificates := [] |}
    end.

(** The options of the gRPC exporters ([otlptracegrpc.Option] and
    [otlpmetricgrpc.Option] have the same constructors). *)
Inductive GRPCOption : Type :=
| G_WithEndpoint (endpoint : string)
| G_WithInsecure
| G_WithTLSCredentials (c : tls_Config)
| G_WithTimeout (d : Z)
| G_WithCompressor (name : string)
| G_WithHeaders (h : gmap string string)
| G_WithRetry (initialInterval maxInterval maxElapsedTime : Z).

Inductive Compression : Type := NoCompression | GzipCompression.

(** The options of the HTTP exporters ([otlptracehttp.Option] and
    [otlpmetrichttp.Option]). *)
Inductive HTTPOption : Type :=
| H_WithEndpoint (endpoint : string)
| H_WithInsecure
| H_WithTLSClientConfig (c : tls_Config)
| H_WithTimeout (d : Z)
| H_WithHeaders (h : gmap string string)
| H_WithCompression (c : Compression)
| H_WithRetry (initialInterval maxInterval maxElapsedTime : Z).

(** [len(cfg.Headers) > 0] *)
Definition has_headers (cfg : config.OTLPConfig) : bool :=
  negb (bool_decide (config.Headers cfg = ∅)).

(** [otlpGRPCOptions] *)
Definition otlpGRPCOptions (fs : Files) (cfg : config.OTLPConfig)
    : result (list GRPCOption) :=
  let opts := [G_WithEndpoint (config.Endpoint cfg)] in
  let secured :=
    if config.Insecure cfg then Ok (opts ++ [G_WithInsecure])
    else
      match tlsConfigFrom fs (config.TLS cfg) with
      | Err err =>
          if negb (ErrTLSNotEnabled_Is err) then Err err else Ok opts
      | Ok tlsCfg => Ok (opts ++ [G_WithTLSCredentials tlsCfg])
      end in
  match secured with
  | Err e => Err e
  | Ok opts =>
      let opts := if 0 <? config.Timeout cfg
                  then opts ++ [G_WithTimeout (config.Timeout cfg)] else opts in
      let opts := if negb (String.eqb (config.Compression cfg) "")
                  then opts ++ [G_WithCompressor (config.Compression cfg)] else opts in
      let opts := if has_headers cfg
                  then opts ++ [G_WithHeaders (config.Headers cfg)] else opts in
      let opts := if config.RetryEnabled (config.Retry cfg)
                  then opts ++ [G_WithRetry
                                  (config.InitialInterval (config.Retry cfg))
                                  (config.MaxInterval (config.Retry cfg))
                                  (config.MaxElapsedTime (config.Retry cfg))]
                  else opts in
      Ok opts
  end.

(** [otlpMetricGRPCOptions] *)
Definition otlpMetricGRPCOptions (fs : Files) (cfg : config.OTLPConfig)
    : result (list GRPCOption) :=
  let opts := [G_WithEndpoint (config.Endpoint cfg)] in
  let secured :=
    if config.Insecure cfg then Ok (opts ++ [G_WithInsecure])
    else
      match tlsConfigFrom fs (config.TLS cfg) with
      | Err err =>
          if negb (ErrTLSNotEnabled_Is err) then Err err else Ok opts
      | Ok tlsCfg => Ok (opts ++ [G_WithTLSCredentials tlsCfg])
      end in
  match secured with
  | Err e => Err e
  | Ok opts =>
      let opts := if 0 <? config.Timeout cfg
                  then opts ++ [G_WithTimeout (config.Timeout cfg)] else opts in
      let opts := if has_headers cfg
                  then opts ++ [G_WithHeaders (config.Headers cfg)] else opts in
      let cmp := strings_ToLower (config.Compression cfg) in
      let opts := if negb (String.eqb cmp "")
                  then opts ++ [G_WithCompressor cmp] else opts in
      let opts := if config.RetryEnabled (config.Retry cfg)
                  then opts ++ [G_WithRetry
                                  (config.InitialInterval (config.Retry cfg))
                                  (config.MaxInterval (config.Retry cfg))
                                  (config.MaxElapsedTime (config.Retry cfg))]
                  else opts in
      Ok opts
  end.

(** [httpOptionFactory]; a nil function field is [None]. *)
Record httpOptionFactory (T : Type) : Type := {
  withEndpoint    : string -> T;
  withInsecure    : T;
  withTLS         : tls_Config -> T;
  withTimeout     : Z -> T;
  withHeaders     : gmap string string -> T;
  withCompression : option (string -> T * bool);
  withRetry       : option (config.RetryConfig -> T);
}.
Arguments withEndpoint {T} _ _.
Arguments withInsecure {T} _.
Arguments withTLS {T} _ _.
Arguments withTimeout {T} _ _.
Arguments withHeaders {T} _ _.
Arguments withCompression {T} _.
Arguments withRetry {T} _.

(** [buildHTTPOptions] *)
Definition buildHTTPOptions {T : Type} (fs : Files) (cfg : config.OTLPConfig)
    (factory : httpOptionFactory T) : result (list T) :=
  let opts := [withEndpoint factory (config.Endpoint cfg)] in
  let secured :=
    if config.Insecure cfg then Ok (opts ++ [withInsecure factory])
    else
      match tlsConfigFrom fs (config.TLS cfg) with
      | Err err =>
          if negb (ErrTLSNotEnabled_Is err) then Err err else Ok opts
      | Ok tlsCfg => Ok (opts ++ [withTLS factory tlsCfg])
      end in
  match secured with
  | Err e => Err e
  | Ok opts =>
      let opts := if 0 <? config.Timeout cfg
                  then opts ++ [withTimeout factory (config.Timeout cfg)] else opts in
      let opts := if has_headers cfg
                  then opts ++ [withHeaders factory (config.Headers cfg)] else opts in
      let opts :=
        match withCompression factory with
        | Some f =>
            if negb (String.eqb (config.Compression cfg) "") then
              let (opt, ok) := f (strings_ToLower (config.Compression cfg)) in
              if ok then opts ++ [opt] else opts
            else opts
        | None => opts
        end in
      let opts :=
        match withRetry factory with
        | Some f => if config.RetryEnabled (config.Retry cfg)
                    then opts ++ [f (config.Retry cfg)] else opts
        | None => opts
        end in
      Ok opts
  end.

(** [traceHTTPCompression] *)
Definition traceHTTPCompression (value : string) : Compression :=
  if String.eqb value "gzip" then GzipCompression else NoCompression.

(** [metricHTTPCompression] *)
Definition metricHTTPCompression (value : string) : Compression :=
  if String.eqb value "gzip" then GzipCompression else NoCompression.

Definition http_retry (r : config.RetryConfig) : HTTPOption :=
  H_WithRetry (config.InitialInterval r) (config.MaxInterval r)
              (config.MaxElapsedTime r).

(** [otlpHTTPOptions] *)
Definition otlpHTTPOptions (fs : Files) (cfg : config.OTLPConfig)
    : result (list HTTPOption) :=
  buildHTTPOptions fs cfg
    {| withEndpoint := H_WithEndpoint;
       withInsecure := H_WithInsecure;
       withTLS := H_WithTLSClientConfig;
       withTimeout := H_WithTimeout;
       withHeaders := H_WithHeaders;
       withCompression :=
         Some (fun value => (H_WithCompression (traceHTTPCompression value), true));
       withRetry := Some http_retry |}.

(** [otlpMetricHTTPOptions] *)
Definition otlpMetricHTTPOptions (fs : Files) (cfg : config.OTLPConfig)
    : result (list HTTPOption) :=
  buildHTTPOptions fs cfg
    {| withEndpoint := H_WithEndpoint;
       withInsecure := H_WithInsecure;
       withTLS := H_WithTLSClientConfig;
       withTimeout := H_WithTimeout;
       withHeaders := H_WithHeaders;
       withCompression :=
         Some (fun value => (H_WithCompression (metricHTTPCompression value), true));
       withRetry := Some http_retry |}.

(** The exporter constructors of the OpenTelemetry SDK. *)
Record SDK : Type := {
  otlptracehttp_New  : list HTTPOption -> result SpanExporter;
  otlptracegrpc_New  : list GRPCOption -> result SpanExporter;
  otlpmetrichttp_New : list HTTPOption -> result MetricExporter;
  otlpmetricgrpc_New : list GRPCOption -> result MetricExporter;
}.

(** [switch strings.ToLower(cfg.Protocol) { case "http", "https": ... }] *)
Definition is_http (protocol : string) : bool :=
  (String.eqb (strings_ToLower protocol) "http"
   || String.eqb (strings_ToLower protocol) "https")%bool.

(** [newOTLPTraceExporter] *)
Definition newOTLPTraceExporter (sdk : SDK) (fs : Files) (cfg : config.OTLPConfig)
    : result SpanExporter :=
  if is_http (config.Protocol cfg) then
    match otlpHTTPOptions fs cfg with
    | Err e => Err e
    | Ok opts =>
        match otlptracehttp_New sdk opts with
        | Err e => Err (ErrWrap e "create otlp http trace exporter")
        | Ok exp => Ok exp
        end
    end
  else
    match otlpGRPCOptions fs cfg with
    | Err e => Err e
    | Ok opts =>
        match otlptracegrpc_New sdk opts with
        | Err e => Err (ErrWrap e "create otlp grpc trace exporter")
        | Ok exp => Ok exp
        end
    end.

(** [newOTLPMetricExporter] *)
Definition newOTLPMetricExporter (sdk : SDK) (fs : Files) (cfg : config.OTLPConfig)
    : result MetricExporter :=
  if is_http (config.Protocol cfg) then
    match otlpMetricHTTPOptions fs cfg with
    | Err e => Err e
    | Ok opts =>
        match otlpmetrichttp_New sdk opts with
        | Err e => Err (ErrWrap e "create otlp http metric exporter")
        | Ok exp => Ok exp
        end
    end
  else
    match otlpMetricGRPCOptions fs cfg with
    | Err e => Err e
    | Ok opts =>
        match otlpmetricgrpc_New sdk opts with
        | Err e => Err (ErrWrap e "create otlp grpc metric exporter")
        | Ok exp => Ok exp
        end
    end.

End exporters.

(** An environment whose exporter constructors are the two functions
    above, over the given SDK and files. *)
Definition with_exporters (sdk : exporters.SDK) (fs : exporters.Files) (env : Env) : Env :=
  {| config_Load := config_Load env;
     logging_FromConfig := logging_FromConfig env;
     json_Marshal := json_Marshal env;
     sha256_hex := sha256_hex env;
     newOTLPTraceExporter := exporters.newOTLPTraceExporter sdk fs;
     newOTLPMetricExporter := exporters.newOTLPMetricExporter sdk fs;
     reader_Shutdown := reader_Shutdown env;
     buildResource := buildResource env;
     tracerProvider_Shutdown := tracerProvider_Shutdown env;
     meterProvider_Shutdown := meterProvider_Shutdown env;
     http_NewMiddleware := http_NewMiddleware env;
     grpc_NewInterceptors := grpc_NewInterceptors env;
     sql_NewHelper := sql_NewHelper env;
     messaging_NewHelper := messaging_NewHelper env;
     worker_NewHelper := worker_NewHelper env;
     diagnostics_Start := diagnostics_Start env;
     metricsController_start := metricsController_start env |}.

(** The options that decide the transport security. *)
Definition G_security (o : exporters.GRPCOption) : bool :=
  match o with
  | exporters.G_WithInsecure | exporters.G_WithTLSCredentials _ => true
  | _ => false
  end.

Definition H_security (o : exporters.HTTPOption) : bool :=
  match o with
  | exporters.H_WithInsecure | exporters.H_WithTLSClientConfig _ => true
  | _ => false
  end.

Definition G_compressor (o : exporters.GRPCOption) : list string :=
  match o with exporters.G_WithCompressor n => [n] | _ => [] end.

Definition H_compression (o : exporters.HTTPOption) : list exporters.Compression :=
  match o with exporters.H_WithCompression c => [c] | _ => [] end.

(** No TLS setting at all. *)
Definition tls_unset (cfg : config.TLSConfig) : Prop :=
  config.CAFile cfg = "" /\ config.CertFile cfg = "" /\ config.KeyFile cfg = ""
  /\ config.TLSInsecure cfg = false.

Module ExporterCases.

(** A file system with a CA bundle and a client key pair. *)
Definition files : exporters.Files :=
  {| exporters.os_ReadFile :=
       fun p => if String.eqb p "/etc/ssl/ca.pem" then Ok "-----BEGIN CERTIFICATE-----"
                else Err (ErrNew "no such file or directory");
     exporters.AppendCertsFromPEM := fun d => negb (String.eqb d "");
     exporters.tls_LoadX509KeyPair :=
       fun c k => if (String.eqb c "/etc/ssl/client.pem"
                      && String.eqb k "/etc/ssl/client.key")%bool
                  then Ok {| exporters.cert_id := 1 |}
                  else Err (ErrNew "tls: failed to find any PEM data") |}.

Definition sdk : exporters.SDK :=
  {| exporters.otlptracehttp_New := fun _ => Ok Samples.healthyExporter;
     exporters.otlptracegrpc_New := fun _ => Ok Samples.healthyExporter;
     exporters.otlpmetrichttp_New := fun _ => Ok {| me_Shutdown := None |};
     exporters.otlpmetricgrpc_New := fun _ => Ok {| me_Shutdown := None |} |}.

Definition mutualTLS : config.TLSConfig :=
  {| config.CAFile := "/etc/ssl/ca.pem"; config.CertFile := "/etc/ssl/client.pem";
     config.KeyFile := "/etc/ssl/client.key"; config.TLSInsecure := false |}.

(** Only the certificate of the pair is given. *)
Definition halfPair : config.TLSConfig :=
  {| config.CAFile := ""; config.CertFile := "/etc/ssl/client.pem";
     config.KeyFile := ""; config.TLSInsecure := false |}.

Definition noTLS : config.TLSConfig :=
  {| config.CAFile := ""; config.CertFile := ""; config.KeyFile := "";
     config.TLSInsecure := false |}.

(** [Samples.otlp] with the protocol, the compression and the TLS
    section left open. *)
Definition otlp_with (protocol compression : string) (insecure : bool)
    (tls : config.TLSConfig) : config.OTLPConfig :=
  {| config.Protocol := protocol;
     config.Endpoint := "collector:4317";
     config.Insecure := insecure;
     config.Headers := ∅;
     config.Timeout := 10000000000;
     config.Batch := config.Batch Samples.otlp;
     config.Retry := config.Retry Samples.otlp;
     config.TLS := tls;
     config.Compression := compression |}.

Definition cfg_of (o : config.OTLPConfig) : config.Config :=
  {| config.Service := config.Service Samples.cfgA;
     config.Exporters := {| config.OTLP := Some o |};
     config.Sampling := config.Sampling Samples.cfgA;
     config.Instrumentation := config.Instrumentation Samples.cfgA;
     config.Logging := config.Logging Samples.cfgA;
     config.Diagnostics := config.Diagnostics Samples.cfgA |}.

End ExporterCases.

(* ===================================================================== *)
(** * Go's [strings] package, on the bytes of a string                   *)
(* ===================================================================== *)

Fixpoint string_forall (p : ascii -> bool) (s : string) : bool :=
  match s with
  | EmptyString => true
  | String a r => p a && string_forall p r
  end.

(** A string of ASCII bytes.  On these [strings_ToLower] is
    [strings.ToLower]; the letters outside ASCII, which Go lower-cases by
    the tables of Unicode, are not modelled, and a statement that names
    the lower-cased form of a value is about a value of ASCII bytes. *)
Definition is_ascii (s : string) : bool :=
  string_forall (fun a => Nat.ltb (nat_of_ascii a) 128) s.

(** [strings.HasPrefix(s, prefix)] *)
Fixpoint strings_HasPrefix (s prefix : string) {struct prefix} : bool :=
  match prefix with
  | EmptyString => true
  | String a p' =>
      match s with
      | EmptyString => false
      | String b s' => Ascii.eqb a b && strings_HasPrefix s' p'
      end
  end.

Fixpoint string_drop (n : nat) (s : string) : string :=
  match n, s with
  | O, _ => s
  | S n', String _ r => string_drop n' r
  | S _, EmptyString => EmptyString
  end.

(** [strings.TrimPrefix(s, prefix)] *)
Definition strings_TrimPrefix (s prefix : string) : string :=
  if strings_HasPrefix s prefix then string_drop (String.length prefix) s else s.

(** [strings.Split(s, sep)] for a separator of one byte. *)
Fixpoint strings_Split (s : string) (sep : ascii) : list string :=
  match s with
  | EmptyString => [EmptyString]
  | String a r =>
      if Ascii.eqb a sep then EmptyString :: strings_Split r sep
      else match strings_Split r sep with
           | [] => [String a EmptyString]
           | h :: t => String a h :: t
           end
  end.

(** [strings.SplitN(s, sep, 2)] for a separator of one byte: the parts
    around the first separator, or [s] alone. *)
Fixpoint strings_SplitN2 (s : string) (sep : ascii) : list string :=
  match s with
  | EmptyString => [EmptyString]
  | String a r =>
      if Ascii.eqb a sep then [EmptyString; r]
      else match strings_SplitN2 r sep with
           | [before; after] => [String a before; after]
           | _ => [s]
           end
  end.

(** [strings.ReplaceAll(s, "__", ".")]: the non-overlapping occurrences,
    from the left. *)
Fixpoint replace_double_underscore (s : string) : string :=
  match s with
  | EmptyString => EmptyString
  | String a r =>
      match r with
      | EmptyString => String a EmptyString
      | String b r' =>
          if (Ascii.eqb a "_" && Ascii.eqb b "_")%bool
          then String "." (replace_double_underscore r')
          else String a (replace_double_underscore r)
      end
  end.

(** [strings.ReplaceAll(s, old, new)] for one byte each. *)
Fixpoint replace_char (old new : ascii) (s : string) : string :=
  match s with
  | EmptyString => EmptyString
  | String a r => String (if Ascii.eqb a old then new else a) (replace_char old new r)
  end.

Fixpoint trim_left (p : ascii -> bool) (s : string) : string :=
  match s with
  | EmptyString => EmptyString
  | String a r => if p a then trim_left p r else s
  end.

Fixpoint trim_right (p : ascii -> bool) (s : string) : string :=
  match s with
  | EmptyString => EmptyString
  | String a r =>
      match trim_right p r with
      | EmptyString => if p a then EmptyString else String a EmptyString
      | String b r' => String a (String b r')
      end
  end.

(** [strings.Trim(s, cutset)] for a cutset of one byte. *)
Definition strings_Trim (s : string) (cut : ascii) : string :=
  trim_right (Ascii.eqb cut) (trim_left (Ascii.eqb cut) s).

(** White space as [unicode.IsSpace] has it, by the bytes of its UTF-8
    encoding.  One byte: tab, line feed, vertical tab, form feed,
    carriage return, space. *)
Definition space1 (a : ascii) : bool :=
  let n := nat_of_ascii a in
  ((Nat.leb 9 n && Nat.leb n 13) || Nat.eqb n 32)%bool.

(** Two bytes: U+0085 and U+00A0. *)
Definition space2 (a b : ascii) : bool :=
  (Nat.eqb (nat_of_ascii a) 194
   && (Nat.eqb (nat_of_ascii b) 133 || Nat.eqb (nat_of_ascii b) 160))%bool.

(** Three bytes: U+1680, U+2000 to U+200A, U+2028, U+2029, U+202F,
    U+205F and U+3000. *)
Definition space3 (a b c : ascii) : bool :=
  let x := nat_of_ascii a in
  let y := nat_of_ascii b in
  let z := nat_of_ascii c in
  ((Nat.eqb x 225 && Nat.eqb y 154 && Nat.eqb z 128)
   || (Nat.eqb x 226 && Nat.eqb y 128
       && ((Nat.leb 128 z && Nat.leb z 138)
           || Nat.eqb z 168 || Nat.eqb z 169 || Nat.eqb z 175))
   || (Nat.eqb x 226 && Nat.eqb y 129 && Nat.eqb z 159)
   || (Nat.eqb x 227 && Nat.eqb y 128 && Nat.eqb z 128))%bool.

(** The white-space characters at the start of [s] cut off, one decoded
    character after the other, as [strings.TrimLeftFunc] with
    [unicode.IsSpace] does; with [back] the bytes of [s] come last byte
    first, and the characters cut are those [utf8.DecodeLastRuneInString]
    finds at the end. *)
Fixpoint trim_spaces (back : bool) (s : string) : string :=
  match s with
  | EmptyString => s
  | String a r =>
      if space1 a then trim_spaces back r
      else
        match r with
        | EmptyString => s
        | String b r2 =>
            if (if back then space2 b a else space2 a b) then trim_spaces back r2
            else
              match r2 with
              | EmptyString => s
              | String c r3 =>
                  if (if back then space3 c b a else space3 a b c)
                  then trim_spaces back r3
                  else s
              end
        end
  end.

Fixpoint string_rev (s : string) : string :=
  match s with
  | EmptyString => EmptyString
  | String a r => (string_rev r ++ String a EmptyString)%string
  end.

(** [strings.TrimSpace]: the white space of Unicode cut off at the
    start, then at the end. *)
Definition strings_TrimSpace (s : string) : string :=
  string_rev (trim_spaces true (string_rev (trim_spaces false s))).

(** Whether [s] starts with a white-space character ([back]: whether the
    string that [s] is the reverse of ends with one). *)
Definition leading_space (back : bool) (s : string) : bool :=
  match s with
  | EmptyString => false
  | String a r =>
      (space1 a
       || match r with
          | EmptyString => false
          | String b r2 =>
              ((if back then space2 b a else space2 a b)
               || match r2 with
                  | EmptyString => false
                  | String c _ => if back then space3 c b a else space3 a b c
                  end)
          end)%bool
  end.

(** [strings.Join(elems, sep)] *)
Fixpoint strings_Join (elems : list string) (sep : string) : string :=
  match elems with
  | [] => EmptyString
  | [x] => x
  | x :: r => (x ++ sep ++ strings_Join r sep)%string
  end.

Definition nonempty (s : string) : bool := negb (String.eqb s "").

Definition is_upper (a : ascii) : bool :=
  (Nat.leb 65 (nat_of_ascii a) && Nat.leb (nat_of_ascii a) 90)%bool.

(* ===================================================================== *)
(** * pkg/config: the loaders                                            *)
(* ===================================================================== *)

(** The values of a [map[string]any] that the loaders build: strings,
    string lists and nested maps. *)
#[warnings="-register-all"]
Inductive any : Type :=
| AString (s : string)
| AList (l : list string)
| AMap (m : gmap string any).

Module loader.

(** [DefaultConfig] *)
Definition f64_ten : float64 := S754_finite false 5629499534213120 (-49).

Definition DefaultConfig : config.Config :=
  {| config.Service := {| config.Name := "observe-service";
                          config.Namespace := "default";
                          config.Version := "0.0.1";
                          config.Environment := "development";
                          config.Attributes := ∅ |};
     config.Exporters :=
       {| config.OTLP :=
            Some {| config.Protocol := "grpc";
                    config.Endpoint := "localhost:4317";
                    config.Insecure := false;
                    config.Headers := ∅;
                    config.Timeout := 2 * 5000000000;
                    config.Batch := {| config.BatchEnabled := true;
                                       config.MaxExportBatch := 512;
                                       config.BatchTimeout := 5000000000;
                                       config.MaxQueueSize := 2048 |};
                    config.Retry := {| config.RetryEnabled := true;
                                       config.MaxElapsedTime := 32 * 60000000000;
                                       config.InitialInterval := 500 * 1000000;
                                       config.MaxInterval := 5 * 1000000000 |};
                    config.TLS := {| config.CAFile := ""; config.CertFile := "";
                                     config.KeyFile := "";
                                     config.TLSInsecure := true |};
                    config.Compression := "gzip" |} |};
     config.Sampling := {| config.Mode := "parentbased_always_on";
                           config.Argument := f64_one;
                           config.TenantLimiter :=
                             {| config.LimiterEnabled := false;
                                config.Rate := f64_ten |} |};
     config.Instrumentation :=
       {| config.HTTP := {| config.HTTPEnabled := true; config.IgnoredRoutes := [] |};
          config.GRPC := {| config.GRPCEnabled := true;
                            config.MetadataAllowlist := [] |};
          config.SQL := {| config.SQLEnabled := false;
                           config.CollectQueries := false |};
          config.MessagingEnabled := false;
          config.WorkerEnabled := false;
          config.RuntimeMetricsEnabled := true |};
     config.Logging := {| config.Level := "info"; config.Format := "json";
                          config.Adapter := "slog"; config.SampleRatio := f64_one |};
     config.Diagnostics := {| config.DiagEnabled := true;
                              config.HTTPAddr := "127.0.0.1:14271";
                              config.AuthToken := "" |} |}.

(** [envKeyToPath] *)
Definition envKeyToPath (key : string) : list string :=
  let key := strings_ToLower key in
  let key := replace_double_underscore key in
  let key := replace_char "-" "_" key in
  let segments := strings_Split key "." in
  List.filter nonempty (map (fun seg => strings_Trim seg ".") segments).

(** [isListKey] *)
Definition isListKey (path : list string) : bool :=
  let joined := strings_Join path "." in
  (String.eqb joined "instrumentation.http.ignored_routes"
   || String.eqb joined "instrumentation.grpc.metadata_allowlist")%bool.

(** [splitList]; the nil slice is the empty list. *)
Definition splitList (raw : string) : list string :=
  if String.eqb raw "" then []
  else List.filter nonempty (map strings_TrimSpace (strings_Split raw ",")).

(** [setNested].  The maps on the way are updated in place in the
    source; nothing else holds them, so the update is written as a new
    map.  A nil map and a missing one are both the empty map. *)
Fixpoint setNested (root : gmap string any) (path : list string) (value : any)
    : gmap string any :=
  match path with
  | [] => root
  | [segment] => <[segment := value]> root
  | segment :: rest =>
      let next := match root !! segment with
                  | Some (AMap m) => m
                  | _ => ∅
                  end in
      <[segment := AMap (setNested next rest value)]> root
  end.

(** Reading a path back, as the decoder walks the nested maps. *)
Fixpoint getNested (root : gmap string any) (path : list string) : option any :=
  match path with
  | [] => None
  | [segment] => root !! segment
  | segment :: rest =>
      match root !! segment with
      | Some (AMap m) => getNested m rest
      | _ => None
      end
  end.

(** What [Loader.Load] answers: values, an error that
    [isLoaderSkipError] recognises, or another error. *)
Inductive Loaded : Type :=
| Values (m : gmap string any)
| Skip
| Failed (e : error).

(** The loop of [EnvLoader.Load] over [os.Environ()]; [ctx] is the error
    of a context that is done. *)
Fixpoint env_loop (ctx : option error) (prefix : string) (pairs : list string)
    (result : gmap string any) : Loaded :=
  match pairs with
  | [] => if bool_decide (result = ∅) then Skip else Values result
  | kv :: rest =>
      match ctx with
      | Some err => Failed (ErrWrap err "context canceled")
      | None =>
          if negb (strings_HasPrefix kv prefix) then env_loop ctx prefix rest result
          else
            match strings_SplitN2 kv "=" with
            | [part0; value] =>
                let key := strings_TrimPrefix part0 prefix in
                let path := envKeyToPath key in
                match path with
                | [] => env_loop ctx prefix rest result
                | _ :: _ =>
                    if isListKey path then
                      env_loop ctx prefix rest
                        (setNested result path (AList (splitList value)))
                    else
                      env_loop ctx prefix rest
                        (setNested result path (AString value))
                end
            | _ => env_loop ctx prefix rest result
            end
      end
  end.

(** [EnvLoader.Load] *)
Definition EnvLoader_Load (ctx : option error) (Prefix : string)
    (environ : list string) : Loaded :=
  let prefix := if String.eqb Prefix "" then "OBSERVE_" else Prefix in
  env_loop ctx prefix environ ∅.

(** What reading a file answers: the file does not exist, another
    error, or the bytes. *)
Inductive ReadOutcome : Type :=
| NotExist (e : error)
| ReadError (e : error)
| Data (bytes : string).

(** The outside of the loaders: the environment, the files (of the
    [fs.FS] of the loader, or of the operating system when that is nil),
    [filepath.Clean], the YAML parser, the JSON round trip of
    [sanitizeMap], and the decoder of [mapstructure]. *)
Record OS : Type := {
  os_Environ     : list string;
  fs_ReadFile    : option nat -> string -> ReadOutcome;
  filepath_Clean : string -> string;
  yaml_Unmarshal : string -> result (gmap string any);
  sanitizeMap    : gmap string any -> gmap string any;
  decode         : config.Config -> gmap string any -> result config.Config;
}.

(** [FileLoader.Load], with [readFile] *)
Definition FileLoader_Load (os : OS) (Path : string) (FS : option nat) : Loaded :=
  let path := if String.eqb Path "" then "observe.yaml" else Path in
  let msg := ("read config file " ++ fmt_q path)%string in
  match fs_ReadFile os FS (filepath_Clean os path) with
  | NotExist _ => Skip
  | ReadError e => Failed (ErrWrap (ErrWrap e msg) msg)
  | Data bytes =>
      match yaml_Unmarshal os bytes with
      | Err e => Failed (ErrWrap e ("unmarshal yaml " ++ fmt_q path)%string)
      | Ok out => Values (sanitizeMap os out)
      end
  end.

(** The [Loader]s: the two of the package and [LoaderFunc]. *)
Inductive Loader : Type :=
| FileLoader (Path : string) (FS : option nat)
| EnvLoader (Prefix : string)
| LoaderFunc (answer : Loaded).

Definition Loader_Load (os : OS) (ctx : option error) (l : Loader) : Loaded :=
  match l with
  | FileLoader p fs => FileLoader_Load os p fs
  | EnvLoader p => EnvLoader_Load ctx p (os_Environ os)
  | LoaderFunc answer => answer
  end.

(** The loop of [Load]; a nil loader is [None]. *)
Fixpoint load_loop (os : OS) (ctx : option error) (loaders : list (option Loader))
    (cfg : config.Config) : result config.Config :=
  match loaders with
  | [] => Ok cfg
  | None :: rest => load_loop os ctx rest cfg
  | Some l :: rest =>
      match Loader_Load os ctx l with
      | Skip => load_loop os ctx rest cfg
      | Failed e => Err e
      | Values values =>
          if bool_decide (values = ∅) then load_loop os ctx rest cfg
          else
            match decode os cfg values with
            | Err e => Err (ErrWrap (ErrWrap e "decode config") "decode config")
            | Ok cfg' => load_loop os ctx rest cfg'
            end
      end
  end.

(** [Load] *)
Definition Load (os : OS) (ctx : option error) (loaders : list (option Loader))
    : result config.Config :=
  match load_loop os ctx loaders DefaultConfig with
  | Err e => Err e
  | Ok cfg =>
      match config.Validate cfg with
      | Some e => Err e
      | None => Ok cfg
      end
  end.

(** [options.fileWatcherPath] of pkg/observe, over the loader chain. *)
Fixpoint fileWatcherPath (loaders : list (option Loader)) : string :=
  match loaders with
  | [] => ""
  | Some (FileLoader p _) :: _ => if negb (String.eqb p "") then p else "observe.yaml"
  | _ :: rest => fileWatcherPath rest
  end.

(** [defaultOptions().loaders] *)
Definition defaultLoaders : list (option Loader) :=
  [Some (FileLoader "" None); Some (EnvLoader "")].

End loader.

(** A loader that contributes nothing to [Load]. *)
Definition idle_loader (os : loader.OS) (ctx : option error)
    (l : option loader.Loader) : bool :=
  match l with
  | None => true
  | Some l =>
      match loader.Loader_Load os ctx l with
      | loader.Skip => true
      | loader.Values m => bool_decide (m = ∅)
      | loader.Failed _ => false
      end
  end.

Definition is_FileLoader (l : option loader.Loader) : bool :=
  match l with Some (loader.FileLoader _ _) => true | _ => false end.

(** An item that [splitList] gives back as it is: not empty, no comma,
    no white space at either end. *)
Definition list_item (x : string) : Prop :=
  x <> "" /\ string_forall (fun a => negb (Ascii.eqb a ",")) x = true
  /\ strings_TrimSpace x = x.

(** A byte an environment key turns into: not upper case, no dot, no
    hyphen. *)
Definition path_byte (a : ascii) : bool :=
  (negb (is_upper a) && negb (Ascii.eqb a ".") && negb (Ascii.eqb a "-"))%bool.

(** The prefix [EnvLoader.Load] filters by. *)
Definition env_prefix (Prefix : string) : string :=
  if String.eqb Prefix "" then "OBSERVE_" else Prefix.

Definition no_equals (s : string) : bool :=
  string_forall (fun a => negb (Ascii.eqb a "=")) s.

Module LoaderCases.

(** The environment of the loader test. *)
Definition environ : list string :=
  [ "HOME=/root";
    "OBSERVE_SERVICE__NAME=env-service";
    "OBSERVE_INSTRUMENTATION__HTTP__ENABLED=false";
    "OBSERVE_INSTRUMENTATION__HTTP__IGNORED_ROUTES=/healthz,/readyz" ].

(** No configuration file; the decoder knows the service name only. *)
Definition os : loader.OS :=
  {| loader.os_Environ := environ;
     loader.fs_ReadFile := fun _ _ => loader.NotExist (ErrNew "file does not exist");
     loader.filepath_Clean := fun p => p;
     loader.yaml_Unmarshal := fun _ => Ok ∅;
     loader.sanitizeMap := fun m => m;
     loader.decode :=
       fun cfg values =>
         match loader.getNested values ["service"; "name"] with
         | Some (AString n) =>
             Ok {| config.Service :=
                     {| config.Name := n;
                        config.Namespace := config.Namespace (config.Service cfg);
                        config.Version := config.Version (config.Service cfg);
                        config.Environment := config.Environment (config.Service cfg);
                        config.Attributes := config.Attributes (config.Service cfg) |};
                   config.Exporters := config.Exporters cfg;
                   config.Sampling := config.Sampling cfg;
                   config.Instrumentation := config.Instrumentation cfg;
                   config.Logging := config.Logging cfg;
                   config.Diagnostics := config.Diagnostics cfg |}
         | _ => Ok cfg
         end |}.

End LoaderCases.

(* ===================================================================== *)
(** * internal/diagnostics: the status server                            *)
(* ===================================================================== *)

Module diagnostics.

(** [validAuth] *)
Definition validAuth (header token : string) : bool :=
  if String.eqb header "" then false
  else if negb (strings_HasPrefix header "Bearer ") then false
  else String.eqb (strings_TrimSpace (string_drop (String.length "Bearer ") header)) token.

(** [http.ResponseWriter] as a handler sees it: the status line, once
    sent, stays; the header map; the bytes written. *)
Record ResponseWriter : Type := {
  rw_status : option Z;
  rw_header : gmap string string;
  rw_body   : string;
}.

Definition WriteHeader (code : Z) (w : ResponseWriter) : ResponseWriter :=
  match rw_status w with
  | Some _ => w
  | None => {| rw_status := Some code; rw_header := rw_header w; rw_body := rw_body w |}
  end.

Definition Header_Set (k v : string) (w : ResponseWriter) : ResponseWriter :=
  {| rw_status := rw_status w; rw_header := <[k := v]> (rw_header w);
     rw_body := rw_body w |}.

(** The outside of the handler: the JSON encoding of a snapshot with its
    time stamp, and the connection. *)
Record Wire : Type := {
  json_Encode_bytes : runtime.Snapshot_t -> Time -> result string;
  conn_Write        : string -> option error;
}.

(** [json.NewEncoder(w).Encode(v)]: nothing is written when [v] cannot be
    encoded; the first write sends the status 200 when none was sent. *)
Definition Encode (wire : Wire) (snapshot : runtime.Snapshot_t) (stamp : Time)
    (w : ResponseWriter) : option error * ResponseWriter :=
  match json_Encode_bytes wire snapshot stamp with
  | Err e => (Some e, w)
  | Ok data =>
      let w := WriteHeader 200 w in
      match conn_Write wire data with
      | Some e => (Some e, w)
      | None =>
          (None, {| rw_status := rw_status w; rw_header := rw_header w;
                    rw_body := (rw_body w ++ data)%string |})
      end
  end.

(** [Server.HandleStatus]: [authorization] is
    [r.Header.Get("Authorization")], [provider] what the provider's
    [Snapshot] answers, [now] is [time.Now()]; the second component
    tells whether the provider was asked. *)
Definition HandleStatus (wire : Wire) (cfg : config.DiagnosticsConfig)
    (provider : runtime.Snapshot_t) (now : Time) (authorization : string)
    (w : ResponseWriter) : ResponseWriter * bool :=
  if (negb (String.eqb (config.AuthToken cfg) "")
      && negb (validAuth authorization (config.AuthToken cfg)))%bool
  then (WriteHeader 401 w, false)
  else
    let stamp := Time_UTC now in
    let w := Header_Set "Content-Type" "application/json" w in
    match Encode wire provider stamp w with
    | (Some _, w) => (WriteHeader 500 w, true)
    | (None, w) => (w, true)
    end.

(** [Server]: [server] tells whether [s.server] is set, [start] and
    [stop] whether the [sync.Once] of that name is used up; [serving] is
    the state of the listener of the [http.Server] that [Start] made. *)
Record Server : Type := {
  cfg     : config.DiagnosticsConfig;
  server  : bool;
  start   : bool;
  stop    : bool;
  serving : bool;
}.

(** [NewServer] *)
Definition NewServer (c : config.DiagnosticsConfig) : Server :=
  {| cfg := c; server := false; start := false; stop := false; serving := false |}.

(** The network: [net.ListenConfig.Listen] and [http.Server.Shutdown]. *)
Record Net : Type := {
  net_Listen    : string -> option error;
  http_Shutdown : option error;
}.

(** [Server.Start] *)
Definition Start (net : Net) (s : Server) : option error * Server :=
  if String.eqb (config.HTTPAddr (cfg s)) "" then
    (Some (ErrNew "diagnostics http_addr is required"), s)
  else if start s then (None, s)
  else
    match net_Listen net (config.HTTPAddr (cfg s)) with
    | Some err =>
        (Some (ErrWrap err "listen diagnostics"),
         {| cfg := cfg s; server := true; start := true; stop := stop s;
            serving := serving s |})
    | None =>
        (None,
         {| cfg := cfg s; server := true; start := true; stop := stop s;
            serving := true |})
    end.

(** [Server.Shutdown] *)
Definition Shutdown (net : Net) (s : Server) : option error * Server :=
  if stop s then (None, s)
  else if negb (server s) then
    (None, {| cfg := cfg s; server := server s; start := start s; stop := true;
              serving := serving s |})
  else
    let s' := {| cfg := cfg s; server := false; start := start s; stop := true;
                 serving := false |} in
    match http_Shutdown net with
    | Some e => (Some (ErrWrap e "shutdown diagnostics server"), s')
    | None => (None, s')
    end.

(** The calls a holder of the server makes. *)
Inductive Call : Type := CallStart | CallShutdown.

Definition call (net : Net) (c : Call) (s : Server) : option error * Server :=
  match c with
  | CallStart => Start net s
  | CallShutdown => Shutdown net s
  end.

Fixpoint calls (net : Net) (cs : list Call) (s : Server) : Server :=
  match cs with
  | [] => s
  | c :: rest => calls net rest (snd (call net c s))
  end.

End diagnostics.

(* ===================================================================== *)
(** * pkg/logging: the adapter a configuration gives                      *)
(* ===================================================================== *)

Module logging.

(** [slog.Level] and [zapcore.Level], as far as the package uses them. *)
Inductive Level : Type := LevelDebug | LevelInfo | LevelWarn | LevelError.

(** [slogLevel] *)
Definition slogLevel (level : string) : Level :=
  let l := strings_ToLower level in
  if String.eqb l "debug" then LevelDebug
  else if String.eqb l "error" then LevelError
  else if (String.eqb l "warn" || String.eqb l "warning")%bool then LevelWarn
  else LevelInfo.

(** [zapLevel] *)
Definition zapLevel (level : string) : Level :=
  let l := strings_ToLower level in
  if String.eqb l "debug" then LevelDebug
  else if String.eqb l "error" then LevelError
  else if (String.eqb l "warn" || String.eqb l "warning")%bool then LevelWarn
  else LevelInfo.

(** The adapters of the package that write somewhere. *)
Inductive Base : Type :=
| StdAdapter
| ZapAdapter (level : Level) (console : bool)
| ZerologAdapter
| SlogAdapter (level : Level) (text : bool).

(** The adapters [FromConfig] builds: a base and the wrappers around it. *)
Inductive Adapter : Type :=
| NoopAdapter
| BaseAdapter (b : Base)
| infoDisabledAdapter (inner : Adapter)
| samplingAdapter (inner : Adapter) (ratio : float64).

(** [newSlogFromConfig] *)
Definition newSlogFromConfig (cfg : config.LoggingConfig) : Adapter :=
  BaseAdapter (SlogAdapter (slogLevel (config.Level cfg))
                 (String.eqb (strings_ToLower (config.Format cfg)) "text")).

(** [buildBaseAdapter]; [zap_Build] tells whether [configZap.Build()]
    succeeds. *)
Definition buildBaseAdapter (zap_Build : config.LoggingConfig -> bool)
    (cfg : config.LoggingConfig) : Adapter :=
  let a := strings_ToLower (config.Adapter cfg) in
  if String.eqb a "std" then BaseAdapter StdAdapter
  else if String.eqb a "zap" then
    if zap_Build cfg then
      BaseAdapter (ZapAdapter (zapLevel (config.Level cfg))
                     (String.eqb (strings_ToLower (config.Format cfg)) "text"))
    else newSlogFromConfig cfg
  else if String.eqb a "zerolog" then BaseAdapter ZerologAdapter
  else newSlogFromConfig cfg.

(** [applyLevelFilter]; a nil adapter is [None]. *)
Definition applyLevelFilter (adapter : option Adapter) (level : string) : Adapter :=
  match adapter with
  | None => NoopAdapter
  | Some a =>
      if String.eqb (strings_ToLower level) "error" then infoDisabledAdapter a
      else a
  end.

(** Go's [x >= y] on [float64]. *)
Definition f64_ge (x y : float64) : bool := SFleb y x.

(** [applySampling] *)
Definition applySampling (adapter : option Adapter) (ratio : float64) : Adapter :=
  match adapter with
  | None => NoopAdapter
  | Some a =>
      if f64_le ratio f64_zero then samplingAdapter a f64_zero
      else if f64_ge ratio f64_one then a
      else samplingAdapter a ratio
  end.

(** [FromConfig] *)
Definition FromConfig (zap_Build : config.LoggingConfig -> bool)
    (cfg : config.LoggingConfig) : Adapter :=
  let base := buildBaseAdapter zap_Build cfg in
  let base := applyLevelFilter (Some base) (config.Level cfg) in
  applySampling (Some base) (config.SampleRatio cfg).

(** [float64(n)] of an unsigned integer. *)
Definition f64_of_uint (n : Z) : float64 := binary_normalize 53 1024 n 0 false.

Definition MaxUint64 : Z := 2 ^ 64 - 1.

(** [randomFloat64]: [read] is what [rand.Read] gave, the eight bytes as
    the big-endian number they are, or [None] when it failed. *)
Definition randomFloat64 (read : option Z) : float64 :=
  match read with
  | None => f64_one
  | Some n => SFdiv 53 1024 (f64_of_uint n) (f64_of_uint MaxUint64)
  end.

(** [samplingAdapter.shouldLog]: the draws of [rand.Read] still to come
    go in and out; none is consumed when the ratio is not positive.  A
    source that has run out of draws is one that fails. *)
Definition shouldLog (ratio : float64) (draws : list (option Z))
    : bool * list (option Z) :=
  if f64_le ratio f64_zero then (false, draws)
  else
    match draws with
    | [] => (f64_le (randomFloat64 None) ratio, [])
    | d :: rest => (f64_le (randomFloat64 d) ratio, rest)
    end.

(** The methods of an [Adapter]. *)
Inductive Method : Type := Info | Debug | Error.

(** A call of a method on an adapter: the base adapter the record
    reaches, if any, and the draws left. *)
Fixpoint log (a : Adapter) (m : Method) (draws : list (option Z))
    : option Base * list (option Z) :=
  match a with
  | NoopAdapter => (None, draws)
  | BaseAdapter b => (Some b, draws)
  | infoDisabledAdapter inner =>
      match m with
      | Error => log inner Error draws
      | _ => (None, draws)
      end
  | samplingAdapter inner ratio =>
      match m with
      | Error => log inner Error draws
      | _ =>
          let (yes, draws') := shouldLog ratio draws in
          if yes then log inner m draws' else (None, draws')
      end
  end.

End logging.

Module ServerCases.

Definition wire : diagnostics.Wire :=
  {| diagnostics.json_Encode_bytes := fun s _ => Ok (runtime.ServiceName s);
     diagnostics.conn_Write := fun _ => None |}.

Definition guarded : config.DiagnosticsConfig :=
  {| config.DiagEnabled := true; config.HTTPAddr := "127.0.0.1:14271";
     config.AuthToken := "secret" |}.

Definition padded : config.DiagnosticsConfig :=
  {| config.DiagEnabled := true; config.HTTPAddr := "127.0.0.1:14271";
     config.AuthToken := "secret " |}.

Definition fresh : diagnostics.ResponseWriter :=
  {| diagnostics.rw_status := None; diagnostics.rw_header := ∅;
     diagnostics.rw_body := "" |}.

Definition net_up : diagnostics.Net :=
  {| diagnostics.net_Listen := fun _ => None; diagnostics.http_Shutdown := None |}.

Definition net_busy : diagnostics.Net :=
  {| diagnostics.net_Listen := fun _ => Some (ErrNew "address already in use");
     diagnostics.http_Shutdown := None |}.

Definition errorsOnly : config.LoggingConfig :=
  {| config.Level := "ERROR"; config.Format := "json"; config.Adapter := "zap";
     config.SampleRatio := f64_one |}.

Definition sampled : config.LoggingConfig :=
  {| config.Level := "info"; config.Format := "text"; config.Adapter := "slog";
     config.SampleRatio := Samples.f64_quarter |}.

End ServerCases.

(* ===================================================================== *)
(** * pkg/instrumentation/http: the helpers of the middleware            *)
(* ===================================================================== *)

Module observehttp.

(** What the helpers read of an [http.Request]; a nil [URL] is [None]. *)
Record Request : Type := {
  Method     : string;
  URL_Path   : option string;
  RemoteAddr : string;
}.

(** The loop of [toSet]. *)
Fixpoint toSet_loop (values : list string) (set : gset string) : gset string :=
  match values with
  | [] => set
  | val :: rest =>
      let val := strings_TrimSpace val in
      if String.eqb val "" then toSet_loop rest set
      else toSet_loop rest ({[ val ]} ∪ set)
  end.

(** [toSet] *)
Definition toSet (values : list string) : gset string :=
  match values with
  | [] => ∅
  | _ :: _ => toSet_loop values ∅
  end.

(** [Middleware.shouldIgnore], over the set [NewMiddleware] stores. *)
Definition shouldIgnore (ignoredRoutes : gset string) (route : string) : bool :=
  bool_decide (route ∈ ignoredRoutes).

(** [spanName] *)
Definition spanName (method route : string) : string :=
  let route := if String.eqb route "" then "/" else route in
  (method ++ " " ++ route)%string.

(** [routeFromRequest]; a nil request is [None]. *)
Definition routeFromRequest (r : option Request) : string :=
  match r with
  | None => "/"
  | Some r =>
      match URL_Path r with
      | None => "/"
      | Some path => if String.eqb path "" then "/" else path
      end
  end.

(** [clientIP]; [net_SplitHostPort] is the function of that name, which
    answers the host or fails. *)
Definition clientIP (net_SplitHostPort : string -> result string)
    (r : option Request) : string :=
  match r with
  | None => ""
  | Some r =>
      let parts := strings_Split (RemoteAddr r) ":" in
      match parts with
      | part0 :: _ => part0
      | [] =>
          match net_SplitHostPort (RemoteAddr r) with
          | Err _ => RemoteAddr r
          | Ok host => host
          end
      end
  end.

End observehttp.

Module HTTPCases.

Definition hostPort (addr : string) : result string :=
  if String.eqb addr "[::1]:8080" then Ok "::1" else Err (ErrNew "missing port in address").

Definition fromLoopback6 : observehttp.Request :=
  {| observehttp.Method := "GET"; observehttp.URL_Path := Some "/healthz";
     observehttp.RemoteAddr := "[::1]:8080" |}.

End HTTPCases.

(* ===================================================================== *)
(** * Frame lemmas                                                       *)
(* ===================================================================== *)

Lemma step_ok_refl P km w : step_ok P km w w.
Proof.
  repeat split; auto. exists []. rewrite app_nil_r. auto.
Qed.

Lemma step_ok_trans P km w1 w2 w3 :
  step_ok P km w1 w2 -> step_ok P km w2 w3 -> step_ok P km w1 w3.
Proof.
  intros ([e1 [E1 F1]] & M1 & C1 & I1 & N1) ([e2 [E2 F2]] & M2 & C2 & I2 & N2).
  repeat split.
  - exists (e1 ++ e2). rewrite E2, E1, app_assoc. split; auto.
    apply Forall_app; auto.
  - intros K. rewrite M2, M1; auto.
  - congruence.
  - auto.
  - lia.
Qed.

Lemma step_ok_weaken (P Q : Event -> Prop) km w w' :
  (forall e, P e -> Q e) -> step_ok P km w w' -> step_ok Q false w w'.
Proof.
  intros PQ ([e1 [E1 F1]] & M1 & C1 & I1 & N1).
  repeat split; auto; try discriminate.
  exists e1. split; auto. eapply Forall_impl; eauto.
Qed.

Lemma step_ok_impl (P Q : Event -> Prop) km w w' :
  (forall e, P e -> Q e) -> step_ok P km w w' -> step_ok Q km w w'.
Proof.
  intros PQ ([e1 [E1 F1]] & M1 & C1 & I1 & N1).
  repeat split; auto.
  exists e1. split; auto. eapply Forall_impl; eauto.
Qed.

Lemma frame_ret P km {A} (a : A) : frame P km (ret a).
Proof. intros w. apply step_ok_refl. Qed.

Lemma frame_bind P km {A B} (m : M A) (k : A -> M B) :
  frame P km m -> (forall a, frame P km (k a)) -> frame P km (bind m k).
Proof.
  intros Hm Hk w. unfold bind. specialize (Hm w).
  destruct (m w) as [a w1]. simpl in Hm.
  eapply step_ok_trans; [apply Hm | apply Hk].
Qed.

Lemma frame_emit P km e : P e -> frame P km (emit e).
Proof.
  intros Pe w. unfold emit; simpl. repeat split; auto.
  exists [e]. auto.
Qed.

Ltac frame_prim :=
  let w := fresh "w" in
  intros w; repeat split; simpl; auto; try lia; try discriminate;
  try (exists []; rewrite app_nil_r; auto).

Lemma frame_fresh P km : frame P km fresh.
Proof. frame_prim. Qed.

Lemma frame_time_Now P km : frame P km time_Now.
Proof. frame_prim. Qed.

Lemma frame_load_runtime P km r : frame P km (load_runtime r).
Proof. frame_prim. Qed.

Lemma frame_upd_stats P km f : frame P km (upd_stats f).
Proof. frame_prim. Qed.

Lemma frame_upd_metrics P f : frame P false (upd_metrics f).
Proof. frame_prim. Qed.

Lemma frame_weaken (P Q : Event -> Prop) km {A} (m : M A) :
  (forall e, P e -> Q e) -> frame P km m -> frame Q false m.
Proof. intros PQ H w. eapply step_ok_weaken; eauto. Qed.

Lemma frame_impl (P Q : Event -> Prop) km {A} (m : M A) :
  (forall e, P e -> Q e) -> frame P km m -> frame Q km m.
Proof. intros PQ H w. eapply step_ok_impl; eauto. Qed.

(** Writes to the runtime heap that keep [reload_time_inv]. *)
Lemma frame_insert_runtime P km a x :
  rt.lastReload x = rt.startTime x -> frame P km (upd_runtimes (insert a x)).
Proof.
  intros Hx w. repeat split; simpl; auto; try lia.
  - exists []. rewrite app_nil_r. auto.
  - intros Inv r y. simpl. destruct (decide (a = r)) as [->|Hne].
    + rewrite lookup_insert_eq. congruence.
    + rewrite lookup_insert_ne by auto. apply Inv.
Qed.

Lemma frame_alter_runtime P km a (f : rt.Runtime -> rt.Runtime) :
  (forall x, rt.lastReload x = rt.startTime x ->
             rt.lastReload (f x) = rt.startTime (f x)) ->
  frame P km (upd_runtimes (alter f a)).
Proof.
  intros Hf w. repeat split; simpl; auto; try lia.
  - exists []. rewrite app_nil_r. auto.
  - intros Inv r y. simpl. destruct (decide (a = r)) as [->|Hne].
    + rewrite lookup_alter_eq. destruct (runtimes w !! r) eqn:E; simpl; [|discriminate].
      intros [= <-]. apply Hf. eapply Inv; eauto.
    + rewrite lookup_alter_ne by auto. apply Inv.
Qed.

Lemma frame_bindR_ret P km {A B} (x : result A) (k : A -> M (result B)) :
  frame P km (match x with Ok a => k a | Err e => ret (Err e) end) ->
  frame P km (bindR (ret x) k).
Proof. intros H w. exact (H w). Qed.

Lemma frame_bindR P km {A B} (m : M (result A)) (k : A -> M (result B)) :
  frame P km m -> (forall a, frame P km (k a)) -> frame P km (bindR m k).
Proof.
  intros Hm Hk. unfold bindR. apply frame_bind; auto.
  intros [a|e]; auto using frame_ret.
Qed.

Lemma frame_wrapping P km {A} msg (m : M (result A)) :
  frame P km m -> frame P km (wrapping msg m).
Proof.
  intros Hm. unfold wrapping. apply frame_bind; auto using frame_ret.
Qed.

Lemma frame_otel_SetTracerProvider km tp :
  frame lifecycle_free km (runtime.otel_SetTracerProvider tp).
Proof.
  intros w. repeat split; simpl; auto. exists [EvSetTracerProvider (tp_id tp)].
  split; auto. repeat constructor.
Qed.

Lemma frame_otel_SetMeterProvider km mp :
  frame lifecycle_free km (runtime.otel_SetMeterProvider mp).
Proof.
  intros w. repeat split; simpl; auto. exists [EvSetMeterProvider (mp_id mp)].
  split; auto. repeat constructor.
Qed.

Create HintDb frame.
#[export] Hint Resolve frame_ret frame_fresh frame_time_Now frame_load_runtime
  frame_upd_stats frame_upd_metrics frame_otel_SetTracerProvider
  frame_otel_SetMeterProvider : frame.

Ltac split_ifs :=
  repeat match goal with
         | |- context [if ?c then _ else _] => destruct c
         end.

Ltac head_scrutinee t :=
  match t with
  | match ?y with _ => _ end => head_scrutinee y
  | wrapErr _ ?y => head_scrutinee y
  | _ => t
  end.

(** Walk through a monadic body: split binds, case on what is matched. *)
Ltac frame_step :=
  match goal with
  | |- frame _ _ (bindR (ret _) _) => apply frame_bindR_ret
  | |- frame _ _ (bind _ _) => apply frame_bind; [| intros ?]
  | |- frame _ _ (bindR _ _) => apply frame_bindR; [| intros ?]
  | |- frame _ _ (wrapping _ _) => apply frame_wrapping
  | |- frame _ _ (ret _) => apply frame_ret
  | |- frame _ _ (emit _) => apply frame_emit; exact I
  | |- frame _ _ fresh => apply frame_fresh
  | |- frame _ _ time_Now => apply frame_time_Now
  | |- frame _ _ (load_runtime _) => apply frame_load_runtime
  | |- frame _ _ (upd_stats _) => apply frame_upd_stats
  | |- frame _ false (upd_metrics _) => apply frame_upd_metrics
  | |- frame _ _ (runtime.otel_SetTracerProvider _) => apply frame_otel_SetTracerProvider
  | |- frame _ _ (runtime.otel_SetMeterProvider _) => apply frame_otel_SetMeterProvider
  | |- frame _ _ (upd_runtimes (insert _ _)) =>
      apply frame_insert_runtime; simpl; split_ifs; reflexivity
  | |- frame _ _ (upd_runtimes (alter _ _)) =>
      apply frame_alter_runtime; intros ? ?; simpl; assumption
  | |- frame _ _ (match ?x with _ => _ end) =>
      let h := head_scrutinee x in destruct h eqn:?
  end.

Ltac frame_walk := repeat (frame_step; cbv beta iota zeta delta [wrapErr]).

Lemma frame_recordDrop km s n : frame lifecycle_free km (runtime.recordDrop s n).
Proof. unfold runtime.recordDrop. frame_walk. Qed.

Lemma frame_recordError km s e : frame lifecycle_free km (runtime.recordError s e).
Proof. unfold runtime.recordError. frame_walk. Qed.

#[export] Hint Resolve frame_recordDrop frame_recordError : frame.

Lemma frame_ExportSpans km s spans :
  frame lifecycle_free km (runtime.ExportSpans s spans).
Proof. unfold runtime.ExportSpans. frame_walk; auto with frame. Qed.

Lemma frame_spanExporter_Shutdown km s :
  frame lifecycle_free km (runtime.spanExporter_Shutdown s).
Proof. unfold runtime.spanExporter_Shutdown. frame_walk. Qed.

#[export] Hint Resolve frame_spanExporter_Shutdown : frame.

Lemma frame_bundle_shutdown km b :
  frame lifecycle_free km (runtime.bundle_shutdown b).
Proof. unfold runtime.bundle_shutdown. frame_walk; auto with frame. Qed.

Lemma frame_newExporterBundle km env c :
  frame lifecycle_free km (runtime.newExporterBundle env c).
Proof. unfold runtime.newExporterBundle. frame_walk. Qed.

Lemma frame_buildTracerProvider km env c res te :
  frame lifecycle_free km (runtime.buildTracerProvider env c res te).
Proof. unfold runtime.buildTracerProvider. frame_walk. Qed.

Lemma frame_buildMeterProvider km env res rd :
  frame lifecycle_free km (runtime.buildMeterProvider env res rd).
Proof. unfold runtime.buildMeterProvider. frame_walk. Qed.

#[export] Hint Resolve frame_bundle_shutdown frame_newExporterBundle
  frame_buildTracerProvider frame_buildMeterProvider : frame.

Lemma frame_New km env c : frame lifecycle_free km (runtime.New env c).
Proof.
  unfold runtime.New, runtime.startDiagnosticsServer.
  frame_walk; auto with frame.
Qed.

Lemma step_ok_insert_existing P km w r x y :
  runtimes w !! r = Some x ->
  rt.lastReload y = rt.lastReload x -> rt.startTime y = rt.startTime x ->
  step_ok P km w (set_runtimes (insert r y) w).
Proof.
  intros Hx Hl Hs. repeat split; simpl; auto.
  - exists []. rewrite app_nil_r. auto.
  - intros Inv r' y'. simpl. destruct (decide (r = r')) as [->|Hne].
    + rewrite lookup_insert_eq. intros [= <-]. rewrite Hl, Hs. eapply Inv; eauto.
    + rewrite lookup_insert_ne by auto. apply Inv.
Qed.

Lemma frame_InitMetrics km env r st :
  frame lifecycle_free km (runtime.InitMetrics env r st).
Proof.
  intros w. unfold runtime.InitMetrics, bind, load_runtime, upd_runtimes, ret. simpl.
  destruct (runtimes w !! r) as [x|] eqn:E; simpl; [|apply step_ok_refl].
  destruct (config.RuntimeMetricsEnabled _); simpl; [|apply step_ok_refl].
  destruct (metricsController_start env) as [reg|e]; simpl.
  - eapply step_ok_trans.
    + eapply step_ok_insert_existing with (y := runtime.set_metricsState st x); eauto.
    + eapply step_ok_insert_existing; simpl; [apply lookup_insert_eq | | ]; reflexivity.
  - eapply step_ok_insert_existing; eauto.
Qed.

Lemma frame_controller_shutdown km c :
  frame lifecycle_free km (runtime.controller_shutdown c).
Proof. unfold runtime.controller_shutdown. frame_walk. Qed.

#[export] Hint Resolve frame_controller_shutdown : frame.

Lemma frame_shutdown_once km r x :
  frame lifecycle_free km (runtime.shutdown_once r x).
Proof. unfold runtime.shutdown_once. frame_walk; auto with frame. Qed.

#[export] Hint Resolve frame_shutdown_once : frame.

Lemma frame_Shutdown km r : frame lifecycle_free km (runtime.Shutdown r).
Proof. unfold runtime.Shutdown. frame_walk; auto with frame. Qed.

(** [swapRuntime] adds the swap itself to what [Shutdown] does. *)
Lemma frame_swapRuntime km c new : frame no_reload km (observe.swapRuntime c new).
Proof.
  unfold observe.swapRuntime, observe.log.
  frame_walk.
  eapply frame_impl; [| apply frame_Shutdown]. intros []; simpl; auto.
Qed.

(* ===================================================================== *)
(** * Arithmetic of the Go base types                                    *)
(* ===================================================================== *)

Lemma wrap64_id z : int64_min <= z <= int64_max -> wrap64 z = z.
Proof.
  unfold int64_min, int64_max, wrap64.
  assert (E63 : 2 ^ 63 = 9223372036854775808) by reflexivity.
  assert (E64 : 2 ^ 64 = 18446744073709551616) by reflexivity.
  rewrite E63, E64. intros H. rewrite Z.mod_small; lia.
Qed.

Lemma atomic_Add_exact cell n :
  int64_min <= cell + n <= int64_max -> atomic_Add cell n = cell + n.
Proof. apply wrap64_id. Qed.

Lemma SFcompare_antisym (a b : float64) c :
  SFcompare a b = Some c -> SFcompare b a = Some (CompOpp c).
Proof.
  destruct a as [sa|sa| |sa ma ea], b as [sb|sb| |sb mb eb];
    try destruct sa; try destruct sb; simpl; intros [= <-]; try reflexivity;
    rewrite (Z.compare_antisym ea eb); destruct (ea ?= eb); simpl; try reflexivity;
    change (PosDef.Pos.compare_cont Eq mb ma) with (Pos.compare mb ma);
    change (PosDef.Pos.compare_cont Eq ma mb) with (Pos.compare ma mb);
    rewrite (Pos.compare_antisym ma mb); try rewrite CompOpp_involutive; reflexivity.
Qed.

Lemma SFcompare_defined (a b : float64) :
  f64_is_nan a = false -> f64_is_nan b = false -> exists c, SFcompare a b = Some c.
Proof.
  destruct a, b; simpl; try discriminate; eauto.
Qed.

(** On numbers, [0 < x <= 1] fails exactly when [x <= 0 || x > 1]. *)
Lemma f64_outside_unit (x : float64) :
  f64_is_nan x = false ->
  (f64_le x f64_zero || f64_gt x f64_one)%bool
  = negb (f64_lt f64_zero x && f64_le x f64_one)%bool.
Proof.
  intros Hx. unfold f64_le, f64_gt, f64_lt, SFleb, SFltb.
  destruct (SFcompare_defined x f64_zero Hx eq_refl) as [c0 H0].
  destruct (SFcompare_defined x f64_one Hx eq_refl) as [c1 H1].
  rewrite (SFcompare_antisym _ _ _ H0), (SFcompare_antisym _ _ _ H1), H0, H1.
  destruct c0, c1; reflexivity.
Qed.

Lemma f64_inside_unit (x : float64) :
  f64_lt f64_zero x = true -> f64_le x f64_one = true ->
  (f64_le x f64_zero || f64_gt x f64_one)%bool = false.
Proof.
  intros H0 H1.
  assert (Hx : f64_is_nan x = false) by (destruct x; auto; discriminate).
  rewrite (f64_outside_unit x Hx), H0, H1. reflexivity.
Qed.

(* ===================================================================== *)
(** * Sampler selection                                                  *)
(* ===================================================================== *)

(** C5 (as the code has it).  [samplerFromConfig] builds a sampler for
    the modes [always_on], [always_off], [parentbased_always_on] and
    [parentbased_always_off], and for [trace_id_ratio] when the argument
    lies in (0,1]; for [trace_id_ratio] with a numeric argument outside
    (0,1] it fails with the argument-range error, whose message ends with
    the argument as [%f] prints it; the spellings
    [parent_based_always_on] and [parent_based_always_off] are not modes
    of the code and fail as unsupported. *)
Theorem samplerFromConfig_modes (arg : float64) (tl : config.TenantLimiterConfig) :
  let sampling m :=
    {| config.Mode := m; config.Argument := arg; config.TenantLimiter := tl |} in
  runtime.samplerFromConfig (sampling "always_on") = Ok AlwaysSample
  /\ runtime.samplerFromConfig (sampling "always_off") = Ok NeverSample
  /\ runtime.samplerFromConfig (sampling "parentbased_always_on")
     = Ok (ParentBased AlwaysSample)
  /\ runtime.samplerFromConfig (sampling "parentbased_always_off")
     = Ok (ParentBased NeverSample)
  /\ (f64_lt f64_zero arg = true -> f64_le arg f64_one = true ->
      runtime.samplerFromConfig (sampling "trace_id_ratio")
      = Ok (ParentBased (TraceIDRatioBased arg)))
  /\ (f64_is_nan arg = false ->
      (f64_lt f64_zero arg && f64_le arg f64_one)%bool = false ->
      runtime.samplerFromConfig (sampling "trace_id_ratio")
      = Err (ErrNew ("sampling.argument must be within (0,1], got "
                     ++ fmt_f arg)%string))
  /\ runtime.samplerFromConfig (sampling "parent_based_always_on")
     = Err (ErrNew ("unsupported sampling mode "
                    ++ fmt_q "parent_based_always_on")%string)
  /\ runtime.samplerFromConfig (sampling "parent_based_always_off")
     = Err (ErrNew ("unsupported sampling mode "
                    ++ fmt_q "parent_based_always_off")%string).
Proof.
  intros sampling. unfold runtime.samplerFromConfig, sampling; simpl.
  repeat split; try reflexivity.
  - intros H0 H1. rewrite (f64_inside_unit arg H0 H1). reflexivity.
  - intros Hn Hout. rewrite (f64_outside_unit arg Hn), Hout. reflexivity.
Qed.

Lemma samplerFromConfig_modes_witness :
  runtime.samplerFromConfig
    {| config.Mode := "trace_id_ratio"; config.Argument := Samples.f64_quarter;
       config.TenantLimiter := {| config.LimiterEnabled := false;
                                  config.Rate := f64_one |} |}
  = Ok (ParentBased (TraceIDRatioBased Samples.f64_quarter))
  /\ runtime.samplerFromConfig
       {| config.Mode := "trace_id_ratio"; config.Argument := f64_zero;
          config.TenantLimiter := {| config.LimiterEnabled := false;
                                     config.Rate := f64_one |} |}
     = Err (ErrNew "sampling.argument must be within (0,1], got 0.000000").
Proof.
  split.
  - apply (samplerFromConfig_modes Samples.f64_quarter
             {| config.LimiterEnabled := false; config.Rate := f64_one |});
      reflexivity.
  - apply (samplerFromConfig_modes f64_zero
             {| config.LimiterEnabled := false; config.Rate := f64_one |});
      reflexivity.
Defined.

(** C5 as the specification spells it: the mode [parent_based_always_on]
    does not construct a sampler. *)
Lemma samplerFromConfig_parent_based_rejected :
  ~ exists s,
      runtime.samplerFromConfig
        {| config.Mode := "parent_based_always_on"; config.Argument := f64_one;
           config.TenantLimiter := {| config.LimiterEnabled := false;
                                      config.Rate := f64_one |} |}
      = Ok s.
Proof. intros [s H]. discriminate H. Qed.

(** The configuration layer agrees with the sampler on the spelling. *)
Lemma valid_mode_spelling :
  config.valid_mode "parentbased_always_on" = true
  /\ config.valid_mode "parent_based_always_on" = false.
Proof. split; reflexivity. Qed.

(** The sample ratios are binary64 values. *)
Lemma sample_floats_valid :
  f64_valid f64_zero = true /\ f64_valid f64_one = true
  /\ f64_valid Samples.f64_quarter = true /\ f64_valid Samples.f64_1_5 = true.
Proof. repeat split; reflexivity. Qed.

(** The range error names the argument as [%f] prints it. *)
Example fmt_f_samples :
  fmt_f f64_zero = "0.000000"
  /\ fmt_f (S754_zero true) = "-0.000000"
  /\ fmt_f Samples.f64_1_5 = "1.500000"
  /\ fmt_f Samples.f64_quarter = "0.250000"
  /\ fmt_f (SFopp Samples.f64_quarter) = "-0.250000"
  /\ fmt_f (SFdiv 53 1024 f64_one (binary_normalize 53 1024 3 0 false)) = "0.333333"
  /\ fmt_f (SFdiv 53 1024 (binary_normalize 53 1024 2 0 false)
              (binary_normalize 53 1024 3 0 false)) = "0.666667"
  /\ fmt_f (binary_normalize 53 1024 1 (-21) false) = "0.000000"
  /\ fmt_f (binary_normalize 53 1024 123456789 (-3) false) = "15432098.625000"
  /\ fmt_f (S754_infinity false) = "+Inf"
  /\ fmt_f (S754_infinity true) = "-Inf"
  /\ runtime.samplerFromConfig
       {| config.Mode := "trace_id_ratio"; config.Argument := Samples.f64_1_5;
          config.TenantLimiter := {| config.LimiterEnabled := false;
                                     config.Rate := f64_one |} |}
     = Err (ErrNew "sampling.argument must be within (0,1], got 1.500000").
Proof. repeat split; reflexivity. Qed.

(** A NaN argument passes both comparisons of the range check. *)
Lemma samplerFromConfig_nan_ratio tl :
  runtime.samplerFromConfig
    {| config.Mode := "trace_id_ratio"; config.Argument := S754_nan;
       config.TenantLimiter := tl |}
  = Ok (ParentBased (TraceIDRatioBased S754_nan)).
Proof. reflexivity. Qed.

(* ===================================================================== *)
(** * The stats-wrapped span exporter                                    *)
(* ===================================================================== *)

Lemma alter_alter_lookup {A} (f g : A -> A) (m : gmap addr A) a x :
  m !! a = Some x -> alter g a (alter f a m) !! a = Some (g (f x)).
Proof.
  intros H. rewrite !lookup_alter_eq, H. reflexivity.
Qed.

(** C6.  [ExportSpans] on a batch of [K] spans, for a wrapper built with
    an inner exporter and a stats cell: when the inner export succeeds the
    statistics are untouched and nil is returned; when it fails with
    [err], [dropped] grows by exactly [K], [lastError] becomes the message
    of [err] with the current time in UTC, whatever it held before, and
    the failure is returned wrapped around [err]. *)
Theorem ExportSpans_stats (w : World) (s : rt.spanExporterWithStats)
    (exp : SpanExporter) (a : addr) (st : rt.traceExporterStats)
    (spans : list ReadOnlySpan) :
  rt.inner s = Some exp ->
  rt.stats s = Some a ->
  statsHeap w !! a = Some st ->
  int64_min <= rt.dropped st ->
  rt.dropped st + Z.of_nat (length spans) <= int64_max ->
  let res := fst (runtime.ExportSpans (Some s) spans w) in
  let w' := snd (runtime.ExportSpans (Some s) spans w) in
  match se_ExportSpans exp spans with
  | None =>
      res = None /\ statsHeap w' = statsHeap w
  | Some err =>
      res = Some (ErrWrap err "export spans")
      /\ exists st',
           statsHeap w' !! a = Some st'
           /\ rt.dropped st' = rt.dropped st + Z.of_nat (length spans)
           /\ rt.lastError st'
              = Some {| rt.message := error_Error err;
                        rt.time := Time_UTC (clock w) |}
           /\ loc (Time_UTC (clock w)) = LocUTC
           /\ rt.queueLimit st' = rt.queueLimit st
           /\ rt.protocol st' = rt.protocol st
           /\ rt.endpoint st' = rt.endpoint st
  end.
Proof.
  intros Hin Hst Hcell Hlo Hhi.
  unfold runtime.ExportSpans. rewrite Hin, Hst.
  destruct (se_ExportSpans exp spans) as [err|] eqn:Hexp.
  - unfold runtime.recordDrop, runtime.recordError, bind, ret, emit, time_Now,
      upd_stats; simpl.
    split; [destruct (Z.of_nat (length spans) <=? 0); reflexivity|].
    destruct (Z.of_nat (length spans) <=? 0) eqn:Hk; simpl.
    + apply Z.leb_le in Hk.
      assert (K0 : Z.of_nat (length spans) = 0) by lia.
      eexists. split; [rewrite lookup_alter_eq, Hcell; reflexivity|].
      simpl. rewrite K0, Z.add_0_r. repeat split; reflexivity.
    + eexists. split; [apply alter_alter_lookup; exact Hcell|].
      simpl. rewrite atomic_Add_exact by lia. repeat split; reflexivity.
  - unfold bind, ret, emit; simpl. split; reflexivity.
Qed.

Lemma ExportSpans_stats_witness :
  exists st',
    statsHeap
      (snd (runtime.ExportSpans
              (Some {| rt.inner := Some Samples.failingExporter;
                       rt.stats := Some 0%nat |})
              [ {| spanName := "a" |}; {| spanName := "b" |}; {| spanName := "c" |} ]
              Samples.statsWorld)) !! 0%nat = Some st'
    /\ rt.dropped st' = 10
    /\ rt.lastError st'
       = Some {| rt.message := "connection refused";
                 rt.time := mkTime 1700000000000000000 LocUTC |}.
Proof.
  destruct (ExportSpans_stats Samples.statsWorld
              {| rt.inner := Some Samples.failingExporter; rt.stats := Some 0%nat |}
              Samples.failingExporter 0%nat
              {| rt.queueLimit := 2048; rt.dropped := 7; rt.protocol := "grpc";
                 rt.endpoint := "localhost:4317";
                 rt.lastError := Some {| rt.message := "an earlier failure";
                                         rt.time := mkTime 5 LocUTC |} |}
              [ {| spanName := "a" |}; {| spanName := "b" |}; {| spanName := "c" |} ]
              eq_refl eq_refl eq_refl)
    as [_ [st' (H1 & H2 & H3 & _)]].
  - vm_compute. discriminate.
  - vm_compute. discriminate.
  - exists st'. split; [exact H1|]. split; [exact H2|exact H3].
Defined.

(* ===================================================================== *)
(** * Exporter bundle shutdown                                           *)
(* ===================================================================== *)

Lemma bundle_shutdown_run (b : rt.exporterBundle) (w : World) :
  runtime.bundle_shutdown b w
  = (errors_Join (bundle_errors b),
     set_events (fun l => l ++ map EvShutdown (bundle_owned b)) w).
Proof.
  destruct w as [rs sh mh na otp omp ck evs].
  destruct b as [[[[[ex sd]|] sa]|] [[me]|] [[mr]|] ts];
    try destruct sd; try destruct me; try destruct mr;
    unfold runtime.bundle_shutdown, runtime.spanExporter_Shutdown, bundle_errors,
      bundle_owned, bind, ret, emit, set_events; simpl;
    rewrite ?app_nil_r, <- ?app_assoc; try reflexivity.
Qed.

(** C7.  [exporterBundle.shutdown] delivers [Shutdown] to the metric
    reader, the metric exporter and the trace exporter, in that order and
    each one whatever the earlier ones answered, and returns the join of
    all the errors they answered. *)
Theorem bundle_shutdown_attempts_all (b : rt.exporterBundle) (w : World) :
  let res := fst (runtime.bundle_shutdown b w) in
  let w' := snd (runtime.bundle_shutdown b w) in
  events w' = events w ++ map EvShutdown (bundle_owned b)
  /\ res = errors_Join (bundle_errors b)
  /\ (forall r e t exp,
        rt.metricReader b = Some r -> rt.metricExporter b = Some e ->
        rt.traceExporter b = Some t -> rt.inner t = Some exp ->
        emitted (runtime.bundle_shutdown b) w
        = [EvShutdown OwnMetricReader; EvShutdown OwnMetricExporter;
           EvShutdown OwnTraceExporter]
        /\ forall e1 e2 e3,
             mr_Shutdown r = Some e1 -> me_Shutdown e = Some e2 ->
             se_Shutdown exp = Some e3 ->
             res = Some (ErrJoin [e1; e2; ErrWrap e3 "shutdown span exporter"])).
Proof.
  intros res w'. subst res w'. rewrite bundle_shutdown_run. simpl.
  split; [reflexivity|]. split; [reflexivity|].
  intros r e t exp H H0 H1 H2. split.
  - unfold emitted. rewrite bundle_shutdown_run. simpl.
    rewrite skipn_app, Nat.sub_diag, skipn_all. simpl.
    unfold bundle_owned. rewrite H, H0, H1, H2. reflexivity.
  - intros e1 e2 e3 H3 H4 H5. unfold bundle_errors.
    rewrite H, H0, H1, H2, H3, H4, H5. reflexivity.
Qed.

Lemma bundle_shutdown_attempts_all_witness :
  emitted (runtime.bundle_shutdown
             {| rt.traceExporter :=
                  Some {| rt.inner := Some {| se_ExportSpans := fun _ => None;
                                              se_Shutdown := Some (ErrNew "t") |};
                          rt.stats := None |};
                rt.metricExporter := Some {| me_Shutdown := Some (ErrNew "m") |};
                rt.metricReader := Some {| mr_Shutdown := Some (ErrNew "r") |};
                rt.traceStats := None |}) Samples.world0
  = [EvShutdown OwnMetricReader; EvShutdown OwnMetricExporter;
     EvShutdown OwnTraceExporter]
  /\ fst (runtime.bundle_shutdown
             {| rt.traceExporter :=
                  Some {| rt.inner := Some {| se_ExportSpans := fun _ => None;
                                              se_Shutdown := Some (ErrNew "t") |};
                          rt.stats := None |};
                rt.metricExporter := Some {| me_Shutdown := Some (ErrNew "m") |};
                rt.metricReader := Some {| mr_Shutdown := Some (ErrNew "r") |};
                rt.traceStats := None |} Samples.world0)
     = Some (ErrJoin [ErrNew "r"; ErrNew "m";
                      ErrWrap (ErrNew "t") "shutdown span exporter"]).
Proof.
  destruct (bundle_shutdown_attempts_all
              {| rt.traceExporter :=
                   Some {| rt.inner := Some {| se_ExportSpans := fun _ => None;
                                               se_Shutdown := Some (ErrNew "t") |};
                           rt.stats := None |};
                 rt.metricExporter := Some {| me_Shutdown := Some (ErrNew "m") |};
                 rt.metricReader := Some {| mr_Shutdown := Some (ErrNew "r") |};
                 rt.traceStats := None |} Samples.world0) as (_ & _ & H).
  destruct (H _ _ _ _ eq_refl eq_refl eq_refl eq_refl) as [Hev Herr].
  split; [exact Hev|].
  exact (Herr _ _ _ eq_refl eq_refl eq_refl).
Defined.

(* ===================================================================== *)
(** * Runtime shutdown                                                   *)
(* ===================================================================== *)

Lemma emitted_app {A} (m : M A) w evs :
  events (snd (m w)) = events w ++ evs -> emitted m w = evs.
Proof.
  intros H. unfold emitted. rewrite H, skipn_app, Nat.sub_diag, skipn_all.
  reflexivity.
Qed.

Lemma append_err_app errs o : append_err errs o = errs ++ option_list o.
Proof. destruct o; simpl; auto using app_nil_r. Qed.

Lemma controller_shutdown_run c w :
  runtime.controller_shutdown (Some c) w
  = (controller_error c,
     set_events (fun l => l ++ map EvShutdown (controller_owned c)) w).
Proof.
  destruct w as [rs sh mh na otp omp ck evs].
  destruct c as [ms [[[e|]]|]];
    unfold runtime.controller_shutdown, controller_error, controller_owned,
      bind, ret, emit, set_events; simpl; rewrite ?app_nil_r; reflexivity.
Qed.

Lemma set_events_compose f g w :
  set_events g (set_events f w) = set_events (fun l => g (f l)) w.
Proof. reflexivity. Qed.

Lemma shutdown_once_run r x w :
  runtime.shutdown_once r x w
  = (errors_Join (runtime_errors x),
     set_runtimes (alter runtime.mark_shutdown r)
       (set_events (fun l => l ++ map EvShutdown (runtime_owned x)) w)).
Proof.
  unfold runtime.shutdown_once, runtime_errors, runtime_owned.
  destruct (rt.tracerProvider x) as [tp|], (rt.meterProvider x) as [mp|],
    (rt.exporters x) as [b|], (rt.metrics x) as [c|], (rt.diagServer x) as [d|];
    cbv beta iota zeta delta [bind ret emit upd_runtimes fst snd];
    rewrite ?bundle_shutdown_run; cbv beta iota zeta delta [fst snd];
    rewrite ?controller_shutdown_run; cbv beta iota zeta delta [fst snd];
    rewrite ?append_err_app; simpl;
    destruct w as [rs sh mh na otp omp ck evs]; unfold set_runtimes, set_events; simpl;
    rewrite ?map_app, ?app_nil_r, <- ?app_assoc; simpl;
    rewrite ?app_nil_r, <- ?app_assoc; reflexivity.
Qed.

Lemma Shutdown_first w r x :
  runtimes w !! r = Some x -> rt.once x = false ->
  runtime.Shutdown r w
  = (option_map (fun e => ErrWrap e "shutdown runtime") (errors_Join (runtime_errors x)),
     set_runtimes (alter runtime.mark_shutdown r)
       (set_events (fun l => l ++ map EvShutdown (runtime_owned x)) w)).
Proof.
  intros Hx Ho. unfold runtime.Shutdown.
  cbv beta iota zeta delta [bind load_runtime fst snd]. rewrite Hx, Ho.
  rewrite shutdown_once_run. cbv beta iota zeta delta [fst snd].
  destruct (errors_Join (runtime_errors x)); reflexivity.
Qed.

Lemma Shutdown_again w r x :
  runtimes w !! r = Some x -> rt.once x = true -> runtime.Shutdown r w = (None, w).
Proof.
  intros Hx Ho. unfold runtime.Shutdown.
  cbv beta iota zeta delta [bind load_runtime fst snd]. rewrite Hx, Ho. reflexivity.
Qed.

Lemma runtime_owned_NoDup x : NoDup (runtime_owned x).
Proof.
  unfold runtime_owned, bundle_owned, controller_owned.
  destruct (rt.tracerProvider x), (rt.meterProvider x),
    (rt.exporters x) as [[[[[?|] ?]|] [?|] [?|] ?]|],
    (rt.metrics x) as [[? [?|]]|], (rt.diagServer x); simpl;
    repeat (apply NoDup_cons_2;
            [repeat (apply not_elem_of_cons; split; [discriminate|]);
             apply not_elem_of_nil|]);
    apply NoDup_nil_2.
Qed.

Lemma filter_shutdown_map l :
  List.filter is_shutdown (map EvShutdown l) = map EvShutdown l.
Proof. induction l; simpl; congruence. Qed.

(** C4.  The first [Shutdown] of a runtime delivers [Shutdown] to each
    sub-resource the runtime owns exactly once and marks the runtime as
    shut down; every later call changes nothing in the store, emits
    nothing and returns nil.  When the first call is the one made by
    [swapRuntime] on the superseded instance, a later external call is
    such a later call. *)
Theorem Shutdown_idempotent (w : World) (r : addr) (x : rt.Runtime) :
  runtimes w !! r = Some x ->
  rt.once x = false ->
  let w1 := snd (runtime.Shutdown r w) in
  emitted (runtime.Shutdown r) w = map EvShutdown (runtime_owned x)
  /\ NoDup (runtime_owned x)
  /\ runtime.IsShutdown w1 r = true
  /\ runtime.Shutdown r w1 = (None, w1)
  /\ (forall n, Nat.iter n (fun v => snd (runtime.Shutdown r v)) w1 = w1)
  /\ (forall c new,
        observe.runtime c = Some r ->
        let w2 := snd (observe.swapRuntime c new w) in
        List.filter is_shutdown (emitted (observe.swapRuntime c new) w)
        = map EvShutdown (runtime_owned x)
        /\ runtime.Shutdown r w2 = (None, w2)
        /\ emitted (runtime.Shutdown r) w2 = []).
Proof.
  intros Hx Ho w1.
  assert (Hagain : forall v, runtimes v = alter runtime.mark_shutdown r (runtimes w) ->
                             runtime.Shutdown r v = (None, v)).
  { intros v Hv. apply Shutdown_again with (x := runtime.mark_shutdown x); auto.
    rewrite Hv, lookup_alter_eq, Hx. reflexivity. }
  assert (H1 : runtime.Shutdown r w1 = (None, w1)).
  { apply Hagain. unfold w1. rewrite (Shutdown_first w r x Hx Ho). reflexivity. }
  split; [|split; [|split; [|split; [|split]]]].
  - apply emitted_app. rewrite (Shutdown_first w r x Hx Ho). reflexivity.
  - apply runtime_owned_NoDup.
  - unfold runtime.IsShutdown, w1. rewrite (Shutdown_first w r x Hx Ho). simpl.
    rewrite lookup_alter_eq, Hx. reflexivity.
  - exact H1.
  - induction n as [|n IH]; simpl; [reflexivity|]. rewrite IH, H1. reflexivity.
  - intros c new Hc w2.
    assert (Hrun : observe.swapRuntime c new w
                   = (observe.set_runtime (Some new) c,
                      set_events
                        (fun l => l ++
                           match errors_Join (runtime_errors x) with
                           | Some _ => [EvLog (observe.logger c) LvlError
                                          "shutdown previous runtime"]
                           | None => []
                           end)
                        (set_runtimes (alter runtime.mark_shutdown r)
                           (set_events
                              (fun l => l ++ map EvShutdown (runtime_owned x))
                              (set_events (fun l => l ++ [EvSwap (Some r) new]) w))))).
    { unfold observe.swapRuntime. rewrite Hc.
      cbv beta iota zeta delta [bind emit fst snd].
      rewrite (Shutdown_first _ r x) by (simpl; auto).
      cbv beta iota zeta delta [fst snd].
      destruct (errors_Join (runtime_errors x)); simpl;
        unfold observe.log, bind, emit, ret; simpl.
      - reflexivity.
      - destruct w; unfold set_events, set_runtimes; simpl.
        rewrite app_nil_r. reflexivity. }
    assert (H2 : runtime.Shutdown r w2 = (None, w2)).
    { apply Hagain. unfold w2. rewrite Hrun. reflexivity. }
    split; [|split].
    + rewrite (emitted_app _ w
                 ([EvSwap (Some r) new] ++ map EvShutdown (runtime_owned x) ++
                  match errors_Join (runtime_errors x) with
                  | Some _ => [EvLog (observe.logger c) LvlError
                                 "shutdown previous runtime"]
                  | None => []
                  end)).
      * simpl. rewrite List.filter_app, filter_shutdown_map.
        destruct (errors_Join (runtime_errors x)); simpl; auto using app_nil_r.
      * rewrite Hrun. simpl. rewrite <- !app_assoc. reflexivity.
    + exact H2.
    + apply emitted_app. rewrite H2. simpl. rewrite app_nil_r. reflexivity.
Qed.

Lemma Shutdown_idempotent_witness :
  emitted (runtime.Shutdown 0%nat) Samples.fullWorld
  = map EvShutdown [OwnTracerProvider 1; OwnMeterProvider 2; OwnMetricReader;
                    OwnMetricExporter; OwnTraceExporter; OwnRuntimeMetrics;
                    OwnDiagServer]
  /\ runtime.Shutdown 0%nat (snd (runtime.Shutdown 0%nat Samples.fullWorld))
     = (None, snd (runtime.Shutdown 0%nat Samples.fullWorld))
  /\ runtime.Shutdown 0%nat
       (snd (observe.swapRuntime Samples.fullClient 7%nat Samples.fullWorld))
     = (None, snd (observe.swapRuntime Samples.fullClient 7%nat Samples.fullWorld)).
Proof.
  destruct (Shutdown_idempotent Samples.fullWorld 0%nat Samples.fullRuntime
              eq_refl eq_refl) as (H1 & _ & _ & H2 & _ & H3).
  split; [exact H1|]. split; [exact H2|].
  exact (proj1 (proj2 (H3 Samples.fullClient 7%nat eq_refl))).
Defined.

(* ===================================================================== *)
(** * Reload: the paths of [reloadRuntime]                               *)
(* ===================================================================== *)

Lemma reload_load_fails env c w e :
  observe.loadConfig env (observe.opts c) = Err e ->
  observe.reloadRuntime env c w
  = (c, logged (observe.logger c) LvlError "reload config failed" (reload_entry w)).
Proof.
  intros H. unfold observe.reloadRuntime.
  cbv beta iota zeta delta [bind time_Now emit fst snd]. rewrite H. reflexivity.
Qed.

Lemma reload_digest_fails env c w cfg e :
  observe.loadConfig env (observe.opts c) = Ok cfg ->
  observe.digestOf env cfg = Err e ->
  observe.reloadRuntime env c w
  = (c, logged (observe.logger c) LvlError "hash config failed" (reload_entry w)).
Proof.
  intros H1 H2. unfold observe.reloadRuntime.
  cbv beta iota zeta delta [bind time_Now emit fst snd]. rewrite H1, H2. reflexivity.
Qed.

Lemma reload_unchanged env c w cfg :
  observe.loadConfig env (observe.opts c) = Ok cfg ->
  observe.digestOf env cfg = Ok (observe.configDigest c) ->
  observe.reloadRuntime env c w
  = (c, logged (observe.logger c) LvlDebug "configuration unchanged, skipping reload"
          (reload_entry w)).
Proof.
  intros H1 H2. unfold observe.reloadRuntime.
  cbv beta iota zeta delta [bind time_Now emit fst snd]. rewrite H1, H2.
  rewrite String.eqb_refl. reflexivity.
Qed.

(** The path that builds: what [reloadRuntime] does once the digest is
    known to differ. *)
Lemma reload_builds env c w cfg d :
  observe.loadConfig env (observe.opts c) = Ok cfg ->
  observe.digestOf env cfg = Ok d ->
  d <> observe.configDigest c ->
  let c1 := reload_logger env c cfg in
  let built := runtime.New env cfg (reload_entry w) in
  observe.reloadRuntime env c w
  = match fst built with
    | Err _ => (c1, logged (observe.logger c1) LvlError "runtime rebuild failed"
                      (snd built))
    | Ok r =>
        let inited := runtime.InitMetrics env r (observe.metricsState c1) (snd built) in
        match fst inited with
        | Some _ => (c1, logged (observe.logger c1) LvlError
                           "runtime metrics init failed" (snd inited))
        | None =>
            let swapped := observe.swapRuntime c1 r (snd inited) in
            let c2 := fst swapped in
            (observe.set_configDigest d c2,
             logged (observe.logger c2) LvlInfo "runtime reloaded"
               (snd (runtime.IncrementConfigReloads (observe.metricsState c2)
                       (snd swapped))))
        end
    end.
Proof.
  intros H1 H2 Hne c1 built. unfold observe.reloadRuntime.
  cbv beta iota zeta delta [bind time_Now emit fst snd]. rewrite H1, H2.
  apply String.eqb_neq in Hne. rewrite Hne.
  fold (reload_logger env c cfg). fold c1.
  change (set_events _ w) with (reload_entry w). fold built.
  destruct built as [[r|e] w1]; simpl; [|reflexivity].
  destruct (runtime.InitMetrics env r (observe.metricsState c1) w1) as [[e|] w2];
    simpl; [reflexivity|].
  destruct (observe.swapRuntime c1 r w2) as [c2 w3]; simpl.
  destruct (runtime.IncrementConfigReloads (observe.metricsState c2) w3) as [u w4].
  reflexivity.
Qed.

Lemma reload_logger_fields env c cfg :
  observe.runtime (reload_logger env c cfg) = observe.runtime c
  /\ observe.configDigest (reload_logger env c cfg) = observe.configDigest c
  /\ observe.metricsState (reload_logger env c cfg) = observe.metricsState c
  /\ observe.reloadDebounce (observe.opts (reload_logger env c cfg))
     = observe.reloadDebounce (observe.opts c).
Proof.
  unfold reload_logger.
  destruct (negb _); [destruct (logging_FromConfig _ _)|]; simpl; auto.
Qed.

Lemma filter_swap_free evs :
  Forall lifecycle_free evs -> List.filter is_swap evs = [].
Proof.
  induction 1 as [|e l He _ IH]; simpl; auto.
  destruct e; simpl in *; auto; contradiction.
Qed.

Lemma filter_new_app l k :
  List.filter is_runtime_new (l ++ k)
  = List.filter is_runtime_new l ++ List.filter is_runtime_new k.
Proof. apply List.filter_app. Qed.

Lemma reload_times_app l k :
  observe.reload_times (l ++ k) = observe.reload_times l ++ observe.reload_times k.
Proof. unfold observe.reload_times. apply flat_map_app. Qed.

Lemma reload_times_free evs :
  Forall no_reload evs -> observe.reload_times evs = [].
Proof.
  induction 1 as [|e l He _ IH]; simpl; auto.
  destruct e; simpl in *; auto; contradiction.
Qed.

(** What [swapRuntime] leaves behind. *)
Lemma swapRuntime_run c new w :
  fst (observe.swapRuntime c new w) = observe.set_runtime (Some new) c
  /\ exists evs,
       events (snd (observe.swapRuntime c new w))
       = events w ++ EvSwap (observe.runtime c) new :: evs
       /\ Forall lifecycle_free evs
       /\ metricsHeap (snd (observe.swapRuntime c new w)) = metricsHeap w
       /\ clock (snd (observe.swapRuntime c new w)) = clock w.
Proof.
  unfold observe.swapRuntime.
  cbv beta iota zeta delta [bind emit fst snd].
  destruct (observe.runtime c) as [o|]; [|simpl].
  - pose proof (frame_Shutdown true o
                  (set_events (fun l => l ++ [EvSwap (Some o) new]) w))
      as ([evs [Hev Hfree]] & Hm & Hc & _).
    destruct (runtime.Shutdown o _) as [[e|] w1]; simpl in *.
    + split; [reflexivity|]. exists (evs ++ [EvLog (observe.logger
                 (observe.set_runtime (Some new) c)) LvlError
                 "shutdown previous runtime"]).
      rewrite Hev, <- !app_assoc. simpl. repeat split; auto.
      apply Forall_app; split; auto. repeat constructor.
    + split; [reflexivity|]. exists evs. rewrite Hev, <- app_assoc.
      repeat split; auto.
  - split; [reflexivity|]. exists []. repeat split; auto.
Qed.

Lemma ConfigReloads_heap w w' m :
  metricsHeap w' = metricsHeap w -> runtime.ConfigReloads w' m = runtime.ConfigReloads w m.
Proof. intros H. unfold runtime.ConfigReloads. rewrite H. reflexivity. Qed.

(** Every reload attempt either leaves the client as it was, or swaps. *)
Lemma reload_cases env c w :
  let c' := fst (observe.reloadRuntime env c w) in
  let w' := snd (observe.reloadRuntime env c w) in
  (observe.runtime c' = observe.runtime c
   /\ observe.configDigest c' = observe.configDigest c
   /\ observe.metricsState c' = observe.metricsState c
   /\ metricsHeap w' = metricsHeap w
   /\ List.filter is_swap (emitted (observe.reloadRuntime env c) w) = [])
  \/ (exists cfg d r w1 w2,
        observe.loadConfig env (observe.opts c) = Ok cfg
        /\ observe.digestOf env cfg = Ok d
        /\ d <> observe.configDigest c
        /\ runtime.New env cfg (reload_entry w) = (Ok r, w1)
        /\ runtime.InitMetrics env r (observe.metricsState c) w1 = (None, w2)
        /\ observe.runtime c' = Some r
        /\ observe.configDigest c' = d
        /\ observe.metricsState c' = observe.metricsState c
        /\ metricsHeap w'
           = metricsHeap (snd (runtime.IncrementConfigReloads
                                 (observe.metricsState c) w))
        /\ List.filter is_swap (emitted (observe.reloadRuntime env c) w)
           = [EvSwap (observe.runtime c) r]).
Proof.
  intros c' w'. subst c' w'.
  destruct (observe.loadConfig env (observe.opts c)) as [cfg|e] eqn:Hload.
  2:{ left. rewrite (reload_load_fails env c w e Hload). simpl.
      repeat split; auto.
      erewrite emitted_app
        by (rewrite (reload_load_fails env c w e Hload); simpl;
            rewrite <- app_assoc; reflexivity).
      reflexivity. }
  destruct (observe.digestOf env cfg) as [d|e] eqn:Hdig.
  2:{ left. rewrite (reload_digest_fails env c w cfg e Hload Hdig). simpl.
      repeat split; auto.
      erewrite emitted_app
        by (rewrite (reload_digest_fails env c w cfg e Hload Hdig); simpl;
            rewrite <- app_assoc; reflexivity).
      reflexivity. }
  destruct (String.eqb_spec d (observe.configDigest c)) as [->|Hne].
  { left. rewrite (reload_unchanged env c w cfg Hload Hdig). simpl.
    repeat split; auto.
    erewrite emitted_app
      by (rewrite (reload_unchanged env c w cfg Hload Hdig); simpl;
          rewrite <- app_assoc; reflexivity).
    reflexivity. }
  pose proof (reload_builds env c w cfg d Hload Hdig Hne) as Hrun.
  cbv zeta in Hrun.
  destruct (reload_logger_fields env c cfg) as (Lr & Ld & Lm & _).
  pose proof (frame_New true env cfg (reload_entry w))
    as ([e1 [Ev1 F1]] & M1 & _).
  destruct (runtime.New env cfg (reload_entry w)) as [[r|e] w1] eqn:Hnew;
    simpl in Hrun, Ev1, M1.
  2:{ left. rewrite Hrun. simpl. rewrite M1 by reflexivity.
      repeat split; auto.
      erewrite emitted_app
        by (rewrite Hrun; simpl; rewrite Ev1; simpl; rewrite <- !app_assoc;
            reflexivity).
      simpl. rewrite List.filter_app, (filter_swap_free e1 F1). reflexivity. }
  rewrite Lm in Hrun.
  pose proof (frame_InitMetrics true env r (observe.metricsState c) w1)
    as ([e2 [Ev2 F2]] & M2 & _).
  destruct (runtime.InitMetrics env r (observe.metricsState c) w1) as [[e|] w2]
    eqn:Hinit; simpl in Hrun, Ev2, M2.
  { left. rewrite Hrun. simpl. rewrite M2, M1 by reflexivity.
    repeat split; auto.
    erewrite emitted_app
      by (rewrite Hrun; simpl; rewrite Ev2, Ev1; simpl; rewrite <- !app_assoc;
          reflexivity).
    simpl. rewrite !List.filter_app, (filter_swap_free e1 F1),
      (filter_swap_free e2 F2). reflexivity. }
  right. exists cfg, d, r, w1, w2.
  destruct (swapRuntime_run (reload_logger env c cfg) r w2)
    as (Hc2 & e3 & Ev3 & F3 & M3 & _).
  rewrite Hrun. simpl. rewrite Hc2. simpl. rewrite Lm.
  repeat split; auto.
  - destruct (observe.metricsState c) as [a|]; simpl;
      rewrite M3, M2, M1 by reflexivity; reflexivity.
  - erewrite emitted_app.
    2:{ rewrite Hrun. simpl. rewrite Hc2. simpl.
        assert (Hinc : events (snd (runtime.IncrementConfigReloads
                                      (observe.metricsState c)
                                      (snd (observe.swapRuntime
                                              (reload_logger env c cfg) r w2))))
                       = events (snd (observe.swapRuntime
                                        (reload_logger env c cfg) r w2)))
          by (destruct (observe.metricsState c); reflexivity).
        rewrite Lm, Hinc, Ev3, Ev2, Ev1. simpl. rewrite <- !app_assoc.
        reflexivity. }
    simpl. rewrite !List.filter_app, (filter_swap_free e1 F1),
      (filter_swap_free e2 F2). simpl. rewrite List.filter_app,
      (filter_swap_free e3 F3), Lr. reflexivity.
Qed.

(* ===================================================================== *)
(** * Reload: skipped, failed and completed attempts                     *)
(* ===================================================================== *)

(** C1.  A reload that loads a configuration whose digest equals the
    stored one returns the client as it is, logs the no-op and does
    nothing else: [runtime.New] is not entered, nothing is swapped,
    nothing is allocated, and the heaps and the process-wide providers are
    what they were. *)
Theorem reloadRuntime_unchanged_digest_skips
    (env : Env) (c : observe.Client) (w : World) (cfg : config.Config) :
  observe.loadConfig env (observe.opts c) = Ok cfg ->
  observe.digestOf env cfg = Ok (observe.configDigest c) ->
  let c' := fst (observe.reloadRuntime env c w) in
  let w' := snd (observe.reloadRuntime env c w) in
  let evs := emitted (observe.reloadRuntime env c) w in
  c' = c
  /\ observe.Runtime c' = observe.Runtime c
  /\ evs = [EvReloadRuntime (unixNano (clock w));
            EvLog (observe.logger c) LvlDebug
              "configuration unchanged, skipping reload"]
  /\ List.filter is_runtime_new evs = []
  /\ List.filter is_swap evs = []
  /\ runtimes w' = runtimes w
  /\ statsHeap w' = statsHeap w
  /\ metricsHeap w' = metricsHeap w
  /\ nextAddr w' = nextAddr w
  /\ otelTracerProvider w' = otelTracerProvider w
  /\ otelMeterProvider w' = otelMeterProvider w.
Proof.
  intros Hload Hdig c' w' evs. subst c' w' evs.
  assert (Hev : emitted (observe.reloadRuntime env c) w
                = [EvReloadRuntime (unixNano (clock w));
                   EvLog (observe.logger c) LvlDebug
                     "configuration unchanged, skipping reload"]).
  { apply emitted_app. rewrite (reload_unchanged env c w cfg Hload Hdig).
    simpl. rewrite <- app_assoc. reflexivity. }
  rewrite Hev, (reload_unchanged env c w cfg Hload Hdig). simpl.
  repeat split; reflexivity.
Qed.

Lemma reloadRuntime_unchanged_digest_skips_witness :
  fst (observe.reloadRuntime (Samples.env_ok Samples.cfgA)
         Samples.bootedClient Samples.bootedWorld)
  = Samples.bootedClient
  /\ runtimes (snd (observe.reloadRuntime (Samples.env_ok Samples.cfgA)
                      Samples.bootedClient Samples.bootedWorld))
     = runtimes Samples.bootedWorld.
Proof.
  assert (H1 : observe.loadConfig (Samples.env_ok Samples.cfgA)
                 (observe.opts Samples.bootedClient) = Ok Samples.cfgA)
    by (vm_compute; reflexivity).
  assert (H2 : observe.digestOf (Samples.env_ok Samples.cfgA) Samples.cfgA
               = Ok (observe.configDigest Samples.bootedClient))
    by (vm_compute; reflexivity).
  destruct (reloadRuntime_unchanged_digest_skips (Samples.env_ok Samples.cfgA)
              Samples.bootedClient Samples.bootedWorld Samples.cfgA H1 H2)
    as (Hc & _ & _ & _ & _ & Hr & _).
  split; [exact Hc | exact Hr].
Defined.

(** C2.  A reload attempt in which the load, the digest, the build of
    the new runtime or its metrics initialisation fails leaves the current
    runtime reference, the stored digest and the reload counter as they
    were, and swaps nothing. *)
Theorem reloadRuntime_failure_keeps_current
    (env : Env) (c : observe.Client) (w : World) :
  reload_fails env c w ->
  let c' := fst (observe.reloadRuntime env c w) in
  let w' := snd (observe.reloadRuntime env c w) in
  observe.runtime c' = observe.runtime c
  /\ observe.configDigest c' = observe.configDigest c
  /\ observe.metricsState c' = observe.metricsState c
  /\ runtime.ConfigReloads w' (observe.metricsState c')
     = runtime.ConfigReloads w (observe.metricsState c)
  /\ List.filter is_swap (emitted (observe.reloadRuntime env c) w) = [].
Proof.
  intros Hfail c' w'. subst c' w'.
  destruct (reload_cases env c w)
    as [(Hr & Hd & Hm & Hh & Hs)
       |(cfg & d & r & w1 & w2 & Hload & Hdig & Hne & Hnew & Hinit & _)].
  - rewrite Hm. repeat split; auto using ConfigReloads_heap.
  - exfalso. destruct Hfail as [e He|cfg' e Hl He|cfg' e w1' Hl Hn|cfg' r' w1' e w2' Hl Hn Hi].
    + congruence.
    + congruence.
    + assert (cfg' = cfg) by congruence. subst cfg'. congruence.
    + assert (cfg' = cfg) by congruence. subst cfg'.
      assert (r' = r /\ w1' = w1) as [-> ->] by (split; congruence).
      congruence.
Qed.

Lemma reloadRuntime_failure_keeps_current_witness :
  observe.runtime (fst (observe.reloadRuntime (Samples.env_ok Samples.cfgZero)
                          Samples.bootedClient Samples.bootedWorld))
  = observe.runtime Samples.bootedClient
  /\ observe.runtime (fst (observe.reloadRuntime Samples.env_load_fails
                             Samples.bootedClient Samples.bootedWorld))
     = observe.runtime Samples.bootedClient.
Proof.
  split.
  - apply (reloadRuntime_failure_keeps_current (Samples.env_ok Samples.cfgZero)
             Samples.bootedClient Samples.bootedWorld).
    eapply fails_build with (cfg := Samples.cfgZero).
    + vm_compute; reflexivity.
    + vm_compute; reflexivity.
  - apply (reloadRuntime_failure_keeps_current Samples.env_load_fails
             Samples.bootedClient Samples.bootedWorld).
    eapply fails_load. vm_compute; reflexivity.
Defined.

Lemma Init_counter_zero env settings w c w' :
  observe.Init env settings w = (Ok c, w') ->
  exists a, observe.metricsState c = Some a
            /\ metricsHeap w' !! a = Some {| rt.configReloads := 0 |}.
Proof.
  unfold observe.Init, bindR, wrapping.
  cbv beta iota zeta delta [bind ret fst snd].
  destruct (observe.loadConfig env settings) as [cfg|e]; simpl; [|discriminate].
  unfold runtime.NewMetricsState.
  cbv beta iota zeta delta [bind ret fresh upd_metrics fst snd].
  set (w0 := set_metricsHeap _ _).
  pose proof (frame_New true env cfg w0) as (_ & M1 & _).
  destruct (runtime.New env cfg w0) as [[r|e] w1]; simpl in *; [|discriminate].
  pose proof (frame_InitMetrics true env r (Some (nextAddr w)) w1) as (_ & M2 & _).
  destruct (runtime.InitMetrics env r (Some (nextAddr w)) w1) as [[e|] w2];
    simpl in *; [discriminate|].
  destruct (observe.digestOf env cfg) as [d|e]; simpl; [|discriminate].
  intros [= <- <-]. exists (nextAddr w). split; [reflexivity|].
  rewrite M2, M1 by reflexivity. unfold w0. simpl. apply lookup_insert_eq.
Qed.

(** A reload that swaps, as the statements name it. *)
Lemma reload_swaps_run env c w cfg d r w1 w2 :
  observe.loadConfig env (observe.opts c) = Ok cfg ->
  observe.digestOf env cfg = Ok d ->
  d <> observe.configDigest c ->
  runtime.New env cfg (reload_entry w) = (Ok r, w1) ->
  runtime.InitMetrics env r (observe.metricsState c) w1 = (None, w2) ->
  let c1 := reload_logger env c cfg in
  observe.reloadRuntime env c w
  = (observe.set_configDigest d (observe.set_runtime (Some r) c1),
     logged (observe.logger c1) LvlInfo "runtime reloaded"
       (snd (runtime.IncrementConfigReloads (observe.metricsState c)
               (snd (observe.swapRuntime c1 r w2))))).
Proof.
  intros Hload Hdig Hne Hnew Hinit c1.
  pose proof (reload_builds env c w cfg d Hload Hdig Hne) as Hrun.
  cbv zeta in Hrun.
  destruct (reload_logger_fields env c cfg) as (_ & _ & Lm & _).
  rewrite Lm, Hnew in Hrun. cbn [fst snd] in Hrun.
  rewrite Hinit in Hrun. cbn [fst snd] in Hrun.
  rewrite Hrun. rewrite (proj1 (swapRuntime_run _ _ _)).
  cbn [observe.set_runtime observe.metricsState observe.logger].
  rewrite Lm. reflexivity.
Qed.

(** C8.  The reload counter starts at zero after [Init].  A reload
    attempt whose configuration loads with a digest other than the stored
    one, and whose runtime and metrics are built, swaps once, adds exactly
    one to the counter and stores the digest of the configuration it
    applied.  An attempt that fails, or that finds the stored digest,
    leaves counter and digest as they were.  These are all the cases:
    every attempt either swaps, with the counter one higher and the new
    digest stored, or does not swap and leaves both; so the counter never
    decreases. *)
Theorem reload_counter_counts_swaps :
  (forall env settings w c w',
     observe.Init env settings w = (Ok c, w') ->
     runtime.ConfigReloads w' (observe.metricsState c) = 0)
  /\ (forall env c w a n,
        observe.metricsState c = Some a ->
        metricsHeap w !! a = Some {| rt.configReloads := n |} ->
        int64_min <= n < int64_max ->
        let c' := fst (observe.reloadRuntime env c w) in
        let w' := snd (observe.reloadRuntime env c w) in
        let swaps := List.filter is_swap (emitted (observe.reloadRuntime env c) w) in
        observe.metricsState c' = Some a
        /\ n <= runtime.ConfigReloads w' (Some a)
        /\ ((swaps = []
             /\ runtime.ConfigReloads w' (Some a) = n
             /\ observe.configDigest c' = observe.configDigest c
             /\ observe.runtime c' = observe.runtime c)
            \/ (exists cfg new,
                  swaps = [EvSwap (observe.runtime c) new]
                  /\ observe.runtime c' = Some new
                  /\ runtime.ConfigReloads w' (Some a) = n + 1
                  /\ observe.loadConfig env (observe.opts c) = Ok cfg
                  /\ observe.digestOf env cfg = Ok (observe.configDigest c')
                  /\ observe.configDigest c' <> observe.configDigest c)))
  /\ (forall env c w cfg d r w1 w2 a n,
        observe.loadConfig env (observe.opts c) = Ok cfg ->
        observe.digestOf env cfg = Ok d ->
        d <> observe.configDigest c ->
        runtime.New env cfg (reload_entry w) = (Ok r, w1) ->
        runtime.InitMetrics env r (observe.metricsState c) w1 = (None, w2) ->
        observe.metricsState c = Some a ->
        metricsHeap w !! a = Some {| rt.configReloads := n |} ->
        int64_min <= n < int64_max ->
        let c' := fst (observe.reloadRuntime env c w) in
        let w' := snd (observe.reloadRuntime env c w) in
        observe.runtime c' = Some r
        /\ observe.configDigest c' = d
        /\ runtime.ConfigReloads w' (observe.metricsState c') = n + 1
        /\ List.filter is_swap (emitted (observe.reloadRuntime env c) w)
           = [EvSwap (observe.runtime c) r])
  /\ (forall env c w,
        reload_fails env c w
        \/ (exists cfg,
              observe.loadConfig env (observe.opts c) = Ok cfg
              /\ observe.digestOf env cfg = Ok (observe.configDigest c)) ->
        let c' := fst (observe.reloadRuntime env c w) in
        let w' := snd (observe.reloadRuntime env c w) in
        runtime.ConfigReloads w' (observe.metricsState c')
        = runtime.ConfigReloads w (observe.metricsState c)
        /\ observe.configDigest c' = observe.configDigest c
        /\ observe.runtime c' = observe.runtime c).
Proof.
  split; [|split; [|split]].
  - intros env settings w c w' Hinit.
    destruct (Init_counter_zero env settings w c w' Hinit) as (a & Ha & Hcell).
    rewrite Ha. unfold runtime.ConfigReloads. rewrite Hcell. reflexivity.
  - intros env c w a n Ha Hcell Hn c' w' swaps. subst c' w' swaps.
    assert (Hbefore : runtime.ConfigReloads w (Some a) = n)
      by (unfold runtime.ConfigReloads; rewrite Hcell; reflexivity).
    destruct (reload_cases env c w)
      as [(Hr & Hd & Hm & Hh & Hs)
         |(cfg & d & r & w1 & w2 & Hload & Hdig & Hne & Hnew & Hinit
           & Hr & Hd & Hm & Hh & Hs)].
    + assert (Hafter : runtime.ConfigReloads
                         (snd (observe.reloadRuntime env c w)) (Some a) = n)
        by (rewrite (ConfigReloads_heap _ _ _ Hh); exact Hbefore).
      split; [congruence|]. split; [lia|]. left. auto.
    + assert (Hafter : runtime.ConfigReloads
                         (snd (observe.reloadRuntime env c w)) (Some a) = n + 1).
      { unfold runtime.ConfigReloads. rewrite Hh, Ha. simpl.
        rewrite lookup_alter_eq, Hcell. simpl.
        apply atomic_Add_exact. lia. }
      split; [congruence|]. split; [lia|]. right. exists cfg, r.
      rewrite Hd. repeat split; auto.
  - intros env c w cfg d r w1 w2 a n Hload Hdig Hne Hnew Hinit Ha Hcell Hn c' w'.
    subst c' w'.
    destruct (reload_cases env c w)
      as [(Hr & Hd & Hm & Hh & Hs)
         |(cfg' & d' & r' & w1' & w2' & Hload' & Hdig' & Hne' & Hnew' & Hinit'
           & Hr & Hd & Hm & Hh & Hs)].
    + exfalso. apply Hne. rewrite <- Hd.
      rewrite (reload_swaps_run env c w cfg d r w1 w2 Hload Hdig Hne Hnew Hinit).
      reflexivity.
    + assert (Ec : cfg' = cfg) by congruence. rewrite Ec in Hdig', Hnew'.
      assert (Ed : d' = d) by congruence.
      assert (Er : r' = r) by congruence.
      split; [rewrite Hr, Er; reflexivity|]. split; [rewrite Hd; exact Ed|].
      split; [|rewrite Hs, Er; reflexivity].
      rewrite Hm, Ha. unfold runtime.ConfigReloads. rewrite Hh, Ha. simpl.
      rewrite lookup_alter_eq, Hcell. simpl.
      apply atomic_Add_exact. lia.
  - intros env c w Hwhy c' w'. subst c' w'.
    destruct (reload_cases env c w)
      as [(Hr & Hd & Hm & Hh & Hs)
         |(cfg & d & r & w1 & w2 & Hload & Hdig & Hne & Hnew & Hinit & _)].
    + rewrite Hm. split; [apply ConfigReloads_heap; exact Hh|]. split; assumption.
    + exfalso.
      destruct Hwhy as [[e He|cfg' e Hl He|cfg' e w1' Hl Hn|cfg' r' w1' e w2' Hl Hn Hi]
                       |(cfg' & Hl & Hsame)].
      * congruence.
      * congruence.
      * assert (cfg' = cfg) by congruence. subst cfg'. congruence.
      * assert (cfg' = cfg) by congruence. subst cfg'.
        assert (r' = r /\ w1' = w1) as [-> ->] by (split; congruence).
        congruence.
      * assert (cfg' = cfg) by congruence. subst cfg'. congruence.
Qed.

Lemma reload_counter_counts_swaps_witness :
  runtime.ConfigReloads Samples.bootedWorld (observe.metricsState Samples.bootedClient)
  = 0
  /\ runtime.ConfigReloads
       (snd (observe.reloadRuntime (Samples.env_ok Samples.cfgB)
               Samples.bootedClient Samples.bootedWorld))
       (observe.metricsState
          (fst (observe.reloadRuntime (Samples.env_ok Samples.cfgB)
                  Samples.bootedClient Samples.bootedWorld)))
     = 0 + 1
  /\ observe.configDigest
       (fst (observe.reloadRuntime (Samples.env_ok Samples.cfgB)
               Samples.bootedClient Samples.bootedWorld))
     = "trace_id_ratio/observe-service"
  /\ runtime.ConfigReloads
       (snd (observe.reloadRuntime (Samples.env_ok Samples.cfgZero)
               Samples.bootedClient Samples.bootedWorld))
       (observe.metricsState
          (fst (observe.reloadRuntime (Samples.env_ok Samples.cfgZero)
                  Samples.bootedClient Samples.bootedWorld)))
     = runtime.ConfigReloads Samples.bootedWorld
         (observe.metricsState Samples.bootedClient).
Proof.
  destruct reload_counter_counts_swaps as (Hinit & _ & Hswap & Hkeep).
  split; [|split; [|split]].
  - apply (Hinit (Samples.env_ok Samples.cfgA) Samples.settings0 Samples.world0
             Samples.bootedClient Samples.bootedWorld).
    vm_compute; reflexivity.
  - apply (Hswap (Samples.env_ok Samples.cfgB) Samples.bootedClient Samples.bootedWorld
             Samples.cfgB "trace_id_ratio/observe-service" 8%nat
             (snd (runtime.New (Samples.env_ok Samples.cfgB) Samples.cfgB
                     (reload_entry Samples.bootedWorld)))
             (snd (runtime.InitMetrics (Samples.env_ok Samples.cfgB) 8%nat (Some 0%nat)
                     (snd (runtime.New (Samples.env_ok Samples.cfgB) Samples.cfgB
                             (reload_entry Samples.bootedWorld)))))
             0%nat 0).
    + vm_compute; reflexivity.
    + vm_compute; reflexivity.
    + vm_compute. discriminate.
    + vm_compute; reflexivity.
    + vm_compute; reflexivity.
    + vm_compute; reflexivity.
    + vm_compute; reflexivity.
    + split; [vm_compute; discriminate | vm_compute; reflexivity].
  - apply (Hswap (Samples.env_ok Samples.cfgB) Samples.bootedClient Samples.bootedWorld
             Samples.cfgB "trace_id_ratio/observe-service" 8%nat
             (snd (runtime.New (Samples.env_ok Samples.cfgB) Samples.cfgB
                     (reload_entry Samples.bootedWorld)))
             (snd (runtime.InitMetrics (Samples.env_ok Samples.cfgB) 8%nat (Some 0%nat)
                     (snd (runtime.New (Samples.env_ok Samples.cfgB) Samples.cfgB
                             (reload_entry Samples.bootedWorld)))))
             0%nat 0).
    + vm_compute; reflexivity.
    + vm_compute; reflexivity.
    + vm_compute. discriminate.
    + vm_compute; reflexivity.
    + vm_compute; reflexivity.
    + vm_compute; reflexivity.
    + vm_compute; reflexivity.
    + split; [vm_compute; discriminate | vm_compute; reflexivity].
  - apply (Hkeep (Samples.env_ok Samples.cfgZero) Samples.bootedClient
             Samples.bootedWorld).
    left.
    eapply fails_build with (cfg := Samples.cfgZero).
    + vm_compute; reflexivity.
    + vm_compute; reflexivity.
Defined.

(* ===================================================================== *)
(** * Process-wide providers                                             *)
(* ===================================================================== *)

Lemma New_late_failure env cfg w otlp te me res s :
  config.OTLP (config.Exporters cfg) = Some otlp ->
  config.Endpoint otlp <> "" ->
  newOTLPTraceExporter env otlp = Ok te ->
  newOTLPMetricExporter env otlp = Ok me ->
  buildResource env (config.Service cfg) = Ok res ->
  runtime.samplerFromConfig (config.Sampling cfg) = Ok s ->
  later_step_fails env cfg ->
  is_Err (fst (runtime.New env cfg w))
  /\ otelTracerProvider (snd (runtime.New env cfg w)) = Some (S (nextAddr w))
  /\ otelMeterProvider (snd (runtime.New env cfg w)) = Some (S (S (nextAddr w)))
  /\ runtimes (snd (runtime.New env cfg w)) = runtimes w
  /\ emitted (runtime.New env cfg) w
     = [EvRuntimeNew cfg; EvNewTraceExporter; EvNewMetricExporter;
        EvNewProvider (S (nextAddr w)); EvNewProvider (S (S (nextAddr w)));
        EvSetTracerProvider (S (nextAddr w));
        EvSetMeterProvider (S (S (nextAddr w)))].
Proof.
  intros Hotlp Hend Hte Hme Hres Hs Hlate.
  apply String.eqb_neq in Hend.
  assert (Hrun : exists e,
             runtime.New env cfg w
             = (Err e,
                set_otelMeterProvider (Some (S (S (nextAddr w))))
                  (set_otelTracerProvider (Some (S (nextAddr w)))
                     (set_events
                        (fun l => l ++
                           [EvRuntimeNew cfg; EvNewTraceExporter; EvNewMetricExporter;
                            EvNewProvider (S (nextAddr w));
                            EvNewProvider (S (S (nextAddr w)));
                            EvSetTracerProvider (S (nextAddr w));
                            EvSetMeterProvider (S (S (nextAddr w)))])
                        (set_nextAddr (S (S (S (nextAddr w))))
                           (set_statsHeap
                              (insert (nextAddr w) (runtime.newTraceExporterStats otlp))
                              w)))))).
  { unfold runtime.New, runtime.newExporterBundle, runtime.buildTracerProvider,
      runtime.buildMeterProvider, runtime.startDiagnosticsServer,
      runtime.otel_SetTracerProvider, runtime.otel_SetMeterProvider,
      bindR, wrapping, wrapErr.
    cbv beta iota zeta delta [bind ret emit fresh time_Now upd_stats upd_runtimes
                                fst snd].
    rewrite Hotlp, Hend, Hte. cbv beta iota zeta delta [fst snd].
    rewrite Hme. cbv beta iota zeta delta [fst snd]. rewrite Hres.
    cbv beta iota zeta delta [fst snd]. rewrite Hs.
    cbv beta iota zeta delta [fst snd].
    unfold later_step_fails in Hlate.
    destruct w as [rs sh mh na otp omp ck evs].
    cbv beta iota zeta delta
      [set_events set_nextAddr set_statsHeap set_otelTracerProvider
       set_otelMeterProvider set_runtimes runtimes statsHeap metricsHeap nextAddr
       otelTracerProvider otelMeterProvider clock events fst snd].
    rewrite <- !app_assoc. cbn [app].
    destruct (config.HTTPEnabled _) eqn:F1;
      [destruct (http_NewMiddleware env _) eqn:R1|];
      (destruct (config.MessagingEnabled _) eqn:F2;
       [destruct (messaging_NewHelper env) eqn:R2|]);
      (destruct (config.WorkerEnabled _) eqn:F3;
       [destruct (worker_NewHelper env) eqn:R3|]);
      (destruct (config.DiagEnabled _) eqn:F4;
       [destruct (diagnostics_Start env _) eqn:R4|]);
      try (eexists; reflexivity);
      exfalso; cbn [is_Err] in Hlate; intuition discriminate. }
  destruct Hrun as [e Hrun].
  split; [rewrite Hrun; exact I|].
  split; [rewrite Hrun; reflexivity|].
  split; [rewrite Hrun; reflexivity|].
  split; [rewrite Hrun; reflexivity|].
  apply emitted_app. rewrite Hrun. reflexivity.
Qed.

(** C9.  When the exporters, the resource and the sampler can be built
    and a later step of [runtime.New] fails, [New] returns an error and
    stores no runtime, yet the process-wide default tracer and meter
    providers are by then the two providers this attempt built (fresh
    identities, owned by no runtime).  A reload that fails this way keeps
    the client's current runtime and digest and still leaves those
    providers registered. *)
Theorem New_registers_before_late_failure
    (env : Env) (cfg : config.Config) (w : World)
    (otlp : config.OTLPConfig) (te : SpanExporter) (me : MetricExporter)
    (res : nat) (s : Sampler) :
  config.OTLP (config.Exporters cfg) = Some otlp ->
  config.Endpoint otlp <> "" ->
  newOTLPTraceExporter env otlp = Ok te ->
  newOTLPMetricExporter env otlp = Ok me ->
  buildResource env (config.Service cfg) = Ok res ->
  runtime.samplerFromConfig (config.Sampling cfg) = Ok s ->
  later_step_fails env cfg ->
  let w' := snd (runtime.New env cfg w) in
  is_Err (fst (runtime.New env cfg w))
  /\ runtimes w' = runtimes w
  /\ otelTracerProvider w' = Some (S (nextAddr w))
  /\ otelMeterProvider w' = Some (S (S (nextAddr w)))
  /\ (nextAddr w < S (nextAddr w))%nat
  /\ List.filter is_shutdown (emitted (runtime.New env cfg) w) = []
  /\ (forall c d,
        observe.loadConfig env (observe.opts c) = Ok cfg ->
        observe.digestOf env cfg = Ok d ->
        d <> observe.configDigest c ->
        let c2 := fst (observe.reloadRuntime env c w) in
        let w2 := snd (observe.reloadRuntime env c w) in
        observe.runtime c2 = observe.runtime c
        /\ observe.configDigest c2 = observe.configDigest c
        /\ runtimes w2 = runtimes w
        /\ otelTracerProvider w2 = Some (S (nextAddr w))
        /\ otelMeterProvider w2 = Some (S (S (nextAddr w)))).
Proof.
  intros Hotlp Hend Hte Hme Hres Hs Hlate w'. subst w'.
  destruct (New_late_failure env cfg w otlp te me res s
              Hotlp Hend Hte Hme Hres Hs Hlate) as (He & Htp & Hmp & Hrt & Hev).
  split; [exact He|]. split; [exact Hrt|]. split; [exact Htp|].
  split; [exact Hmp|]. split; [lia|]. split.
  - rewrite Hev. reflexivity.
  - intros c d Hload Hdig Hne c2 w2. subst c2 w2.
    destruct (New_late_failure env cfg (reload_entry w) otlp te me res s
                Hotlp Hend Hte Hme Hres Hs Hlate) as (He' & Htp' & Hmp' & Hrt' & _).
    pose proof (reload_builds env c w cfg d Hload Hdig Hne) as Hrun.
    cbv zeta in Hrun.
    destruct (reload_logger_fields env c cfg) as (Lr & Ld & Lm & _).
    destruct (runtime.New env cfg (reload_entry w)) as [[r|e] w1];
      simpl in *; [contradiction|].
    rewrite Hrun. simpl. repeat split; auto.
Qed.

Lemma New_registers_before_late_failure_witness :
  otelTracerProvider Samples.bootedWorld = Some 2%nat
  /\ observe.runtime
       (fst (observe.reloadRuntime (Samples.env_diag_fails Samples.cfgB)
               Samples.bootedClient Samples.bootedWorld))
     = observe.runtime Samples.bootedClient
  /\ otelTracerProvider
       (snd (observe.reloadRuntime (Samples.env_diag_fails Samples.cfgB)
               Samples.bootedClient Samples.bootedWorld))
     = Some 6%nat.
Proof.
  split; [vm_compute; reflexivity|].
  assert (Hlate : later_step_fails (Samples.env_diag_fails Samples.cfgB) Samples.cfgB).
  { right; right; right. split; [reflexivity | exact I]. }
  destruct (New_registers_before_late_failure
              (Samples.env_diag_fails Samples.cfgB) Samples.cfgB Samples.bootedWorld
              Samples.otlp Samples.healthyExporter {| me_Shutdown := None |} 0%nat
              (ParentBased (TraceIDRatioBased Samples.f64_quarter))
              eq_refl ltac:(discriminate) eq_refl eq_refl eq_refl eq_refl Hlate)
    as (_ & _ & _ & _ & _ & _ & Hreload).
  destruct (Hreload Samples.bootedClient "trace_id_ratio/observe-service")
    as (Hr & _ & _ & Htp & _).
  - vm_compute; reflexivity.
  - vm_compute; reflexivity.
  - vm_compute. discriminate.
  - split; [exact Hr|]. rewrite Htp. vm_compute; reflexivity.
Defined.

(* ===================================================================== *)
(** * Reload time of a runtime                                           *)
(* ===================================================================== *)

Lemma New_ok_stores env cfg w r w' :
  runtime.New env cfg w = (Ok r, w') ->
  exists x, runtimes w' !! r = Some x
            /\ rt.lastReload x = rt.startTime x
            /\ rt.startTime x = Time_UTC (clock w)
            /\ rt.cfg x = cfg
            /\ rt.once x = false.
Proof.
  pose proof (frame_newExporterBundle true env (config.Exporters cfg)
                (set_events (fun l => l ++ [EvRuntimeNew cfg]) w)) as (_ & _ & C1 & _).
  unfold runtime.New, bindR, wrapping, runtime.startDiagnosticsServer,
    runtime.otel_SetTracerProvider, runtime.otel_SetMeterProvider.
  cbv beta iota zeta delta [bind ret emit time_Now fresh upd_runtimes wrapErr].
  destruct (runtime.newExporterBundle env (config.Exporters cfg) _) as [[b|e] w1];
    [|discriminate].
  destruct (buildResource env _) as [res|e]; [|discriminate].
  pose proof (frame_buildTracerProvider true env cfg res (rt.traceExporter b) w1)
    as (_ & _ & C2 & _).
  destruct (runtime.buildTracerProvider env cfg res _ w1) as [[tp|e] w2];
    [|discriminate].
  pose proof (frame_buildMeterProvider true env res (rt.metricReader b) w2)
    as (_ & _ & C3 & _).
  destruct (runtime.buildMeterProvider env res _ w2) as [mp w3].
  simpl in C1, C2, C3.
  destruct (config.HTTPEnabled _);
    [destruct (http_NewMiddleware env _); [|discriminate]|];
    (destruct (config.MessagingEnabled _);
     [destruct (messaging_NewHelper env); [|discriminate]|]);
    (destruct (config.WorkerEnabled _);
     [destruct (worker_NewHelper env); [|discriminate]|]);
    (destruct (config.DiagEnabled _);
     [destruct (diagnostics_Start env _); [|discriminate]|]);
    intros [= <- <-]; (eexists; split; [apply lookup_insert_eq|]);
    cbn [clock set_otelMeterProvider set_otelTracerProvider set_events];
    rewrite C3, C2, C1;
    destruct (config.GRPCEnabled _), (config.SQLEnabled _);
    repeat split; reflexivity.
Qed.

Lemma frame_NewMetricsState P : frame P false runtime.NewMetricsState.
Proof. unfold runtime.NewMetricsState. frame_walk. Qed.

Lemma frame_IncrementConfigReloads P m :
  frame P false (runtime.IncrementConfigReloads m).
Proof. unfold runtime.IncrementConfigReloads. frame_walk. Qed.

Ltac frame_any :=
  first [ apply frame_IncrementConfigReloads
        | apply frame_NewMetricsState
        | eapply frame_weaken; [| apply (frame_New true)]
        | eapply frame_weaken; [| apply (frame_InitMetrics true)]
        | eapply frame_weaken; [| apply (frame_swapRuntime true)]
        | eapply frame_weaken; [| apply (frame_Shutdown true)] ];
  intros; exact I.

Lemma frame_reloadRuntime env c :
  frame (fun _ => True) false (observe.reloadRuntime env c).
Proof.
  unfold observe.reloadRuntime, observe.log. frame_walk; frame_any.
Qed.

Lemma frame_Init env settings :
  frame (fun _ => True) false (observe.Init env settings).
Proof.
  unfold observe.Init. frame_walk; frame_any.
Qed.

Lemma reload_time_inv_runtimes w w' :
  runtimes w' = runtimes w -> reload_time_inv w -> reload_time_inv w'.
Proof. intros E Inv r x. rewrite E. apply Inv. Qed.

Lemma watchLoop_step_inv envs target s i w :
  reload_time_inv w ->
  reload_time_inv (snd (observe.watchLoop_step envs target s i w)).
Proof.
  intros Inv.
  assert (Hreload : forall t lg msg c,
             reload_time_inv
               (snd (observe.reloadRuntime (envs t) c
                       (logged lg LvlInfo msg (set_clock (mkTime t LocLocal) w))))).
  { intros t lg msg c. apply (frame_reloadRuntime (envs t) c).
    eapply reload_time_inv_runtimes; [|exact Inv]. reflexivity. }
  destruct i as [|t e| |t|t e|]; try exact Inv;
    unfold observe.watchLoop_step, observe.log;
    cbv beta iota zeta delta [bind observe.at_time ret emit].
  - destruct (negb _); [exact Inv|]. destruct (_ =? 0); [exact Inv|].
    destruct (_ <=? 0); [|exact Inv].
    specialize (Hreload t (observe.logger (observe.client s))
                  "configuration change detected" (observe.client s)).
    unfold logged in Hreload.
    destruct (observe.reloadRuntime _ _ _) as [c' w']. exact Hreload.
  - destruct (negb (observe.C _)); [exact Inv|].
    destruct (negb (observe.pending s)); [exact Inv|].
    specialize (Hreload t (observe.logger (observe.client s))
                  "configuration change detected" (observe.client s)).
    unfold logged in Hreload.
    destruct (observe.reloadRuntime _ _ _) as [c' w']. exact Hreload.
Qed.

Lemma watchLoop_inv envs target inputs :
  forall s w,
    reload_time_inv w ->
    reload_time_inv (snd (observe.watchLoop envs target s inputs w)).
Proof.
  induction inputs as [|i rest IH]; intros s w Inv; [exact Inv|].
  cbn [observe.watchLoop]. unfold bind.
  pose proof (watchLoop_step_inv envs target s i w Inv) as Hstep.
  destruct (observe.watchLoop_step envs target s i w) as [[s'| |] w'];
    simpl in Hstep; auto.
Qed.

Lemma reachable_reload_time_inv w : reachable w -> reload_time_inv w.
Proof.
  induction 1 as [t|w t _ IH|w env st _ IH|w env cfg _ IH|w env r st _ IH
                 |w env c _ IH|w r _ IH|w s spans _ IH|w envs target s inputs _ IH].
  - intros r x. simpl. rewrite lookup_empty. discriminate.
  - exact IH.
  - apply (frame_Init env st w); exact IH.
  - apply (frame_New true env cfg w); exact IH.
  - apply (frame_InitMetrics true env r st w); exact IH.
  - apply (frame_reloadRuntime env c w); exact IH.
  - apply (frame_Shutdown true r w); exact IH.
  - apply (frame_ExportSpans true s spans w); exact IH.
  - apply watchLoop_inv; exact IH.
Qed.

(** [Snapshot] projects the two times as they are stored. *)
Lemma Snapshot_projects_times w x :
  runtime.StartTime (runtime.Snapshot w x) = rt.startTime x
  /\ runtime.LastReloadTime (runtime.Snapshot w x) = rt.lastReload x.
Proof. split; reflexivity. Qed.

(** C10.  [New] stores the runtime it returns with its last-reload time
    equal to its start time, and no operation of the package ([Init],
    [New], [InitMetrics], [reloadRuntime], the watch loop, [Shutdown],
    [ExportSpans]) changes either afterwards: in every store the package
    can reach, every snapshot of every runtime has
    [LastReloadTime = StartTime]. *)
Theorem lastReload_is_startTime :
  (forall env cfg w r w',
     runtime.New env cfg w = (Ok r, w') ->
     exists x, runtimes w' !! r = Some x
               /\ rt.lastReload x = rt.startTime x
               /\ rt.startTime x = Time_UTC (clock w))
  /\ (forall w,
        reachable w ->
        forall r x,
          runtimes w !! r = Some x ->
          rt.lastReload x = rt.startTime x
          /\ runtime.LastReloadTime (runtime.Snapshot w x)
             = runtime.StartTime (runtime.Snapshot w x)).
Proof.
  split.
  - intros env cfg w r w' Hnew.
    destruct (New_ok_stores env cfg w r w' Hnew) as (x & Hx & Hl & Hs & _).
    exists x. auto.
  - intros w Hreach r x Hx.
    pose proof (reachable_reload_time_inv w Hreach r x Hx) as Hl.
    split; [exact Hl|]. simpl. exact Hl.
Qed.

Lemma lastReload_is_startTime_witness :
  (exists x,
     runtimes (snd (runtime.New (Samples.env_ok Samples.cfgA) Samples.cfgA
                      Samples.world0)) !! 3%nat = Some x
     /\ rt.lastReload x = rt.startTime x)
  /\ match runtimes Samples.bootedWorld !! 4%nat with
     | Some x =>
         runtime.LastReloadTime (runtime.Snapshot Samples.bootedWorld x)
         = runtime.StartTime (runtime.Snapshot Samples.bootedWorld x)
     | None => False
     end.
Proof.
  destruct lastReload_is_startTime as [Hnew Hreach].
  split.
  - destruct (Hnew (Samples.env_ok Samples.cfgA) Samples.cfgA Samples.world0 3%nat
                (snd (runtime.New (Samples.env_ok Samples.cfgA) Samples.cfgA
                        Samples.world0)))
      as (x & Hx & Hl & _).
    + vm_compute; reflexivity.
    + exists x. split; [exact Hx | exact Hl].
  - assert (Hr : reachable Samples.bootedWorld).
    { unfold Samples.bootedWorld. apply reach_Init. apply reach_empty. }
    assert (Hsome : exists x, runtimes Samples.bootedWorld !! 4%nat = Some x)
      by (vm_compute; eexists; reflexivity).
    destruct Hsome as [x Hx]. rewrite Hx.
    exact (proj2 (Hreach Samples.bootedWorld Hr 4%nat x Hx)).
Defined.

(* ===================================================================== *)
(** * The watch loop                                                     *)
(* ===================================================================== *)

Lemma lifecycle_free_no_reload e : lifecycle_free e -> no_reload e.
Proof. destruct e; simpl; auto. Qed.

Ltac frame_quiet :=
  first [ apply frame_IncrementConfigReloads
        | eapply frame_weaken; [| apply (frame_New true)]
        | eapply frame_weaken; [| apply (frame_InitMetrics true)]
        | eapply frame_weaken; [| apply (frame_swapRuntime true)] ];
  auto using lifecycle_free_no_reload.

Lemma marks_head {A} (body : M A) w :
  frame no_reload false body ->
  exists evs,
    events (snd (bind time_Now
                   (fun now => bind (emit (EvReloadRuntime (unixNano now)))
                                    (fun _ => body)) w))
    = events w ++ EvReloadRuntime (unixNano (clock w)) :: evs
    /\ Forall no_reload evs.
Proof.
  intros F. cbv beta iota zeta delta [bind time_Now emit].
  destruct (F (set_events (fun l => l ++ [EvReloadRuntime (unixNano (clock w))]) w))
    as ([evs [E Fo]] & _).
  exists evs. rewrite E. simpl. rewrite <- app_assoc. auto.
Qed.

(** A reload attempt leaves exactly one entry marker, with the time at
    which it started. *)
Lemma reloadRuntime_marks env c w :
  exists evs,
    events (snd (observe.reloadRuntime env c w))
    = events w ++ EvReloadRuntime (unixNano (clock w)) :: evs
    /\ Forall no_reload evs.
Proof.
  unfold observe.reloadRuntime. apply marks_head.
  unfold observe.log. frame_walk; frame_quiet.
Qed.

Lemma reload_keeps_debounce env c w :
  observe.reloadDebounce (observe.opts (fst (observe.reloadRuntime env c w)))
  = observe.reloadDebounce (observe.opts c).
Proof.
  destruct (observe.loadConfig env (observe.opts c)) as [cfg|e] eqn:Hload;
    [|rewrite (reload_load_fails env c w e Hload); reflexivity].
  destruct (observe.digestOf env cfg) as [d|e] eqn:Hdig;
    [|rewrite (reload_digest_fails env c w cfg e Hload Hdig); reflexivity].
  destruct (String.eqb_spec d (observe.configDigest c)) as [->|Hne];
    [rewrite (reload_unchanged env c w cfg Hload Hdig); reflexivity|].
  rewrite (reload_builds env c w cfg d Hload Hdig Hne). cbv zeta.
  destruct (reload_logger_fields env c cfg) as (_ & _ & _ & Ldb).
  destruct (fst (runtime.New env cfg (reload_entry w))) as [r|e]; [|exact Ldb].
  destruct (fst (runtime.InitMetrics env r _ _)); [exact Ldb|].
  simpl. rewrite (proj1 (swapRuntime_run _ _ _)). exact Ldb.
Qed.

Lemma relevant_op_eqb op :
  relevant_op op ->
  (Z.land op (Z.lor observe.fsnotify_Write
                (Z.lor observe.fsnotify_Create observe.fsnotify_Rename)) =? 0) = false.
Proof. intros H. apply Z.eqb_neq. exact H. Qed.

(** One relevant event under a positive debounce: the loop only re-arms
    the timer. *)
Lemma step_event_debounced envs target s t op w :
  0 < observe.reloadDebounce (observe.opts (observe.client s)) ->
  relevant_op op ->
  match observe.deadline (observe.timer s) with
  | Some _ => observe.C (observe.timer s) = false
  | None => True
  end ->
  observe.watchLoop_step envs target s
    (observe.InEvent t {| observe.ev_Name := target; observe.ev_Op := op |}) w
  = (observe.Continue
       {| observe.pending := true;
          observe.timer :=
            {| observe.deadline :=
                 Some (t + observe.reloadDebounce (observe.opts (observe.client s)));
               observe.C := false |};
          observe.client := observe.client s |},
     set_clock (mkTime t LocLocal) w).
Proof.
  intros Hd Hop Hok. unfold observe.watchLoop_step.
  cbv beta iota zeta delta [bind observe.at_time ret observe.ev_Name observe.ev_Op].
  rewrite String.eqb_refl, (relevant_op_eqb op Hop). cbn [negb].
  assert (Hle : (observe.reloadDebounce (observe.opts (observe.client s)) <=? 0) = false)
    by (apply Z.leb_gt; exact Hd).
  rewrite Hle. do 3 f_equal.
  unfold observe.resetTimer, observe.timer_deliver, observe.timer_Stop,
    observe.timer_drain, observe.timer_Reset.
  destruct (observe.timer s) as [[dl|] ch]; simpl in *.
  - subst ch. destruct (dl <=? t); reflexivity.
  - reflexivity.
Qed.

Lemma burst_debounced envs target ts :
  ts <> [] ->
  Forall (fun p => relevant_op (snd p)) ts ->
  forall s w,
    0 < observe.reloadDebounce (observe.opts (observe.client s)) ->
    match observe.deadline (observe.timer s) with
    | Some _ => observe.C (observe.timer s) = false
    | None => True
    end ->
    observe.watchLoop envs target s (burst target ts) w
    = (observe.Continue
         {| observe.pending := true;
            observe.timer :=
              {| observe.deadline :=
                   Some (fst (List.last ts (0, 0))
                         + observe.reloadDebounce (observe.opts (observe.client s)));
                 observe.C := false |};
            observe.client := observe.client s |},
       set_clock (mkTime (fst (List.last ts (0, 0))) LocLocal) w).
Proof.
  induction ts as [|[t op] rest IH]; [congruence|].
  intros _ Hall s w Hd Hok.
  inversion Hall as [|? ? Hop Hrest]; subst.
  cbn [burst map observe.watchLoop fst snd].
  unfold bind at 1.
  rewrite (step_event_debounced envs target s t op w Hd Hop Hok).
  destruct rest as [|p rest'].
  - reflexivity.
  - fold (burst target (p :: rest')).
    rewrite IH; [reflexivity|discriminate|exact Hrest|exact Hd|reflexivity].
Qed.

Lemma watchLoop_app envs target l1 l2 :
  forall s w,
    observe.watchLoop envs target s (l1 ++ l2) w
    = let (r, w1) := observe.watchLoop envs target s l1 w in
      match r with
      | observe.Continue s1 => observe.watchLoop envs target s1 l2 w1
      | observe.Returned => (observe.Returned, w1)
      | observe.Impossible => (observe.Impossible, w1)
      end.
Proof.
  induction l1 as [|i l1 IH]; intros s w; [reflexivity|].
  cbn [app observe.watchLoop]. unfold bind.
  destruct (observe.watchLoop_step envs target s i w) as [[s'| |] w']; try reflexivity.
  apply IH.
Qed.

(** The timer branch when a reload is pending and the timer was armed
    for [dl]. *)
Lemma step_timer_pending envs target c dl T w :
  observe.watchLoop_step envs target
    {| observe.pending := true;
       observe.timer := {| observe.deadline := Some dl; observe.C := false |};
       observe.client := c |}
    (observe.InTimer T) w
  = if dl <=? T then
      let (c', w') :=
        observe.reloadRuntime (envs T) c
          (logged (observe.logger c) LvlInfo "configuration change detected"
             (set_clock (mkTime T LocLocal) w)) in
      (observe.Continue
         {| observe.pending := false;
            observe.timer := {| observe.deadline := None; observe.C := false |};
            observe.client := c' |}, w')
    else (observe.Impossible, set_clock (mkTime T LocLocal) w).
Proof.
  unfold observe.watchLoop_step, observe.timer_deliver, observe.timer_drain,
    observe.log.
  cbv beta iota zeta delta [bind observe.at_time ret emit observe.pending
                              observe.timer observe.client observe.deadline observe.C].
  destruct (dl <=? T); cbn [negb observe.C observe.deadline]; [|reflexivity].
  unfold logged.
  destruct (observe.reloadRuntime (envs T) c _) as [c' w']. reflexivity.
Qed.

(** With nothing pending and an idle timer, the timer branch cannot be
    taken. *)
Lemma step_timer_idle envs target c T w :
  fst (observe.watchLoop_step envs target
         {| observe.pending := false;
            observe.timer := {| observe.deadline := None; observe.C := false |};
            observe.client := c |}
         (observe.InTimer T) w)
  = observe.Impossible.
Proof. reflexivity. Qed.

(** One relevant event without debounce: an immediate reload. *)
Lemma step_event_immediate envs target s t op w :
  observe.reloadDebounce (observe.opts (observe.client s)) <= 0 ->
  relevant_op op ->
  observe.watchLoop_step envs target s
    (observe.InEvent t {| observe.ev_Name := target; observe.ev_Op := op |}) w
  = let (c', w') :=
      observe.reloadRuntime (envs t) (observe.client s)
        (logged (observe.logger (observe.client s)) LvlInfo
           "configuration change detected" (set_clock (mkTime t LocLocal) w)) in
    (observe.Continue
       {| observe.pending := observe.pending s;
          observe.timer := observe.timer_deliver t (observe.timer s);
          observe.client := c' |}, w').
Proof.
  intros Hd Hop. unfold observe.watchLoop_step, observe.log.
  cbv beta iota zeta delta [bind observe.at_time ret emit observe.ev_Name
                              observe.ev_Op].
  rewrite String.eqb_refl, (relevant_op_eqb op Hop). cbn [negb].
  assert (Hle : (observe.reloadDebounce (observe.opts (observe.client s)) <=? 0) = true)
    by (apply Z.leb_le; exact Hd).
  rewrite Hle. unfold logged.
  destruct (observe.reloadRuntime (envs t) (observe.client s) _) as [c' w'].
  reflexivity.
Qed.

Lemma burst_immediate envs target ts :
  Forall (fun p => relevant_op (snd p)) ts ->
  forall s w,
    observe.reloadDebounce (observe.opts (observe.client s)) <= 0 ->
    exists s1 w1 evs,
      observe.watchLoop envs target s (burst target ts) w = (observe.Continue s1, w1)
      /\ events w1 = events w ++ evs
      /\ observe.reload_times evs = map fst ts.
Proof.
  induction 1 as [|[t op] rest Hop Hrest IH]; intros s w Hd.
  - exists s, w, []. rewrite app_nil_r. auto.
  - cbn [burst map observe.watchLoop fst snd]. unfold bind at 1.
    rewrite (step_event_immediate envs target s t op w Hd Hop).
    pose proof (reloadRuntime_marks (envs t) (observe.client s)
                  (logged (observe.logger (observe.client s)) LvlInfo
                     "configuration change detected"
                     (set_clock (mkTime t LocLocal) w))) as (e1 & E1 & F1).
    pose proof (reload_keeps_debounce (envs t) (observe.client s)
                  (logged (observe.logger (observe.client s)) LvlInfo
                     "configuration change detected"
                     (set_clock (mkTime t LocLocal) w))) as Hdb.
    destruct (observe.reloadRuntime (envs t) (observe.client s) _) as [c' w'].
    simpl in E1, Hdb.
    destruct (IH {| observe.pending := observe.pending s;
                    observe.timer := observe.timer_deliver t (observe.timer s);
                    observe.client := c' |} w') as (s1 & w1 & evs & Hrun & Hev & Hrt).
    { simpl. rewrite Hdb. exact Hd. }
    exists s1, w1.
    exists ([EvLog (observe.logger (observe.client s)) LvlInfo
               "configuration change detected"]
            ++ [EvReloadRuntime t] ++ e1 ++ evs).
    split; [exact Hrun|]. split.
    + rewrite Hev, E1. rewrite <- !app_assoc. reflexivity.
    + rewrite !reload_times_app, (reload_times_free e1 F1), Hrt. reflexivity.
Qed.

(** C3.  Started idle, the loop that receives a burst of [N >= 1]
    relevant events under a debounce [d > 0] reloads nothing while the
    burst lasts and stays pending; the timer branch cannot be taken before
    [d] has passed since the last event of the burst; taken at a time
    [T >= last + d], it starts exactly one reload attempt, at [T], and
    leaves the loop idle with nothing more for the timer to deliver.
    Under a debounce [d <= 0] every relevant event starts a reload attempt
    at the time the event is received. *)
Theorem watchLoop_debounce
    (envs : Z -> Env) (target : string) (c : observe.Client) (w : World)
    (now : Z) (ts : list (Z * Z)) (T : Z) :
  ts <> [] ->
  Forall (fun p => relevant_op (snd p)) ts ->
  let d := observe.reloadDebounce (observe.opts c) in
  let tl := fst (List.last ts (0, 0)) in
  let run := observe.watchLoop envs target (observe.watchLoop_init now c) in
  (0 < d ->
     (exists s1,
        fst (run (burst target ts) w) = observe.Continue s1
        /\ observe.pending s1 = true
        /\ emitted (run (burst target ts)) w = [])
     /\ (T < tl + d ->
         fst (run (burst target ts ++ [observe.InTimer T]) w) = observe.Impossible)
     /\ (tl + d <= T ->
         (exists s2,
            fst (run (burst target ts ++ [observe.InTimer T]) w) = observe.Continue s2
            /\ observe.pending s2 = false
            /\ observe.reload_times
                 (emitted (run (burst target ts ++ [observe.InTimer T])) w) = [T])
         /\ forall T',
              fst (run (burst target ts ++ [observe.InTimer T; observe.InTimer T']) w)
              = observe.Impossible))
  /\ (d <= 0 ->
      exists s1,
        fst (run (burst target ts) w) = observe.Continue s1
        /\ observe.reload_times (emitted (run (burst target ts)) w) = map fst ts).
Proof.
  intros Hne Hall d tl run. subst run.
  assert (Hs0 : observe.watchLoop_init now c
                = {| observe.pending := false;
                     observe.timer := {| observe.deadline := None;
                                         observe.C := false |};
                     observe.client := c |}) by reflexivity.
  rewrite Hs0. split.
  - intros Hd.
    pose proof (burst_debounced envs target ts Hne Hall
                  {| observe.pending := false;
                     observe.timer := {| observe.deadline := None;
                                         observe.C := false |};
                     observe.client := c |} w Hd I) as Hburst.
    cbn [observe.client] in Hburst. fold d tl in Hburst.
    split; [|split].
    + eexists. rewrite Hburst. split; [reflexivity|]. split; [reflexivity|].
      apply emitted_app. rewrite Hburst. simpl. rewrite app_nil_r. reflexivity.
    + intros Hearly. rewrite watchLoop_app, Hburst.
      cbn [observe.watchLoop]. unfold bind.
      rewrite step_timer_pending.
      assert (Hleb : (tl + d <=? T) = false) by (apply Z.leb_gt; lia).
      rewrite Hleb. reflexivity.
    + intros Hlate.
      assert (Hleb : (tl + d <=? T) = true) by (apply Z.leb_le; lia).
      pose proof (reloadRuntime_marks (envs T) c
                    (logged (observe.logger c) LvlInfo "configuration change detected"
                       (set_clock (mkTime T LocLocal) w))) as (e1 & E1 & F1).
      split.
      * assert (Hrun : exists c',
                  observe.watchLoop envs target
                    {| observe.pending := false;
                       observe.timer := {| observe.deadline := None;
                                           observe.C := false |};
                       observe.client := c |}
                    (burst target ts ++ [observe.InTimer T]) w
                  = (observe.Continue
                       {| observe.pending := false;
                          observe.timer := {| observe.deadline := None;
                                              observe.C := false |};
                          observe.client := c' |},
                     snd (observe.reloadRuntime (envs T) c
                            (logged (observe.logger c) LvlInfo
                               "configuration change detected"
                               (set_clock (mkTime T LocLocal) w))))).
        { rewrite watchLoop_app, Hburst. cbn [observe.watchLoop]. unfold bind.
          rewrite step_timer_pending, Hleb.
          destruct (observe.reloadRuntime (envs T) c _) as [c' w']. eexists.
          reflexivity. }
        destruct Hrun as [c' Hrun]. eexists. rewrite Hrun.
        split; [reflexivity|]. split; [reflexivity|].
        rewrite (emitted_app _ w
                   ([EvLog (observe.logger c) LvlInfo "configuration change detected"]
                    ++ [EvReloadRuntime T] ++ e1)).
        -- rewrite !reload_times_app, (reload_times_free e1 F1). reflexivity.
        -- rewrite Hrun. cbn [snd]. rewrite E1. simpl. rewrite <- app_assoc.
           reflexivity.
      * intros T'.
        change (burst target ts ++ [observe.InTimer T; observe.InTimer T'])
          with (burst target ts ++ [observe.InTimer T] ++ [observe.InTimer T']).
        rewrite watchLoop_app, Hburst.
        cbn [app observe.watchLoop]. unfold bind.
        rewrite step_timer_pending, Hleb.
        destruct (observe.reloadRuntime (envs T) c _) as [c' w'].
        pose proof (step_timer_idle envs target c' T' w') as Hidle.
        destruct (observe.watchLoop_step envs target _ (observe.InTimer T') w')
          as [r w'']. simpl in Hidle. subst r. reflexivity.
  - intros Hd.
    destruct (burst_immediate envs target ts Hall
                {| observe.pending := false;
                   observe.timer := {| observe.deadline := None;
                                       observe.C := false |};
                   observe.client := c |} w Hd) as (s1 & w1 & evs & Hrun & Hev & Hrt).
    exists s1. rewrite Hrun. split; [reflexivity|].
    rewrite (emitted_app _ w evs); [exact Hrt|]. rewrite Hrun. exact Hev.
Qed.

Lemma watchLoop_debounce_witness :
  observe.reload_times
    (emitted
       (observe.watchLoop (fun _ => Samples.env_ok Samples.cfgB) Samples.target
          (observe.watchLoop_init 0 Samples.bootedClient)
          (burst Samples.target Samples.saves ++ [observe.InTimer 450000000]))
       Samples.bootedWorld)
  = [450000000]
  /\ fst (observe.watchLoop (fun _ => Samples.env_ok Samples.cfgB) Samples.target
            (observe.watchLoop_init 0 Samples.bootedClient)
            (burst Samples.target Samples.saves ++ [observe.InTimer 449999999])
            Samples.bootedWorld)
     = observe.Impossible.
Proof.
  assert (H1 : Samples.saves <> []) by discriminate.
  assert (H2 : Forall (fun p => relevant_op (snd p)) Samples.saves)
    by (repeat constructor; vm_compute; discriminate).
  assert (Hd : 0 < observe.reloadDebounce (observe.opts Samples.bootedClient))
    by (vm_compute; reflexivity).
  split.
  - destruct (watchLoop_debounce (fun _ => Samples.env_ok Samples.cfgB) Samples.target
                Samples.bootedClient Samples.bootedWorld 0 Samples.saves 450000000
                H1 H2) as [Hpos _].
    destruct (Hpos Hd) as (_ & _ & Hlate).
    assert (Hle : fst (List.last Samples.saves (0, 0))
                  + observe.reloadDebounce (observe.opts Samples.bootedClient)
                  <= 450000000) by (vm_compute; discriminate).
    destruct (Hlate Hle) as [(s2 & _ & _ & Hrt) _]. exact Hrt.
  - destruct (watchLoop_debounce (fun _ => Samples.env_ok Samples.cfgB) Samples.target
                Samples.bootedClient Samples.bootedWorld 0 Samples.saves 449999999
                H1 H2) as [Hpos _].
    destruct (Hpos Hd) as (_ & Hearly & _).
    apply Hearly. vm_compute; reflexivity.
Defined.

(* ===================================================================== *)
(** * The scenarios of the specification, run                            *)
(* ===================================================================== *)

(** One reload for the burst, at the timer; the new runtime samples by
    ratio and the snapshot counts one reload. *)
Example scenario_one_reload :
  Samples.scenario = Some ("trace_id_ratio", 1, [450000000]).
Proof. vm_compute. reflexivity. Qed.

(** The cell held 7; the three failed batches add 3 + 1 + 2, and the last
    error carries the time of the third failure, in UTC. *)
Example scenario_three_failures :
  Samples.threeFailures
  = (13,
     {| runtime.StatusProtocol := "grpc";
        runtime.StatusEndpoint := "localhost:4317";
        runtime.StatusLastError := "connection refused";
        runtime.StatusLastErrorTime := Some (mkTime 1700000002000000000 LocUTC) |}).
Proof. vm_compute. reflexivity. Qed.

(** A reload whose configuration has a ratio of zero keeps the booted
    runtime, and the counter stays at zero. *)
Example scenario_ratio_zero :
  let r := observe.reloadRuntime (Samples.env_ok Samples.cfgZero)
             Samples.bootedClient Samples.bootedWorld in
  observe.runtime (fst r) = Some 4%nat
  /\ observe.runtime Samples.bootedClient = Some 4%nat
  /\ runtime.ConfigReloads (snd r) (observe.metricsState (fst r)) = 0.
Proof. vm_compute. repeat split; reflexivity. Qed.

Lemma strings_ToLower_idem s : strings_ToLower (strings_ToLower s) = strings_ToLower s.
Proof.
  induction s as [|c s IH]; [reflexivity|].
  cbn [strings_ToLower]. rewrite IH. f_equal.
  unfold ascii_lower.
  destruct (Nat.leb 65 (nat_of_ascii c) && Nat.leb (nat_of_ascii c) 90)%bool eqn:E.
  - apply andb_true_iff in E as [E1 E2].
    apply Nat.leb_le in E1. apply Nat.leb_le in E2.
    rewrite nat_ascii_embedding by lia.
    assert (H : (Nat.leb 65 (nat_of_ascii c + 32) && Nat.leb (nat_of_ascii c + 32) 90)%bool
                = false).
    { apply andb_false_iff. right. apply Nat.leb_gt. lia. }
    rewrite H. reflexivity.
  - rewrite E. reflexivity.
Qed.

(** What [New] leaves behind when it succeeds. *)
Lemma New_ok_full env cfg w r w' :
  runtime.New env cfg w = (Ok r, w') ->
  exists otlp te me res s x,
    config.OTLP (config.Exporters cfg) = Some otlp
    /\ config.Endpoint otlp <> ""
    /\ newOTLPTraceExporter env otlp = Ok te
    /\ newOTLPMetricExporter env otlp = Ok me
    /\ buildResource env (config.Service cfg) = Ok res
    /\ runtime.samplerFromConfig (config.Sampling cfg) = Ok s
    /\ r = S (S (S (nextAddr w)))
    /\ w' = mkWorld (<[r := x]> (runtimes w))
              (<[nextAddr w := runtime.newTraceExporterStats otlp]> (statsHeap w))
              (metricsHeap w) (S r)
              (Some (S (nextAddr w))) (Some (S (S (nextAddr w))))
              (clock w)
              (events w ++
                 [EvRuntimeNew cfg; EvNewTraceExporter; EvNewMetricExporter;
                  EvNewProvider (S (nextAddr w)); EvNewProvider (S (S (nextAddr w)));
                  EvSetTracerProvider (S (nextAddr w));
                  EvSetMeterProvider (S (S (nextAddr w)))])
    /\ rt.cfg x = cfg
    /\ rt.tracerProvider x
       = Some {| tp_id := S (nextAddr w); tp_sampler := s; tp_resource := res;
                 tp_processor :=
                   Some (runtime.exporterSpanProcessor (config.Batch otlp));
                 tp_Shutdown := tracerProvider_Shutdown env |}
    /\ rt.meterProvider x
       = Some {| mp_id := S (S (nextAddr w)); mp_resource := res;
                 mp_reader := Some (S (S (nextAddr w)));
                 mp_Shutdown := meterProvider_Shutdown env |}
    /\ rt.exporters x
       = Some {| rt.traceExporter :=
                   Some {| rt.inner := Some te; rt.stats := Some (nextAddr w) |};
                 rt.metricExporter := Some me;
                 rt.metricReader := Some {| mr_Shutdown := reader_Shutdown env |};
                 rt.traceStats := Some (nextAddr w) |}
    /\ runtime.isSome (rt.httpMiddleware x)
       = config.HTTPEnabled (config.HTTP (config.Instrumentation cfg))
    /\ runtime.isSome (rt.grpcServerInt x)
       = config.GRPCEnabled (config.GRPC (config.Instrumentation cfg))
    /\ runtime.isSome (rt.grpcClientInt x)
       = config.GRPCEnabled (config.GRPC (config.Instrumentation cfg))
    /\ runtime.isSome (rt.sqlHelper x)
       = config.SQLEnabled (config.SQL (config.Instrumentation cfg))
    /\ runtime.isSome (rt.messagingHelper x)
       = config.MessagingEnabled (config.Instrumentation cfg)
    /\ runtime.isSome (rt.workerHelper x)
       = config.WorkerEnabled (config.Instrumentation cfg)
    /\ runtime.isSome (rt.diagServer x)
       = config.DiagEnabled (config.Diagnostics cfg)
    /\ rt.metrics x = None
    /\ rt.metricsState x = None
    /\ rt.once x = false
    /\ rt.shutdown (rt.state x) = false
    /\ rt.startTime x = Time_UTC (clock w)
    /\ rt.lastReload x = Time_UTC (clock w).
Proof.
  unfold runtime.New, runtime.newExporterBundle, runtime.buildTracerProvider,
    runtime.buildMeterProvider, runtime.startDiagnosticsServer,
    runtime.otel_SetTracerProvider, runtime.otel_SetMeterProvider,
    bindR, wrapping, wrapErr.
  cbv beta iota zeta delta [bind ret emit fresh time_Now upd_stats upd_runtimes
                              fst snd].
  destruct (config.OTLP (config.Exporters cfg)) as [otlp|] eqn:Hotlp; [|discriminate].
  destruct (String.eqb_spec (config.Endpoint otlp) "") as [|Hend]; [discriminate|].
  destruct (newOTLPTraceExporter env otlp) as [te|] eqn:Hte; [|discriminate].
  cbv beta iota zeta delta [fst snd].
  destruct (newOTLPMetricExporter env otlp) as [me|] eqn:Hme; [|discriminate].
  cbv beta iota zeta delta [fst snd].
  destruct (buildResource env (config.Service cfg)) as [res|] eqn:Hres; [|discriminate].
  cbv beta iota zeta delta [fst snd].
  destruct (runtime.samplerFromConfig (config.Sampling cfg)) as [s|] eqn:Hs;
    [|discriminate].
  cbv beta iota zeta delta [fst snd].
  destruct w as [rs sh mh na otp omp ck evs].
  cbv beta iota zeta delta
    [set_events set_nextAddr set_statsHeap set_otelTracerProvider
     set_otelMeterProvider set_runtimes runtimes statsHeap metricsHeap nextAddr
     otelTracerProvider otelMeterProvider clock events fst snd].
  rewrite <- !app_assoc. cbn [app].
  destruct (config.HTTPEnabled _) eqn:F1;
    [destruct (http_NewMiddleware env _) eqn:R1; [|discriminate]|];
    (destruct (config.GRPCEnabled _) eqn:F5);
    (destruct (config.SQLEnabled _) eqn:F6);
    (destruct (config.MessagingEnabled _) eqn:F2;
     [destruct (messaging_NewHelper env) eqn:R2; [|discriminate]|]);
    (destruct (config.WorkerEnabled _) eqn:F3;
     [destruct (worker_NewHelper env) eqn:R3; [|discriminate]|]);
    (destruct (config.DiagEnabled _) eqn:F4;
     [destruct (diagnostics_Start env _) eqn:R4; [|discriminate]|]);
    intros [= <- <-];
    exists otlp, te, me, res, s; eexists;
    (split; [reflexivity|]); (split; [exact Hend|]);
    (split; [assumption|]); (split; [assumption|]);
    (split; [reflexivity|]); (split; [reflexivity|]);
    (split; [reflexivity|]); (split; [reflexivity|]);
    repeat split; reflexivity.
Qed.

Lemma emitted_explicit {A} (m : M A) w evs :
  events (snd (m w)) = events w ++ evs -> emitted m w = evs.
Proof.
  intros H. unfold emitted. rewrite H, skipn_app, Nat.sub_diag, skipn_all.
  reflexivity.
Qed.

(** The store [New] leaves when an early step fails. *)
Lemma New_early_run env cfg w :
  early_step_fails env cfg ->
  exists e sh' n' evs,
    runtime.New env cfg w
    = (Err e, mkWorld (runtimes w) sh' (metricsHeap w) n'
                (otelTracerProvider w) (otelMeterProvider w) (clock w)
                (events w ++ evs))
    /\ List.filter is_set_provider evs = []
    /\ List.filter is_shutdown evs = []
    /\ (nextAddr w <= n')%nat.
Proof.
  unfold early_step_fails.
  unfold runtime.New, runtime.newExporterBundle, runtime.buildTracerProvider,
    bindR, wrapping, wrapErr.
  cbv beta iota zeta delta [bind ret emit fresh time_Now upd_stats upd_runtimes
                              fst snd].
  destruct w as [rs sh mh na otp omp ck evs].
  cbv beta iota zeta delta
    [set_events set_nextAddr set_statsHeap runtimes statsHeap metricsHeap nextAddr
     otelTracerProvider otelMeterProvider clock events fst snd].
  destruct (config.OTLP (config.Exporters cfg)) as [otlp|] eqn:Hotlp.
  2:{ intros _. do 4 eexists. split; [reflexivity|]. repeat split; auto. }
  destruct (String.eqb_spec (config.Endpoint otlp) "") as [Hend|Hend].
  { intros _. do 4 eexists. split; [reflexivity|]. repeat split; auto. }
  destruct (newOTLPTraceExporter env otlp) as [te|e1] eqn:Hte;
    cbv beta iota zeta delta [fst snd].
  2:{ intros _. do 4 eexists. split; [reflexivity|]. repeat split; auto. }
  destruct (newOTLPMetricExporter env otlp) as [me|e2] eqn:Hme;
    cbv beta iota zeta delta [fst snd].
  2:{ intros _. do 4 eexists. split; [rewrite <- !app_assoc; reflexivity|].
      repeat split; auto. }
  destruct (buildResource env (config.Service cfg)) as [res|e3] eqn:Hres;
    cbv beta iota zeta delta [fst snd].
  2:{ intros _. do 4 eexists. split; [rewrite <- !app_assoc; reflexivity|].
      repeat split; auto. }
  destruct (runtime.samplerFromConfig (config.Sampling cfg)) as [s|e4] eqn:Hs;
    cbv beta iota zeta delta [fst snd].
  2:{ intros _. do 4 eexists. split; [rewrite <- !app_assoc; reflexivity|].
      repeat split; auto. }
  cbn [is_Err]. intuition.
Qed.

(** The store [New] leaves once the exporters, the resource and the
    sampler are built, whatever the later steps answer. *)
Lemma New_past_early_run env cfg w :
  ~ early_step_fails env cfg ->
  exists res rs' sh' n' evs,
    runtime.New env cfg w
    = (res, mkWorld rs' sh' (metricsHeap w) n'
              (Some (S (nextAddr w))) (Some (S (S (nextAddr w)))) (clock w)
              (events w ++ evs))
    /\ List.filter is_set_provider evs
       = [EvSetTracerProvider (S (nextAddr w)); EvSetMeterProvider (S (S (nextAddr w)))]
    /\ List.filter is_shutdown evs = []
    /\ (nextAddr w <= n')%nat
    /\ match res with
       | Err _ => rs' = runtimes w
       | Ok r => exists x, rs' = <[r := x]> (runtimes w)
       end.
Proof.
  unfold early_step_fails. intros Hne.
  destruct (config.OTLP (config.Exporters cfg)) as [otlp|] eqn:Hotlp;
    [|exfalso; apply Hne; left; exact I].
  destruct (String.eqb_spec (config.Endpoint otlp) "") as [Hend|Hend];
    [exfalso; apply Hne; left; left; exact Hend|].
  destruct (newOTLPTraceExporter env otlp) as [te|e1] eqn:Hte;
    [|exfalso; apply Hne; left; right; left; exact I].
  destruct (newOTLPMetricExporter env otlp) as [me|e2] eqn:Hme;
    [|exfalso; apply Hne; left; right; right; exact I].
  destruct (buildResource env (config.Service cfg)) as [res|e3] eqn:Hres;
    [|exfalso; apply Hne; right; left; exact I].
  destruct (runtime.samplerFromConfig (config.Sampling cfg)) as [s|e4] eqn:Hs;
    [|exfalso; apply Hne; right; right; exact I].
  clear Hne. apply String.eqb_neq in Hend.
  unfold runtime.New, runtime.newExporterBundle, runtime.buildTracerProvider,
    runtime.buildMeterProvider, runtime.startDiagnosticsServer,
    runtime.otel_SetTracerProvider, runtime.otel_SetMeterProvider,
    bindR, wrapping, wrapErr.
  cbv beta iota zeta delta [bind ret emit fresh time_Now upd_stats upd_runtimes
                              fst snd].
  rewrite Hotlp, Hend, Hte. cbv beta iota zeta delta [fst snd].
  rewrite Hme. cbv beta iota zeta delta [fst snd]. rewrite Hres.
  cbv beta iota zeta delta [fst snd]. rewrite Hs.
  cbv beta iota zeta delta [fst snd].
  destruct w as [rs sh mh na otp omp ck evs].
  cbv beta iota zeta delta
    [set_events set_nextAddr set_statsHeap set_otelTracerProvider
     set_otelMeterProvider set_runtimes runtimes statsHeap metricsHeap nextAddr
     otelTracerProvider otelMeterProvider clock events fst snd].
  rewrite <- !app_assoc. cbn [app].
  destruct (config.HTTPEnabled _);
    [destruct (http_NewMiddleware env _)|];
    try (destruct (config.MessagingEnabled _);
         [destruct (messaging_NewHelper env)|]);
    try (destruct (config.WorkerEnabled _);
         [destruct (worker_NewHelper env)|]);
    try (destruct (config.DiagEnabled _);
         [destruct (diagnostics_Start env _)|]);
    do 5 eexists; (split; [reflexivity|]); (split; [reflexivity|]);
    (split; [reflexivity|]); (split; [lia|]);
    first [reflexivity | eexists; reflexivity].
Qed.

(** [New] replaces the process-wide tracer and meter providers exactly
    when the exporter bundle, the resource and the sampler can be built:
    if one of them fails, [New] fails, stores no runtime and leaves both
    providers as they were; otherwise both providers are the two this call
    built, whether or not the rest of [New] succeeds. *)
Theorem New_registers_providers_iff (env : Env) (cfg : config.Config) (w : World) :
  let w' := snd (runtime.New env cfg w) in
  let sets := List.filter is_set_provider (emitted (runtime.New env cfg) w) in
  (early_step_fails env cfg ->
     is_Err (fst (runtime.New env cfg w))
     /\ otelTracerProvider w' = otelTracerProvider w
     /\ otelMeterProvider w' = otelMeterProvider w
     /\ runtimes w' = runtimes w
     /\ sets = [])
  /\ (~ early_step_fails env cfg ->
      otelTracerProvider w' = Some (S (nextAddr w))
      /\ otelMeterProvider w' = Some (S (S (nextAddr w)))
      /\ sets = [EvSetTracerProvider (S (nextAddr w));
                 EvSetMeterProvider (S (S (nextAddr w)))]).
Proof.
  intros w' sets. subst w' sets. split.
  - intros Hearly.
    destruct (New_early_run env cfg w Hearly) as (e & sh' & n' & evs & Hrun & Hs & _).
    rewrite (emitted_explicit _ w evs) by (rewrite Hrun; reflexivity).
    rewrite Hrun. simpl. auto.
  - intros Hne.
    destruct (New_past_early_run env cfg w Hne)
      as (res & rs' & sh' & n' & evs & Hrun & Hs & _).
    rewrite (emitted_explicit _ w evs) by (rewrite Hrun; reflexivity).
    rewrite Hrun. simpl. auto.
Qed.

Lemma New_registers_providers_iff_witness :
  otelTracerProvider
    (snd (runtime.New (Samples.env_ok Samples.cfgZero) Samples.cfgZero
            Samples.bootedWorld))
  = otelTracerProvider Samples.bootedWorld
  /\ otelTracerProvider
       (snd (runtime.New (Samples.env_diag_fails Samples.cfgB) Samples.cfgB
               Samples.world0))
     = Some 1%nat.
Proof.
  split.
  - apply (New_registers_providers_iff (Samples.env_ok Samples.cfgZero)
             Samples.cfgZero Samples.bootedWorld).
    right; right. exact I.
  - apply (New_registers_providers_iff (Samples.env_diag_fails Samples.cfgB)
             Samples.cfgB Samples.world0).
    intros H. vm_compute in H. intuition discriminate.
Defined.

Lemma early_step_fails_dec env cfg :
  early_step_fails env cfg \/ ~ early_step_fails env cfg.
Proof.
  unfold early_step_fails.
  destruct (config.OTLP (config.Exporters cfg)) as [otlp|]; [|left; left; exact I].
  destruct (String.eqb_spec (config.Endpoint otlp) ""); [left; left; left; assumption|].
  destruct (newOTLPTraceExporter env otlp); [|left; left; right; left; exact I].
  destruct (newOTLPMetricExporter env otlp); [|left; left; right; right; exact I].
  destruct (buildResource env (config.Service cfg)); [|left; right; left; exact I].
  destruct (runtime.samplerFromConfig (config.Sampling cfg));
    [|left; right; right; exact I].
  right. cbn [is_Err]. intuition.
Qed.

(** Whatever [New] answers: it shuts nothing down, keeps the clock and
    the reload counters, gives no address back, and writes the runtime
    heap only to store the runtime it returns. *)
Lemma New_run_summary env cfg w :
  exists res rs' sh' n' otp' omp' evs,
    runtime.New env cfg w
    = (res, mkWorld rs' sh' (metricsHeap w) n' otp' omp' (clock w) (events w ++ evs))
    /\ List.filter is_shutdown evs = []
    /\ (nextAddr w <= n')%nat
    /\ match res with
       | Err _ => rs' = runtimes w
       | Ok r => exists x, rs' = <[r := x]> (runtimes w)
       end.
Proof.
  destruct (early_step_fails_dec env cfg) as [He|Hne].
  - destruct (New_early_run env cfg w He) as (e & sh' & n' & evs & Hrun & _ & Hs & Hn).
    exists (Err e), (runtimes w), sh', n', (otelTracerProvider w),
      (otelMeterProvider w), evs. auto.
  - destruct (New_past_early_run env cfg w Hne)
      as (res & rs' & sh' & n' & evs & Hrun & _ & Hs & Hn & Hr).
    exists res, rs', sh', n', (Some (S (nextAddr w))), (Some (S (S (nextAddr w)))), evs.
    auto.
Qed.

(** [InitMetrics] on a runtime that is in the store. *)
Lemma InitMetrics_run env r st w x :
  runtimes w !! r = Some x ->
  runtime.InitMetrics env r st w
  = if config.RuntimeMetricsEnabled (config.Instrumentation (rt.cfg x)) then
      match metricsController_start env with
      | Err e => (Some e, set_runtimes (insert r (runtime.set_metricsState st x)) w)
      | Ok reg =>
          (None,
           set_runtimes
             (insert r (runtime.set_metrics
                          (Some {| rt.mc_state := st; rt.mc_registration := Some reg |})
                          (runtime.set_metricsState st x)))
             (set_runtimes (insert r (runtime.set_metricsState st x)) w))
      end
    else (None, w).
Proof.
  intros Hx. unfold runtime.InitMetrics.
  cbv beta iota zeta delta [bind load_runtime upd_runtimes ret fst snd].
  rewrite Hx.
  destruct (config.RuntimeMetricsEnabled _); cbn [negb]; [|reflexivity].
  destruct (metricsController_start env); reflexivity.
Qed.

Lemma filter_shutdown_app l k :
  List.filter is_shutdown (l ++ k) = List.filter is_shutdown l ++ List.filter is_shutdown k.
Proof. apply List.filter_app. Qed.

Lemma IsShutdown_lookup w w' r :
  runtimes w' !! r = runtimes w !! r -> runtime.IsShutdown w' r = runtime.IsShutdown w r.
Proof. intros H. unfold runtime.IsShutdown. rewrite H. reflexivity. Qed.

(** A reload attempt that fails shuts nothing down: the runtime the
    client holds stays in the store exactly as it was (in particular not
    shut down), and no [Shutdown] is delivered to anything, not even to
    what the failed attempt had already built. *)
Theorem failed_reload_shuts_nothing_down
    (env : Env) (c : observe.Client) (w : World) (r : addr) :
  reload_fails env c w ->
  observe.runtime c = Some r ->
  (r < nextAddr w)%nat ->
  let w' := snd (observe.reloadRuntime env c w) in
  runtimes w' !! r = runtimes w !! r
  /\ runtime.IsShutdown w' r = runtime.IsShutdown w r
  /\ List.filter is_shutdown (emitted (observe.reloadRuntime env c) w) = [].
Proof.
  intros Hfail Hr Hlt w'. subst w'.
  assert (Hcore : runtimes (snd (observe.reloadRuntime env c w)) !! r = runtimes w !! r
                  /\ List.filter is_shutdown
                       (emitted (observe.reloadRuntime env c) w) = []).
  2:{ destruct Hcore as [H1 H2]. auto using IsShutdown_lookup. }
  destruct (observe.loadConfig env (observe.opts c)) as [cfg|e] eqn:Hload.
  2:{ rewrite (emitted_explicit _ w
                 [EvReloadRuntime (unixNano (clock w));
                  EvLog (observe.logger c) LvlError "reload config failed"])
        by (rewrite (reload_load_fails env c w e Hload); simpl;
            rewrite <- app_assoc; reflexivity).
      rewrite (reload_load_fails env c w e Hload). split; reflexivity. }
  destruct (observe.digestOf env cfg) as [d|e] eqn:Hdig.
  2:{ rewrite (emitted_explicit _ w
                 [EvReloadRuntime (unixNano (clock w));
                  EvLog (observe.logger c) LvlError "hash config failed"])
        by (rewrite (reload_digest_fails env c w cfg e Hload Hdig); simpl;
            rewrite <- app_assoc; reflexivity).
      rewrite (reload_digest_fails env c w cfg e Hload Hdig). split; reflexivity. }
  destruct (String.eqb_spec d (observe.configDigest c)) as [->|Hne].
  { rewrite (emitted_explicit _ w
               [EvReloadRuntime (unixNano (clock w));
                EvLog (observe.logger c) LvlDebug
                  "configuration unchanged, skipping reload"])
      by (rewrite (reload_unchanged env c w cfg Hload Hdig); simpl;
          rewrite <- app_assoc; reflexivity).
    rewrite (reload_unchanged env c w cfg Hload Hdig). split; reflexivity. }
  pose proof (reload_builds env c w cfg d Hload Hdig Hne) as Hrun.
  cbv zeta in Hrun.
  destruct (reload_logger_fields env c cfg) as (_ & _ & Lm & _).
  rewrite Lm in Hrun.
  destruct (runtime.New env cfg (reload_entry w)) as [[r'|e] w1] eqn:Hnew.
  - destruct (New_ok_full env cfg (reload_entry w) r' w1 Hnew)
      as (otlp & te & me & res & s & x & _ & _ & _ & _ & _ & _ & Hr' & Hw1 & _).
    cbn [fst snd] in Hrun.
    assert (Hx : runtimes w1 !! r' = Some x)
      by (rewrite Hw1; cbn [runtimes]; apply lookup_insert_eq).
    pose proof (InitMetrics_run env r' (observe.metricsState c) w1 x Hx) as Hinit.
    assert (Hrr : r <> r') by (rewrite Hr'; cbn [reload_entry set_events nextAddr]; lia).
    destruct (runtime.InitMetrics env r' (observe.metricsState c) w1) as [[e|] w2]
      eqn:Hinit'.
    + cbn [fst snd] in Hrun.
      destruct (config.RuntimeMetricsEnabled _); [|discriminate].
      destruct (metricsController_start env) as [reg|e0]; [discriminate|].
      injection Hinit as _ Hw2.
      rewrite (emitted_explicit _ w
                 ([EvReloadRuntime (unixNano (clock w));
                   EvRuntimeNew cfg; EvNewTraceExporter; EvNewMetricExporter;
                   EvNewProvider (S (nextAddr w)); EvNewProvider (S (S (nextAddr w)));
                   EvSetTracerProvider (S (nextAddr w));
                   EvSetMeterProvider (S (S (nextAddr w)))]
                  ++ [EvLog (observe.logger (reload_logger env c cfg)) LvlError
                        "runtime metrics init failed"])).
      2:{ rewrite Hrun, Hw2, Hw1. simpl. rewrite <- !app_assoc. reflexivity. }
      split; [|reflexivity].
      rewrite Hrun, Hw2, Hw1. simpl.
      rewrite !lookup_insert_ne by auto. reflexivity.
    + exfalso.
      destruct Hfail as [e He|cfg' e Hl He|cfg' e w1' Hl Hn|cfg' r0 w1' e w2' Hl Hn Hi].
      * congruence.
      * congruence.
      * assert (cfg' = cfg) by congruence. subst cfg'. congruence.
      * assert (cfg' = cfg) by congruence. subst cfg'.
        assert (r0 = r' /\ w1' = w1) as [-> ->] by (split; congruence).
        congruence.
  - destruct (New_run_summary env cfg (reload_entry w))
      as (res & rs' & sh' & n' & otp' & omp' & evs & Hnew' & Hs & Hn & Hres).
    rewrite Hnew in Hnew'. injection Hnew' as <- Hw1. subst rs'.
    cbn [fst snd] in Hrun.
    rewrite (emitted_explicit _ w
               ([EvReloadRuntime (unixNano (clock w))] ++ evs
                ++ [EvLog (observe.logger (reload_logger env c cfg)) LvlError
                      "runtime rebuild failed"])).
    2:{ rewrite Hrun, Hw1. simpl. rewrite <- !app_assoc. reflexivity. }
    split.
    + rewrite Hrun, Hw1. reflexivity.
    + rewrite !filter_shutdown_app, Hs. reflexivity.
Qed.

Lemma failed_reload_shuts_nothing_down_witness :
  runtime.IsShutdown
    (snd (observe.reloadRuntime (Samples.env_ok Samples.cfgZero)
            Samples.bootedClient Samples.bootedWorld)) 4%nat
  = false.
Proof.
  destruct (failed_reload_shuts_nothing_down (Samples.env_ok Samples.cfgZero)
              Samples.bootedClient Samples.bootedWorld 4%nat) as (_ & H & _).
  - eapply fails_build with (cfg := Samples.cfgZero).
    + vm_compute; reflexivity.
    + vm_compute; reflexivity.
  - vm_compute; reflexivity.
  - vm_compute; lia.
  - rewrite H. vm_compute. reflexivity.
Defined.

(** The diagnostics snapshot of a runtime right after [New] built it:
    the instrumentation map mirrors the toggles of the configuration
    ([runtimeMetrics] is off until [InitMetrics]), the reload count is 0,
    the queue limit is the configured one or 2048 when that is not
    positive, nothing was dropped, and the exporter status carries the
    endpoint, no error and, for a protocol of ASCII bytes, the protocol
    in lower case ([grpc] when none is configured). *)
Theorem New_snapshot (env : Env) (cfg : config.Config) (w w' : World) (r : addr) :
  runtime.New env cfg w = (Ok r, w') ->
  exists x otlp,
    runtimes w' !! r = Some x
    /\ config.OTLP (config.Exporters cfg) = Some otlp
    /\ let s := runtime.Snapshot w' x in
       let instr := config.Instrumentation cfg in
       runtime.ServiceName s = config.Name (config.Service cfg)
       /\ runtime.SamplingMode s = config.Mode (config.Sampling cfg)
       /\ runtime.ExporterEndpoint s = config.Endpoint otlp
       /\ runtime.InstrumentationOn s !! "http"
          = Some (config.HTTPEnabled (config.HTTP instr))
       /\ runtime.InstrumentationOn s !! "grpc"
          = Some (config.GRPCEnabled (config.GRPC instr))
       /\ runtime.InstrumentationOn s !! "sql"
          = Some (config.SQLEnabled (config.SQL instr))
       /\ runtime.InstrumentationOn s !! "messaging"
          = Some (config.MessagingEnabled instr)
       /\ runtime.InstrumentationOn s !! "worker"
          = Some (config.WorkerEnabled instr)
       /\ runtime.InstrumentationOn s !! "runtimeMetrics" = Some false
       /\ runtime.ConfigReloadCount s = 0
       /\ runtime.TraceQueueLimit s
          = (if config.MaxQueueSize (config.Batch otlp) <=? 0 then 2048
             else config.MaxQueueSize (config.Batch otlp))
       /\ runtime.TraceDroppedSpans s = 0
       /\ runtime.StatusEndpoint (runtime.TraceExporter s) = config.Endpoint otlp
       /\ runtime.StatusLastError (runtime.TraceExporter s) = ""
       /\ runtime.StatusLastErrorTime (runtime.TraceExporter s) = None
       /\ (is_ascii (config.Protocol otlp) = true ->
           runtime.StatusProtocol (runtime.TraceExporter s)
           = strings_ToLower (if String.eqb (config.Protocol otlp) "" then "grpc"
                              else config.Protocol otlp)).
Proof.
  intros Hnew.
  destruct (New_ok_full env cfg w r w' Hnew)
    as (otlp & te & me & res & s & x & Hotlp & _ & _ & _ & _ & _ & Hr & Hw' & Hcfg
        & _ & _ & Hexp & Hhttp & Hgrpc & _ & Hsql & Hmsg & Hwrk & _ & Hmet & Hms & _).
  exists x, otlp.
  assert (Hx : runtimes w' !! r = Some x)
    by (rewrite Hw'; cbn [runtimes]; apply lookup_insert_eq).
  assert (Hst : runtime.bundle_stats w' (rt.exporters x)
                = Some (runtime.newTraceExporterStats otlp)).
  { rewrite Hexp, Hw'. cbn [runtime.bundle_stats rt.traceStats statsHeap].
    apply lookup_insert_eq. }
  split; [exact Hx|]. split; [exact Hotlp|].
  unfold runtime.Snapshot, runtime.exporterStatus, runtime.endpointForSnapshot,
    runtime.reloadCount.
  rewrite Hst, Hcfg, Hotlp, Hhttp, Hgrpc, Hsql, Hmsg, Hwrk, Hmet, Hms.
  cbn [runtime.ServiceName runtime.SamplingMode runtime.ExporterEndpoint
       runtime.InstrumentationOn runtime.ConfigReloadCount runtime.TraceQueueLimit
       runtime.TraceDroppedSpans runtime.TraceExporter runtime.isSome
       runtime.ConfigReloads].
  split; [reflexivity|]. split; [reflexivity|]. split; [reflexivity|].
  split; [apply lookup_insert_eq|].
  split; [rewrite lookup_insert_ne by discriminate; apply lookup_insert_eq|].
  split; [rewrite !lookup_insert_ne by discriminate; apply lookup_insert_eq|].
  split; [rewrite !lookup_insert_ne by discriminate; apply lookup_insert_eq|].
  split; [rewrite !lookup_insert_ne by discriminate; apply lookup_insert_eq|].
  split; [rewrite !lookup_insert_ne by discriminate; apply lookup_insert_eq|].
  split; [reflexivity|]. split; [reflexivity|]. split; [reflexivity|].
  unfold runtime.statusSnapshot, runtime.newTraceExporterStats.
  cbn [rt.lastError rt.protocol rt.endpoint runtime.StatusProtocol
       runtime.StatusEndpoint runtime.StatusLastError runtime.StatusLastErrorTime].
  split; [reflexivity|]. split; [reflexivity|]. split; [reflexivity|].
  intros _. rewrite strings_ToLower_idem. reflexivity.
Qed.

Lemma New_snapshot_witness :
  exists x,
    runtimes (snd (runtime.New (Samples.env_ok Samples.cfgA) Samples.cfgA
                     Samples.world0)) !! 3%nat = Some x
    /\ runtime.TraceQueueLimit
         (runtime.Snapshot (snd (runtime.New (Samples.env_ok Samples.cfgA) Samples.cfgA
                                   Samples.world0)) x) = 2048
    /\ runtime.StatusProtocol
         (runtime.TraceExporter
            (runtime.Snapshot (snd (runtime.New (Samples.env_ok Samples.cfgA)
                                      Samples.cfgA Samples.world0)) x)) = "grpc".
Proof.
  destruct (New_snapshot (Samples.env_ok Samples.cfgA) Samples.cfgA Samples.world0
              (snd (runtime.New (Samples.env_ok Samples.cfgA) Samples.cfgA
                      Samples.world0)) 3%nat)
    as (x & otlp & Hx & Hotlp & _ & _ & _ & _ & _ & _ & _ & _ & _ & _ & Hq
        & _ & _ & _ & _ & Hp).
  - vm_compute; reflexivity.
  - injection Hotlp as <-.
    exists x. split; [exact Hx|]. split; [rewrite Hq; reflexivity|].
    rewrite Hp by reflexivity. reflexivity.
Defined.

(** The stats cell after a failed export. *)
Lemma ExportSpans_fail_heap w t exp a st spans err :
  rt.inner t = Some exp ->
  rt.stats t = Some a ->
  statsHeap w !! a = Some st ->
  se_ExportSpans exp spans = Some err ->
  int64_min <= rt.dropped st ->
  rt.dropped st + Z.of_nat (length spans) <= int64_max ->
  runtimes (snd (runtime.ExportSpans (Some t) spans w)) = runtimes w
  /\ metricsHeap (snd (runtime.ExportSpans (Some t) spans w)) = metricsHeap w
  /\ statsHeap (snd (runtime.ExportSpans (Some t) spans w)) !! a
     = Some {| rt.queueLimit := rt.queueLimit st;
               rt.dropped := rt.dropped st + Z.of_nat (length spans);
               rt.protocol := rt.protocol st;
               rt.endpoint := rt.endpoint st;
               rt.lastError := Some {| rt.message := error_Error err;
                                       rt.time := Time_UTC (clock w) |} |}.
Proof.
  intros Hin Hst Hcell Herr Hlo Hhi.
  unfold runtime.ExportSpans. rewrite Hin, Hst, Herr.
  unfold runtime.recordDrop, runtime.recordError, bind, ret, emit, time_Now,
    upd_stats; simpl.
  destruct (Z.of_nat (length spans) <=? 0) eqn:Hk; simpl.
  - apply Z.leb_le in Hk.
    assert (K0 : Z.of_nat (length spans) = 0) by lia.
    split; [reflexivity|]. split; [reflexivity|].
    rewrite lookup_alter_eq, Hcell. simpl. rewrite K0, Z.add_0_r. reflexivity.
  - split; [reflexivity|]. split; [reflexivity|].
    rewrite !lookup_alter_eq, Hcell. simpl.
    unfold runtime.stats_store_lastError, runtime.stats_add_dropped. simpl.
    rewrite atomic_Add_exact by lia. reflexivity.
Qed.

(** The wrapper that [New] hands to the tracer provider and the bundle
    the runtime keeps share one statistics cell; for every runtime with
    that sharing, a failed export of [K] spans through the wrapper shows in
    the runtime's next snapshot: [K] more dropped spans, the message of the
    failure as last error, stamped with the time of the export in UTC. *)
Theorem export_failure_shows_in_snapshot :
  (forall env cfg w r w',
     runtime.New env cfg w = (Ok r, w') ->
     exists x b t a st,
       runtimes w' !! r = Some x
       /\ rt.exporters x = Some b
       /\ rt.traceExporter b = Some t
       /\ rt.stats t = Some a
       /\ rt.traceStats b = Some a
       /\ statsHeap w' !! a = Some st
       /\ rt.dropped st = 0)
  /\ (forall w x b t exp a st spans err,
        rt.exporters x = Some b ->
        rt.traceExporter b = Some t ->
        rt.inner t = Some exp ->
        rt.stats t = Some a ->
        rt.traceStats b = Some a ->
        statsHeap w !! a = Some st ->
        se_ExportSpans exp spans = Some err ->
        int64_min <= rt.dropped st ->
        rt.dropped st + Z.of_nat (length spans) <= int64_max ->
        let w2 := snd (runtime.ExportSpans (Some t) spans w) in
        runtime.TraceDroppedSpans (runtime.Snapshot w2 x)
        = runtime.TraceDroppedSpans (runtime.Snapshot w x) + Z.of_nat (length spans)
        /\ runtime.StatusLastError (runtime.TraceExporter (runtime.Snapshot w2 x))
           = error_Error err
        /\ runtime.StatusLastErrorTime (runtime.TraceExporter (runtime.Snapshot w2 x))
           = Some (Time_UTC (clock w))
        /\ runtime.TraceQueueLimit (runtime.Snapshot w2 x)
           = runtime.TraceQueueLimit (runtime.Snapshot w x)
        /\ runtime.ConfigReloadCount (runtime.Snapshot w2 x)
           = runtime.ConfigReloadCount (runtime.Snapshot w x)).
Proof.
  split.
  - intros env cfg w r w' Hnew.
    destruct (New_ok_full env cfg w r w' Hnew)
      as (otlp & te & me & res & s & x & _ & _ & _ & _ & _ & _ & Hr & Hw' & _
          & _ & _ & Hexp & _).
    exists x. eexists. eexists. exists (nextAddr w).
    exists (runtime.newTraceExporterStats otlp).
    split; [rewrite Hw'; cbn [runtimes]; apply lookup_insert_eq|].
    split; [exact Hexp|]. split; [reflexivity|]. split; [reflexivity|].
    split; [reflexivity|].
    split; [rewrite Hw'; cbn [statsHeap]; apply lookup_insert_eq|reflexivity].
  - intros w x b t exp a st spans err Hexp Ht Hin Hst Hts Hcell Herr Hlo Hhi w2.
    subst w2.
    destruct (ExportSpans_fail_heap w t exp a st spans err Hin Hst Hcell Herr Hlo Hhi)
      as (_ & Hm & Hcell').
    unfold runtime.Snapshot, runtime.exporterStatus, runtime.bundle_stats,
      runtime.reloadCount.
    rewrite Hexp, Hts, Hcell', Hcell.
    cbn [runtime.TraceDroppedSpans runtime.TraceExporter runtime.TraceQueueLimit
         runtime.ConfigReloadCount rt.dropped rt.queueLimit].
    unfold runtime.statusSnapshot.
    cbn [rt.lastError rt.message rt.time runtime.StatusLastError
         runtime.StatusLastErrorTime].
    repeat split; try reflexivity.
    apply ConfigReloads_heap. exact Hm.
Qed.

Lemma export_failure_shows_in_snapshot_witness :
  runtime.TraceDroppedSpans
    (runtime.Snapshot
       (snd (runtime.ExportSpans
               (Some {| rt.inner := Some Samples.failingExporter;
                        rt.stats := Some 0%nat |})
               [ {| spanName := "a" |}; {| spanName := "b" |} ] Samples.fullWorld))
       Samples.fullRuntime)
  = 9.
Proof.
  destruct export_failure_shows_in_snapshot as [_ H].
  destruct (H Samples.fullWorld Samples.fullRuntime
              {| rt.traceExporter :=
                   Some {| rt.inner := Some Samples.failingExporter;
                           rt.stats := Some 0%nat |};
                 rt.metricExporter := Some {| me_Shutdown := None |};
                 rt.metricReader := Some {| mr_Shutdown := None |};
                 rt.traceStats := Some 0%nat |}
              {| rt.inner := Some Samples.failingExporter; rt.stats := Some 0%nat |}
              Samples.failingExporter 0%nat
              {| rt.queueLimit := 2048; rt.dropped := 7; rt.protocol := "grpc";
                 rt.endpoint := "localhost:4317";
                 rt.lastError := Some {| rt.message := "an earlier failure";
                                         rt.time := mkTime 5 LocUTC |} |}
              [ {| spanName := "a" |}; {| spanName := "b" |} ]
              (ErrNew "connection refused")
              eq_refl eq_refl eq_refl eq_refl eq_refl eq_refl eq_refl) as (Hd & _).
  - vm_compute. discriminate.
  - vm_compute. discriminate.
  - rewrite Hd. vm_compute. reflexivity.
Defined.

(** What [swapRuntime] does to the heaps: the only write is the
    shutdown mark on the runtime it replaces. *)
Lemma swapRuntime_heaps c new w :
  let w' := snd (observe.swapRuntime c new w) in
  metricsHeap w' = metricsHeap w
  /\ statsHeap w' = statsHeap w
  /\ nextAddr w' = nextAddr w
  /\ runtimes w'
     = match observe.runtime c with
       | Some o =>
           match runtimes w !! o with
           | Some x => if rt.once x then runtimes w
                       else alter runtime.mark_shutdown o (runtimes w)
           | None => runtimes w
           end
       | None => runtimes w
       end.
Proof.
  unfold observe.swapRuntime.
  cbv beta iota zeta delta [bind emit fst snd].
  destruct (observe.runtime c) as [o|]; [|repeat split; reflexivity].
  destruct (runtimes w !! o) as [x|] eqn:Hx.
  - destruct (rt.once x) eqn:Ho.
    + rewrite (Shutdown_again _ o x) by (simpl; auto). repeat split; reflexivity.
    + rewrite (Shutdown_first _ o x) by (simpl; auto).
      cbv beta iota zeta delta [fst snd].
      destruct (errors_Join (runtime_errors x)); repeat split; reflexivity.
  - unfold runtime.Shutdown.
    cbv beta iota zeta delta [bind load_runtime fst snd]. simpl. rewrite Hx.
    repeat split; reflexivity.
Qed.

Lemma swapRuntime_lookup c new w a y :
  runtimes w !! a = Some y ->
  exists y',
    runtimes (snd (observe.swapRuntime c new w)) !! a = Some y'
    /\ (y' = y \/ y' = runtime.mark_shutdown y)
    /\ (observe.runtime c <> Some a -> y' = y)
    /\ (observe.runtime c = Some a -> rt.shutdown (rt.state y) = false ->
        rt.once y = false /\ y' = runtime.mark_shutdown y
        \/ rt.once y = true /\ y' = y).
Proof.
  intros Hy. destruct (swapRuntime_heaps c new w) as (_ & _ & _ & Hr).
  rewrite Hr. clear Hr.
  destruct (observe.runtime c) as [o|].
  2:{ exists y. repeat split; auto. discriminate. }
  destruct (runtimes w !! o) as [x|] eqn:Hx.
  2:{ exists y. repeat split; auto. intros [= ->]. congruence. }
  destruct (rt.once x) eqn:Ho.
  { exists y. repeat split; auto. intros [= ->]. right. split; congruence. }
  destruct (decide (o = a)) as [->|Hne].
  - exists (runtime.mark_shutdown y). rewrite lookup_alter_eq, Hy.
    repeat split; auto.
    + congruence.
    + intros _ _. left. split; congruence.
  - exists y. rewrite lookup_alter_ne by auto.
    repeat split; auto. intros [= ->]. congruence.
Qed.


(** After a reload that swaps, the snapshot of the new current runtime
    reports the client's reload counter when the new configuration enables
    runtime metrics, and 0 when it does not: [InitMetrics] hands the
    counter to the runtime only in the first case. *)
Theorem reload_snapshot_count
    (env : Env) (c : observe.Client) (w w1 w2 : World) (cfg : config.Config)
    (d : string) (r a : addr) (n : Z) :
  observe.loadConfig env (observe.opts c) = Ok cfg ->
  observe.digestOf env cfg = Ok d ->
  d <> observe.configDigest c ->
  runtime.New env cfg (reload_entry w) = (Ok r, w1) ->
  runtime.InitMetrics env r (observe.metricsState c) w1 = (None, w2) ->
  observe.metricsState c = Some a ->
  metricsHeap w !! a = Some {| rt.configReloads := n |} ->
  int64_min <= n < int64_max ->
  let c' := fst (observe.reloadRuntime env c w) in
  let w' := snd (observe.reloadRuntime env c w) in
  let enabled := config.RuntimeMetricsEnabled (config.Instrumentation cfg) in
  observe.runtime c' = Some r
  /\ runtime.ConfigReloads w' (observe.metricsState c') = n + 1
  /\ exists x',
       runtimes w' !! r = Some x'
       /\ runtime.ConfigReloadCount (runtime.Snapshot w' x')
          = (if enabled then n + 1 else 0)
       /\ runtime.InstrumentationOn (runtime.Snapshot w' x') !! "runtimeMetrics"
          = Some enabled.
Proof.
  intros Hload Hdig Hne Hnew Hinit Ha Hcell Hn c' w' enabled. subst c' w' enabled.
  rewrite (reload_swaps_run env c w cfg d r w1 w2 Hload Hdig Hne Hnew Hinit).
  cbn [fst snd].
  destruct (reload_logger_fields env c cfg) as (_ & _ & Lm & _).
  rewrite Ha in Lm, Hinit |- *.
  destruct (New_ok_full env cfg (reload_entry w) r w1 Hnew)
    as (otlp & te & me & res & s & x & _ & _ & _ & _ & _ & _ & Hr & Hw1 & Hcfg
        & _ & _ & _ & _ & _ & _ & _ & _ & _ & _ & Hmet & Hms & _).
  assert (Hx : runtimes w1 !! r = Some x)
    by (rewrite Hw1; cbn [runtimes]; apply lookup_insert_eq).
  assert (Hm1 : metricsHeap w1 = metricsHeap w) by (rewrite Hw1; reflexivity).
  pose proof (InitMetrics_run env r (Some a) w1 x Hx) as Hrun.
  rewrite Hinit, Hcfg in Hrun.
  assert (Hw2 : metricsHeap w2 = metricsHeap w
                /\ exists x2,
                     runtimes w2 !! r = Some x2
                     /\ rt.metricsState x2
                        = (if config.RuntimeMetricsEnabled (config.Instrumentation cfg)
                           then Some a else None)
                     /\ runtime.isSome (rt.metrics x2)
                        = config.RuntimeMetricsEnabled (config.Instrumentation cfg)).
  { destruct (config.RuntimeMetricsEnabled (config.Instrumentation cfg)).
    - destruct (metricsController_start env) as [reg|e]; [|discriminate].
      injection Hrun as ->. split; [exact Hm1|].
      eexists. split; [cbn [set_runtimes runtimes]; apply lookup_insert_eq|].
      split; reflexivity.
    - injection Hrun as ->. split; [exact Hm1|].
      exists x. rewrite Hms, Hmet. auto. }
  destruct Hw2 as (Hm2 & x2 & Hx2 & Hms2 & Hmet2).
  set (c1 := reload_logger env c cfg).
  destruct (swapRuntime_heaps c1 r w2) as (Hm3 & _).
  destruct (swapRuntime_lookup c1 r w2 r x2 Hx2) as (x' & Hx' & Hcase & _).
  set (w3 := snd (observe.swapRuntime c1 r w2)) in *.
  assert (Hcount : runtime.ConfigReloads
                     (logged (observe.logger c1) LvlInfo "runtime reloaded"
                        (snd (runtime.IncrementConfigReloads (Some a) w3)))
                     (Some a) = n + 1).
  { unfold runtime.ConfigReloads, runtime.IncrementConfigReloads,
      upd_metrics, logged.
    cbn [snd set_metricsHeap set_events metricsHeap].
    rewrite lookup_alter_eq, Hm3, Hm2, Hcell. cbn [fmap option_fmap option_map].
    unfold runtime.metrics_add. cbn [rt.configReloads].
    apply atomic_Add_exact. lia. }
  split; [reflexivity|].
  split.
  { cbn [observe.set_configDigest observe.set_runtime observe.metricsState].
    fold c1 in Lm. rewrite Lm. exact Hcount. }
  exists x'.
  assert (Hrt : runtimes (logged (observe.logger c1) LvlInfo "runtime reloaded"
                            (snd (runtime.IncrementConfigReloads (Some a) w3))) !! r
                = Some x').
  { exact Hx'. }
  split; [exact Hrt|].
  assert (Hms' : rt.metricsState x' = rt.metricsState x2
                 /\ rt.metrics x' = rt.metrics x2)
    by (destruct Hcase as [->| ->]; split; reflexivity).
  destruct Hms' as [Hms' Hmet'].
  unfold runtime.Snapshot, runtime.reloadCount.
  cbn [runtime.ConfigReloadCount runtime.InstrumentationOn].
  rewrite Hms', Hms2, Hmet', Hmet2. split.
  - destruct (config.RuntimeMetricsEnabled (config.Instrumentation cfg));
      [exact Hcount | reflexivity].
  - rewrite !lookup_insert_ne by discriminate. apply lookup_insert_eq.
Qed.

(** Every reload attempt either keeps the client's runtime, touching no
    runtime that was in the store, or is a reload that swaps. *)
Lemma reload_kept_or_swapped env c w :
  (observe.runtime (fst (observe.reloadRuntime env c w)) = observe.runtime c
   /\ (forall a : addr, (a < nextAddr w)%nat ->
                 runtimes (snd (observe.reloadRuntime env c w)) !! a = runtimes w !! a)
   /\ (nextAddr w <= nextAddr (snd (observe.reloadRuntime env c w)))%nat)
  \/ (exists cfg d r w1 w2,
        observe.loadConfig env (observe.opts c) = Ok cfg
        /\ observe.digestOf env cfg = Ok d
        /\ d <> observe.configDigest c
        /\ runtime.New env cfg (reload_entry w) = (Ok r, w1)
        /\ runtime.InitMetrics env r (observe.metricsState c) w1 = (None, w2)).
Proof.
  destruct (observe.loadConfig env (observe.opts c)) as [cfg|e] eqn:Hload.
  2:{ left. rewrite (reload_load_fails env c w e Hload). repeat split; auto. }
  destruct (observe.digestOf env cfg) as [d|e] eqn:Hdig.
  2:{ left. rewrite (reload_digest_fails env c w cfg e Hload Hdig).
      repeat split; auto. }
  destruct (String.eqb_spec d (observe.configDigest c)) as [->|Hne].
  { left. rewrite (reload_unchanged env c w cfg Hload Hdig). repeat split; auto. }
  pose proof (reload_builds env c w cfg d Hload Hdig Hne) as Hrun.
  cbv zeta in Hrun.
  destruct (reload_logger_fields env c cfg) as (Lr & _ & Lm & _).
  rewrite Lm in Hrun.
  destruct (runtime.New env cfg (reload_entry w)) as [[r'|e] w1] eqn:Hnew.
  - destruct (New_ok_full env cfg (reload_entry w) r' w1 Hnew)
      as (otlp & te & me & res & s & x & _ & _ & _ & _ & _ & _ & Hr' & Hw1 & _).
    cbn [fst snd] in Hrun.
    assert (Hx : runtimes w1 !! r' = Some x)
      by (rewrite Hw1; cbn [runtimes]; apply lookup_insert_eq).
    pose proof (InitMetrics_run env r' (observe.metricsState c) w1 x Hx) as Hinit.
    destruct (runtime.InitMetrics env r' (observe.metricsState c) w1) as [[e|] w2]
      eqn:Hinit'.
    + left. cbn [fst snd] in Hrun.
      destruct (config.RuntimeMetricsEnabled _); [|discriminate].
      destruct (metricsController_start env) as [reg|e0]; [discriminate|].
      injection Hinit as _ Hw2.
      rewrite Hrun, Hw2, Hw1. cbn [fst snd]. split; [exact Lr|]. split.
      * intros a Ha. simpl.
        assert (Hrr : r' <> a)
          by (rewrite Hr'; cbn [reload_entry set_events nextAddr]; lia).
        rewrite !lookup_insert_ne by auto. reflexivity.
      * simpl. rewrite Hr'. cbn [reload_entry set_events nextAddr]. lia.
    + right. exists cfg, d, r', w1, w2. auto.
  - left.
    destruct (New_run_summary env cfg (reload_entry w))
      as (res & rs' & sh' & n' & otp' & omp' & evs & Hnew' & Hs & Hn & Hres).
    rewrite Hnew in Hnew'. injection Hnew' as <- Hw1. subst rs'.
    cbn [fst snd] in Hrun. rewrite Hrun, Hw1. cbn [fst snd].
    split; [exact Lr|]. split; [intros; reflexivity|]. exact Hn.
Qed.

(** The runtime a client holds is never one that was shut down by the
    package itself: [Init] returns a client whose runtime is in the store
    and live, and every reload attempt on such a client leaves it with a
    live runtime again; when the attempt replaced the runtime, the one it
    replaced is shut down by then. *)
Theorem current_runtime_stays_live :
  (forall env settings w c w',
     observe.Init env settings w = (Ok c, w') -> client_live c w')
  /\ (forall env c w,
        client_live c w ->
        let c' := fst (observe.reloadRuntime env c w) in
        let w' := snd (observe.reloadRuntime env c w) in
        client_live c' w'
        /\ forall old,
             observe.runtime c = Some old ->
             observe.runtime c' <> Some old ->
             runtime.IsShutdown w' old = true).
Proof.
  split.
  - intros env settings w c w'.
    unfold observe.Init, bindR, wrapping.
    cbv beta iota zeta delta [bind ret fst snd].
    destruct (observe.loadConfig env settings) as [cfg|e]; simpl; [|discriminate].
    unfold runtime.NewMetricsState.
    cbv beta iota zeta delta [bind ret fresh upd_metrics fst snd].
    set (w0 := set_metricsHeap _ _).
    destruct (runtime.New env cfg w0) as [[r|e] w1] eqn:Hnew; simpl; [|discriminate].
    destruct (New_ok_full env cfg w0 r w1 Hnew)
      as (otlp & te & me & res & s & x & _ & _ & _ & _ & _ & _ & Hr & Hw1 & Hcfg
          & _ & _ & _ & _ & _ & _ & _ & _ & _ & _ & _ & _ & Ho & Hsd & _).
    assert (Hx : runtimes w1 !! r = Some x)
      by (rewrite Hw1; cbn [runtimes]; apply lookup_insert_eq).
    rewrite (InitMetrics_run env r (Some (nextAddr w)) w1 x Hx).
    assert (Hn1 : nextAddr w1 = S r) by (rewrite Hw1; reflexivity).
    destruct (config.RuntimeMetricsEnabled _).
    + destruct (metricsController_start env) as [reg|e]; [|discriminate].
      destruct (observe.digestOf env cfg) as [d|e]; simpl; [|discriminate].
      intros [= <- <-]. unfold client_live. exists r. eexists.
      split; [reflexivity|]. split; [simpl; lia|].
      split; [cbn [set_runtimes runtimes]; apply lookup_insert_eq|].
      split; assumption.
    + destruct (observe.digestOf env cfg) as [d|e]; simpl; [|discriminate].
      intros [= <- <-]. unfold client_live. exists r, x.
      split; [reflexivity|]. split; [lia|]. auto.
  - intros env c w (r & x & Hr & Hlt & Hx & Ho & Hsd) c' w'. subst c' w'.
    destruct (reload_kept_or_swapped env c w)
      as [(Hkeep & Hsame & Hn)
         |(cfg & d & r' & w1 & w2 & Hload & Hdig & Hne & Hnew & Hinit)].
    + split.
      * unfold client_live. exists r, x. rewrite Hkeep, (Hsame r Hlt).
        repeat split; auto. lia.
      * intros old Hold Hneq. congruence.
    + rewrite (reload_swaps_run env c w cfg d r' w1 w2 Hload Hdig Hne Hnew Hinit).
      cbn [fst snd].
      destruct (reload_logger_fields env c cfg) as (Lr & _ & _ & _).
      set (c1 := reload_logger env c cfg) in *.
      destruct (New_ok_full env cfg (reload_entry w) r' w1 Hnew)
        as (otlp & te & me & res & s & y & _ & _ & _ & _ & _ & _ & Hr' & Hw1 & _
            & _ & _ & _ & _ & _ & _ & _ & _ & _ & _ & _ & _ & Hyo & Hysd & _).
      assert (Hrr : r' <> r)
        by (rewrite Hr'; cbn [reload_entry set_events nextAddr]; lia).
      assert (Hy : runtimes w1 !! r' = Some y)
        by (rewrite Hw1; cbn [runtimes]; apply lookup_insert_eq).
      assert (Hx1 : runtimes w1 !! r = Some x).
      { rewrite Hw1. cbn [runtimes]. rewrite lookup_insert_ne by auto. exact Hx. }
      pose proof (InitMetrics_run env r' (observe.metricsState c) w1 y Hy) as Hrun.
      rewrite Hinit in Hrun.
      assert (Hw2 : nextAddr w2 = S r'
                    /\ runtimes w2 !! r = Some x
                    /\ exists y2, runtimes w2 !! r' = Some y2
                                  /\ rt.once y2 = false
                                  /\ rt.shutdown (rt.state y2) = false).
      { assert (Hn1 : nextAddr w1 = S r') by (rewrite Hw1; reflexivity).
        destruct (config.RuntimeMetricsEnabled _).
        - destruct (metricsController_start env) as [reg|e]; [|discriminate].
          injection Hrun as ->. split; [exact Hn1|]. split.
          + cbn [set_runtimes runtimes]. rewrite !lookup_insert_ne by auto. exact Hx1.
          + eexists. split; [cbn [set_runtimes runtimes]; apply lookup_insert_eq|].
            split; assumption.
        - injection Hrun as ->. split; [exact Hn1|]. split; [exact Hx1|].
          exists y. auto. }
      destruct Hw2 as (Hn2 & Hx2 & y2 & Hy2 & Hy2o & Hy2sd).
      destruct (swapRuntime_heaps c1 r' w2) as (_ & _ & Hn3 & _).
      destruct (swapRuntime_lookup c1 r' w2 r' y2 Hy2) as (y' & Hy' & _ & Hother & _).
      destruct (swapRuntime_lookup c1 r' w2 r x Hx2) as (x' & Hx' & _ & _ & Hmine).
      assert (Hc1 : observe.runtime c1 = Some r) by congruence.
      assert (y' = y2) as -> by (apply Hother; congruence).
      destruct (Hmine Hc1 Hsd) as [[_ ->]|[Hcontra _]]; [|congruence].
      assert (Hrt : forall a,
                 runtimes (logged (observe.logger c1) LvlInfo "runtime reloaded"
                             (snd (runtime.IncrementConfigReloads
                                     (observe.metricsState c)
                                     (snd (observe.swapRuntime c1 r' w2))))) !! a
                 = runtimes (snd (observe.swapRuntime c1 r' w2)) !! a)
        by (intros a; destruct (observe.metricsState c); reflexivity).
      assert (Hnx : nextAddr (logged (observe.logger c1) LvlInfo "runtime reloaded"
                                (snd (runtime.IncrementConfigReloads
                                        (observe.metricsState c)
                                        (snd (observe.swapRuntime c1 r' w2)))))
                    = S r')
        by (destruct (observe.metricsState c); simpl; congruence).
      split.
      * unfold client_live. exists r', y2.
        split; [reflexivity|]. split; [rewrite Hnx; lia|].
        split; [rewrite Hrt; exact Hy'|]. auto.
      * intros old Hold _. assert (old = r) as -> by congruence.
        unfold runtime.IsShutdown. rewrite Hrt, Hx'. reflexivity.
Qed.

Lemma reload_snapshot_count_witness :
  runtime.ConfigReloads
    (snd (observe.reloadRuntime (Samples.env_ok Cases.cfgQuiet)
            Samples.bootedClient Samples.bootedWorld))
    (observe.metricsState
       (fst (observe.reloadRuntime (Samples.env_ok Cases.cfgQuiet)
               Samples.bootedClient Samples.bootedWorld)))
  = 0 + 1
  /\ exists x',
       runtimes (snd (observe.reloadRuntime (Samples.env_ok Cases.cfgQuiet)
                        Samples.bootedClient Samples.bootedWorld)) !! 8%nat = Some x'
       /\ runtime.ConfigReloadCount
            (runtime.Snapshot
               (snd (observe.reloadRuntime (Samples.env_ok Cases.cfgQuiet)
                       Samples.bootedClient Samples.bootedWorld)) x')
          = 0.
Proof.
  destruct (reload_snapshot_count (Samples.env_ok Cases.cfgQuiet)
              Samples.bootedClient Samples.bootedWorld
              (snd (runtime.New (Samples.env_ok Cases.cfgQuiet) Cases.cfgQuiet
                      (reload_entry Samples.bootedWorld)))
              (snd (runtime.InitMetrics (Samples.env_ok Cases.cfgQuiet) 8%nat
                      (Some 0%nat)
                      (snd (runtime.New (Samples.env_ok Cases.cfgQuiet) Cases.cfgQuiet
                              (reload_entry Samples.bootedWorld)))))
              Cases.cfgQuiet "always_off/observe-service" 8%nat 0%nat 0)
    as (_ & Hc & x' & Hx' & Hs & _).
  - vm_compute; reflexivity.
  - vm_compute; reflexivity.
  - vm_compute. discriminate.
  - vm_compute; reflexivity.
  - vm_compute; reflexivity.
  - vm_compute; reflexivity.
  - vm_compute; reflexivity.
  - split; [vm_compute; discriminate | vm_compute; reflexivity].
  - split; [exact Hc|]. exists x'. split; [exact Hx' | exact Hs].
Defined.

Lemma current_runtime_stays_live_witness :
  client_live Samples.bootedClient Samples.bootedWorld
  /\ client_live
       (fst (observe.reloadRuntime (Samples.env_ok Samples.cfgB)
               Samples.bootedClient Samples.bootedWorld))
       (snd (observe.reloadRuntime (Samples.env_ok Samples.cfgB)
               Samples.bootedClient Samples.bootedWorld)).
Proof.
  destruct current_runtime_stays_live as [Hinit Hreload].
  assert (H0 : client_live Samples.bootedClient Samples.bootedWorld).
  { apply (Hinit (Samples.env_ok Samples.cfgA) Samples.settings0 Samples.world0).
    vm_compute; reflexivity. }
  split; [exact H0|].
  exact (proj1 (Hreload (Samples.env_ok Samples.cfgB) Samples.bootedClient
                  Samples.bootedWorld H0)).
Defined.

Lemma errors_Join_None l : errors_Join l = None <-> l = [].
Proof. destruct l; simpl; split; congruence. Qed.

(** The first [Shutdown] of a runtime returns nil exactly when none of
    the sub-resources it owns answered an error; otherwise it returns,
    wrapped once, the join of those errors in the order of the visit, and
    every failure of a provider, of the bundle, of the metrics controller
    and of the diagnostics server is among them.  The failures are
    reported once: the next call returns nil. *)
Theorem Shutdown_reports_failures (w : World) (r : addr) (x : rt.Runtime) :
  runtimes w !! r = Some x ->
  rt.once x = false ->
  let res := fst (runtime.Shutdown r w) in
  let w1 := snd (runtime.Shutdown r w) in
  (res = None <-> runtime_errors x = [])
  /\ (forall e, res = Some e ->
                e = ErrWrap (ErrJoin (runtime_errors x)) "shutdown runtime")
  /\ (forall tp e, rt.tracerProvider x = Some tp -> tp_Shutdown tp = Some e ->
                   In e (runtime_errors x))
  /\ (forall mp e, rt.meterProvider x = Some mp -> mp_Shutdown mp = Some e ->
                   In e (runtime_errors x))
  /\ (forall b, rt.exporters x = Some b -> bundle_errors b <> [] ->
                In (ErrJoin (bundle_errors b)) (runtime_errors x))
  /\ (forall ctl reg e, rt.metrics x = Some ctl -> rt.mc_registration ctl = Some reg ->
                        reg_Unregister reg = Some e ->
                        In (ErrWrap e "unregister runtime metrics") (runtime_errors x))
  /\ (forall d e, rt.diagServer x = Some d -> ds_Shutdown d = Some e ->
                  In e (runtime_errors x))
  /\ fst (runtime.Shutdown r w1) = None.
Proof.
  intros Hx Ho res w1. subst res w1.
  rewrite (Shutdown_first w r x Hx Ho). cbn [fst snd].
  split; [|split; [|split; [|split; [|split; [|split; [|split]]]]]].
  - rewrite <- errors_Join_None.
    destruct (errors_Join (runtime_errors x)); simpl; split; congruence.
  - intros e. destruct (runtime_errors x) as [|e0 l]; simpl; [discriminate|].
    intros [= <-]. reflexivity.
  - intros tp e Htp He. unfold runtime_errors. rewrite Htp, He.
    apply in_or_app. left. left. reflexivity.
  - intros mp e Hmp He. unfold runtime_errors. rewrite Hmp, He.
    apply in_or_app. right. apply in_or_app. left. left. reflexivity.
  - intros b Hb Hne. unfold runtime_errors. rewrite Hb.
    apply in_or_app. right. apply in_or_app. right. apply in_or_app. left.
    destruct (bundle_errors b); [congruence|]. left. reflexivity.
  - intros ctl reg e Hc Hreg He. unfold runtime_errors, controller_error.
    rewrite Hc, Hreg, He.
    apply in_or_app. right. apply in_or_app. right. apply in_or_app. right.
    apply in_or_app. left. left. reflexivity.
  - intros d e Hd He. unfold runtime_errors. rewrite Hd, He.
    apply in_or_app. right. apply in_or_app. right. apply in_or_app. right.
    apply in_or_app. right. left. reflexivity.
  - erewrite Shutdown_again; [reflexivity| |].
    + cbn [set_runtimes runtimes set_events]. rewrite lookup_alter_eq, Hx. reflexivity.
    + reflexivity.
Qed.

Lemma Shutdown_reports_failures_witness :
  fst (runtime.Shutdown 0%nat Samples.fullWorld)
  = Some (ErrWrap (ErrJoin [ErrNew "context deadline exceeded"]) "shutdown runtime")
  /\ fst (runtime.Shutdown 0%nat (snd (runtime.Shutdown 0%nat Samples.fullWorld)))
     = None.
Proof.
  destruct (Shutdown_reports_failures Samples.fullWorld 0%nat Samples.fullRuntime
              eq_refl eq_refl) as (_ & He & _ & _ & _ & _ & _ & Hagain).
  split; [|exact Hagain].
  destruct (fst (runtime.Shutdown 0%nat Samples.fullWorld)) as [e|] eqn:E.
  - rewrite (He e eq_refl). reflexivity.
  - vm_compute in E. discriminate E.
Defined.

(** A configuration that [Validate] accepts passes the configuration
    checks of the runtime: it has an OTLP section with an endpoint, so
    [newExporterBundle] can only fail in the SDK's exporter constructors,
    and its sampling mode is one [samplerFromConfig] knows, so the sampler
    can only fail on a [trace_id_ratio] argument outside (0,1], which
    [Validate] does not look at, with the range error that names the
    argument. *)
Theorem Validate_covers_runtime_checks (cfg : config.Config) :
  config.Validate cfg = None ->
  exists otlp,
    config.OTLP (config.Exporters cfg) = Some otlp
    /\ config.Endpoint otlp <> ""
    /\ config.Name (config.Service cfg) <> ""
    /\ (forall env w e w',
          runtime.newExporterBundle env (config.Exporters cfg) w = (Err e, w') ->
          newOTLPTraceExporter env otlp = Err e
          \/ newOTLPMetricExporter env otlp = Err e)
    /\ (forall e,
          runtime.samplerFromConfig (config.Sampling cfg) = Err e ->
          config.Mode (config.Sampling cfg) = "trace_id_ratio"
          /\ e = ErrNew ("sampling.argument must be within (0,1], got "
                        ++ fmt_f (config.Argument (config.Sampling cfg)))%string
          /\ (f64_le (config.Argument (config.Sampling cfg)) f64_zero
              || f64_gt (config.Argument (config.Sampling cfg)) f64_one)%bool = true).
Proof.
  unfold config.Validate.
  destruct (String.eqb_spec (config.Name (config.Service cfg)) "") as [|Hname];
    [discriminate|].
  destruct (config.OTLP (config.Exporters cfg)) as [otlp|] eqn:Hotlp; [|discriminate].
  destruct (String.eqb_spec (config.Endpoint otlp) "") as [|Hend]; [discriminate|].
  destruct (config.valid_mode (config.Mode (config.Sampling cfg))) eqn:Hmode;
    [|discriminate].
  intros _. exists otlp. split; [reflexivity|]. split; [exact Hend|].
  split; [exact Hname|]. split.
  - intros env w e w'. unfold runtime.newExporterBundle. rewrite Hotlp.
    apply String.eqb_neq in Hend. rewrite Hend.
    cbv beta iota zeta delta [bind ret emit fresh upd_stats fst snd].
    destruct (newOTLPTraceExporter env otlp) as [te|e1]; [|intros [= <- _]; auto].
    destruct (newOTLPMetricExporter env otlp) as [me|e2]; [discriminate|].
    intros [= <- _]. auto.
  - intros e. unfold config.valid_mode in Hmode. unfold runtime.samplerFromConfig.
    destruct (String.eqb (config.Mode (config.Sampling cfg)) "always_on");
      [discriminate|].
    destruct (String.eqb (config.Mode (config.Sampling cfg)) "always_off");
      [discriminate|].
    destruct (String.eqb (config.Mode (config.Sampling cfg)) "parentbased_always_on");
      [discriminate|].
    destruct (String.eqb (config.Mode (config.Sampling cfg)) "parentbased_always_off");
      [discriminate|].
    destruct (String.eqb_spec (config.Mode (config.Sampling cfg)) "trace_id_ratio")
      as [Hm|]; [|discriminate].
    destruct (f64_le _ _ || f64_gt _ _)%bool; [|discriminate].
    intros [= <-]. auto.
Qed.

Lemma Validate_covers_runtime_checks_witness :
  exists otlp,
    config.OTLP (config.Exporters Samples.cfgZero) = Some otlp
    /\ config.Endpoint otlp <> ""
    /\ runtime.samplerFromConfig (config.Sampling Samples.cfgZero)
       = Err (ErrNew "sampling.argument must be within (0,1], got 0.000000").
Proof.
  destruct (Validate_covers_runtime_checks Samples.cfgZero eq_refl)
    as (otlp & Hotlp & Hend & _ & _ & Hs).
  exists otlp. split; [exact Hotlp|]. split; [exact Hend|]. reflexivity.
Defined.

Lemma reload_step_events envs T c lg w :
  exists evs,
    events (snd (observe.reloadRuntime (envs T) c
                   (logged lg LvlInfo "configuration change detected"
                      (set_clock (mkTime T LocLocal) w))))
    = events w ++ evs
    /\ observe.reload_times evs = [T].
Proof.
  destruct (reloadRuntime_marks (envs T) c
              (logged lg LvlInfo "configuration change detected"
                 (set_clock (mkTime T LocLocal) w))) as (e1 & E1 & F1).
  exists ([EvLog lg LvlInfo "configuration change detected"]
          ++ [EvReloadRuntime T] ++ e1).
  split.
  - rewrite E1. simpl. rewrite <- app_assoc. reflexivity.
  - rewrite !reload_times_app, (reload_times_free e1 F1). reflexivity.
Qed.

Lemma relevant_times_app target l k :
  relevant_times target (l ++ k) = relevant_times target l ++ relevant_times target k.
Proof. unfold relevant_times. apply flat_map_app. Qed.

(** Time passing (the Go runtime delivering a due tick) keeps the loop
    invariant. *)
Lemma loop_inv_deliver d seen extra lo t s c' :
  loop_inv d seen lo s ->
  lo <= t ->
  observe.reloadDebounce (observe.opts c') = d ->
  loop_inv d (seen ++ extra) t
    {| observe.pending := observe.pending s;
       observe.timer := observe.timer_deliver t (observe.timer s);
       observe.client := c' |}.
Proof.
  intros [Hd Hinv] Hlo Hc. split; [exact Hc|].
  cbn [observe.pending observe.timer].
  destruct (observe.pending s).
  - destruct Hinv as (t0 & Hin & Ht0 & [Ht|[Ht Hfired]]).
    + exists t0. split; [apply in_or_app; auto|]. split; [lia|].
      rewrite Ht. unfold observe.timer_deliver. cbn [observe.deadline].
      destruct (t0 + d <=? t) eqn:E.
      * right. split; [reflexivity|]. apply Z.leb_le in E. exact E.
      * left. reflexivity.
    + exists t0. split; [apply in_or_app; auto|]. split; [lia|].
      rewrite Ht. right. split; [reflexivity|lia].
  - rewrite Hinv. reflexivity.
Qed.

(** Re-arming from any state of the invariant leaves an armed timer and
    an empty channel. *)
Lemma loop_inv_resetTimer d seen lo s t :
  loop_inv d seen lo s ->
  observe.resetTimer t (observe.timer_deliver t (observe.timer s)) d
  = {| observe.deadline := Some (t + d); observe.C := false |}.
Proof.
  intros [_ Hinv].
  unfold observe.resetTimer, observe.timer_deliver, observe.timer_Stop,
    observe.timer_drain, observe.timer_Reset.
  destruct (observe.pending s).
  - destruct Hinv as (t0 & _ & _ & [Ht|[Ht _]]); rewrite Ht; simpl.
    + destruct (t0 + d <=? t); reflexivity.
    + reflexivity.
  - rewrite Hinv. reflexivity.
Qed.

Lemma watchLoop_step_safe envs target d seen lo s i w :
  loop_inv d seen lo s ->
  (forall t, input_time i = Some t -> lo <= t) ->
  exists evs,
    events (snd (observe.watchLoop_step envs target s i w)) = events w ++ evs
    /\ (forall T, In T (observe.reload_times evs) ->
          exists t0, In t0 (seen ++ relevant_times target [i])
                     /\ t0 + Z.max d 0 <= T)
    /\ match fst (observe.watchLoop_step envs target s i w) with
       | observe.Continue s' =>
           loop_inv d (seen ++ relevant_times target [i])
             (match input_time i with Some t => t | None => lo end) s'
           /\ (length (observe.reload_times evs) + b2n (observe.pending s')
               <= b2n (observe.pending s) + length (relevant_times target [i]))%nat
       | _ => observe.reload_times evs = []
       end.
Proof.
  intros Hinv Htime.
  assert (Hd : observe.reloadDebounce (observe.opts (observe.client s)) = d)
    by (destruct Hinv; assumption).
  destruct i as [|t e| |t|t err|].
  - exists []. rewrite app_nil_r. simpl. repeat split; auto. intros T [].
  - specialize (Htime t eq_refl).
    unfold observe.watchLoop_step, observe.log.
    cbv beta iota zeta delta [bind observe.at_time ret emit].
    cbn [relevant_times flat_map input_time]. unfold is_relevant.
    destruct (String.eqb (observe.ev_Name e) target) eqn:Hname; cbn [negb andb].
    2:{ exists []. rewrite app_nil_r. cbn [fst snd]. split; [reflexivity|].
        split; [intros T []|]. split.
        - apply (loop_inv_deliver d seen _ lo); auto.
        - simpl. lia. }
    destruct (Z.land (observe.ev_Op e) _ =? 0) eqn:Hop; cbn [negb].
    { exists []. rewrite app_nil_r. cbn [fst snd]. split; [reflexivity|].
      split; [intros T []|]. split.
      - apply (loop_inv_deliver d seen _ lo); auto.
      - simpl. lia. }
    rewrite Hd. destruct (d <=? 0) eqn:Hdz.
    + apply Z.leb_le in Hdz.
      destruct (reload_step_events envs t (observe.client s)
                  (observe.logger (observe.client s)) w) as (evs & Hev & Hrt).
      pose proof (reload_keeps_debounce (envs t) (observe.client s)
                    (logged (observe.logger (observe.client s)) LvlInfo
                       "configuration change detected"
                       (set_clock (mkTime t LocLocal) w))) as Hdb.
      unfold logged in Hev, Hdb.
      destruct (observe.reloadRuntime (envs t) (observe.client s) _) as [c' w'].
      cbn [fst snd] in *. exists evs. split; [exact Hev|]. rewrite Hrt.
      split.
      * intros T [<-|[]]. exists t. split; [apply in_or_app; right; left; auto|lia].
      * split; [apply (loop_inv_deliver d seen _ lo); auto; congruence|].
        cbn [observe.pending]. simpl. lia.
    + apply Z.leb_gt in Hdz.
      exists []. rewrite app_nil_r. cbn [fst snd]. split; [reflexivity|].
      split; [intros T []|]. split.
      * rewrite (loop_inv_resetTimer d seen lo s t Hinv).
        split; [exact Hd|]. cbn [observe.pending observe.timer].
        exists t. split; [apply in_or_app; right; left; auto|].
        split; [lia|]. left. reflexivity.
      * cbn [observe.pending]. simpl. lia.
  - exists []. rewrite app_nil_r. simpl. repeat split; auto. intros T [].
  - specialize (Htime t eq_refl).
    unfold observe.watchLoop_step, observe.log.
    cbv beta iota zeta delta [bind observe.at_time ret emit].
    cbn [relevant_times flat_map input_time]. rewrite app_nil_r.
    destruct (observe.C (observe.timer_deliver t (observe.timer s))) eqn:HC;
      cbn [negb].
    2:{ exists []. rewrite app_nil_r. cbn [fst snd]. repeat split; auto.
        intros T []. }
    destruct Hinv as [_ Hinv].
    destruct (observe.pending s) eqn:Hp; cbn [negb].
    2:{ rewrite Hinv in HC. discriminate HC. }
    destruct (reload_step_events envs t (observe.client s)
                (observe.logger (observe.client s)) w) as (evs & Hev & Hrt).
    pose proof (reload_keeps_debounce (envs t) (observe.client s)
                  (logged (observe.logger (observe.client s)) LvlInfo
                     "configuration change detected"
                     (set_clock (mkTime t LocLocal) w))) as Hdb.
    unfold logged in Hev, Hdb.
    destruct (observe.reloadRuntime (envs t) (observe.client s) _) as [c' w'].
    cbn [fst snd] in *. exists evs. split; [exact Hev|]. rewrite Hrt.
    destruct Hinv as (t0 & Hin & Ht0 & Hshape).
    assert (Hfire : t0 + d <= t
                    /\ observe.timer_drain (observe.timer_deliver t (observe.timer s))
                       = {| observe.deadline := None; observe.C := false |}).
    { destruct Hshape as [Ht|[Ht Hfired]]; rewrite Ht in HC |- *;
        unfold observe.timer_deliver in *; cbn [observe.deadline] in *.
      - destruct (t0 + d <=? t) eqn:E; [|discriminate HC].
        apply Z.leb_le in E. split; [exact E|reflexivity].
      - split; [lia|reflexivity]. }
    destruct Hfire as [Hge Hidle]. split.
    + intros T [<-|[]]. exists t0. split; [exact Hin|lia].
    + split.
      * split; [cbn [observe.client]; congruence|].
        cbn [observe.pending observe.timer]. exact Hidle.
      * cbn [observe.pending]. simpl. lia.
  - specialize (Htime t eq_refl).
    unfold observe.watchLoop_step, observe.log.
    cbv beta iota zeta delta [bind observe.at_time ret emit].
    cbn [relevant_times flat_map input_time fst snd].
    exists [EvLog (observe.logger (observe.client s)) LvlError "config watcher error"].
    split; [reflexivity|]. split; [intros T []|]. split.
    + apply (loop_inv_deliver d seen _ lo); auto.
    + simpl. lia.
  - exists []. rewrite app_nil_r. simpl. repeat split; auto. intros T [].
Qed.

Lemma watchLoop_safe envs target d inputs :
  forall s w lo seen,
    loop_inv d seen lo s ->
    schedule_from lo inputs ->
    exists evs,
      events (snd (observe.watchLoop envs target s inputs w)) = events w ++ evs
      /\ (forall T, In T (observe.reload_times evs) ->
            exists t0, In t0 (seen ++ relevant_times target inputs)
                       /\ t0 + Z.max d 0 <= T)
      /\ (length (observe.reload_times evs)
          <= b2n (observe.pending s) + length (relevant_times target inputs))%nat.
Proof.
  induction inputs as [|i rest IH]; intros s w lo seen Hinv Hsched.
  - exists []. rewrite app_nil_r. simpl. repeat split; auto; [intros T []|lia].
  - assert (Htime : forall t, input_time i = Some t -> lo <= t).
    { intros t Ht. cbn [schedule_from] in Hsched. rewrite Ht in Hsched. tauto. }
    assert (Hrest : schedule_from (match input_time i with Some t => t | None => lo end)
                      rest).
    { cbn [schedule_from] in Hsched. destruct (input_time i); tauto. }
    destruct (watchLoop_step_safe envs target d seen lo s i w Hinv Htime)
      as (evs1 & Hev1 & Hwit1 & Hres).
    change (i :: rest) with ([i] ++ rest).
    rewrite relevant_times_app.
    cbn [app observe.watchLoop]. unfold bind.
    destruct (observe.watchLoop_step envs target s i w) as [[s'| |] w1];
      cbn [fst snd] in *.
    + destruct Hres as [Hinv' Hcount].
      destruct (IH s' w1 _ _ Hinv' Hrest) as (evs2 & Hev2 & Hwit2 & Hcount2).
      exists (evs1 ++ evs2). split; [rewrite Hev2, Hev1, app_assoc; reflexivity|].
      rewrite reload_times_app. split.
      * intros T HT. apply in_app_or in HT as [HT|HT].
        -- destruct (Hwit1 T HT) as (t0 & Hin & Hle). exists t0. split; [|exact Hle].
           rewrite app_assoc. apply in_or_app. left. exact Hin.
        -- destruct (Hwit2 T HT) as (t0 & Hin & Hle). exists t0. split; [|exact Hle].
           rewrite app_assoc. exact Hin.
      * rewrite !length_app. lia.
    + exists evs1. split; [exact Hev1|]. rewrite Hres. split; [intros T []|simpl; lia].
    + exists evs1. split; [exact Hev1|]. rewrite Hres. split; [intros T []|simpl; lia].
Qed.

(** Whatever the loop receives, in the order of time: every reload
    attempt it starts comes at least the debounce after a relevant event
    of the watched file that the loop received before (at that event when
    the debounce is not positive), and there are never more reload
    attempts than relevant events.  Events of other files, events with
    only the Chmod or Remove bit, watcher errors and timer ticks start no
    reload of their own. *)
Theorem watchLoop_reloads_follow_events
    (envs : Z -> Env) (target : string) (c : observe.Client) (w : World)
    (now lo : Z) (inputs : list observe.Input) :
  schedule_from lo inputs ->
  let d := observe.reloadDebounce (observe.opts c) in
  let evs := emitted (observe.watchLoop envs target (observe.watchLoop_init now c) inputs)
               w in
  (forall T, In T (observe.reload_times evs) ->
     exists t0, In t0 (relevant_times target inputs) /\ t0 + Z.max d 0 <= T)
  /\ (length (observe.reload_times evs) <= length (relevant_times target inputs))%nat
  /\ (relevant_times target inputs = [] -> observe.reload_times evs = []).
Proof.
  intros Hsched d evs. subst evs.
  assert (Hinv : loop_inv d [] lo (observe.watchLoop_init now c)).
  { split; reflexivity. }
  destruct (watchLoop_safe envs target d inputs (observe.watchLoop_init now c) w lo []
              Hinv Hsched) as (evs & Hev & Hwit & Hcount).
  rewrite (emitted_app _ w evs Hev).
  cbn [app observe.watchLoop_init observe.pending b2n] in Hwit, Hcount.
  split; [exact Hwit|]. split; [exact Hcount|].
  intros Hnone. rewrite Hnone in Hcount. simpl in Hcount.
  destruct (observe.reload_times evs); [reflexivity|simpl in Hcount; lia].
Qed.

Lemma watchLoop_reloads_follow_events_witness :
  (length (observe.reload_times
             (emitted
                (observe.watchLoop (fun _ => Samples.env_ok Samples.cfgB) Samples.target
                   (observe.watchLoop_init 0 Samples.bootedClient)
                   (burst Samples.target Samples.saves
                    ++ [observe.InError 300000000 (ErrNew "overflow");
                        observe.InTimer 450000000]))
                Samples.bootedWorld))
   <= 3)%nat.
Proof.
  destruct (watchLoop_reloads_follow_events (fun _ => Samples.env_ok Samples.cfgB)
              Samples.target Samples.bootedClient Samples.bootedWorld 0 0
              (burst Samples.target Samples.saves
               ++ [observe.InError 300000000 (ErrNew "overflow");
                   observe.InTimer 450000000])) as (_ & H & _).
  - simpl. lia.
  - exact H.
Defined.

Lemma read_ca_not_sentinel p :
  String.eqb ("read ca file " ++ p) "tls is not enabled" = false.
Proof. reflexivity. Qed.

Lemma parse_ca_not_sentinel p :
  String.eqb ("failed to parse ca file " ++ p) "tls is not enabled" = false.
Proof. reflexivity. Qed.

(** [tlsConfigFrom] answers [ErrTLSNotEnabled] exactly when the TLS
    section sets nothing (no CA file, no certificate, no key, not
    insecure), and then without reading any file; no other failure of
    [tlsConfigFrom] passes for it under [ErrTLSNotEnabled.Is]. *)
Theorem tlsConfigFrom_not_enabled_iff
    (fs : exporters.Files) (cfg : config.TLSConfig) :
  (tls_unset cfg ->
     forall fs', exporters.tlsConfigFrom fs' cfg = Err exporters.ErrTLSNotEnabled)
  /\ (forall e, exporters.tlsConfigFrom fs cfg = Err e ->
                exporters.ErrTLSNotEnabled_Is e = true -> tls_unset cfg)
  /\ exporters.ErrTLSNotEnabled_Is exporters.ErrTLSNotEnabled = true.
Proof.
  unfold tls_unset, exporters.tlsConfigFrom.
  split; [|split; [|reflexivity]].
  - intros (-> & -> & -> & ->) fs'. reflexivity.
  - intros e.
    destruct (String.eqb_spec (config.CAFile cfg) "") as [Hca|Hca];
      destruct (String.eqb_spec (config.CertFile cfg) "") as [Hcert|Hcert];
      destruct (String.eqb_spec (config.KeyFile cfg) "") as [Hkey|Hkey];
      destruct (config.TLSInsecure cfg); cbn [negb andb orb];
      try destruct (exporters.os_ReadFile fs (config.CAFile cfg)) as [data|e0];
      try destruct (exporters.AppendCertsFromPEM fs data); cbn [negb];
      try destruct (exporters.tls_LoadX509KeyPair fs _ _);
      intros [= <-]; cbn [exporters.ErrTLSNotEnabled_Is];
      rewrite ?read_ca_not_sentinel, ?parse_ca_not_sentinel;
      try discriminate; auto.
Qed.

Lemma tlsConfigFrom_not_enabled_iff_witness :
  exporters.tlsConfigFrom ExporterCases.files ExporterCases.noTLS
  = Err exporters.ErrTLSNotEnabled
  /\ tls_unset ExporterCases.noTLS.
Proof.
  destruct (tlsConfigFrom_not_enabled_iff ExporterCases.files ExporterCases.noTLS)
    as (H1 & H2 & _).
  split.
  - apply H1. repeat split; reflexivity.
  - apply (H2 exporters.ErrTLSNotEnabled); reflexivity.
Defined.

(** A [tls.Config] that [tlsConfigFrom] returns skips verification
    exactly when the section says insecure, has root CAs exactly when a CA
    file is named (the pool parsed from that file), and has a client
    certificate exactly when certificate and key file are both named (the
    pair loaded from them); a section naming only one of the two never
    yields a configuration. *)
Theorem tlsConfigFrom_ok_shape
    (fs : exporters.Files) (cfg : config.TLSConfig) (t : exporters.tls_Config) :
  exporters.tlsConfigFrom fs cfg = Ok t ->
  exporters.InsecureSkipVerify t = config.TLSInsecure cfg
  /\ (config.CAFile cfg = "" -> exporters.RootCAs t = None)
  /\ (config.CAFile cfg <> "" ->
      exists data,
        exporters.RootCAs t = Some data
        /\ exporters.os_ReadFile fs (config.CAFile cfg) = Ok data
        /\ exporters.AppendCertsFromPEM fs data = true)
  /\ (config.CertFile cfg = "" <-> config.KeyFile cfg = "")
  /\ (config.CertFile cfg = "" -> exporters.Certificates t = [])
  /\ (config.CertFile cfg <> "" ->
      exists c,
        exporters.Certificates t = [c]
        /\ exporters.tls_LoadX509KeyPair fs (config.CertFile cfg) (config.KeyFile cfg)
           = Ok c)
  /\ ~ tls_unset cfg.
Proof.
  unfold tls_unset, exporters.tlsConfigFrom.
  destruct (String.eqb_spec (config.CAFile cfg) "") as [Hca|Hca];
    destruct (String.eqb_spec (config.CertFile cfg) "") as [Hcert|Hcert];
    destruct (String.eqb_spec (config.KeyFile cfg) "") as [Hkey|Hkey];
    destruct (config.TLSInsecure cfg) eqn:Hins; cbn [negb andb orb];
    try destruct (exporters.os_ReadFile fs (config.CAFile cfg)) as [data|e0] eqn:Hread;
    try destruct (exporters.AppendCertsFromPEM fs data) eqn:Hpem; cbn [negb];
    try destruct (exporters.tls_LoadX509KeyPair fs _ _) as [c|e1] eqn:Hpair;
    try discriminate; intros [= <-]; cbn [exporters.InsecureSkipVerify
      exporters.RootCAs exporters.Certificates];
    (split; [reflexivity|]);
    (split; [first [reflexivity | intros; congruence | auto]|]);
    (split; [first [intros; congruence | intros _; eexists; eauto]|]);
    (split; [split; intros; congruence|]);
    (split; [first [reflexivity | intros; congruence]|]);
    (split; [first [intros; congruence | intros _; eexists; eauto]|]);
    intros (? & ? & ? & ?); congruence.
Qed.

Lemma tlsConfigFrom_ok_shape_witness :
  exists t,
    exporters.tlsConfigFrom ExporterCases.files ExporterCases.mutualTLS = Ok t
    /\ exporters.InsecureSkipVerify t = false
    /\ exporters.Certificates t = [ {| exporters.cert_id := 1 |} ].
Proof.
  eexists. split; [reflexivity|].
  destruct (tlsConfigFrom_ok_shape ExporterCases.files ExporterCases.mutualTLS _
              eq_refl) as (H1 & _ & _ & _ & _ & H2 & _).
  split; [exact H1|].
  destruct H2 as (c & Hc & Hl); [discriminate|].
  rewrite Hc. f_equal. injection Hl as <-. reflexivity.
Defined.

Ltac option_flags cfg :=
  destruct (0 <? config.Timeout cfg);
  destruct (String.eqb (config.Compression cfg) "") eqn:?;
  destruct (String.eqb (strings_ToLower (config.Compression cfg)) "") eqn:?;
  destruct (exporters.has_headers cfg);
  destruct (config.RetryEnabled (config.Retry cfg));
  cbn [negb app].

Lemma exporter_options_fail_iff_helper
    (fs : exporters.Files) (cfg : config.OTLPConfig) (e : error) :
  let tls_fails :=
    config.Insecure cfg = false
    /\ exporters.tlsConfigFrom fs (config.TLS cfg) = Err e
    /\ exporters.ErrTLSNotEnabled_Is e = false in
  (exporters.otlpGRPCOptions fs cfg = Err e <-> tls_fails)
  /\ (exporters.otlpMetricGRPCOptions fs cfg = Err e <-> tls_fails)
  /\ (exporters.otlpHTTPOptions fs cfg = Err e <-> tls_fails)
  /\ (exporters.otlpMetricHTTPOptions fs cfg = Err e <-> tls_fails).
Proof.
  intros tls_fails. subst tls_fails.
  unfold exporters.otlpGRPCOptions, exporters.otlpMetricGRPCOptions,
    exporters.otlpHTTPOptions, exporters.otlpMetricHTTPOptions,
    exporters.buildHTTPOptions.
  cbn [exporters.withEndpoint exporters.withInsecure exporters.withTLS
       exporters.withTimeout exporters.withHeaders exporters.withCompression
       exporters.withRetry].
  split; [|split; [|split]]; (split; [intros H | intros (H1 & H2 & H3)]);
    try (rewrite H1, H2; cbn [negb]; rewrite H3; reflexivity);
    (destruct (config.Insecure cfg); [option_flags cfg; discriminate H|]);
    (destruct (exporters.tlsConfigFrom fs (config.TLS cfg)) as [t|err];
     [option_flags cfg; discriminate H|]);
    (destruct (exporters.ErrTLSNotEnabled_Is err) eqn:His; cbn [negb] in H;
     [option_flags cfg; discriminate H|]);
    injection H as <-; auto.
Qed.

(** Building the options of an exporter (trace or metric, gRPC or HTTP)
    fails exactly when the configuration is not insecure and
    [tlsConfigFrom] fails with something other than [ErrTLSNotEnabled];
    the error is then the one of [tlsConfigFrom], unwrapped. *)
Theorem exporter_options_fail_iff
    (fs : exporters.Files) (cfg : config.OTLPConfig) (e : error) :
  let tls_fails :=
    config.Insecure cfg = false
    /\ exporters.tlsConfigFrom fs (config.TLS cfg) = Err e
    /\ exporters.ErrTLSNotEnabled_Is e = false in
  (exporters.otlpGRPCOptions fs cfg = Err e <-> tls_fails)
  /\ (exporters.otlpMetricGRPCOptions fs cfg = Err e <-> tls_fails)
  /\ (exporters.otlpHTTPOptions fs cfg = Err e <-> tls_fails)
  /\ (exporters.otlpMetricHTTPOptions fs cfg = Err e <-> tls_fails).
Proof. apply exporter_options_fail_iff_helper. Qed.

Lemma exporter_options_fail_iff_witness :
  exporters.otlpGRPCOptions ExporterCases.files
    (ExporterCases.otlp_with "grpc" "gzip" false ExporterCases.halfPair)
  = Err (ErrNew "tls cert_file and key_file must both be set").
Proof.
  apply (exporter_options_fail_iff ExporterCases.files
           (ExporterCases.otlp_with "grpc" "gzip" false ExporterCases.halfPair)
           (ErrNew "tls cert_file and key_file must both be set")).
  repeat split; reflexivity.
Defined.

(** The transport security of the options that are built.  Every list
    starts with the endpoint.  With [Insecure] set, the only security
    option is [WithInsecure], and the TLS section is not looked at: no
    file is read.  Without it, the only security option is the TLS
    configuration [tlsConfigFrom] returned, and there is none when
    [tlsConfigFrom] answered [ErrTLSNotEnabled]. *)
Theorem exporter_options_security
    (fs : exporters.Files) (cfg : config.OTLPConfig) :
  (forall opts,
     exporters.otlpGRPCOptions fs cfg = Ok opts
     \/ exporters.otlpMetricGRPCOptions fs cfg = Ok opts ->
     hd_error opts = Some (exporters.G_WithEndpoint (config.Endpoint cfg))
     /\ List.filter G_security opts
        = if config.Insecure cfg then [exporters.G_WithInsecure]
          else match exporters.tlsConfigFrom fs (config.TLS cfg) with
               | Ok t => [exporters.G_WithTLSCredentials t]
               | Err _ => []
               end)
  /\ (forall opts,
        exporters.otlpHTTPOptions fs cfg = Ok opts
        \/ exporters.otlpMetricHTTPOptions fs cfg = Ok opts ->
        hd_error opts = Some (exporters.H_WithEndpoint (config.Endpoint cfg))
        /\ List.filter H_security opts
           = if config.Insecure cfg then [exporters.H_WithInsecure]
             else match exporters.tlsConfigFrom fs (config.TLS cfg) with
                  | Ok t => [exporters.H_WithTLSClientConfig t]
                  | Err _ => []
                  end)
  /\ (config.Insecure cfg = true ->
      forall fs',
        exporters.otlpGRPCOptions fs' cfg = exporters.otlpGRPCOptions fs cfg
        /\ exporters.otlpMetricGRPCOptions fs' cfg
           = exporters.otlpMetricGRPCOptions fs cfg
        /\ exporters.otlpHTTPOptions fs' cfg = exporters.otlpHTTPOptions fs cfg
        /\ exporters.otlpMetricHTTPOptions fs' cfg
           = exporters.otlpMetricHTTPOptions fs cfg).
Proof.
  unfold exporters.otlpGRPCOptions, exporters.otlpMetricGRPCOptions,
    exporters.otlpHTTPOptions, exporters.otlpMetricHTTPOptions,
    exporters.buildHTTPOptions.
  cbn [exporters.withEndpoint exporters.withInsecure exporters.withTLS
       exporters.withTimeout exporters.withHeaders exporters.withCompression
       exporters.withRetry].
  split; [|split].
  - intros opts.
    destruct (config.Insecure cfg);
      [|destruct (exporters.tlsConfigFrom fs (config.TLS cfg)) as [t|err];
        [|destruct (exporters.ErrTLSNotEnabled_Is err); cbn [negb]]];
      option_flags cfg; intros [H|H]; try discriminate H;
      injection H as <-; split; reflexivity.
  - intros opts.
    destruct (config.Insecure cfg);
      [|destruct (exporters.tlsConfigFrom fs (config.TLS cfg)) as [t|err];
        [|destruct (exporters.ErrTLSNotEnabled_Is err); cbn [negb]]];
      option_flags cfg; intros [H|H]; try discriminate H;
      injection H as <-; split; reflexivity.
  - intros -> fs'. repeat split; reflexivity.
Qed.

Lemma exporter_options_security_witness :
  exporters.otlpHTTPOptions ExporterCases.files
    (ExporterCases.otlp_with "http" "gzip" true ExporterCases.halfPair)
  = exporters.otlpHTTPOptions
      {| exporters.os_ReadFile := fun _ => Err (ErrNew "unreadable");
         exporters.AppendCertsFromPEM := fun _ => false;
         exporters.tls_LoadX509KeyPair := fun _ _ => Err (ErrNew "unreadable") |}
      (ExporterCases.otlp_with "http" "gzip" true ExporterCases.halfPair).
Proof.
  destruct (exporter_options_security
              {| exporters.os_ReadFile := fun _ => Err (ErrNew "unreadable");
                 exporters.AppendCertsFromPEM := fun _ => false;
                 exporters.tls_LoadX509KeyPair := fun _ _ => Err (ErrNew "unreadable") |}
              (ExporterCases.otlp_with "http" "gzip" true ExporterCases.halfPair))
    as (_ & _ & H).
  exact (proj1 (proj2 (proj2 (H eq_refl ExporterCases.files)))).
Defined.

(** The compression the exporters are asked for.  The gRPC trace
    exporter gets the configured name as it is written.  For a name of
    ASCII bytes, the gRPC metric exporter gets the name in lower case,
    and the HTTP exporters gzip when the name in lower case is [gzip] and
    an explicit no-compression for any other non-empty name.  An empty
    name adds no option. *)
Theorem exporter_options_compression
    (fs : exporters.Files) (cfg : config.OTLPConfig) :
  let name := config.Compression cfg in
  (forall opts, exporters.otlpGRPCOptions fs cfg = Ok opts ->
     flat_map G_compressor opts = if String.eqb name "" then [] else [name])
  /\ (is_ascii name = true ->
      forall opts, exporters.otlpMetricGRPCOptions fs cfg = Ok opts ->
        flat_map G_compressor opts
        = if String.eqb name "" then [] else [strings_ToLower name])
  /\ (is_ascii name = true ->
      forall opts,
        exporters.otlpHTTPOptions fs cfg = Ok opts
        \/ exporters.otlpMetricHTTPOptions fs cfg = Ok opts ->
        flat_map H_compression opts
        = if String.eqb name "" then []
          else if String.eqb (strings_ToLower name) "gzip"
               then [exporters.GzipCompression] else [exporters.NoCompression]).
Proof.
  intros name. subst name.
  assert (Hlow : String.eqb (strings_ToLower (config.Compression cfg)) ""
                 = String.eqb (config.Compression cfg) "").
  { destruct (config.Compression cfg); reflexivity. }
  unfold exporters.otlpGRPCOptions, exporters.otlpMetricGRPCOptions,
    exporters.otlpHTTPOptions, exporters.otlpMetricHTTPOptions,
    exporters.buildHTTPOptions, exporters.traceHTTPCompression,
    exporters.metricHTTPCompression.
  cbn [exporters.withEndpoint exporters.withInsecure exporters.withTLS
       exporters.withTimeout exporters.withHeaders exporters.withCompression
       exporters.withRetry].
  rewrite Hlow.
  split; [|split].
  - intros opts.
    destruct (config.Insecure cfg);
      [|destruct (exporters.tlsConfigFrom fs (config.TLS cfg)) as [t|err];
        [|destruct (exporters.ErrTLSNotEnabled_Is err); cbn [negb]]];
      destruct (0 <? config.Timeout cfg);
      destruct (String.eqb (config.Compression cfg) "");
      destruct (exporters.has_headers cfg);
      destruct (config.RetryEnabled (config.Retry cfg));
      cbn [negb app]; intros H; try discriminate H;
      injection H as <-; reflexivity.
  - intros _ opts.
    destruct (config.Insecure cfg);
      [|destruct (exporters.tlsConfigFrom fs (config.TLS cfg)) as [t|err];
        [|destruct (exporters.ErrTLSNotEnabled_Is err); cbn [negb]]];
      destruct (0 <? config.Timeout cfg);
      destruct (String.eqb (config.Compression cfg) "");
      destruct (exporters.has_headers cfg);
      destruct (config.RetryEnabled (config.Retry cfg));
      cbn [negb app]; intros H; try discriminate H;
      injection H as <-; reflexivity.
  - intros _ opts.
    destruct (config.Insecure cfg);
      [|destruct (exporters.tlsConfigFrom fs (config.TLS cfg)) as [t|err];
        [|destruct (exporters.ErrTLSNotEnabled_Is err); cbn [negb]]];
      destruct (0 <? config.Timeout cfg);
      destruct (String.eqb (config.Compression cfg) "");
      destruct (exporters.has_headers cfg);
      destruct (config.RetryEnabled (config.Retry cfg));
      destruct (String.eqb (strings_ToLower (config.Compression cfg)) "gzip");
      cbn [negb app]; intros [H|H]; try discriminate H;
      injection H as <-; reflexivity.
Qed.

Lemma exporter_options_compression_witness :
  (exists opts,
     exporters.otlpGRPCOptions ExporterCases.files
       (ExporterCases.otlp_with "grpc" "GZIP" true ExporterCases.noTLS) = Ok opts
     /\ flat_map G_compressor opts = ["GZIP"])
  /\ (exists opts,
        exporters.otlpMetricGRPCOptions ExporterCases.files
          (ExporterCases.otlp_with "grpc" "GZIP" true ExporterCases.noTLS) = Ok opts
        /\ flat_map G_compressor opts = ["gzip"]).
Proof.
  destruct (exporter_options_compression ExporterCases.files
              (ExporterCases.otlp_with "grpc" "GZIP" true ExporterCases.noTLS))
    as (H1 & H2 & _).
  split.
  - eexists. split; [reflexivity|]. apply H1. reflexivity.
  - eexists. split; [reflexivity|]. apply H2; reflexivity.
Defined.

(** [New] when the trace exporter cannot be built. *)
Lemma New_trace_exporter_fails env cfg w otlp e :
  config.OTLP (config.Exporters cfg) = Some otlp ->
  config.Endpoint otlp <> "" ->
  newOTLPTraceExporter env otlp = Err e ->
  runtime.New env cfg w
  = (Err (ErrWrap e "build exporters"),
     set_events (fun l => l ++ [EvRuntimeNew cfg]) w).
Proof.
  intros Hotlp Hend Hte. apply String.eqb_neq in Hend.
  unfold runtime.New, runtime.newExporterBundle, bindR, wrapping, wrapErr.
  cbv beta iota zeta delta [bind ret emit fst snd].
  rewrite Hotlp, Hend, Hte. reflexivity.
Qed.

(** With the exporter constructors as the repository has them: a
    configuration that is not insecure and names only one of client
    certificate and key makes [New] fail before any exporter of the SDK is
    constructed, with the error of [tlsConfigFrom] wrapped once; nothing
    is registered or stored. *)
Theorem New_rejects_half_client_pair
    (sdk : exporters.SDK) (fs : exporters.Files) (env : Env)
    (cfg : config.Config) (w : World) (otlp : config.OTLPConfig) :
  config.OTLP (config.Exporters cfg) = Some otlp ->
  config.Endpoint otlp <> "" ->
  config.Insecure otlp = false ->
  config.CAFile (config.TLS otlp) = "" ->
  (config.CertFile (config.TLS otlp) = "" <-> config.KeyFile (config.TLS otlp) <> "") ->
  runtime.New (with_exporters sdk fs env) cfg w
  = (Err (ErrWrap (ErrNew "tls cert_file and key_file must both be set")
            "build exporters"),
     set_events (fun l => l ++ [EvRuntimeNew cfg]) w).
Proof.
  intros Hotlp Hend Hins Hca Hpair.
  apply (New_trace_exporter_fails _ cfg w otlp); auto.
  cbn [with_exporters newOTLPTraceExporter].
  assert (Htls : exporters.tlsConfigFrom fs (config.TLS otlp)
                 = Err (ErrNew "tls cert_file and key_file must both be set")).
  { unfold exporters.tlsConfigFrom. rewrite Hca. cbn [String.eqb negb andb].
    destruct (String.eqb_spec (config.CertFile (config.TLS otlp)) "") as [Hc|Hc];
      destruct (String.eqb_spec (config.KeyFile (config.TLS otlp)) "") as [Hk|Hk];
      cbn [negb andb orb]; try reflexivity; exfalso; tauto. }
  destruct (exporter_options_fail_iff_helper fs otlp
              (ErrNew "tls cert_file and key_file must both be set"))
    as ((_ & Hg) & _ & (_ & Hh) & _).
  unfold exporters.newOTLPTraceExporter.
  destruct (exporters.is_http (config.Protocol otlp)).
  - rewrite Hh by auto. reflexivity.
  - rewrite Hg by auto. reflexivity.
Qed.

Lemma New_rejects_half_client_pair_witness :
  fst (runtime.New
         (with_exporters ExporterCases.sdk ExporterCases.files
            (Samples.env_ok Samples.cfgA))
         (ExporterCases.cfg_of
            (ExporterCases.otlp_with "http" "gzip" false ExporterCases.halfPair))
         Samples.bootedWorld)
  = Err (ErrWrap (ErrNew "tls cert_file and key_file must both be set")
           "build exporters").
Proof.
  rewrite (New_rejects_half_client_pair ExporterCases.sdk ExporterCases.files
             (Samples.env_ok Samples.cfgA)
             (ExporterCases.cfg_of
                (ExporterCases.otlp_with "http" "gzip" false ExporterCases.halfPair))
             Samples.bootedWorld
             (ExporterCases.otlp_with "http" "gzip" false ExporterCases.halfPair)
             eq_refl ltac:(discriminate) eq_refl eq_refl
             ltac:(split; [discriminate | intros H; exfalso; apply H; reflexivity])).
  reflexivity.
Defined.

(** Which constructor of the SDK is consulted is decided by the
    lower-cased protocol alone, the same way for traces and for metrics:
    [http] and [https] mean the HTTP exporters, anything else (also an
    unknown or empty protocol) the gRPC ones; and the protocol the
    exporter status reports is [http] or [https] exactly when the HTTP
    exporters are the ones used. *)
Theorem exporter_transport_by_protocol
    (sdk sdk' : exporters.SDK) (fs : exporters.Files) (cfg : config.OTLPConfig) :
  (exporters.is_http (config.Protocol cfg) = true
   <-> rt.protocol (runtime.newTraceExporterStats cfg) = "http"
       \/ rt.protocol (runtime.newTraceExporterStats cfg) = "https")
  /\ (exporters.is_http (config.Protocol cfg) = true ->
      exporters.otlptracehttp_New sdk' = exporters.otlptracehttp_New sdk ->
      exporters.otlpmetrichttp_New sdk' = exporters.otlpmetrichttp_New sdk ->
      exporters.newOTLPTraceExporter sdk' fs cfg
      = exporters.newOTLPTraceExporter sdk fs cfg
      /\ exporters.newOTLPMetricExporter sdk' fs cfg
         = exporters.newOTLPMetricExporter sdk fs cfg)
  /\ (exporters.is_http (config.Protocol cfg) = false ->
      exporters.otlptracegrpc_New sdk' = exporters.otlptracegrpc_New sdk ->
      exporters.otlpmetricgrpc_New sdk' = exporters.otlpmetricgrpc_New sdk ->
      exporters.newOTLPTraceExporter sdk' fs cfg
      = exporters.newOTLPTraceExporter sdk fs cfg
      /\ exporters.newOTLPMetricExporter sdk' fs cfg
         = exporters.newOTLPMetricExporter sdk fs cfg).
Proof.
  split; [|split].
  - unfold exporters.is_http, runtime.newTraceExporterStats. cbn [rt.protocol].
    destruct (String.eqb_spec (config.Protocol cfg) "") as [->|Hp].
    + cbn. split; [discriminate|intros [H|H]; discriminate H].
    + rewrite orb_true_iff.
      split; intros [H|H];
        first [ apply String.eqb_eq in H; auto
              | left; apply String.eqb_eq; exact H
              | right; apply String.eqb_eq; exact H ].
  - intros Hp Ht Hm.
    unfold exporters.newOTLPTraceExporter, exporters.newOTLPMetricExporter.
    rewrite Hp, Ht, Hm. split; reflexivity.
  - intros Hp Ht Hm.
    unfold exporters.newOTLPTraceExporter, exporters.newOTLPMetricExporter.
    rewrite Hp, Ht, Hm. split; reflexivity.
Qed.

Lemma exporter_transport_by_protocol_witness :
  exporters.newOTLPTraceExporter
    {| exporters.otlptracehttp_New := fun _ => Ok Samples.healthyExporter;
       exporters.otlptracegrpc_New := fun _ => Err (ErrNew "grpc: no transport");
       exporters.otlpmetrichttp_New := fun _ => Ok {| me_Shutdown := None |};
       exporters.otlpmetricgrpc_New := fun _ => Err (ErrNew "grpc: no transport") |}
    ExporterCases.files
    (ExporterCases.otlp_with "HTTPS" "gzip" true ExporterCases.noTLS)
  = exporters.newOTLPTraceExporter ExporterCases.sdk ExporterCases.files
      (ExporterCases.otlp_with "HTTPS" "gzip" true ExporterCases.noTLS).
Proof.
  destruct (exporter_transport_by_protocol ExporterCases.sdk
              {| exporters.otlptracehttp_New := fun _ => Ok Samples.healthyExporter;
                 exporters.otlptracegrpc_New := fun _ => Err (ErrNew "grpc: no transport");
                 exporters.otlpmetrichttp_New := fun _ => Ok {| me_Shutdown := None |};
                 exporters.otlpmetricgrpc_New :=
                   fun _ => Err (ErrNew "grpc: no transport") |}
              ExporterCases.files
              (ExporterCases.otlp_with "HTTPS" "gzip" true ExporterCases.noTLS))
    as (_ & H & _).
  exact (proj1 (H eq_refl eq_refl eq_refl)).
Defined.

(* ===================================================================== *)
(** * Strings                                                            *)
(* ===================================================================== *)

Lemma string_forall_impl (p q : ascii -> bool) s :
  (forall a, p a = true -> q a = true) ->
  string_forall p s = true -> string_forall q s = true.
Proof.
  intros Hpq. induction s as [|a r IH]; simpl; auto.
  rewrite !andb_true_iff. intros [Ha Hr]. auto.
Qed.

Lemma ascii_lower_not_upper c : is_upper (ascii_lower c) = false.
Proof.
  unfold ascii_lower, is_upper.
  destruct (Nat.leb 65 (nat_of_ascii c) && Nat.leb (nat_of_ascii c) 90)%bool eqn:E.
  - apply andb_true_iff in E as [E1 E2].
    apply Nat.leb_le in E1. apply Nat.leb_le in E2.
    rewrite nat_ascii_embedding by lia.
    apply andb_false_iff. right. apply Nat.leb_gt. lia.
  - exact E.
Qed.

Lemma ToLower_no_upper s :
  string_forall (fun a => negb (is_upper a)) (strings_ToLower s) = true.
Proof.
  induction s as [|a r IH]; simpl; auto.
  rewrite ascii_lower_not_upper, IH. reflexivity.
Qed.

Lemma replace_double_underscore_forall (p : ascii -> bool) :
  p "."%char = true ->
  forall s,
    (string_forall p s = true ->
     string_forall p (replace_double_underscore s) = true)
    /\ (forall a, p a = true -> string_forall p s = true ->
                  string_forall p (replace_double_underscore (String a s)) = true).
Proof.
  intros Hdot. induction s as [|b r [IH1 IH2]].
  - split; [auto|]. intros a Ha _. simpl. rewrite Ha. reflexivity.
  - assert (H1 : string_forall p (String b r) = true ->
                 string_forall p (replace_double_underscore (String b r)) = true).
    { intros H. simpl in H. apply andb_true_iff in H as [Hb Hr]. apply IH2; auto. }
    split; [exact H1|].
    intros a Ha H.
    change (replace_double_underscore (String a (String b r)))
      with (if (Ascii.eqb a "_" && Ascii.eqb b "_")%bool
            then String "."%char (replace_double_underscore r)
            else String a (replace_double_underscore (String b r))).
    destruct (Ascii.eqb a "_" && Ascii.eqb b "_")%bool.
    + cbn [string_forall]. rewrite Hdot. cbn [andb]. apply IH1.
      simpl in H. apply andb_true_iff in H as [_ Hr]. exact Hr.
    + cbn [string_forall]. rewrite Ha. cbn [andb]. apply H1. exact H.
Qed.

Lemma replace_char_forall (p : ascii -> bool) old new s :
  p new = true -> Ascii.eqb new old = false ->
  string_forall p s = true ->
  string_forall (fun a => p a && negb (Ascii.eqb a old))%bool (replace_char old new s)
  = true.
Proof.
  intros Hnew Hne. induction s as [|a r IH]; simpl; auto.
  rewrite andb_true_iff. intros [Ha Hr]. rewrite (IH Hr), andb_true_r.
  destruct (Ascii.eqb a old) eqn:E.
  - rewrite Hnew, Hne. reflexivity.
  - rewrite Ha, E. reflexivity.
Qed.

Lemma Split_nonempty s sep : strings_Split s sep <> [].
Proof.
  destruct s as [|a r]; simpl; [discriminate|].
  destruct (Ascii.eqb a sep); [discriminate|].
  destruct (strings_Split r sep); discriminate.
Qed.

Lemma Split_forall (p : ascii -> bool) sep s :
  string_forall p s = true ->
  Forall (fun x => string_forall (fun a => p a && negb (Ascii.eqb a sep))%bool x = true)
         (strings_Split s sep).
Proof.
  induction s as [|a r IH]; simpl.
  - intros _. repeat constructor.
  - rewrite andb_true_iff. intros [Ha Hr]. specialize (IH Hr).
    destruct (Ascii.eqb a sep) eqn:E.
    + constructor; [reflexivity|exact IH].
    + destruct (strings_Split r sep) as [|h t] eqn:Es.
      * repeat constructor. simpl. rewrite Ha, E. reflexivity.
      * inversion IH as [|? ? Hh Ht]; subst. constructor; [|exact Ht].
        cbn [string_forall]. rewrite Ha, E, Hh. reflexivity.
Qed.

Lemma trim_left_forall (p q : ascii -> bool) s :
  string_forall p s = true -> string_forall p (trim_left q s) = true.
Proof.
  induction s as [|a r IH]; simpl; auto.
  rewrite andb_true_iff. intros [Ha Hr].
  destruct (q a); [auto|]. simpl. rewrite Ha, Hr. reflexivity.
Qed.

Lemma trim_right_forall (p q : ascii -> bool) s :
  string_forall p s = true -> string_forall p (trim_right q s) = true.
Proof.
  induction s as [|a r IH]; simpl; auto.
  rewrite andb_true_iff. intros [Ha Hr]. specialize (IH Hr).
  destruct (trim_right q r) as [|b r'].
  - destruct (q a); simpl; [reflexivity|]. rewrite Ha. reflexivity.
  - cbn [string_forall] in *. rewrite Ha, IH. reflexivity.
Qed.

Lemma nonempty_true s : nonempty s = true <-> s <> "".
Proof.
  unfold nonempty. destruct (String.eqb_spec s ""); simpl; split; congruence.
Qed.

(** Splitting what [Join] put together. *)
Lemma Split_free s sep :
  string_forall (fun a => negb (Ascii.eqb a sep)) s = true ->
  strings_Split s sep = [s].
Proof.
  induction s as [|a r IH]; simpl; auto.
  rewrite andb_true_iff. intros [Ha Hr]. apply negb_true_iff in Ha.
  rewrite Ha, (IH Hr). reflexivity.
Qed.

Lemma Split_app s sep rest :
  string_forall (fun a => negb (Ascii.eqb a sep)) s = true ->
  strings_Split (s ++ String sep rest) sep = s :: strings_Split rest sep.
Proof.
  induction s as [|a r IH]; simpl.
  - intros _. rewrite Ascii.eqb_refl. reflexivity.
  - rewrite andb_true_iff. intros [Ha Hr]. apply negb_true_iff in Ha.
    rewrite Ha, (IH Hr). reflexivity.
Qed.

Lemma Split_Join (xs : list string) (sep : ascii) :
  xs <> [] ->
  Forall (fun x => string_forall (fun a => negb (Ascii.eqb a sep)) x = true) xs ->
  strings_Split (strings_Join xs (String sep EmptyString)) sep = xs.
Proof.
  induction xs as [|x r IH]; [congruence|].
  intros _ Hall. inversion Hall as [|? ? Hx Hr]; subst.
  destruct r as [|y r'].
  - simpl. apply Split_free. exact Hx.
  - change (strings_Join (x :: y :: r') (String sep ""))
      with (x ++ String sep (strings_Join (y :: r') (String sep "")))%string.
    rewrite (Split_app x sep _ Hx), IH; [reflexivity|discriminate|exact Hr].
Qed.

Lemma string_length_ind (P : string -> Prop) :
  (forall s, (forall t, (String.length t < String.length s)%nat -> P t) -> P s) ->
  forall s, P s.
Proof.
  intros H s.
  assert (G : forall n t, (String.length t < n)%nat -> P t).
  { induction n as [|n IH]; intros t Ht; [lia|].
    apply H. intros u Hu. apply IH. lia. }
  apply (G (S (String.length s))). lia.
Qed.

Lemma trim_spaces_fixed back s :
  leading_space back s = false -> trim_spaces back s = s.
Proof.
  destruct s as [|a [|b [|c r]]]; cbn [leading_space trim_spaces]; intros H;
    repeat match goal with
           | H : (_ || _)%bool = false |- _ => apply orb_false_elim in H as [? ?]
           end;
    repeat match goal with
           | H : ?x = false |- context [if ?x then _ else _] => rewrite H
           end; reflexivity.
Qed.

Lemma trim_spaces_leading back s :
  leading_space back (trim_spaces back s) = false.
Proof.
  induction s as [s IH] using string_length_ind.
  destruct s as [|a r]; [reflexivity|]. cbn [trim_spaces].
  destruct (space1 a) eqn:E1; [apply IH; cbn; lia|].
  destruct r as [|b r2]; [cbn [leading_space]; rewrite E1; reflexivity|].
  destruct (if back then space2 b a else space2 a b) eqn:E2; [apply IH; cbn; lia|].
  destruct r2 as [|c r3]; [cbn [leading_space]; rewrite E1, E2; reflexivity|].
  destruct (if back then space3 c b a else space3 a b c) eqn:E3; [apply IH; cbn; lia|].
  cbn [leading_space]. rewrite E1, E2, E3. reflexivity.
Qed.

Lemma trim_spaces_idem back s :
  trim_spaces back (trim_spaces back s) = trim_spaces back s.
Proof. apply trim_spaces_fixed, trim_spaces_leading. Qed.

Lemma trim_spaces_suffix back s :
  exists pre, s = (pre ++ trim_spaces back s)%string.
Proof.
  induction s as [s IH] using string_length_ind.
  destruct s as [|a r]; [exists ""; reflexivity|]. cbn [trim_spaces].
  destruct (space1 a).
  { destruct (IH r) as [pre Hpre]; [cbn; lia|].
    exists (String a pre). change (String a r = String a (pre ++ trim_spaces back r)).
    f_equal. exact Hpre. }
  destruct r as [|b r2]; [exists ""; reflexivity|].
  destruct (if back then space2 b a else space2 a b).
  { destruct (IH r2) as [pre Hpre]; [cbn; lia|].
    exists (String a (String b pre)).
    change (String a (String b r2) = String a (String b (pre ++ trim_spaces back r2))).
    do 2 f_equal. exact Hpre. }
  destruct r2 as [|c r3]; [exists ""; reflexivity|].
  destruct (if back then space3 c b a else space3 a b c).
  { destruct (IH r3) as [pre Hpre]; [cbn; lia|].
    exists (String a (String b (String c pre))).
    change (String a (String b (String c r3))
            = String a (String b (String c (pre ++ trim_spaces back r3)))).
    do 3 f_equal. exact Hpre. }
  exists "". reflexivity.
Qed.

Lemma string_app_nil_r s : (s ++ "")%string = s.
Proof.
  induction s as [|a r IH]; [reflexivity|].
  change (String a (r ++ "") = String a r). f_equal. exact IH.
Qed.

Lemma string_append_assoc (a b c : string) :
  (a ++ b ++ c)%string = ((a ++ b) ++ c)%string.
Proof.
  induction a as [|x a IH]; [reflexivity|].
  change (String x (a ++ b ++ c) = String x ((a ++ b) ++ c))%string.
  f_equal. exact IH.
Qed.

Lemma string_rev_app s t :
  string_rev (s ++ t) = (string_rev t ++ string_rev s)%string.
Proof.
  induction s as [|a r IH].
  - change (string_rev t = (string_rev t ++ "")%string). symmetry. apply string_app_nil_r.
  - change (string_rev (r ++ t) ++ String a "" = string_rev t ++ (string_rev r ++ String a ""))%string.
    rewrite IH. symmetry. apply string_append_assoc.
Qed.

Lemma string_rev_involutive s : string_rev (string_rev s) = s.
Proof.
  induction s as [|a r IH]; [reflexivity|].
  cbn [string_rev]. rewrite string_rev_app, IH. reflexivity.
Qed.

Lemma string_forall_app p s t :
  string_forall p (s ++ t) = (string_forall p s && string_forall p t)%bool.
Proof.
  induction s as [|a r IH]; [reflexivity|].
  change (p a && string_forall p (r ++ t) = p a && string_forall p r && string_forall p t)%bool.
  rewrite IH, andb_assoc. reflexivity.
Qed.

Lemma string_forall_rev p s : string_forall p (string_rev s) = string_forall p s.
Proof.
  induction s as [|a r IH]; [reflexivity|].
  cbn [string_rev]. rewrite string_forall_app, IH. cbn [string_forall].
  rewrite andb_true_r. apply andb_comm.
Qed.

Lemma trim_spaces_forall p back s :
  string_forall p s = true -> string_forall p (trim_spaces back s) = true.
Proof.
  destruct (trim_spaces_suffix back s) as [pre Hpre]. intros H.
  rewrite Hpre, string_forall_app in H. apply andb_prop in H as [_ H]. exact H.
Qed.

Lemma TrimSpace_forall p s :
  string_forall p s = true -> string_forall p (strings_TrimSpace s) = true.
Proof.
  intros H. unfold strings_TrimSpace.
  rewrite string_forall_rev. apply trim_spaces_forall.
  rewrite string_forall_rev. apply trim_spaces_forall. exact H.
Qed.

Lemma leading_space_prefix u v :
  leading_space false (u ++ v) = false -> leading_space false u = false.
Proof.
  destruct u as [|a [|b [|c r]]]; [reflexivity| | |].
  - change (leading_space false (String a v) = false -> leading_space false (String a "") = false).
    cbn [leading_space]. intros H. apply orb_false_elim in H as [H _]. rewrite H. reflexivity.
  - change (leading_space false (String a (String b v)) = false
            -> leading_space false (String a (String b "")) = false).
    cbn [leading_space]. intros H. apply orb_false_elim in H as [H1 H2].
    apply orb_false_elim in H2 as [H2 _]. rewrite H1, H2. reflexivity.
  - change (leading_space false (String a (String b (String c (r ++ v)))) = false
            -> leading_space false (String a (String b (String c r))) = false).
    cbn [leading_space]. intros H. exact H.
Qed.

Lemma TrimSpace_idem s : strings_TrimSpace (strings_TrimSpace s) = strings_TrimSpace s.
Proof.
  unfold strings_TrimSpace.
  set (t := trim_spaces false s).
  set (u := string_rev (trim_spaces true (string_rev t))).
  assert (Ht : leading_space false t = false) by apply trim_spaces_leading.
  assert (Hu : trim_spaces false u = u).
  { apply trim_spaces_fixed.
    destruct (trim_spaces_suffix true (string_rev t)) as [pre Hpre].
    apply (leading_space_prefix u (string_rev pre)).
    subst u. rewrite <- string_rev_app, <- Hpre, string_rev_involutive. exact Ht. }
  rewrite Hu. subst u. rewrite string_rev_involutive, trim_spaces_idem. reflexivity.
Qed.

Example TrimSpace_samples :
  strings_TrimSpace (String "009" " a b  ") = "a b"
  /\ strings_TrimSpace (String "194" (String "160" "x")) = "x"
  /\ strings_TrimSpace ("x" ++ String "226" (String "128" (String "168" " "))) = "x"
  /\ strings_TrimSpace (String "160" "x") = String "160" "x"
  /\ strings_TrimSpace (String "194" (String "160" (String "227" (String "128" (String "128" ""))))) = "".
Proof. repeat split; reflexivity. Qed.

(* ===================================================================== *)
(** * The configuration loaders                                          *)
(* ===================================================================== *)

Lemma path_byte_chain a :
  ((negb (is_upper a) && negb (Ascii.eqb a "-")) && negb (Ascii.eqb a "."))%bool = true ->
  path_byte a = true.
Proof.
  unfold path_byte. rewrite !andb_true_iff. tauto.
Qed.

Lemma envKeyToPath_clean key :
  Forall (fun seg => seg <> "" /\ string_forall path_byte seg = true)
         (loader.envKeyToPath key).
Proof.
  unfold loader.envKeyToPath.
  assert (H0 : string_forall (fun a => negb (is_upper a))
                 (replace_double_underscore (strings_ToLower key)) = true).
  { apply (replace_double_underscore_forall (fun a => negb (is_upper a))).
    - reflexivity.
    - apply ToLower_no_upper. }
  pose proof (replace_char_forall (fun a => negb (is_upper a)) "-" "_" _
                eq_refl eq_refl H0) as H1.
  pose proof (Split_forall _ "." _ H1) as H2.
  apply List.Forall_forall. intros seg Hin.
  apply List.filter_In in Hin as [Hin Hne].
  apply nonempty_true in Hne. split; [exact Hne|].
  apply List.in_map_iff in Hin as (raw & <- & Hraw).
  rewrite List.Forall_forall in H2. specialize (H2 raw Hraw).
  unfold strings_Trim. apply trim_right_forall, trim_left_forall.
  eapply string_forall_impl; [|exact H2]. apply path_byte_chain.
Qed.

Lemma path_byte_no_dot seg :
  string_forall path_byte seg = true ->
  string_forall (fun a => negb (Ascii.eqb a ".")) seg = true.
Proof.
  apply string_forall_impl. intros a. unfold path_byte.
  rewrite !andb_true_iff. tauto.
Qed.

(** The paths [envKeyToPath] makes of environment keys: every segment
    is non-empty and free of upper-case letters, dots and hyphens; and on
    such paths [isListKey] holds for exactly the two list settings of the
    configuration. *)
Theorem envKeyToPath_segments (key : string) :
  Forall (fun seg => seg <> "" /\ string_forall path_byte seg = true)
         (loader.envKeyToPath key)
  /\ (loader.isListKey (loader.envKeyToPath key) = true <->
      loader.envKeyToPath key = ["instrumentation"; "http"; "ignored_routes"]
      \/ loader.envKeyToPath key = ["instrumentation"; "grpc"; "metadata_allowlist"]).
Proof.
  pose proof (envKeyToPath_clean key) as Hclean.
  split; [exact Hclean|].
  set (path := loader.envKeyToPath key) in *.
  split.
  - unfold loader.isListKey. intros H.
    assert (Hfree : Forall (fun x => string_forall
                                       (fun a => negb (Ascii.eqb a ".")) x = true) path).
    { eapply List.Forall_impl; [|exact Hclean]. intros seg [_ Hs].
      apply path_byte_no_dot. exact Hs. }
    destruct path as [|s0 rest] eqn:Ep; [discriminate H|].
    assert (Hsplit : strings_Split (strings_Join (s0 :: rest) ".") "." = s0 :: rest)
      by (apply Split_Join; [discriminate|exact Hfree]).
    apply orb_true_iff in H as [H|H]; apply String.eqb_eq in H;
      rewrite H in Hsplit; [left|right]; rewrite <- Hsplit; reflexivity.
  - intros [-> | ->]; reflexivity.
Qed.

Example envKeyToPath_of_the_tests :
  loader.envKeyToPath "INSTRUMENTATION__HTTP__IGNORED_ROUTES"
  = ["instrumentation"; "http"; "ignored_routes"]
  /\ loader.envKeyToPath "SERVICE__NAME" = ["service"; "name"]
  /\ loader.envKeyToPath "EXPORTERS__OTLP__MAX-QUEUE" = ["exporters"; "otlp"; "max_queue"]
  /\ loader.envKeyToPath "A___B" = ["a"; "_b"]
  /\ loader.envKeyToPath "____" = []
  /\ loader.splitList "/healthz,/readyz" = ["/healthz"; "/readyz"]
  /\ loader.splitList " a , ,b," = ["a"; "b"].
Proof. repeat split; reflexivity. Qed.

(** [splitList] returns items that are not empty, hold no comma and have
    no white space at either end, none for the empty string; and it gives
    back any list of such items that was joined with commas. *)
Theorem splitList_round_trip :
  (forall raw, Forall list_item (loader.splitList raw))
  /\ loader.splitList "" = []
  /\ (forall xs, Forall list_item xs ->
                 loader.splitList (strings_Join xs ",") = xs).
Proof.
  split; [|split; [reflexivity|]].
  - intros raw. unfold loader.splitList.
    destruct (String.eqb raw ""); [constructor|].
    apply List.Forall_forall. intros x Hin.
    apply List.filter_In in Hin as [Hin Hne]. apply nonempty_true in Hne.
    apply List.in_map_iff in Hin as (piece & <- & Hpiece).
    split; [exact Hne|]. split; [|apply TrimSpace_idem].
    pose proof (Split_forall (fun _ => true) "," raw) as Hs.
    rewrite List.Forall_forall in Hs.
    assert (Hall : string_forall (fun _ => true) raw = true)
      by (clear; induction raw; simpl; auto).
    specialize (Hs Hall piece Hpiece).
    apply TrimSpace_forall.
    eapply string_forall_impl; [|exact Hs]. intros a Ha. exact Ha.
  - intros xs Hall. unfold loader.splitList.
    destruct xs as [|x r]; [reflexivity|].
    assert (Hne : strings_Join (x :: r) "," <> "").
    { inversion Hall as [|? ? (Hx & _) _]; subst.
      destruct x as [|a x']; [congruence|]. destruct r; discriminate. }
    apply String.eqb_neq in Hne. rewrite Hne.
    rewrite Split_Join.
    + assert (Hmap : map strings_TrimSpace (x :: r) = x :: r).
      { clear Hne. induction Hall as [|y l (_ & _ & Hy) _ IH]; simpl; [reflexivity|].
        rewrite Hy, IH. reflexivity. }
      rewrite Hmap. clear Hmap Hne.
      induction Hall as [|y l (Hy & _ & _) _ IH]; simpl; [reflexivity|].
      apply nonempty_true in Hy. rewrite Hy, IH. reflexivity.
    + discriminate.
    + eapply List.Forall_impl; [|exact Hall]. intros y (_ & Hy & _). exact Hy.
Qed.

Lemma splitList_round_trip_witness :
  loader.splitList (strings_Join ["/healthz"; "/readyz"; "/metrics"] ",")
  = ["/healthz"; "/readyz"; "/metrics"].
Proof.
  apply splitList_round_trip.
  repeat constructor; discriminate.
Defined.

Lemma getNested_empty q : loader.getNested ∅ q = None.
Proof.
  destruct q as [|s [|s2 r]]; cbn [loader.getNested]; rewrite ?lookup_empty; reflexivity.
Qed.

Lemma setNested_cons root seg rest v :
  rest <> [] ->
  loader.setNested root (seg :: rest) v
  = <[seg := AMap (loader.setNested
                     (match root !! seg with Some (AMap m) => m | _ => ∅ end)
                     rest v)]> root.
Proof. destruct rest; [congruence|reflexivity]. Qed.

Lemma getNested_cons root seg rest :
  rest <> [] ->
  loader.getNested root (seg :: rest)
  = match root !! seg with Some (AMap m) => loader.getNested m rest | _ => None end.
Proof. destruct rest; [congruence|reflexivity]. Qed.

Lemma setNested_get root path v :
  path <> [] -> loader.getNested (loader.setNested root path v) path = Some v.
Proof.
  revert root. induction path as [|seg rest IH]; intros root Hne; [congruence|].
  destruct rest as [|seg2 rest].
  - simpl. apply lookup_insert_eq.
  - rewrite setNested_cons, getNested_cons by discriminate.
    rewrite lookup_insert_eq. apply IH. discriminate.
Qed.

Lemma setNested_other p :
  forall root q v,
    ~ p `prefix_of` q -> ~ q `prefix_of` p ->
    loader.getNested (loader.setNested root p v) q = loader.getNested root q.
Proof.
  induction p as [|seg rest IH]; intros root q v Hpq Hqp.
  - exfalso. apply Hpq. apply prefix_nil.
  - destruct q as [|seg' qrest]; [exfalso; apply Hqp; apply prefix_nil|].
    destruct (decide (seg' = seg)) as [->|Hseg].
    + destruct rest as [|s2 rest'].
      { exfalso. apply Hpq. exists qrest. reflexivity. }
      destruct qrest as [|q2 qrest'].
      { exfalso. apply Hqp. exists (s2 :: rest'). reflexivity. }
      rewrite setNested_cons by discriminate.
      rewrite !getNested_cons by discriminate.
      rewrite lookup_insert_eq.
      rewrite IH.
      * destruct (root !! seg) as [[| |m]|]; auto using getNested_empty.
      * intros [k Hk]. apply Hpq. exists k. rewrite Hk. reflexivity.
      * intros [k Hk]. apply Hqp. exists k. rewrite Hk. reflexivity.
    + assert (Hlook : forall x, (<[seg := x]> root) !! seg' = root !! seg')
        by (intros x; apply lookup_insert_ne; congruence).
      destruct rest as [|s2 rest']; [cbn [loader.setNested]
                                    |rewrite setNested_cons by discriminate];
        (destruct qrest as [|q2 qrest'];
         [cbn [loader.getNested]
         |rewrite !getNested_cons by discriminate]);
        rewrite Hlook; reflexivity.
Qed.

(** [setNested] and the nested maps it builds: a value set at a path is
    the value read at that path, whatever was there before (a scalar on
    the way is replaced by a map); reading any path that neither extends
    nor is extended by the path written gives what it gave before; and the
    map is not empty afterwards. *)
Theorem setNested_round_trip
    (root : gmap string any) (path : list string) (value : any) :
  path <> [] ->
  loader.getNested (loader.setNested root path value) path = Some value
  /\ (forall q, ~ path `prefix_of` q -> ~ q `prefix_of` path ->
                loader.getNested (loader.setNested root path value) q
                = loader.getNested root q)
  /\ loader.setNested root path value <> ∅.
Proof.
  intros Hne. split; [apply setNested_get; exact Hne|].
  split; [intros q; apply setNested_other|].
  destruct path as [|seg [|s2 rest]]; [congruence| |];
    cbn [loader.setNested]; apply insert_non_empty.
Qed.

Lemma setNested_round_trip_witness :
  loader.getNested
    (loader.setNested (<["service" := AString "scalar"]> ∅) ["service"; "name"]
       (AString "env-service"))
    ["service"; "name"]
  = Some (AString "env-service").
Proof.
  apply (setNested_round_trip (<["service" := AString "scalar"]> ∅)
           ["service"; "name"] (AString "env-service")).
  discriminate.
Defined.

Lemma HasPrefix_app p s : strings_HasPrefix (p ++ s) p = true.
Proof.
  induction p as [|a p IH]; simpl; [reflexivity|].
  rewrite Ascii.eqb_refl. exact IH.
Qed.

Lemma TrimPrefix_app p s : strings_TrimPrefix (p ++ s) p = s.
Proof.
  unfold strings_TrimPrefix. rewrite HasPrefix_app.
  induction p as [|a p IH]; simpl; auto.
Qed.

Lemma SplitN2_app s sep v :
  string_forall (fun a => negb (Ascii.eqb a sep)) s = true ->
  strings_SplitN2 (s ++ String sep v) sep = [s; v].
Proof.
  induction s as [|a r IH]; simpl.
  - intros _. rewrite Ascii.eqb_refl. reflexivity.
  - rewrite andb_true_iff. intros [Ha Hr]. apply negb_true_iff in Ha.
    rewrite Ha, (IH Hr). reflexivity.
Qed.


Lemma env_loop_filter prefix pairs :
  forall r,
    loader.env_loop None prefix
      (List.filter (fun kv => strings_HasPrefix kv prefix) pairs) r
    = loader.env_loop None prefix pairs r.
Proof.
  induction pairs as [|kv rest IH]; intros r; [reflexivity|].
  cbn [List.filter loader.env_loop].
  destruct (strings_HasPrefix kv prefix) eqn:E; cbn [negb]; [|apply IH].
  cbn [loader.env_loop]. rewrite E. cbn [negb].
  destruct (strings_SplitN2 kv "=") as [|p0 [|v [|x l]]]; auto.
  destruct (loader.envKeyToPath _); auto.
  destruct (loader.isListKey _); auto.
Qed.

Lemma env_loop_app prefix pre :
  forall r0, exists r1,
    forall post,
      loader.env_loop None prefix (pre ++ post) r0 = loader.env_loop None prefix post r1.
Proof.
  induction pre as [|kv rest IH]; intros r0; [exists r0; reflexivity|].
  cbn [app loader.env_loop].
  destruct (negb (strings_HasPrefix kv prefix)); [apply IH|].
  destruct (strings_SplitN2 kv "=") as [|p0 [|v [|x l]]]; try apply IH.
  destruct (loader.envKeyToPath _); try apply IH.
  destruct (loader.isListKey _); apply IH.
Qed.

(** [EnvLoader.Load] under a live context: variables that do not start
    with the prefix have no influence, and with none that does the loader
    asks to be skipped; the value of the last variable of the environment
    is the one read back at the path of its key, as a list for the two
    list settings; under a context that is done the first variable makes
    the loader fail. *)
Theorem EnvLoader_Load_reads_prefixed :
  (forall P environ,
     loader.EnvLoader_Load None P
       (List.filter (fun kv => strings_HasPrefix kv (env_prefix P)) environ)
     = loader.EnvLoader_Load None P environ)
  /\ (forall P environ,
        Forall (fun kv => strings_HasPrefix kv (env_prefix P) = false) environ ->
        loader.EnvLoader_Load None P environ = loader.Skip)
  /\ (forall P before KEY v,
        no_equals (env_prefix P) = true ->
        no_equals KEY = true ->
        loader.envKeyToPath KEY <> [] ->
        exists m,
          loader.EnvLoader_Load None P
            (before ++ [(env_prefix P ++ KEY ++ String "=" v)%string])
          = loader.Values m
          /\ loader.getNested m (loader.envKeyToPath KEY)
             = Some (if loader.isListKey (loader.envKeyToPath KEY)
                     then AList (loader.splitList v) else AString v))
  /\ (forall err P kv rest,
        loader.EnvLoader_Load (Some err) P (kv :: rest)
        = loader.Failed (ErrWrap err "context canceled")).
Proof.
  split; [|split; [|split]].
  - intros P environ. unfold loader.EnvLoader_Load. fold (env_prefix P).
    apply env_loop_filter.
  - intros P environ Hall. unfold loader.EnvLoader_Load. fold (env_prefix P).
    rewrite <- env_loop_filter.
    assert (Hnil : List.filter (fun kv => strings_HasPrefix kv (env_prefix P)) environ
                   = []).
    { induction Hall as [|kv l Hkv _ IH]; simpl; [reflexivity|]. rewrite Hkv. exact IH. }
    rewrite Hnil. reflexivity.
  - intros P before KEY v Hp Hk Hpath.
    unfold loader.EnvLoader_Load. fold (env_prefix P).
    destruct (env_loop_app (env_prefix P) before ∅) as [r1 Hr1]. rewrite Hr1.
    assert (Hsplit : strings_SplitN2 (env_prefix P ++ KEY ++ String "=" v) "="
                     = [(env_prefix P ++ KEY)%string; v]).
    { rewrite string_append_assoc. apply SplitN2_app.
      rewrite string_forall_app. unfold no_equals in Hp, Hk. rewrite Hp, Hk.
      reflexivity. }
    cbn [loader.env_loop]. rewrite HasPrefix_app. cbn [negb].
    rewrite Hsplit, TrimPrefix_app.
    destruct (loader.envKeyToPath KEY) as [|seg rest] eqn:Epath; [congruence|].
    destruct (loader.isListKey (seg :: rest)); eexists;
      (split; [rewrite bool_decide_eq_false_2; [reflexivity|]
              |apply setNested_get; discriminate]);
      (destruct rest; cbn [loader.setNested]; apply insert_non_empty).
  - reflexivity.
Qed.

Lemma EnvLoader_Load_reads_prefixed_witness :
  exists m,
    loader.EnvLoader_Load None "" LoaderCases.environ = loader.Values m
    /\ loader.getNested m ["instrumentation"; "http"; "ignored_routes"]
       = Some (AList ["/healthz"; "/readyz"]).
Proof.
  destruct EnvLoader_Load_reads_prefixed as (_ & _ & H & _).
  destruct (H "" [ "HOME=/root"; "OBSERVE_SERVICE__NAME=env-service";
                   "OBSERVE_INSTRUMENTATION__HTTP__ENABLED=false" ]
              "INSTRUMENTATION__HTTP__IGNORED_ROUTES" "/healthz,/readyz"
              eq_refl eq_refl ltac:(discriminate)) as (m & Hm & Hget).
  exists m. split; [exact Hm | exact Hget].
Defined.


(* ===================================================================== *)
(** * [Load]: the chain of loaders                                        *)
(* ===================================================================== *)

Lemma DefaultConfig_valid : config.Validate loader.DefaultConfig = None.
Proof. reflexivity. Qed.

Lemma load_loop_idle os ctx l rest cfg :
  idle_loader os ctx l = true ->
  loader.load_loop os ctx (l :: rest) cfg = loader.load_loop os ctx rest cfg.
Proof.
  destruct l as [l|]; [|reflexivity]. cbn [idle_loader loader.load_loop].
  destruct (loader.Loader_Load os ctx l) as [m| |e]; try reflexivity; try discriminate.
  intros ->. reflexivity.
Qed.

Lemma load_loop_filter os ctx loaders :
  forall cfg,
    loader.load_loop os ctx
      (List.filter (fun l => negb (idle_loader os ctx l)) loaders) cfg
    = loader.load_loop os ctx loaders cfg.
Proof.
  induction loaders as [|l rest IH]; intros cfg; [reflexivity|].
  cbn [List.filter]. destruct (idle_loader os ctx l) eqn:Hidle; cbn [negb].
  - rewrite load_loop_idle by exact Hidle. apply IH.
  - destruct l as [l|]; [|discriminate]. cbn [idle_loader] in Hidle.
    cbn [loader.load_loop].
    destruct (loader.Loader_Load os ctx l) as [m| |e]; try discriminate;
      [|reflexivity].
    rewrite Hidle. destruct (loader.decode os cfg m); [apply IH | reflexivity].
Qed.

Lemma load_loop_all_idle os ctx loaders cfg :
  forallb (idle_loader os ctx) loaders = true ->
  loader.load_loop os ctx loaders cfg = Ok cfg.
Proof.
  induction loaders as [|l rest IH]; [reflexivity|].
  cbn [forallb]. intros H. apply andb_prop in H as [Hl Hrest].
  rewrite load_loop_idle by exact Hl. apply IH, Hrest.
Qed.

Lemma load_loop_failure os ctx l e pre :
  loader.Loader_Load os ctx l = loader.Failed e ->
  forall cfg, exists e',
    (forall post, loader.load_loop os ctx (pre ++ Some l :: post) cfg = Err e')
    /\ (forallb (idle_loader os ctx) pre = true -> e' = e).
Proof.
  intros Hl. induction pre as [|p pre IH]; intros cfg.
  - exists e. split; [|reflexivity]. intros post.
    cbn [app loader.load_loop]. rewrite Hl. reflexivity.
  - destruct (idle_loader os ctx p) eqn:Hidle.
    + destruct (IH cfg) as (e' & Hrun & Hsame). exists e'. split.
      * intros post. rewrite <- app_comm_cons, load_loop_idle by exact Hidle.
        apply Hrun.
      * cbn [forallb]. rewrite Hidle. exact Hsame.
    + destruct p as [p|]; [|discriminate]. cbn [idle_loader] in Hidle.
      destruct (loader.Loader_Load os ctx p) as [m| |e0] eqn:Hp; try discriminate.
      * destruct (loader.decode os cfg m) as [cfg'|e1] eqn:Hdec.
        -- destruct (IH cfg') as (e' & Hrun & _). exists e'. split.
           ++ intros post. rewrite <- app_comm_cons. cbn [loader.load_loop].
              rewrite Hp, Hidle, Hdec. apply Hrun.
           ++ cbn [forallb idle_loader]. rewrite Hp, Hidle. discriminate.
        -- eexists. split.
           ++ intros post. rewrite <- app_comm_cons. cbn [loader.load_loop].
              rewrite Hp, Hidle, Hdec. reflexivity.
           ++ cbn [forallb idle_loader]. rewrite Hp, Hidle. discriminate.
      * exists e0. split.
        -- intros post. rewrite <- app_comm_cons. cbn [loader.load_loop].
           rewrite Hp. reflexivity.
        -- cbn [forallb idle_loader]. rewrite Hp. discriminate.
Qed.

Lemma load_loop_ok_no_failure os ctx loaders :
  forall cfg cfg',
    loader.load_loop os ctx loaders cfg = Ok cfg' ->
    Forall (fun l => forall x e, l = Some x ->
                                 loader.Loader_Load os ctx x <> loader.Failed e)
           loaders.
Proof.
  induction loaders as [|l rest IH]; intros cfg cfg' H; [constructor|].
  destruct l as [l|]; cbn [loader.load_loop] in H.
  - destruct (loader.Loader_Load os ctx l) as [m| |e0] eqn:Hl; try discriminate.
    + constructor.
      * intros x e [= <-]. rewrite Hl. discriminate.
      * destruct (bool_decide (m = ∅)); [exact (IH _ _ H)|].
        destruct (loader.decode os cfg m); [exact (IH _ _ H) | discriminate].
    + constructor; [|exact (IH _ _ H)].
      intros x e [= <-]. rewrite Hl. discriminate.
  - constructor; [discriminate | exact (IH _ _ H)].
Qed.

(** [Load] does not see the loaders that contribute nothing (nil, a
    skip, no values): dropping them changes no result, and a chain of
    only such loaders gives the defaults, which pass [Validate]. *)
Theorem Load_ignores_idle_loaders (os : loader.OS) (ctx : option error)
    (loaders : list (option loader.Loader)) :
  loader.Load os ctx (List.filter (fun l => negb (idle_loader os ctx l)) loaders)
  = loader.Load os ctx loaders
  /\ (forallb (idle_loader os ctx) loaders = true ->
      loader.Load os ctx loaders = Ok loader.DefaultConfig).
Proof.
  split.
  - unfold loader.Load. rewrite load_loop_filter. reflexivity.
  - intros H. unfold loader.Load. rewrite load_loop_all_idle by exact H.
    rewrite DefaultConfig_valid. reflexivity.
Qed.

Lemma Load_ignores_idle_loaders_witness :
  loader.Load LoaderCases.os None [Some (loader.FileLoader "" None); None]
  = Ok loader.DefaultConfig.
Proof.
  apply (Load_ignores_idle_loaders LoaderCases.os None
           [Some (loader.FileLoader "" None); None]).
  reflexivity.
Defined.

(** A loader that fails ends [Load] with an error whatever comes after
    it in the chain, and with its own error, unwrapped, when the loaders
    before it contributed nothing. *)
Theorem Load_stops_at_failure (os : loader.OS) (ctx : option error)
    (l : loader.Loader) (e : error) (pre : list (option loader.Loader)) :
  loader.Loader_Load os ctx l = loader.Failed e ->
  exists e',
    (forall post, loader.Load os ctx (pre ++ Some l :: post) = Err e')
    /\ (forallb (idle_loader os ctx) pre = true -> e' = e).
Proof.
  intros Hl.
  destruct (load_loop_failure os ctx l e pre Hl loader.DefaultConfig)
    as (e' & Hrun & Hsame).
  exists e'. split; [|exact Hsame].
  intros post. unfold loader.Load. rewrite Hrun. reflexivity.
Qed.

Lemma Load_stops_at_failure_witness :
  exists e',
    (forall post,
       loader.Load LoaderCases.os (Some (ErrNew "context canceled"))
         ([Some (loader.FileLoader "" None)] ++ Some (loader.EnvLoader "") :: post)
       = Err e')
    /\ (forallb (idle_loader LoaderCases.os (Some (ErrNew "context canceled")))
          [Some (loader.FileLoader "" None)] = true ->
        e' = ErrWrap (ErrNew "context canceled") "context canceled").
Proof.
  apply (Load_stops_at_failure LoaderCases.os (Some (ErrNew "context canceled"))
           (loader.EnvLoader "")
           (ErrWrap (ErrNew "context canceled") "context canceled")
           [Some (loader.FileLoader "" None)]).
  reflexivity.
Defined.

(** What a successful [Load] tells: the configuration it returns has
    passed [Validate], and no loader of the chain has failed. *)
Theorem Load_ok_validated (os : loader.OS) (ctx : option error)
    (loaders : list (option loader.Loader)) (cfg : config.Config) :
  loader.Load os ctx loaders = Ok cfg ->
  config.Validate cfg = None
  /\ Forall (fun l => forall x e, l = Some x ->
                                  loader.Loader_Load os ctx x <> loader.Failed e)
            loaders.
Proof.
  unfold loader.Load. intros H.
  destruct (loader.load_loop os ctx loaders loader.DefaultConfig) as [c|e] eqn:Hloop;
    [|discriminate].
  destruct (config.Validate c) eqn:Hv; [discriminate|].
  injection H as <-. split; [exact Hv|].
  exact (load_loop_ok_no_failure _ _ _ _ _ Hloop).
Qed.

Lemma Load_ok_validated_witness :
  config.Validate
    (match loader.Load LoaderCases.os None loader.defaultLoaders with
     | Ok cfg => cfg | Err _ => loader.DefaultConfig end) = None
  /\ Forall (fun l => forall x e, l = Some x ->
               loader.Loader_Load LoaderCases.os None x <> loader.Failed e)
            loader.defaultLoaders.
Proof.
  destruct (loader.Load LoaderCases.os None loader.defaultLoaders) as [cfg|e] eqn:H.
  - exact (Load_ok_validated LoaderCases.os None loader.defaultLoaders cfg H).
  - exfalso. vm_compute in H. discriminate.
Defined.

(* ===================================================================== *)
(** * The path the watcher follows                                       *)
(* ===================================================================== *)

Lemma fileWatcherPath_skip l rest :
  is_FileLoader l = false ->
  loader.fileWatcherPath (l :: rest) = loader.fileWatcherPath rest.
Proof. destruct l as [[p fs|p|a]|]; [discriminate|reflexivity..]. Qed.

Lemma file_path_nonempty p :
  (if negb (String.eqb p "") then p else "observe.yaml") <> "".
Proof.
  destruct (String.eqb p "") eqn:E; cbn [negb]; [discriminate|].
  intros ->. discriminate.
Qed.

(** [fileWatcherPath] is empty exactly when the chain has no
    [FileLoader]; otherwise the first [FileLoader] of the chain decides
    it, and the path is the one that loader reads: loading from the
    watched path is loading with that loader. *)
Theorem fileWatcherPath_first_file_loader :
  (forall loaders,
     loader.fileWatcherPath loaders = ""
     <-> forallb (fun l => negb (is_FileLoader l)) loaders = true)
  /\ (forall os pre p fs post,
        forallb (fun l => negb (is_FileLoader l)) pre = true ->
        loader.fileWatcherPath (pre ++ Some (loader.FileLoader p fs) :: post)
        = (if String.eqb p "" then "observe.yaml" else p)
        /\ loader.FileLoader_Load os
             (loader.fileWatcherPath (pre ++ Some (loader.FileLoader p fs) :: post)) fs
           = loader.FileLoader_Load os p fs).
Proof.
  split.
  - induction loaders as [|l rest IH]; [split; reflexivity|].
    destruct (is_FileLoader l) eqn:Hl.
    + destruct l as [[p fs|p|a]|]; try discriminate.
      cbn [loader.fileWatcherPath forallb is_FileLoader negb andb].
      split; [|discriminate]. intros H. exfalso. exact (file_path_nonempty p H).
    + rewrite fileWatcherPath_skip by exact Hl. cbn [forallb]. rewrite Hl. exact IH.
  - intros os pre p fs post Hpre.
    assert (Hpath : loader.fileWatcherPath (pre ++ Some (loader.FileLoader p fs) :: post)
                    = (if String.eqb p "" then "observe.yaml" else p)).
    { induction pre as [|l pre IH].
      - cbn [app loader.fileWatcherPath]. destruct (String.eqb p ""); reflexivity.
      - cbn [forallb] in Hpre. apply andb_prop in Hpre as [Hl Hrest].
        rewrite <- app_comm_cons, fileWatcherPath_skip; [exact (IH Hrest)|].
        destruct (is_FileLoader l); [discriminate|reflexivity]. }
    split; [exact Hpath|]. rewrite Hpath.
    unfold loader.FileLoader_Load.
    destruct (String.eqb p "") eqn:E; [reflexivity|]. rewrite E. reflexivity.
Qed.

Lemma fileWatcherPath_first_file_loader_witness :
  loader.fileWatcherPath
    ([Some (loader.EnvLoader "APP_")]
       ++ Some (loader.FileLoader "" None) :: [Some (loader.FileLoader "b.yaml" None)])
  = "observe.yaml".
Proof.
  destruct fileWatcherPath_first_file_loader as [_ H].
  destruct (H LoaderCases.os [Some (loader.EnvLoader "APP_")] "" None
              [Some (loader.FileLoader "b.yaml" None)] eq_refl) as [Hp _].
  exact Hp.
Defined.

(* ===================================================================== *)
(** * The status endpoint                                                *)
(* ===================================================================== *)

Lemma HasPrefix_split p : forall s,
  strings_HasPrefix s p = true -> s = (p ++ string_drop (String.length p) s)%string.
Proof.
  induction p as [|a p IH]; intros s H; [reflexivity|].
  destruct s as [|b s]; [discriminate|]. cbn [strings_HasPrefix] in H.
  apply andb_prop in H as [Hab Hp]. apply Ascii.eqb_eq in Hab. subst b.
  change (String a s = String a (p ++ string_drop (String.length p) s)%string).
  f_equal. exact (IH s Hp).
Qed.

Lemma string_drop_app p s : string_drop (String.length p) (p ++ s) = s.
Proof. induction p as [|a p IH]; [reflexivity|]. exact IH. Qed.

Lemma validAuth_iff header token :
  diagnostics.validAuth header token = true
  <-> exists rest, header = ("Bearer " ++ rest)%string /\ strings_TrimSpace rest = token.
Proof.
  unfold diagnostics.validAuth. split.
  - destruct (String.eqb header ""); [discriminate|].
    destruct (strings_HasPrefix header "Bearer ") eqn:Hp; cbn [negb]; [|discriminate].
    intros H. apply String.eqb_eq in H.
    exists (string_drop (String.length "Bearer ") header). split; [|exact H].
    exact (HasPrefix_split _ _ Hp).
  - intros (rest & -> & Ht).
    change (String.eqb ("Bearer " ++ rest) "") with false. cbv iota.
    rewrite HasPrefix_app. cbn [negb]. rewrite string_drop_app.
    apply String.eqb_eq. exact Ht.
Qed.

Lemma validAuth_padded header token :
  strings_TrimSpace token <> token -> diagnostics.validAuth header token = false.
Proof.
  intros Hpad. destruct (diagnostics.validAuth header token) eqn:H; [|reflexivity].
  apply validAuth_iff in H as (rest & _ & Ht). exfalso. apply Hpad.
  rewrite <- Ht. apply TrimSpace_idem.
Qed.

(** Who [HandleStatus] serves.  With a token configured, a request whose
    Authorization header is not "Bearer " followed by the token, white
    space around it aside, gets the status 401 and nothing else, and the
    provider is not asked; a token configured with white space around it
    is matched by no header.  Every other request is answered from the
    provider with a time stamp in UTC, as JSON, with the status 200 or
    500. *)
Theorem HandleStatus_bearer_gate (wire : diagnostics.Wire)
    (cfg : config.DiagnosticsConfig) (provider : runtime.Snapshot_t) (now : Time)
    (authorization : string) (w : diagnostics.ResponseWriter) :
  diagnostics.rw_status w = None ->
  let served :=
    config.AuthToken cfg = ""
    \/ exists rest, authorization = ("Bearer " ++ rest)%string
                    /\ strings_TrimSpace rest = config.AuthToken cfg in
  let out := diagnostics.HandleStatus wire cfg provider now authorization w in
  (served ->
     snd out = true
     /\ diagnostics.rw_header (fst out) !! "Content-Type" = Some "application/json"
     /\ (diagnostics.rw_status (fst out) = Some 200
         \/ diagnostics.rw_status (fst out) = Some 500
            /\ diagnostics.rw_body (fst out) = diagnostics.rw_body w)
     /\ (diagnostics.rw_body (fst out) <> diagnostics.rw_body w ->
         exists data,
           diagnostics.json_Encode_bytes wire provider
             {| unixNano := unixNano now; loc := LocUTC |} = Ok data
           /\ diagnostics.rw_body (fst out) = (diagnostics.rw_body w ++ data)%string))
  /\ (~ served ->
      out = ({| diagnostics.rw_status := Some 401;
                diagnostics.rw_header := diagnostics.rw_header w;
                diagnostics.rw_body := diagnostics.rw_body w |}, false))
  /\ (config.AuthToken cfg <> "" ->
      strings_TrimSpace (config.AuthToken cfg) <> config.AuthToken cfg ->
      ~ served).
Proof.
  intros Hfresh served out. subst served out.
  unfold diagnostics.HandleStatus.
  assert (Hgate :
    (negb (String.eqb (config.AuthToken cfg) "")
     && negb (diagnostics.validAuth authorization (config.AuthToken cfg)))%bool = false
    <-> (config.AuthToken cfg = ""
         \/ exists rest, authorization = ("Bearer " ++ rest)%string
                         /\ strings_TrimSpace rest = config.AuthToken cfg)).
  { rewrite andb_false_iff, !negb_false_iff, String.eqb_eq, validAuth_iff.
    reflexivity. }
  split; [|split].
  - intros Hs. apply Hgate in Hs. rewrite Hs.
    unfold diagnostics.Encode, diagnostics.Header_Set, diagnostics.WriteHeader, Time_UTC.
    cbn [diagnostics.rw_status diagnostics.rw_header diagnostics.rw_body].
    rewrite Hfresh.
    destruct (diagnostics.json_Encode_bytes wire provider _) as [data|e] eqn:Henc.
    + cbn [diagnostics.rw_status diagnostics.rw_header diagnostics.rw_body].
      destruct (diagnostics.conn_Write wire data);
        cbn [fst snd diagnostics.rw_status diagnostics.rw_header diagnostics.rw_body].
      * repeat split; [apply lookup_insert_eq | left; reflexivity |].
        intros Hne. exfalso. apply Hne. reflexivity.
      * repeat split; [apply lookup_insert_eq | left; reflexivity |].
        intros _. exists data. split; reflexivity.
    + cbn [fst snd diagnostics.rw_status diagnostics.rw_header diagnostics.rw_body].
      try rewrite Hfresh.
      cbn [fst snd diagnostics.rw_status diagnostics.rw_header diagnostics.rw_body].
      repeat split; [apply lookup_insert_eq | right; split; reflexivity |].
      intros Hne. exfalso. apply Hne. reflexivity.
  - intros Hs.
    destruct (negb (String.eqb (config.AuthToken cfg) "")
              && negb (diagnostics.validAuth authorization (config.AuthToken cfg)))%bool
      eqn:Hg.
    + unfold diagnostics.WriteHeader. rewrite Hfresh. reflexivity.
    + exfalso. apply Hs, Hgate. reflexivity.
  - intros Hset Hpad [Hempty|(rest & _ & Ht)]; [exact (Hset Hempty)|].
    apply Hpad. rewrite <- Ht. apply TrimSpace_idem.
Qed.

Lemma HandleStatus_bearer_gate_witness :
  snd (diagnostics.HandleStatus ServerCases.wire ServerCases.guarded
         (runtime.Snapshot Samples.world0 Samples.fullRuntime) (mkTime 5 LocLocal)
         "Bearer secret  " ServerCases.fresh) = true
  /\ diagnostics.HandleStatus ServerCases.wire ServerCases.padded
       (runtime.Snapshot Samples.world0 Samples.fullRuntime) (mkTime 5 LocLocal)
       "Bearer secret " ServerCases.fresh
     = ({| diagnostics.rw_status := Some 401; diagnostics.rw_header := ∅;
           diagnostics.rw_body := "" |}, false).
Proof.
  split.
  - apply (HandleStatus_bearer_gate ServerCases.wire ServerCases.guarded
             (runtime.Snapshot Samples.world0 Samples.fullRuntime) (mkTime 5 LocLocal)
             "Bearer secret  " ServerCases.fresh eq_refl).
    right. exists "secret  ". split; reflexivity.
  - apply (HandleStatus_bearer_gate ServerCases.wire ServerCases.padded
             (runtime.Snapshot Samples.world0 Samples.fullRuntime) (mkTime 5 LocLocal)
             "Bearer secret " ServerCases.fresh eq_refl).
    apply (HandleStatus_bearer_gate ServerCases.wire ServerCases.padded
             (runtime.Snapshot Samples.world0 Samples.fullRuntime) (mkTime 5 LocLocal)
             "Bearer secret " ServerCases.fresh eq_refl);
      discriminate.
Defined.

(* ===================================================================== *)
(** * The life of the status server                                      *)
(* ===================================================================== *)

Lemma call_cfg net c s : diagnostics.cfg (snd (diagnostics.call net c s)) = diagnostics.cfg s.
Proof.
  destruct c; cbn [diagnostics.call]; unfold diagnostics.Start, diagnostics.Shutdown.
  - destruct (String.eqb _ ""); [reflexivity|].
    destruct (diagnostics.start s); [reflexivity|].
    destruct (diagnostics.net_Listen net _); reflexivity.
  - destruct (diagnostics.stop s); [reflexivity|].
    destruct (negb (diagnostics.server s)); [reflexivity|].
    destruct (diagnostics.http_Shutdown net); reflexivity.
Qed.

Lemma calls_cfg net cs : forall s,
  diagnostics.cfg (diagnostics.calls net cs s) = diagnostics.cfg s.
Proof.
  induction cs as [|c cs IH]; intros s; [reflexivity|].
  cbn [diagnostics.calls]. rewrite IH. apply call_cfg.
Qed.

Lemma calls_started net addr cs : forall s,
  diagnostics.start s = true ->
  (diagnostics.net_Listen net addr <> None -> diagnostics.serving s = false) ->
  diagnostics.start (diagnostics.calls net cs s) = true
  /\ (diagnostics.net_Listen net addr <> None ->
      diagnostics.serving (diagnostics.calls net cs s) = false).
Proof.
  induction cs as [|c cs IH]; intros s Hst Hsv; [split; assumption|].
  cbn [diagnostics.calls]. apply IH.
  - destruct c; cbn [diagnostics.call]; unfold diagnostics.Start, diagnostics.Shutdown.
    + destruct (String.eqb _ ""); [exact Hst|]. rewrite Hst. exact Hst.
    + destruct (diagnostics.stop s); [exact Hst|].
      destruct (negb (diagnostics.server s)); [exact Hst|].
      destruct (diagnostics.http_Shutdown net); exact Hst.
  - intros Hl. specialize (Hsv Hl).
    destruct c; cbn [diagnostics.call]; unfold diagnostics.Start, diagnostics.Shutdown.
    + destruct (String.eqb _ ""); [exact Hsv|]. rewrite Hst. exact Hsv.
    + destruct (diagnostics.stop s); [exact Hsv|].
      destruct (negb (diagnostics.server s)); [exact Hsv|].
      destruct (diagnostics.http_Shutdown net); reflexivity.
Qed.

Lemma calls_stopped net cs : forall s,
  diagnostics.stop s = true ->
  diagnostics.stop (diagnostics.calls net cs s) = true.
Proof.
  induction cs as [|c cs IH]; intros s Hst; [exact Hst|].
  cbn [diagnostics.calls]. apply IH.
  destruct c; cbn [diagnostics.call]; unfold diagnostics.Start, diagnostics.Shutdown.
  - destruct (String.eqb _ ""); [exact Hst|].
    destruct (diagnostics.start s); [exact Hst|].
    destruct (diagnostics.net_Listen net _); exact Hst.
  - rewrite Hst. exact Hst.
Qed.

Lemma calls_stopped_serving net cs : forall s,
  diagnostics.stop s = true -> diagnostics.serving s = true ->
  diagnostics.serving (diagnostics.calls net cs s) = true.
Proof.
  induction cs as [|c cs IH]; intros s Hst Hsv; [exact Hsv|].
  cbn [diagnostics.calls].
  destruct c; cbn [diagnostics.call]; unfold diagnostics.Start, diagnostics.Shutdown.
  - destruct (String.eqb _ ""); [exact (IH s Hst Hsv)|].
    destruct (diagnostics.start s); [exact (IH s Hst Hsv)|].
    destruct (diagnostics.net_Listen net _); apply IH;
      cbn [snd diagnostics.stop diagnostics.serving]; solve [assumption | reflexivity].
  - rewrite Hst. exact (IH s Hst Hsv).
Qed.

Lemma calls_stopped_then_started net cs : forall s,
  diagnostics.stop s = true -> diagnostics.start s = false ->
  config.HTTPAddr (diagnostics.cfg s) <> "" ->
  diagnostics.net_Listen net (config.HTTPAddr (diagnostics.cfg s)) = None ->
  In diagnostics.CallStart cs ->
  diagnostics.serving (diagnostics.calls net cs s) = true.
Proof.
  induction cs as [|c cs IH]; intros s Hstop Hstart Haddr Hl Hin; [destruct Hin|].
  cbn [diagnostics.calls]. destruct c.
  - cbn [diagnostics.call]. unfold diagnostics.Start.
    apply String.eqb_neq in Haddr. rewrite Haddr, Hstart, Hl.
    apply calls_stopped_serving; [exact Hstop | reflexivity].
  - destruct Hin as [Hin|Hin]; [discriminate|].
    cbn [diagnostics.call]. unfold diagnostics.Shutdown. rewrite Hstop.
    apply IH; assumption.
Qed.

(** [Start] listens at most once.  With an address configured, after
    the first [Start] every later one reports success and does nothing,
    whatever was called in between: when the first one could not listen,
    the server never serves. *)
Theorem Server_Start_only_once (net : diagnostics.Net)
    (c : config.DiagnosticsConfig) (cs : list diagnostics.Call) :
  config.HTTPAddr c <> "" ->
  let s := diagnostics.calls net (diagnostics.CallStart :: cs) (diagnostics.NewServer c) in
  diagnostics.Start net s = (None, s)
  /\ (diagnostics.net_Listen net (config.HTTPAddr c) <> None ->
      diagnostics.serving s = false).
Proof.
  intros Haddr s.
  assert (Hs : diagnostics.start s = true
               /\ (diagnostics.net_Listen net (config.HTTPAddr c) <> None ->
                   diagnostics.serving s = false)).
  { subst s. cbn [diagnostics.calls diagnostics.call]. apply calls_started.
    - unfold diagnostics.Start. cbn [diagnostics.NewServer diagnostics.cfg diagnostics.start].
      apply String.eqb_neq in Haddr. rewrite Haddr.
      destruct (diagnostics.net_Listen net _); reflexivity.
    - unfold diagnostics.Start. cbn [diagnostics.NewServer diagnostics.cfg diagnostics.start].
      apply String.eqb_neq in Haddr. rewrite Haddr.
      destruct (diagnostics.net_Listen net _); [reflexivity|]. intros H. congruence. }
  destruct Hs as [Hstart Hserve]. split; [|exact Hserve].
  unfold diagnostics.Start.
  assert (Hcfg : diagnostics.cfg s = c).
  { subst s. rewrite calls_cfg. reflexivity. }
  rewrite Hcfg. apply String.eqb_neq in Haddr. rewrite Haddr, Hstart. reflexivity.
Qed.

Lemma Server_Start_only_once_witness :
  let s := diagnostics.calls ServerCases.net_busy
             [diagnostics.CallStart; diagnostics.CallShutdown; diagnostics.CallStart]
             (diagnostics.NewServer ServerCases.guarded) in
  diagnostics.Start ServerCases.net_busy s = (None, s)
  /\ diagnostics.serving s = false.
Proof.
  destruct (Server_Start_only_once ServerCases.net_busy ServerCases.guarded
              [diagnostics.CallShutdown; diagnostics.CallStart] ltac:(discriminate))
    as [H1 H2].
  split; [exact H1|]. apply H2. discriminate.
Defined.

(** [Shutdown] acts at most once.  After the first [Shutdown] every
    later one returns nil and does nothing, whatever was called in
    between: a server that is shut down before it is started, and then
    started, serves and is not stopped by [Shutdown]. *)
Theorem Server_Shutdown_only_once (net : diagnostics.Net)
    (c : config.DiagnosticsConfig) (before cs : list diagnostics.Call) :
  let s0 := diagnostics.calls net before (diagnostics.NewServer c) in
  let s := diagnostics.calls net (diagnostics.CallShutdown :: cs) s0 in
  diagnostics.Shutdown net s = (None, s)
  /\ (before = [] ->
      config.HTTPAddr c <> "" ->
      diagnostics.net_Listen net (config.HTTPAddr c) = None ->
      In diagnostics.CallStart cs ->
      diagnostics.serving s = true).
Proof.
  intros s0 s.
  assert (Hstop : diagnostics.stop (snd (diagnostics.Shutdown net s0)) = true).
  { unfold diagnostics.Shutdown. destruct (diagnostics.stop s0) eqn:E; [exact E|].
    destruct (negb (diagnostics.server s0)); [reflexivity|].
    destruct (diagnostics.http_Shutdown net); reflexivity. }
  split.
  - unfold diagnostics.Shutdown at 1.
    assert (H : diagnostics.stop s = true).
    { subst s. cbn [diagnostics.calls diagnostics.call]. apply calls_stopped, Hstop. }
    rewrite H. reflexivity.
  - intros Hb Haddr Hl Hin. subst s s0. rewrite Hb.
    cbn [diagnostics.calls diagnostics.call].
    apply calls_stopped_then_started; try assumption; try reflexivity.
Qed.

Lemma Server_Shutdown_only_once_witness :
  diagnostics.serving
    (diagnostics.calls ServerCases.net_up
       [diagnostics.CallShutdown; diagnostics.CallStart; diagnostics.CallShutdown]
       (diagnostics.NewServer ServerCases.guarded)) = true.
Proof.
  destruct (Server_Shutdown_only_once ServerCases.net_up ServerCases.guarded []
              [diagnostics.CallStart; diagnostics.CallShutdown]) as [_ H].
  apply H; [reflexivity | discriminate | reflexivity | left; reflexivity].
Defined.

(* ===================================================================== *)
(** * What the configured logger lets through                            *)
(* ===================================================================== *)

Lemma buildBaseAdapter_base zap_Build cfg :
  exists b, logging.buildBaseAdapter zap_Build cfg = logging.BaseAdapter b.
Proof.
  unfold logging.buildBaseAdapter, logging.newSlogFromConfig.
  destruct (String.eqb _ "std"); [eexists; reflexivity|].
  destruct (String.eqb _ "zap"); [destruct (zap_Build cfg); eexists; reflexivity|].
  destruct (String.eqb _ "zerolog"); eexists; reflexivity.
Qed.

Lemma f64_ge_one_positive (x : float64) :
  logging.f64_ge x f64_one = true -> f64_le x f64_zero = false.
Proof. destruct x as [[|]|[|]| |[|] m e]; try discriminate; reflexivity. Qed.

Lemma f64_le_nan (x y : float64) : f64_is_nan y = true -> f64_le x y = false.
Proof.
  destruct y; try discriminate. intros _.
  unfold f64_le, SFleb. destruct x; reflexivity.
Qed.

Lemma f64_nan_le (x y : float64) : f64_is_nan x = true -> f64_le x y = false.
Proof. destruct x; try discriminate. reflexivity. Qed.

(** The adapter of [FromConfig].  An [Error] record always reaches the
    base adapter, and no random draw is spent on it.  [Info] and [Debug]
    records are dropped when the level is "error" in any case of the
    letters, when the sample ratio is not positive, and when it is not a
    number; with another level and a ratio of one or more they always
    get through; under a ratio below one they are dropped whenever the
    random source fails. *)
Theorem FromConfig_what_gets_through (zap_Build : config.LoggingConfig -> bool)
    (cfg : config.LoggingConfig) (draws : list (option Z)) :
  let a := logging.FromConfig zap_Build cfg in
  let ratio := config.SampleRatio cfg in
  let quiet := strings_ToLower (config.Level cfg) = "error" in
  (exists b, logging.buildBaseAdapter zap_Build cfg = logging.BaseAdapter b
             /\ logging.log a logging.Error draws = (Some b, draws))
  /\ (forall m, m <> logging.Error ->
        quiet \/ f64_le ratio f64_zero = true \/ f64_is_nan ratio = true ->
        fst (logging.log a m draws) = None)
  /\ (forall m b, ~ quiet -> logging.f64_ge ratio f64_one = true ->
        logging.buildBaseAdapter zap_Build cfg = logging.BaseAdapter b ->
        logging.log a m draws = (Some b, draws))
  /\ (forall m rest, m <> logging.Error -> logging.f64_ge ratio f64_one = false ->
        logging.log a m (None :: rest) = (None, if f64_le ratio f64_zero then None :: rest
                                                else rest)).
Proof.
  intros a ratio quiet. subst a ratio quiet.
  destruct (buildBaseAdapter_base zap_Build cfg) as [b Hb].
  unfold logging.FromConfig, logging.applyLevelFilter, logging.applySampling.
  rewrite Hb.
  split; [|split; [|split]].
  - exists b. split; [reflexivity|].
    destruct (String.eqb _ "error");
      destruct (f64_le (config.SampleRatio cfg) f64_zero);
      destruct (logging.f64_ge (config.SampleRatio cfg) f64_one);
      reflexivity.
  - intros m Hm Hwhy.
    destruct (f64_le (config.SampleRatio cfg) f64_zero) eqn:Hle.
    + destruct (String.eqb _ "error"); destruct m; try congruence; reflexivity.
    + destruct Hwhy as [Hq|[Hz|Hnan]]; [|discriminate|].
      * apply String.eqb_eq in Hq. rewrite Hq.
        destruct (logging.f64_ge _ f64_one); destruct m; try congruence;
          cbn [logging.log]; try reflexivity;
          unfold logging.shouldLog; rewrite Hle;
          destruct draws as [|d rest];
          match goal with |- context [if ?c then _ else _] => destruct c end;
          reflexivity.
      * assert (Hge : logging.f64_ge (config.SampleRatio cfg) f64_one = false).
        { unfold logging.f64_ge. apply (f64_le_nan f64_one _ Hnan). }
        rewrite Hge.
        destruct (String.eqb _ "error"); destruct m; try congruence;
          cbn [logging.log]; unfold logging.shouldLog; rewrite Hle;
          destruct draws as [|d rest]; rewrite (f64_le_nan _ _ Hnan); reflexivity.
  - intros m b' Hq Hge Hb'. injection Hb' as <-.
    apply String.eqb_neq in Hq. rewrite Hq, (f64_ge_one_positive _ Hge), Hge.
    destruct m; reflexivity.
  - intros m rest Hm Hge. rewrite Hge.
    destruct (f64_le (config.SampleRatio cfg) f64_zero) eqn:Hle.
    + destruct (String.eqb _ "error"); destruct m; try congruence; reflexivity.
    + assert (Hone : f64_le (logging.randomFloat64 None) (config.SampleRatio cfg) = false).
      { exact Hge. }
      destruct (String.eqb _ "error"); destruct m; try congruence;
        cbn [logging.log]; unfold logging.shouldLog; rewrite Hle, Hone; reflexivity.
Qed.

Lemma FromConfig_what_gets_through_witness :
  fst (logging.log (logging.FromConfig (fun _ => true) ServerCases.errorsOnly)
         logging.Info [Some 0]) = None
  /\ logging.log (logging.FromConfig (fun _ => true) ServerCases.sampled)
       logging.Debug [None; Some 0]
     = (None, [Some 0]).
Proof.
  split.
  - apply (FromConfig_what_gets_through (fun _ => true) ServerCases.errorsOnly [Some 0]).
    + discriminate.
    + left. reflexivity.
  - destruct (FromConfig_what_gets_through (fun _ => true) ServerCases.sampled [])
      as (_ & _ & _ & H).
    apply (H logging.Debug [Some 0]); [discriminate | reflexivity].
Defined.

(* ===================================================================== *)
(** * The routes the middleware leaves alone                             *)
(* ===================================================================== *)

Lemma toSet_loop_elem values : forall set route,
  route ∈ observehttp.toSet_loop values set
  <-> route ∈ set
      \/ (route <> "" /\ exists v, In v values /\ strings_TrimSpace v = route).
Proof.
  induction values as [|val rest IH]; intros set route; cbn [observehttp.toSet_loop].
  - split; [auto|]. intros [H|(_ & v & [] & _)]. exact H.
  - destruct (String.eqb (strings_TrimSpace val) "") eqn:E.
    + apply String.eqb_eq in E. rewrite IH. split.
      * intros [H|(Hne & v & Hin & Hv)]; [auto|].
        right. split; [exact Hne|]. exists v. split; [right; exact Hin | exact Hv].
      * intros [H|(Hne & v & [->|Hin] & Hv)]; [auto| |].
        -- congruence.
        -- right. split; [exact Hne|]. exists v. split; assumption.
    + apply String.eqb_neq in E. rewrite IH. rewrite elem_of_union, elem_of_singleton.
      split.
      * intros [[->|H]|(Hne & v & Hin & Hv)]; [|auto|].
        -- right. split; [exact E|]. exists val. split; [left|]; reflexivity.
        -- right. split; [exact Hne|]. exists v. split; [right; exact Hin | exact Hv].
      * intros [H|(Hne & v & [->|Hin] & Hv)]; [auto| |].
        -- left. left. symmetry. exact Hv.
        -- right. split; [exact Hne|]. exists v. split; assumption.
Qed.

Lemma toSet_elem values route :
  route ∈ observehttp.toSet values
  <-> route <> "" /\ exists v, In v values /\ strings_TrimSpace v = route.
Proof.
  destruct values as [|val rest].
  - cbn [observehttp.toSet]. split; [intros H; set_solver|].
    intros (_ & v & [] & _).
  - cbn [observehttp.toSet]. rewrite toSet_loop_elem. split.
    + intros [H|H]; [set_solver | exact H].
    + intros H. right. exact H.
Qed.

Lemma splitList_trimmed raw x :
  In x (loader.splitList raw) -> x <> "" /\ strings_TrimSpace x = x.
Proof.
  unfold loader.splitList. destruct (String.eqb raw ""); [intros []|].
  intros Hin. apply List.filter_In in Hin as [Hin Hne]. apply nonempty_true in Hne.
  apply List.in_map_iff in Hin as (piece & <- & _).
  split; [exact Hne | apply TrimSpace_idem].
Qed.

(** The routes [shouldIgnore] answers true for, under the set [toSet]
    builds: those that are not empty and are an entry of the list with
    its surrounding white space cut.  So no route with white space at an
    end is ignored, the order and the repetitions of the list do not
    matter, and for a list that [splitList] read from the environment
    the ignored routes are the items of the list. *)
Theorem shouldIgnore_toSet :
  (forall values route,
     observehttp.shouldIgnore (observehttp.toSet values) route = true
     <-> route <> "" /\ exists v, In v values /\ strings_TrimSpace v = route)
  /\ (forall values route,
        strings_TrimSpace route <> route ->
        observehttp.shouldIgnore (observehttp.toSet values) route = false)
  /\ (forall xs ys,
        (forall v, In v xs <-> In v ys) ->
        observehttp.toSet xs = observehttp.toSet ys)
  /\ (forall raw route,
        observehttp.shouldIgnore (observehttp.toSet (loader.splitList raw)) route = true
        <-> In route (loader.splitList raw)).
Proof.
  assert (Hiff : forall values route,
     observehttp.shouldIgnore (observehttp.toSet values) route = true
     <-> route <> "" /\ exists v, In v values /\ strings_TrimSpace v = route).
  { intros values route. unfold observehttp.shouldIgnore.
    rewrite bool_decide_eq_true. apply toSet_elem. }
  split; [exact Hiff|]. split; [|split].
  - intros values route Hpad.
    destruct (observehttp.shouldIgnore _ route) eqn:H; [|reflexivity].
    apply Hiff in H as (_ & v & _ & Hv). exfalso. apply Hpad.
    rewrite <- Hv. apply TrimSpace_idem.
  - intros xs ys Hsame. apply set_eq. intros route. rewrite !toSet_elem.
    split; intros (Hne & v & Hin & Hv); (split; [exact Hne|]); exists v;
      (split; [apply Hsame; exact Hin | exact Hv]).
  - intros raw route. rewrite Hiff. split.
    + intros (_ & v & Hin & Hv).
      destruct (splitList_trimmed raw v Hin) as [_ Ht]. congruence.
    + intros Hin. destruct (splitList_trimmed raw route Hin) as [Hne Ht].
      split; [exact Hne|]. exists route. split; assumption.
Qed.

Lemma shouldIgnore_toSet_witness :
  observehttp.shouldIgnore (observehttp.toSet [" /healthz "; ""; "/readyz"]) "/healthz "
  = false.
Proof.
  destruct shouldIgnore_toSet as (_ & H & _).
  apply (H [" /healthz "; ""; "/readyz"] "/healthz "). discriminate.
Defined.

(* ===================================================================== *)
(** * The client address                                                 *)
(* ===================================================================== *)

Lemma Split_head s sep :
  exists host rest,
    strings_Split s sep = host :: rest
    /\ string_forall (fun a => negb (Ascii.eqb a sep)) host = true
    /\ (s = host \/ exists tail, s = (host ++ String sep tail)%string).
Proof.
  induction s as [|a r (host & rest & Hs & Hfree & Hshape)].
  - exists "", []. repeat split. left. reflexivity.
  - cbn [strings_Split]. destruct (Ascii.eqb a sep) eqn:Ea.
    + apply Ascii.eqb_eq in Ea. subst a.
      exists "", (strings_Split r sep). repeat split. right. exists r. reflexivity.
    + rewrite Hs. exists (String a host), rest. split; [reflexivity|]. split.
      * cbn [string_forall]. rewrite Ea, Hfree. reflexivity.
      * destruct Hshape as [->|(tail & ->)]; [left; reflexivity|].
        right. exists tail. reflexivity.
Qed.

(** [clientIP] answers the text of [RemoteAddr] before its first colon,
    all of it when there is none, and never consults
    [net.SplitHostPort]: of an IPv6 address in brackets it answers the
    opening bracket. *)
Theorem clientIP_before_first_colon (split : string -> result string)
    (r : observehttp.Request) :
  let host := observehttp.clientIP split (Some r) in
  string_forall (fun a => negb (Ascii.eqb a ":")) host = true
  /\ (observehttp.RemoteAddr r = host
      \/ exists tail, observehttp.RemoteAddr r = (host ++ String ":" tail)%string)
  /\ (forall split', observehttp.clientIP split' (Some r) = host)
  /\ (forall tail, observehttp.RemoteAddr r = String "[" (String ":" tail) ->
                   host = "[").
Proof.
  intros host. subst host. unfold observehttp.clientIP.
  destruct (Split_head (observehttp.RemoteAddr r) ":") as (host & rest & Hs & Hfree & Hshape).
  rewrite Hs. split; [exact Hfree|]. split; [exact Hshape|]. split; [reflexivity|].
  intros tail Haddr. rewrite Haddr in Hs. cbn in Hs. congruence.
Qed.

Lemma clientIP_before_first_colon_witness :
  observehttp.clientIP HTTPCases.hostPort (Some HTTPCases.fromLoopback6) = "[".
Proof.
  destruct (clientIP_before_first_colon HTTPCases.hostPort HTTPCases.fromLoopback6)
    as (_ & _ & _ & H).
  apply (H ":1]:8080"). reflexivity.
Defined.

(* ===================================================================== *)
(** * White space outside ASCII                                          *)
(* ===================================================================== *)

(** A no-break space (U+00A0, the bytes 194 and 160) is cut like a
    space: from an item of a list, from the token of a request, from an
    ignored route. *)
Example nbsp_is_trimmed :
  let nbsp := String "194" (String "160" EmptyString) in
  loader.splitList (nbsp ++ "x,y" ++ nbsp) = ["x"; "y"]
  /\ diagnostics.validAuth ("Bearer secret" ++ nbsp) "secret" = true
  /\ observehttp.shouldIgnore (observehttp.toSet [("/healthz" ++ nbsp)%string])
       "/healthz" = true.
Proof.
  cbv zeta. split; [reflexivity|]. split; [reflexivity|].
  unfold observehttp.shouldIgnore. apply bool_decide_eq_true, toSet_elem.
  split; [discriminate|]. eexists. split; [left; reflexivity | reflexivity].
Qed.
